(** * AR488 GPIB interface firmware: bus engine and line interpreter

    A shallow embedding of the firmware sources

    - [src/AR488/AR488_Layouts.cpp]  (pin adapter, module [Layouts])
    - [src/AR488/AR488_GPIBbus.cpp]  (bus engine, module [Bus])
    - [src/AR488/AR488.ino]          (line interpreter and command
                                      handlers, module [Sketch])
    - [AR488.ino]                    (the monolithic root sketch, module
                                      [Legacy], only its addressing routine)

    followed by the bus partners the properties are stated with (module
    [Partner]), the expected behaviour in the terms of the specification
    (module [Expect]) and the properties themselves.

    Bytes and registers are integers of [Z] with the 8-bit wrap-around
    written out ([u8]); C's [~] on a promoted operand is [Z.lnot].  A line
    level is a [bool], [true] for HIGH; the bus is negative logic, a line
    is asserted when it is LOW. *)

From Stdlib Require Import Strings.String Strings.Ascii.
From Stdlib Require Import ZArith List Bool Lia.
From stdpp Require Import base list.
Import ListNotations.
#[local] Open Scope Z_scope.

(** ** Machine integers *)

Definition u8 (x : Z) : Z := x mod 256.
Definition u32 (x : Z) : Z := x mod 4294967296.

(** C truth value of an integer expression. *)
Definition nz (x : Z) : bool := negb (x =? 0).

(** ** Pin adapter ([AR488_Layouts.cpp]) *)

Module Layouts.

(** *** ATmega32U4 layout: data bus on PORTB bits 1..6 and PORTD bits 0,7;
    control lines on PORTC, PORTD, PORTE and PORTF. *)

Record Ports := mkPorts {
  DDRB : Z; DDRC : Z; DDRD : Z; DDRE : Z; DDRF : Z;
  PORTB : Z; PORTC : Z; PORTD : Z; PORTE : Z; PORTF : Z }.

Definition readyGpibDbus (p : Ports) : Ports :=
  let ddrb := Z.land (DDRB p) 129 in
  let ddrd := Z.land (DDRD p) 126 in
  let portb := Z.lor (PORTB p) 126 in
  let portd := Z.lor (PORTD p) 129 in
  mkPorts ddrb (DDRC p) ddrd (DDRE p) (DDRF p)
          portb (PORTC p) portd (PORTE p) (PORTF p).

(** [readGpibDbus] reads the input registers PIND and PINB. *)
Definition readGpibDbus (pind pinb : Z) : Z :=
  u8 (Z.lnot (Z.lor (Z.land pind 129) (Z.land pinb 126))).

Definition setGpibDbus (db : Z) (p : Ports) : Ports :=
  let ddrb := Z.lor (DDRB p) 126 in
  let ddrd := Z.lor (DDRD p) 129 in
  let db := u8 (Z.lnot db) in
  let portb := u8 (Z.lor (Z.land (PORTB p) (Z.lnot 126)) (Z.land db 126)) in
  let portd := u8 (Z.lor (Z.land (PORTD p) (Z.lnot 129)) (Z.land db 129)) in
  mkPorts ddrb (DDRC p) ddrd (DDRE p) (DDRF p)
          portb (PORTC p) portd (PORTE p) (PORTF p).

(** [register = (register & ~bitmask) | (value & bitmask)] *)
Definition masked (reg val m : Z) : Z :=
  u8 (Z.lor (Z.land reg (Z.lnot m)) (Z.land val m)).

Definition setGpibState (bits mask mode : Z) (p : Ports) : Ports :=
  let p1 :=
    if nz (Z.land mask 30) then
      let portFb := u8 (Z.shiftl (Z.land bits 30) 3) in
      let portFm := u8 (Z.shiftl (Z.land mask 30) 3) in
      if mode =? 0 then
        mkPorts (DDRB p) (DDRC p) (DDRD p) (DDRE p) (DDRF p)
                (PORTB p) (PORTC p) (PORTD p) (PORTE p)
                (masked (PORTF p) portFb portFm)
      else if mode =? 1 then
        mkPorts (DDRB p) (DDRC p) (DDRD p) (DDRE p)
                (masked (DDRF p) portFb portFm)
                (PORTB p) (PORTC p) (PORTD p) (PORTE p) (PORTF p)
      else p
    else p in
  if nz (Z.land mask 225) then
    let portCb := u8 (Z.shiftl (Z.land bits 32) 1) in
    let portCm := u8 (Z.shiftl (Z.land mask 32) 1) in
    let portDb := u8 (Z.lor (Z.shiftl (Z.land bits 1) 4)
                            (Z.shiftr (Z.land bits 128) 6)) in
    let portDm := u8 (Z.lor (Z.shiftl (Z.land mask 1) 4)
                            (Z.shiftr (Z.land mask 128) 6)) in
    let portEb := Z.land bits 64 in
    let portEm := Z.land mask 64 in
    if mode =? 0 then
      mkPorts (DDRB p1) (DDRC p1) (DDRD p1) (DDRE p1) (DDRF p1)
              (PORTB p1)
              (masked (PORTC p1) portCb portCm)
              (masked (PORTD p1) portDb portDm)
              (masked (PORTE p1) portEb portEm)
              (PORTF p1)
    else if mode =? 1 then
      mkPorts (DDRB p1)
              (masked (DDRC p1) portCb portCm)
              (masked (DDRD p1) portDb portDm)
              (masked (DDRE p1) portEb portEm)
              (DDRF p1)
              (PORTB p1) (PORTC p1) (PORTD p1) (PORTE p1) (PORTF p1)
    else p1
  else p1.

(** *** Generic layout: one digital pin per line, driven through the
    Arduino calls [pinMode], [digitalWrite] and [digitalRead]. *)

Inductive PinMode := INPUT_PULLUP | OUTPUT.

Record Digital := mkDigital {
  pmode : nat -> PinMode;     (* direction of each pin *)
  level : nat -> bool }.      (* level of each pin, [true] = HIGH *)

(** [pinMode] of the Arduino core on an AVR: [OUTPUT] sets the direction
    of the pin and leaves its output bit; [INPUT_PULLUP] makes the pin an
    input and sets its output bit, which turns the pull-up on (what the
    register [readyGpibDbus] does by hand: [PORTB |= ...; // input_pullup]). *)
Definition pinMode (pin : nat) (m : PinMode) (d : Digital) : Digital :=
  mkDigital (fun q => if Nat.eqb q pin then m else pmode d q)
            (match m with
             | INPUT_PULLUP => fun q => if Nat.eqb q pin then true
                                        else level d q
             | OUTPUT => level d
             end).

Definition digitalWrite (pin : nat) (v : bool) (d : Digital) : Digital :=
  mkDigital (pmode d) (fun q => if Nat.eqb q pin then v else level d q).

Definition digitalRead (pin : nat) (d : Digital) : bool := level d pin.

Section Generic.

(** The array [databus[8] = { DIO1, ..., DIO8 }]; the pin numbers come
    from the board configuration. *)
Variable databus : list nat.

Definition dio (i : nat) : nat := nth i databus 0%nat.

Fixpoint setGpibDbus_from (i n : nat) (db : Z) (d : Digital) : Digital :=
  match n with
  | O => d
  | S n' =>
      let d1 := pinMode (dio i) OUTPUT d in
      let d2 := digitalWrite (dio i)
                  (negb (nz (Z.land db (Z.shiftl 1 (Z.of_nat i))))) d1 in
      setGpibDbus_from (S i) n' db d2
  end.

(** [for (i=0; i<8; i++) { pinMode(..., OUTPUT); digitalWrite(..., (db&(1<<i)) ? LOW : HIGH); }] *)
Definition setGpibDbus_generic (db : Z) (d : Digital) : Digital :=
  setGpibDbus_from 0 8 db d.

Fixpoint readGpibDbus_from (i n : nat) (db : Z) (d : Digital) : Z :=
  match n with
  | O => db
  | S n' =>
      let db' := u8 (db + (if digitalRead (dio i) d then 0
                           else Z.shiftl 1 (Z.of_nat i))) in
      readGpibDbus_from (S i) n' db' d
  end.

(** [for (i=0; i<8; i++) db = db + (digitalRead(databus[i]) ? 0 : 1<<i);] *)
Definition readGpibDbus_generic (d : Digital) : Z :=
  readGpibDbus_from 0 8 0 d.

End Generic.

End Layouts.

(** ** Bus engine ([AR488_GPIBbus.cpp]) *)

Module Bus.

(** Control characters. *)
Definition ESC : Z := 27.
Definition CR : Z := 13.
Definition LF : Z := 10.
Definition PLUS : Z := 43.

(** Modelled from the spec: the header [AR488_GPIBbus.h] that declares the
    bus states, the multiline command bytes, [NO_EOI], [LISTEN]/[TALK] and
    the configuration record is absent.  The command bytes are those of
    the table of multiline commands (IEEE-488); the state codes and the
    command bytes agree with the [#define]s of the root sketch
    [AR488.ino]. *)
Definition CINI : Z := 1.
Definition CIDS : Z := 2.
Definition CCMS : Z := 3.
Definition CTAS : Z := 4.
Definition CLAS : Z := 5.
Definition DINI : Z := 6.
Definition DIDS : Z := 7.
Definition DLAS : Z := 8.
Definition DTAS : Z := 9.

Definition GC_GTL : Z := 1.
Definition GC_SDC : Z := 4.
Definition GC_GET : Z := 8.
Definition GC_LLO : Z := 17.
Definition GC_DCL : Z := 20.
Definition GC_SPE : Z := 24.
Definition GC_SPD : Z := 25.
Definition GC_LAD : Z := 32.
Definition GC_UNL : Z := 63.
Definition GC_TAD : Z := 64.
Definition GC_UNT : Z := 95.

Definition NO_EOI : bool := false.
Definition LISTEN : bool := false.
Definition TALK : bool := true.

(** Modelled from the spec: the configuration record [cfg] (declared in
    the absent header); the fields are the ones the sources read and
    write.  [cmode] is 1 in device role and 2 in controller role. *)
Record Config := mkConfig {
  eot_en : bool;
  eoi : bool;
  cmode : Z;
  caddr : Z;
  paddr : Z;
  eos : Z;
  stat : Z;
  amode : Z;
  rtmo : Z;
  eot_ch : Z;
  eor : Z;
  idn : Z }.

(** *** The environment

    What the firmware samples from the outside: the levels of the control
    lines, the two input registers of the data bus and the millisecond
    clock.  The environment is a sequence of snapshots; one snapshot is in
    force during one pass of a handshake loop, and the call of [millis()]
    that ends the pass moves on to the next snapshot.  When no snapshot is
    left nothing more happens on the bus, and a handshake that is still
    waiting runs into its timeout. *)

Inductive Line := ATN | SRQ | REN | EOI | DAV | NRFD | NDAC | IFC.

Record Snap := mkSnap {
  ms : Z;                 (* value of millis() *)
  lvl : Line -> bool;     (* digitalRead of a control line, true = HIGH *)
  PIND : Z;
  PINB : Z }.

(** *** Observable events, in program order. *)
Inductive Event :=
| Controls (st : Z)                 (* setControls(st) *)
| Put (st db : Z) (with_eoi : bool) (* writeByte drives db and asserts DAV
                                       (with EOI or not) in bus state st *)
| Accepted                          (* writeByte: handshake complete *)
| Got (db : Z) (e : bool)           (* readByte samples the data bus *)
| EoiPulse.                         (* sendData pulses EOI on its own *)

Record World := mkWorld {
  ports : Layouts.Ports;
  cfg : Config;
  cstate : Z;
  deviceAddressed : bool;
  txBreak : bool;
  pins : Snap;
  future : list Snap;
  trace : list Event;
  host : list Z }.          (* bytes printed to the data stream *)

Definition set_ports (f : Layouts.Ports -> Layouts.Ports) (w : World) :=
  mkWorld (f (ports w)) (cfg w) (cstate w) (deviceAddressed w) (txBreak w)
          (pins w) (future w) (trace w) (host w).
Definition set_cfg (c : Config) (w : World) :=
  mkWorld (ports w) c (cstate w) (deviceAddressed w) (txBreak w)
          (pins w) (future w) (trace w) (host w).
Definition set_cstate (s : Z) (w : World) :=
  mkWorld (ports w) (cfg w) s (deviceAddressed w) (txBreak w)
          (pins w) (future w) (trace w) (host w).
Definition set_deviceAddressed (b : bool) (w : World) :=
  mkWorld (ports w) (cfg w) (cstate w) b (txBreak w)
          (pins w) (future w) (trace w) (host w).
Definition set_txBreak (b : bool) (w : World) :=
  mkWorld (ports w) (cfg w) (cstate w) (deviceAddressed w) b
          (pins w) (future w) (trace w) (host w).
Definition set_env (s : Snap) (f : list Snap) (w : World) :=
  mkWorld (ports w) (cfg w) (cstate w) (deviceAddressed w) (txBreak w)
          s f (trace w) (host w).
Definition log (e : Event) (w : World) :=
  mkWorld (ports w) (cfg w) (cstate w) (deviceAddressed w) (txBreak w)
          (pins w) (future w) (trace w ++ [e]) (host w).
Definition print (bs : list Z) (w : World) :=
  mkWorld (ports w) (cfg w) (cstate w) (deviceAddressed w) (txBreak w)
          (pins w) (future w) (trace w) (host w ++ bs).

Definition set_stat (v : Z) (c : Config) : Config :=
  mkConfig (eot_en c) (eoi c) (cmode c) (caddr c) (paddr c) (eos c) v
           (amode c) (rtmo c) (eot_ch c) (eor c) (idn c).

(** *** A state monad over the world *)

Definition M (A : Type) : Type := World -> A * World.
Definition ret {A} (a : A) : M A := fun w => (a, w).
Definition bind {A B} (m : M A) (k : A -> M B) : M B :=
  fun w => let '(a, w1) := m w in k a w1.
Definition act (f : World -> World) : M unit := fun w => (tt, f w).
Definition get {A} (f : World -> A) : M A := fun w => (f w, w).
Definition when (b : bool) (m : M unit) : M unit := if b then m else ret tt.

Notation "x <- m ;; k" := (bind m (fun x => k))
  (at level 100, m at next level, right associativity).
Notation "m ;;; k" := (bind m (fun _ => k))
  (at level 100, right associativity).

(** *** Pin adapter calls of the engine *)

Definition setGpibState (bits mask mode : Z) : M unit :=
  act (set_ports (Layouts.setGpibState bits mask mode)).
Definition setGpibDbus (db : Z) : M unit :=
  act (set_ports (Layouts.setGpibDbus db)).
Definition readyGpibDbus : M unit :=
  act (set_ports Layouts.readyGpibDbus).
Definition readGpibDbus : M Z :=
  get (fun w => Layouts.readGpibDbus (PIND (pins w)) (PINB (pins w))).
Definition getGpibPinState (l : Line) : M bool :=
  get (fun w => lvl (pins w) l).

(** [digitalRead(gpibsig) == LOW] *)
Definition isAsserted (l : Line) : M bool :=
  get (fun w => negb (lvl (pins w) l)).

Definition isController : M bool := get (fun w => cmode (cfg w) =? 2).

(** *** [setControls] *)
Definition setControls (state : Z) : M unit :=
  (if state =? CINI then
     setGpibState 184 255 1 ;;; setGpibState 223 255 0
   else if state =? CIDS then
     setGpibState 184 158 1 ;;; setGpibState 223 158 0
   else if state =? CCMS then
     setGpibState 185 159 1 ;;; setGpibState 95 159 0
   else if state =? CLAS then
     setGpibState 166 158 1 ;;; setGpibState 216 158 0
   else if state =? CTAS then
     setGpibState 185 158 1 ;;; setGpibState 223 158 0
   else if state =? DINI then
     setGpibState 0 255 1 ;;; setGpibState 255 255 0 ;;; readyGpibDbus
   else if state =? DIDS then
     setGpibState 0 14 1 ;;; setGpibState 255 14 0 ;;; readyGpibDbus
   else if state =? DLAS then
     setGpibState 6 30 1 ;;; setGpibState 249 30 0
   else if state =? DTAS then
     setGpibState 24 30 1 ;;; setGpibState 249 30 0
   else
     setGpibState 6 185 255) ;;;
  act (set_cstate state) ;;;
  act (log (Controls state)).

(** *** [writeByte]: the talker side of the three-wire handshake *)

(** One pass through the body of the wait loop; the result is the new
    [stage] and whether the pass left the loop with [break]. *)
Definition wpass (db : Z) (isLastByte : bool) (stage : Z) : M (Z * bool) :=
  fun w =>
  let p := pins w in
  let abort :=
    if cmode (cfg w) =? 1 then
      if negb (lvl p IFC) then Some 1
      else if negb (lvl p ATN) then Some 2
      else None
    else None in
  match abort with
  | Some s => let '(_, w1) := setControls DLAS w in ((s, true), w1)
  | None =>
      let stage := if (stage =? 4) && negb (lvl p NDAC) then 5 else stage in
      let stage := if (stage =? 5) && lvl p NRFD then 6 else stage in
      let '(stage, w1) :=
        if stage =? 6 then
          let '(_, w1) :=
            (setGpibDbus db ;;;
             (if eoi (cfg w) && isLastByte
              then setGpibState 0 24 0
              else setGpibState 0 8 0) ;;;
             act (log (Put (cstate w) db (eoi (cfg w) && isLastByte)))) w in
          (7, w1)
        else (stage, w) in
      let stage := if (stage =? 7) && negb (lvl p NRFD) then 8 else stage in
      if (stage =? 8) && lvl p NDAC then ((9, true), w1)
      else ((stage, false), w1)
  end.

(** [while ((unsigned long)(currentMillis - startMillis) < timeval)]; the
    recursion follows the snapshots still to come. *)
Fixpoint wloop (fut : list Snap) (db : Z) (isLastByte : bool)
    (timeval startMillis currentMillis stage : Z) (w : World) : Z * World :=
  if u32 (currentMillis - startMillis) <? timeval then
    let '((stage', brk), w1) := wpass db isLastByte stage w in
    if brk then (stage', w1)
    else match fut with
         | [] => (stage', w1)
         | s :: rest =>
             wloop rest db isLastByte timeval startMillis (ms s) stage'
                   (set_env s rest w1)
         end
  else (stage, w).

Definition writeByte (db : Z) (isLastByte : bool) : M Z := fun w =>
  let startMillis := ms (pins w) in
  let '(stage, w1) :=
    wloop (future w) db isLastByte (rtmo (cfg w))
          startMillis (startMillis + 1) 4 w in
  if stage =? 9 then
    ((if eoi (cfg w1) && isLastByte
      then setGpibState 24 24 0
      else setGpibState 8 8 0) ;;;
     setGpibDbus 0 ;;;
     act (log Accepted) ;;;
     ret 0) w1
  else (stage, w1).

(** *** [readByte]: the listener side of the handshake

    The loop carries the caller's byte [db] and the EOI flag, which the
    source updates through pointers. *)
Definition rpass (readWithEoi atnStat : bool) (stage db : Z) (e : bool)
  : M (Z * bool * Z * bool) := fun w =>
  let p := pins w in
  let abort :=
    if cmode (cfg w) =? 1 then
      if negb (lvl p IFC) then Some 1
      else if atnStat && negb (negb (lvl p ATN)) then Some 2
      else None
    else None in
  match abort with
  | Some s => ((s, true, db, e), w)
  | None =>
      let '(stage, w1) :=
        if stage =? 4 then (6, snd (setGpibState 4 4 0 w)) else (stage, w) in
      let '(stage, w2) :=
        if (stage =? 6) && negb (lvl p DAV)
        then (7, snd (setGpibState 0 4 0 w1)) else (stage, w1) in
      let '(stage, db, e, w3) :=
        if stage =? 7 then
          let e' := if readWithEoi && negb (lvl p EOI) then true else e in
          let db' := fst (readGpibDbus w2) in
          (8, db', e',
           snd ((setGpibState 2 2 0 ;;; act (log (Got db' e'))) w2))
        else (stage, db, e, w2) in
      if (stage =? 8) && lvl p DAV
      then ((9, true, db, e), snd (setGpibState 0 2 0 w3))
      else ((stage, false, db, e), w3)
  end.

Fixpoint rloop (fut : list Snap) (readWithEoi atnStat : bool)
    (timeval startMillis currentMillis stage db : Z) (e : bool) (w : World)
  : (Z * Z * bool) * World :=
  if u32 (currentMillis - startMillis) <? timeval then
    let '((stage', brk, db', e'), w1) :=
      rpass readWithEoi atnStat stage db e w in
    if brk then ((stage', db', e'), w1)
    else match fut with
         | [] => ((stage', db', e'), w1)
         | s :: rest =>
             rloop rest readWithEoi atnStat timeval startMillis (ms s)
                   stage' db' e' (set_env s rest w1)
         end
  else ((stage, db, e), w).

(** [readByte(&db, readWithEoi, &eoi)] returns the result code, the byte
    left in [db] and the flag left in [eoi]. *)
Definition readByte (db : Z) (readWithEoi : bool) : M (Z * Z * bool) :=
  fun w =>
  let startMillis := ms (pins w) in
  let atnStat := negb (lvl (pins w) ATN) in
  let '((stage, db', e), w1) :=
    rloop (future w) readWithEoi atnStat (rtmo (cfg w))
          startMillis (startMillis + 1) 4 db false w in
  if stage =? 9 then ((0, db', e), w1) else ((stage, db', e), w1).

(** *** Commands and addressing *)

(** [sendCmd] returns [true] for [ERR]. *)
Definition sendCmd (cmdByte : Z) : M bool :=
  st <- get cstate ;;
  when (negb (st =? CCMS)) (setControls CCMS) ;;;
  r <- writeByte cmdByte NO_EOI ;;
  ret (nz r).

Definition unAddressDevice : M bool :=
  e1 <- sendCmd GC_UNL ;;
  if e1 then ret true else
  e2 <- sendCmd GC_UNT ;;
  if e2 then ret true else
  act (set_deviceAddressed false) ;;;
  ret false.

Definition addressDevice (addr : Z) (talk : bool) : M bool :=
  e1 <- sendCmd GC_UNL ;;
  if e1 then ret true else
  e2 <- (if talk then sendCmd (u8 (GC_TAD + addr))
         else sendCmd (u8 (GC_LAD + addr))) ;;
  if e2 then ret true else
  act (set_deviceAddressed true) ;;;
  ret false.

Definition sendGET (addr : Z) : M bool :=
  e1 <- addressDevice addr false ;;
  if e1 then ret true else
  e2 <- sendCmd GC_GET ;;
  if e2 then ret true else
  unAddressDevice.

(** *** Serial-poll response and status byte *)

Definition setSrqSig : M unit :=
  setGpibState 64 64 1 ;;; setGpibState 0 64 0.

Definition clrSrqSig : M unit :=
  setGpibState 0 64 1 ;;; setGpibState 64 64 0.

Definition sendStatus : M unit :=
  st <- get cstate ;;
  when (negb (st =? DTAS)) (setControls DTAS) ;;;
  sb <- get (fun w => stat (cfg w)) ;;
  _ <- writeByte sb NO_EOI ;;
  setControls DIDS ;;;
  act (fun w => set_cfg (set_stat (Z.land (stat (cfg w)) (Z.lnot 64))
                                  (cfg w)) w) ;;;
  clrSrqSig.

Definition setStatus (statusByte : Z) : M unit :=
  act (fun w => set_cfg (set_stat statusByte (cfg w)) w) ;;;
  if nz (Z.land statusByte 64) then setSrqSig else clrSrqSig.

(** *** [sendData] *)

Fixpoint sendData_loop (data : list Z) (err : bool) : M bool :=
  match data with
  | [] => ret err
  | c :: rest =>
      e <- get (fun w => eoi (cfg w)) ;;
      err' <- (if e then r <- writeByte c NO_EOI ;; ret (nz r)
               else if negb (c =? CR) || negb (c =? LF) || negb (c =? ESC)
                    then r <- writeByte c NO_EOI ;; ret (nz r)
                    else ret err) ;;
      if err' then ret err' else sendData_loop rest err'
  end.

(** [data] holds the [dsize] bytes that the source reads from its buffer. *)
Definition sendData (data : list Z) : M unit :=
  ctl <- isController ;;
  (if ctl then setControls CTAS else setControls DTAS) ;;;
  err <- sendData_loop data false ;;
  when (negb err)
    (s <- get (fun w => eos (cfg w)) ;;
     when (Z.land s 2 =? 0) (_ <- writeByte CR NO_EOI ;; ret tt) ;;;
     when (Z.land s 1 =? 0) (_ <- writeByte LF NO_EOI ;; ret tt)) ;;;
  e <- get (fun w => eoi (cfg w)) ;;
  when e
    (setGpibState 16 16 1 ;;;
     setGpibState 0 16 0 ;;;
     setGpibState 16 16 0 ;;;
     act (log EoiPulse)) ;;;
  ctl' <- isController ;;
  (if ctl' then setControls CIDS else setControls DIDS).

(** *** [receiveData] *)

Definition isTerminatorDetected (b0 b1 b2 : Z) (eorSequence : Z) : bool :=
  if eorSequence =? 0 then (b0 =? LF) && (b1 =? CR)
  else if eorSequence =? 1 then b0 =? CR
  else if eorSequence =? 2 then b0 =? LF
  else if eorSequence =? 3 then false
  else if eorSequence =? 4 then (b0 =? CR) && (b1 =? LF)
  else if eorSequence =? 5 then b0 =? 3
  else if eorSequence =? 6 then (b0 =? 3) && (b1 =? LF) && (b2 =? CR)
  else (b0 =? LF) && (b1 =? CR).

(** The test made after a byte has been read with result [r = 0]:
    does the loop stop here? *)
Definition rx_stop (readWithEoi eoiDetected detectEndByte : bool)
    (r endByte b0 b1 b2 eorc : Z) : bool :=
  if readWithEoi then eoiDetected
  else if detectEndByte then r =? endByte
  else isTerminatorDetected b0 b1 b2 eorc.

(** [while (r == 0) { ... }]; [b0 b1 b2] is the array [bytes[3]].  The
    recursion is bounded by [fuel]; every pass that goes round again has
    used up a snapshot, so the snapshots left plus one are enough. *)
Fixpoint rxloop (fuel : nat) (readWithEoi detectEndByte : bool)
    (endByte eorc : Z) (r b0 b1 b2 : Z) (eoiDetected : bool) (w : World)
  : (Z * bool) * World :=
  match fuel with
  | O => ((r, eoiDetected), w)
  | S fuel' =>
      if negb (r =? 0) then ((r, eoiDetected), w)
      else if txBreak w then ((r, eoiDetected), w)
      else if negb (lvl (pins w) ATN) then ((r, eoiDetected), w)
      else
        let '((r1, b0', e'), w1) := readByte b0 readWithEoi w in
        let r2 := if negb (lvl (pins w1) ATN) then 2 else r1 in
        if (r2 =? 1) || (r2 =? 2) then ((r2, e'), w1)
        else if r2 =? 0 then
          let w2 := print [b0'] w1 in
          if rx_stop readWithEoi e' detectEndByte r2 endByte b0' b1 b2 eorc
          then ((r2, e'), w2)
          else rxloop fuel' readWithEoi detectEndByte endByte eorc
                      r2 b0' b0' b1 e' w2
        else ((r2, e'), w1)
  end.

(** [receiveData(dataStream, detectEoi, detectEndByte, endByte)] returns
    [true] for [ERR]. *)
Definition receiveData (detectEoi detectEndByte : bool) (endByte : Z)
  : M bool :=
  c <- get cfg ;;
  let eorc := Z.land (eor c) 7 in
  act (set_txBreak false) ;;;
  let readWithEoi0 := eoi c || detectEoi || (eor c =? 7) in
  readWithEoi <-
    (if cmode c =? 2 then
       _ <- addressDevice (paddr c) true ;;
       setControls CLAS ;;;
       ret readWithEoi0
     else
       setControls DLAS ;;;
       ret true) ;;
  readyGpibDbus ;;;
  res <- (fun w => rxloop (S (length (future w))) readWithEoi detectEndByte
                          endByte eorc 0 0 0 0 false w) ;;
  let '(r, eoiDetected) := res in
  c' <- get cfg ;;
  when (eoiDetected && eot_en c') (act (print [eot_ch c'])) ;;;
  (if cmode c' =? 2 then
     _ <- unAddressDevice ;;
     setControls CIDS
   else setControls DIDS) ;;;
  act (set_txBreak false) ;;;
  ret (0 <? r).

End Bus.

(** ** Line interpreter and command handlers ([AR488.ino] of [src/AR488]) *)

Module Sketch.
Import Bus.

Definition PBSIZE : Z := 256.

(** A string literal as the bytes that [print] sends. *)
Definition str (s : string) : list Z :=
  map (fun a => Z.of_N (N_of_ascii a)) (list_ascii_of_string s).

(** [println] ends the line with CR LF. *)
Definition crlf : list Z := [CR; LF].

(** Decimal digits of a non-negative number, as [print(n, DEC)] sends
    them. *)
Fixpoint dec_digits (fuel : nat) (n : Z) (acc : list Z) : list Z :=
  match fuel with
  | O => acc
  | S f =>
      let acc' := (48 + n mod 10) :: acc in
      if n / 10 =? 0 then acc' else dec_digits f (n / 10) acc'
  end.
Definition dec (n : Z) : list Z := dec_digits 20 n [].

(** Hexadecimal digits, as [print(n, HEX)] sends them. *)
Definition hex_digit (d : Z) : Z := if d <? 10 then 48 + d else 55 + d.
Fixpoint hex_digits (fuel : nat) (n : Z) (acc : list Z) : list Z :=
  match fuel with
  | O => acc
  | S f =>
      let acc' := hex_digit (n mod 16) :: acc in
      if n / 16 =? 0 then acc' else hex_digits f (n / 16) acc'
  end.
Definition hex (n : Z) : list Z := hex_digits 16 n [].

(** *** Globals of the sketch *)
Record State := mkState {
  bus : World;               (* gpibBus, with the data port's output *)
  pBuf : list Z;             (* char pBuf[PBSIZE] *)
  pbPtr : Z;                 (* uint8_t pbPtr *)
  isEsc : bool;
  isPlusEscaped : bool;
  isVerbose : bool;
  lnRdy : Z;
  dataBufferFull : bool;
  sendIdn : bool;
  isQuery : bool;
  readWithEoi : bool;
  readWithEndByte : bool;
  endByte : Z;
  autoRead : bool }.

Definition set_bus (f : World -> World) (s : State) :=
  mkState (f (bus s)) (pBuf s) (pbPtr s) (isEsc s) (isPlusEscaped s)
          (isVerbose s) (lnRdy s) (dataBufferFull s) (sendIdn s) (isQuery s)
          (readWithEoi s) (readWithEndByte s) (endByte s) (autoRead s).
Definition set_buf (b : list Z) (p : Z) (s : State) :=
  mkState (bus s) b p (isEsc s) (isPlusEscaped s)
          (isVerbose s) (lnRdy s) (dataBufferFull s) (sendIdn s) (isQuery s)
          (readWithEoi s) (readWithEndByte s) (endByte s) (autoRead s).
Definition set_isEsc (v : bool) (s : State) :=
  mkState (bus s) (pBuf s) (pbPtr s) v (isPlusEscaped s)
          (isVerbose s) (lnRdy s) (dataBufferFull s) (sendIdn s) (isQuery s)
          (readWithEoi s) (readWithEndByte s) (endByte s) (autoRead s).
Definition set_isPlusEscaped (v : bool) (s : State) :=
  mkState (bus s) (pBuf s) (pbPtr s) (isEsc s) v
          (isVerbose s) (lnRdy s) (dataBufferFull s) (sendIdn s) (isQuery s)
          (readWithEoi s) (readWithEndByte s) (endByte s) (autoRead s).
Definition set_lnRdy (v : Z) (s : State) :=
  mkState (bus s) (pBuf s) (pbPtr s) (isEsc s) (isPlusEscaped s)
          (isVerbose s) v (dataBufferFull s) (sendIdn s) (isQuery s)
          (readWithEoi s) (readWithEndByte s) (endByte s) (autoRead s).
Definition set_dataBufferFull (v : bool) (s : State) :=
  mkState (bus s) (pBuf s) (pbPtr s) (isEsc s) (isPlusEscaped s)
          (isVerbose s) (lnRdy s) v (sendIdn s) (isQuery s)
          (readWithEoi s) (readWithEndByte s) (endByte s) (autoRead s).
Definition set_sendIdn (v : bool) (s : State) :=
  mkState (bus s) (pBuf s) (pbPtr s) (isEsc s) (isPlusEscaped s)
          (isVerbose s) (lnRdy s) (dataBufferFull s) v (isQuery s)
          (readWithEoi s) (readWithEndByte s) (endByte s) (autoRead s).
Definition set_isQuery (v : bool) (s : State) :=
  mkState (bus s) (pBuf s) (pbPtr s) (isEsc s) (isPlusEscaped s)
          (isVerbose s) (lnRdy s) (dataBufferFull s) (sendIdn s) v
          (readWithEoi s) (readWithEndByte s) (endByte s) (autoRead s).
Definition set_read (re rb : bool) (eb : Z) (s : State) :=
  mkState (bus s) (pBuf s) (pbPtr s) (isEsc s) (isPlusEscaped s)
          (isVerbose s) (lnRdy s) (dataBufferFull s) (sendIdn s) (isQuery s)
          re rb eb (autoRead s).
Definition set_autoRead (v : bool) (s : State) :=
  mkState (bus s) (pBuf s) (pbPtr s) (isEsc s) (isPlusEscaped s)
          (isVerbose s) (lnRdy s) (dataBufferFull s) (sendIdn s) (isQuery s)
          (readWithEoi s) (readWithEndByte s) (endByte s) v.

(** Run an engine call on the sketch's bus object. *)
Definition on_bus {A} (m : M A) (s : State) : A * State :=
  let '(a, w) := m (bus s) in (a, set_bus (fun _ => w) s).

Definition dataPort_print (bs : list Z) (s : State) : State :=
  set_bus (print bs) s.

(** *** Parse buffer *)

(** [memset(pBuf, '\0', PBSIZE); pbPtr = 0;] *)
Definition flushPbuf (s : State) : State :=
  set_buf (replicate (Z.to_nat PBSIZE) 0) 0 s.

(** [pBuf[pbPtr++] = c;] with the 8-bit index wrapping round. *)
Definition addPbuf (c : Z) (s : State) : State :=
  set_buf (<[Z.to_nat (pbPtr s) := c]> (pBuf s)) (u8 (pbPtr s + 1)) s.

Definition at_ (buffr : list Z) (i : nat) : Z := buffr !!! i.

Definition isCmd (buffr : list Z) : bool :=
  (at_ buffr 0 =? PLUS) && (at_ buffr 1 =? PLUS).

Definition tolower (c : Z) : Z :=
  if (65 <=? c) && (c <=? 90) then c + 32 else c.

(** [strncasecmp(a, lit, n) == 0] for a literal [lit] without NUL. *)
Definition strncasecmp_eq (a : list Z) (lit : list Z) (n : nat) : bool :=
  forallb (fun i => tolower (at_ a i) =? tolower (at_ lit i))
          (seq 0 (Nat.min n (length lit)))
  && ((n <=? length lit)%nat || (at_ a (length lit) =? 0)).

Definition isIdnQuery (buffr : list Z) : bool :=
  strncasecmp_eq buffr (str "*idn?") 5.

Definition showPrompt (s : State) : State := dataPort_print (str "> ") s.

(** The first block of [parseInput], [if (pbPtr < PBSIZE) { ... }]: the
    value of an early [return] if there is one, [r], and the state. *)
Definition parseInput_switch (c : Z) (s : State) : option Z * Z * State :=
  if pbPtr s <? PBSIZE then
    let s := if isVerbose s && negb (c =? LF)
             then dataPort_print [c] s else s in
    if (c =? CR) || (c =? LF) then
      if isEsc s then (None, 0, set_isEsc false (addPbuf c s))
      else if pbPtr s =? 0 then
        let s := flushPbuf s in
        let s := if isVerbose s
                 then showPrompt (dataPort_print crlf s) else s in
        (Some 0, 0, s)
      else
        let '(r, s) :=
          if (2 <? pbPtr s) && isCmd (pBuf s) && negb (isPlusEscaped s) then
            if at_ (pBuf s) 2 =? 33 then (3, flushPbuf s) else (1, s)
          else if (3 <? pbPtr s) && (0 <? idn (cfg (bus s)))
                  && isIdnQuery (pBuf s) then
            (0, flushPbuf (set_sendIdn true s))
          else if 0 <? pbPtr s then (2, s)
          else (0, s) in
        (None, r, set_isPlusEscaped false s)
    else if c =? ESC then
      if isEsc s then (None, 0, set_isEsc false (addPbuf c s))
      else (None, 0, set_isEsc true s)
    else if c =? PLUS then
      let s := if isEsc s then
                 let s := set_isEsc false s in
                 if pbPtr s <? 2 then set_isPlusEscaped true s else s
               else s in
      (None, 0, addPbuf c s)
    else (None, 0, set_isEsc false (addPbuf c s))
  else (None, 0, s).

(** The second block, [if (pbPtr >= PBSIZE) { ... }], and the return. *)
Definition parseInput_full (r : Z) (s : State) : Z * State :=
  if PBSIZE <=? pbPtr s then
    if isCmd (pBuf s) && negb (nz r) then
      let s := if isVerbose s
               then dataPort_print
                      (str "ERROR - Command buffer overflow!" ++ crlf) s
               else s in
      (r, flushPbuf s)
    else (2, set_dataBufferFull true s)
  else (r, s).

Definition parseInput (c : Z) (s : State) : Z * State :=
  match parseInput_switch c s with
  | (Some r, _, s) => (r, s)
  | (None, r, s) => parseInput_full r s
  end.

(** [serialIn_h]: parse while characters are available and no line is
    complete; [input] is what the data port has available. *)
Fixpoint serialIn_h (input : list Z) (s : State) : Z * list Z * State :=
  match input with
  | [] => (0, [], s)
  | c :: rest =>
      let '(r, s1) := parseInput c s in
      if r =? 0 then serialIn_h rest s1 else (r, rest, s1)
  end.

(** *** Sending a line to the instrument *)

Definition sendToInstrument (buffr : list Z) (dsize : Z) (s : State)
  : State :=
  let s := if at_ buffr (Z.to_nat (dsize - 1)) =? 63
           then set_isQuery true s else s in
  let s := if negb (deviceAddressed (bus s))
           then snd (on_bus (addressDevice (paddr (cfg (bus s))) LISTEN) s)
           else s in
  let s := snd (on_bus (sendData (take (Z.to_nat dsize) buffr)) s) in
  let s := if dataBufferFull s then set_dataBufferFull false s
           else snd (on_bus unAddressDevice s) in
  let s := if isVerbose s then showPrompt s else s in
  set_lnRdy 0 (flushPbuf s).

(** The part of [loop()] that serves a data line in controller role:
    [if (gpibBus.isController()) { if (lnRdy == 2) { ... } }]. *)
Definition loop_data (s : State) : State :=
  if cmode (cfg (bus s)) =? 2 then
    if lnRdy s =? 2 then
      let s := sendToInstrument (pBuf s) (pbPtr s) s in
      let am := amode (cfg (bus s)) in
      if (am =? 1) || ((am =? 2) && isQuery s) then
        let s := snd (on_bus (receiveData (eoi (cfg (bus s))) false 0) s) in
        set_isQuery false s
      else s
    else s
  else s.

(** The end of [loop()]: [if (dataPort.available()) lnRdy = serialIn_h();] *)
Definition loop_input (input : list Z) (s : State) : list Z * State :=
  match input with
  | [] => ([], s)
  | _ => let '(r, rest, s1) := serialIn_h input s in (rest, set_lnRdy r s1)
  end.

(** A host line arrives and the next pass of [loop()] serves it. *)
Definition host_line (input : list Z) (s : State) : State :=
  loop_data (snd (loop_input input s)).

(** *** Parameters of a command: [strtok], [atoi], [notInRange] *)

Definition is_delim (c : Z) : bool := (c =? 32) || (c =? 9).

(** The tokens that successive calls [strtok(params, " \t")],
    [strtok(NULL, " \t")], ... return. *)
Fixpoint strtok_all (s : list Z) (cur : list Z) : list (list Z) :=
  match s with
  | [] => match cur with [] => [] | _ => [cur] end
  | c :: rest =>
      if is_delim c then
        match cur with
        | [] => strtok_all rest []
        | _ => cur :: strtok_all rest []
        end
      else strtok_all rest (cur ++ [c])
  end.

Definition is_digit (c : Z) : bool := (48 <=? c) && (c <=? 57).
Definition is_space (c : Z) : bool :=
  (c =? 32) || ((9 <=? c) && (c <=? 13)).

Fixpoint atoi_digits (s : list Z) (acc : Z) : Z :=
  match s with
  | c :: rest => if is_digit c then atoi_digits rest (10 * acc + (c - 48))
                 else acc
  | [] => acc
  end.

Fixpoint atoi_skip (s : list Z) : list Z :=
  match s with
  | c :: rest => if is_space c then atoi_skip rest else s
  | [] => []
  end.

Definition atoi (s : list Z) : Z :=
  match atoi_skip s with
  | 45 :: rest => - atoi_digits rest 0
  | 43 :: rest => atoi_digits rest 0
  | t => atoi_digits t 0
  end.

Definition errBadCmd (s : State) : State :=
  dataPort_print (str "Unrecognized command" ++ crlf) s.

(** [notInRange(param, lowl, higl, rval)]: the flag and the value left in
    [rval] (a [uint16_t]). *)
Definition notInRange (param : list Z) (lowl higl rval0 : Z) (s : State)
  : (bool * Z) * State :=
  if (length param =? 0)%nat then ((true, rval0), s)
  else
    let rval := atoi param mod 65536 in
    if (rval <? lowl) || (higl <? rval) then
      let s := errBadCmd s in
      let s := if isVerbose s
               then dataPort_print
                      (str "Valid range is between " ++ dec lowl ++
                       str " and " ++ dec higl ++ crlf) s
               else s in
      ((true, rval), s)
    else ((false, rval), s).

(** *** [++dcl] *)
Definition dcl_h (s : State) : State :=
  let '(e, s) := on_bus (sendCmd GC_DCL) s in
  if e then
    if isVerbose s then dataPort_print (str "Sending DCL failed" ++ crlf) s
    else s
  else snd (on_bus (setControls CIDS) s).

(** *** [++read] *)
Definition read_h (params : option (list Z)) (s : State) : State :=
  let s := set_read false false 0 s in
  let s :=
    match params with
    | None => s
    | Some p =>
        if (3 <? length p)%nat then
          if isVerbose s
          then dataPort_print (str "Invalid parameter - ignored!" ++ crlf) s
          else s
        else if strncasecmp_eq p (str "eoi") 3 then
          set_read true (readWithEndByte s) (endByte s) s
        else set_read (readWithEoi s) true (u8 (atoi p)) s
    end in
  if amode (cfg (bus s)) =? 3 then set_autoRead true s
  else
    let s := snd (on_bus (addressDevice (paddr (cfg (bus s))) TALK) s) in
    snd (on_bus (receiveData (readWithEoi s) (readWithEndByte s)
                             (endByte s)) s).

(** *** [++spoll] *)


(** [strncmp(param, "all", 3) == 0] *)
Definition starts_all (param : list Z) : bool :=
  (at_ param 0 =? 97) && (at_ param 1 =? 108) && (at_ param 2 =? 108)
  && (3 <=? length param)%nat.









(** *** Device role: serial poll enable *)
Definition device_spe_h (s : State) : State :=
  let s := snd (on_bus sendStatus s) in
  let sb := stat (cfg (bus s)) in
  if nz (Z.land sb 64)
  then snd (on_bus (setStatus (u8 (Z.land sb (Z.lnot 64)))) s)
  else s.

(** *** Device role: the command burst read by [attnRequired]

    [cmdbytes] is the local array [uint8_t cmdbytes[5]]; [stores] lists,
    in order, the index of every store [cmdbytes[bytecnt] = db] the loop
    makes.  A store outside the array leaves the modelled array as it is
    (in C it writes past the array). *)
Definition cmdbuflen : Z := 35.
Definition cmdbytes_len : Z := 5.

Record Burst := mkBurst {
  cmdbytes : list Z;
  bytecnt : Z;
  ustat : Z;
  stores : list Z }.

(** [while (isAsserted(ATN) && bytecnt < cmdbuflen) { ... }] *)
Fixpoint attn_loop (fuel : nat) (db : Z) (b : Burst) (w : World)
  : Burst * World :=
  match fuel with
  | O => (b, w)
  | S fuel' =>
      if negb (lvl (pins w) ATN) && (bytecnt b <? cmdbuflen) then
        let '((r, db', _), w1) := readByte db false w in
        if 0 <? r then (b, w1)
        else if db' =? 63 then
          attn_loop fuel' db'
            (mkBurst (cmdbytes b) (bytecnt b) (Z.lor (ustat b) 1) (stores b))
            w1
        else if db' =? 95 then
          attn_loop fuel' db'
            (mkBurst (cmdbytes b) (bytecnt b) (Z.lor (ustat b) 2) (stores b))
            w1
        else
          attn_loop fuel' db'
            (mkBurst (<[Z.to_nat (bytecnt b) := db']> (cmdbytes b))
                     (u8 (bytecnt b + 1)) (ustat b)
                     (stores b ++ [bytecnt b]))
            w1
      else (b, w)
  end.

(** The first part of [attnRequired]: enter DLAS and read the burst. *)
Definition attnRequired_read : M Burst := fun w =>
  let '(_, w1) := setControls DLAS w in
  attn_loop (S (length (future w1))) 0
            (mkBurst (replicate (Z.to_nat cmdbytes_len) 0) 0 0 []) w1.

End Sketch.


(** ** The root sketch ([AR488.ino], firmware 0.45): addressing

    The monolithic sketch of the repository root drives an ATmega328
    (data bus on PORTC bits 0..5 and PORTD bits 4,5; control lines on
    PORTB and PORTD).  Its addressing routine [addrDev] is embedded here
    with the routines it calls. *)

Module Legacy.
Import Bus.

(** Command bytes and states as [#define]d in the sketch. *)
Definition UNL : Z := 63.
Definition UNT : Z := 95.
Definition TAD : Z := 64.
Definition LAD : Z := 32.

(** The globals the addressing path touches, on top of the registers,
    the configuration [AR488], [cstate] and the serial output. *)
Record LWorld := mkLWorld {
  base : World;
  tranBrk : Z;
  isVerb : bool }.

Definition on_base (f : World -> World) (l : LWorld) : LWorld :=
  mkLWorld (f (base l)) (tranBrk l) (isVerb l).
Definition set_tranBrk (v : Z) (l : LWorld) : LWorld :=
  mkLWorld (base l) v (isVerb l).

Definition serial_println (s : string) (l : LWorld) : LWorld :=
  on_base (print (Sketch.str s ++ Sketch.crlf)) l.

(** [setGpibState(pdir, pstat, mask)] *)
Definition setGpibState (pdir pstat mask : Z) (p : Layouts.Ports)
  : Layouts.Ports :=
  let portBd := Z.land pdir 31 in
  let portBs := Z.land pstat 31 in
  let portBm := Z.land mask 31 in
  let rot := fun v => u8 (Z.land v 128 + Z.shiftr (Z.land v 64) 4
                          + Z.shiftr (Z.land v 32) 2) in
  let portDd := rot pdir in
  let portDs := rot pstat in
  let portDm := rot mask in
  Layouts.mkPorts
    (Layouts.masked (Layouts.DDRB p) portBd portBm)
    (Layouts.DDRC p)
    (Layouts.masked (Layouts.DDRD p) portDd portDm)
    (Layouts.DDRE p) (Layouts.DDRF p)
    (Layouts.masked (Layouts.PORTB p) portBs portBm)
    (Layouts.PORTC p)
    (Layouts.masked (Layouts.PORTD p) portDs portDm)
    (Layouts.PORTE p) (Layouts.PORTF p).

(** [readGpibDbus] reads PIND and PINC (after turning the pins to inputs,
    which does not change what is read). *)
Definition readGpibDbus (pind pinc : Z) : Z :=
  u8 (Z.lnot (Z.land (Z.shiftl pind 2) 192 + Z.land pinc 63)).

Definition setGpibDbus (db : Z) (p : Layouts.Ports) : Layouts.Ports :=
  let ddrd := Z.lor (Layouts.DDRD p) 48 in
  let ddrc := Z.lor (Layouts.DDRC p) 63 in
  let db := u8 (Z.lnot db) in
  let portc := u8 (Z.lor (Z.land (Layouts.PORTC p) (Z.lnot 63))
                         (Z.land db 63)) in
  let portd := u8 (Z.lor (Z.land (Layouts.PORTD p) (Z.lnot 48))
                         (Z.shiftr (Z.land db 192) 2)) in
  Layouts.mkPorts (Layouts.DDRB p) ddrc ddrd (Layouts.DDRE p) (Layouts.DDRF p)
                  (Layouts.PORTB p) portc portd
                  (Layouts.PORTE p) (Layouts.PORTF p).

(** [setGpibControls(state)]: the switch has no default case. *)
Definition setGpibControls (state : Z) (l : LWorld) : LWorld :=
  let st := fun d s m => on_base (set_ports (setGpibState d s m)) l in
  let l1 :=
    if state =? CINI then st 184 223 255
    else if state =? CIDS then st 184 223 158
    else if state =? CCMS then st 185 95 159
    else if state =? CLAS then st 166 217 158
    else if state =? CTAS then st 185 223 158
    else if state =? DINI then st 0 255 255
    else if state =? DIDS then st 0 255 14
    else if state =? DLAS then st 6 249 14
    else if state =? DTAS then st 8 249 14
    else l in
  on_base (fun w => log (Controls state) (set_cstate state w)) l1.

(** [Wait_on_pin_state(state, pin, interval)]: [true] on a timeout.  Each
    turn of the loop calls [millis()], which moves on to the next
    snapshot. *)
Fixpoint wait_loop (fut : list Snap) (state : bool) (pin : Line)
    (timeout : Z) (l : LWorld) : bool * LWorld :=
  if negb (Bool.eqb (lvl (pins (base l)) pin) state) then
    match fut with
    | [] => (true, l)
    | s :: rest =>
        let l1 := on_base (set_env s rest) l in
        if timeout <=? ms s then (true, l1)
        else
          let l2 := if negb (lvl s EOI) then set_tranBrk 2 l1 else l1 in
          wait_loop rest state pin timeout l2
    end
  else (false, l).

Definition Wait_on_pin_state (state : bool) (pin : Line) (interval : Z)
    (l : LWorld) : bool * LWorld :=
  wait_loop (future (base l)) state pin
            (u32 (ms (pins (base l)) + interval)) l.

Definition fail_msg (msg : string) (l : LWorld) : bool * LWorld :=
  (true, if isVerb l then serial_println msg l else l).

(** [gpibWriteByte(db)]: [true] when a wait timed out. *)
Definition gpibWriteByte (db : Z) (l : LWorld) : bool * LWorld :=
  let tmo := rtmo (cfg (base l)) in
  let '(t, l) := Wait_on_pin_state false NDAC tmo l in
  if t then fail_msg "gpibWriteByte: timeout waiting for receiver attention [NDAC asserted]" l
  else
  let '(t, l) := Wait_on_pin_state true NRFD tmo l in
  if t then fail_msg "gpibWriteByte: timeout waiting for receiver ready - [NRFD unasserted]" l
  else
  let l := on_base (set_ports (setGpibDbus db)) l in
  let l := on_base (set_ports (setGpibState 8 0 8)) l in
  let l := on_base (fun w => log (Put (cstate w) db false) w) l in
  let '(t, l) := Wait_on_pin_state false NRFD tmo l in
  if t then fail_msg "gpibWriteByte: timeout receiving - [NRFD asserted]" l
  else
  let '(t, l) := Wait_on_pin_state true NDAC tmo l in
  if t then fail_msg "gpibWriteByte: timeout waiting for data accepted [NDAC unasserted]" l
  else
  let l := on_base (set_ports (setGpibState 8 8 8)) l in
  let l := on_base (set_ports (setGpibDbus 0)) l in
  (false, on_base (log Accepted) l).

(** [gpibSendCmd(cmdByte)]: [true] for [ERR]. *)
Definition gpibSendCmd (cmdByte : Z) (l : LWorld) : bool * LWorld :=
  let l := setGpibControls CCMS l in
  let '(stat, l) := gpibWriteByte cmdByte l in
  let l :=
    if stat && isVerb l then
      on_base (print (Sketch.str "gpibSendCmd: failed to send command "
                      ++ Sketch.hex cmdByte
                      ++ Sketch.str " to device" ++ Sketch.crlf)) l
    else l in
  (stat, l).

(** [addrDev(addr, dir)]: [dir] is 0 to listen and 1 to talk. *)
Definition addrDev (addr : Z) (dir : bool) (l : LWorld) : bool * LWorld :=
  let '(e, l) := gpibSendCmd UNL l in
  if e then (true, l) else
  if dir then
    let '(e, l) := gpibSendCmd (u8 (LAD + caddr (cfg (base l)))) l in
    if e then (true, l) else
    let '(e, l) := gpibSendCmd (u8 (TAD + addr)) l in
    if e then (true, l) else (false, l)
  else
    let '(e, l) := gpibSendCmd (u8 (TAD + caddr (cfg (base l)))) l in
    if e then (true, l) else
    let '(e, l) := gpibSendCmd (u8 (LAD + addr)) l in
    if e then (true, l) else (false, l).

End Legacy.

(** ** Bus partners

    Environments in which the other side of the bus takes part in the
    handshake.  All snapshots carry the clock value 0: the handshakes
    complete before the timeout counts. *)

Module Partner.
Import Bus.

(** No line asserted, data lines high. *)
Definition idle : Snap := mkSnap 0 (fun _ => true) 255 255.

(** A listener that is ready for a byte: NDAC asserted, NRFD released. *)
Definition ready : Snap :=
  mkSnap 0 (fun l => match l with NDAC => false | _ => true end) 255 255.

(** The listener has taken the byte: NRFD asserted, NDAC released. *)
Definition accepted : Snap :=
  mkSnap 0 (fun l => match l with NRFD => false | _ => true end) 255 255.

(** What a listener does for one byte written to it. *)
Definition ack : list Snap := [ready; accepted].

Fixpoint acks (n : nat) : list Snap :=
  match n with O => [] | S n' => ack ++ acks n' end.

(** A talker offers the byte [b] (data lines at the inverted levels, DAV
    asserted, EOI asserted when [e]) ... *)
Definition offered (b : Z) (e : bool) : Snap :=
  mkSnap 0 (fun l => match l with
                     | DAV => false
                     | EOI => negb e
                     | _ => true
                     end) (255 - b) (255 - b).

(** ... and withdraws it. *)
Definition talk (b : Z) (e : bool) : list Snap := [offered b e; idle].

Fixpoint talks (data : list (Z * bool)) : list Snap :=
  match data with
  | [] => []
  | (b, e) :: rest => talk b e ++ talks rest
  end.

(** As [offered] and [idle], while the controller keeps ATN asserted. *)
Definition offered_atn (b : Z) : Snap :=
  mkSnap 0 (fun l => match l with
                     | DAV => false
                     | ATN => false
                     | _ => true
                     end) (255 - b) (255 - b).
Definition idle_atn : Snap :=
  mkSnap 0 (fun l => match l with ATN => false | _ => true end) 255 255.

Fixpoint commands (bytes : list Z) : list Snap :=
  match bytes with
  | [] => []
  | b :: rest => offered_atn b :: idle_atn :: commands rest
  end.

(** A snapshot from which a handshake can start: clock at 0, no handshake
    line asserted, no ATN, no IFC. *)
Definition calm (p : Snap) : Prop :=
  ms p = 0 /\ lvl p NDAC = true /\ lvl p DAV = true
  /\ lvl p ATN = true /\ lvl p IFC = true.

Definition ports0 : Layouts.Ports := Layouts.mkPorts 0 0 0 0 0 0 0 0 0 0.

(** The configuration after [setDefaultCfg] with the role, the EOI
    setting, the EOS and EOR codes and the status byte chosen:
    controller address 0, primary address 1, timeout 1200 ms. *)
Definition config (mode : Z) (eoi_on : bool) (eos_code eor_code sb : Z)
  : Config :=
  mkConfig false eoi_on mode 0 1 eos_code sb 0 1200 0 eor_code 0.

(** The engine after construction, facing the snapshots [f]. *)
Definition world (c : Config) (f : list Snap) : World :=
  mkWorld ports0 c 0 false false idle f [] [].

(** The sketch after [setup()]: empty parse buffer, all flags clear. *)
Definition sketch (c : Config) (f : list Snap) : Sketch.State :=
  Sketch.mkState (world c f) (replicate 256 0) 0 false false false 0
                 false false false false false 0 false.

(** The same after [++verbose]. *)
Definition verbose_sketch (c : Config) (f : list Snap) : Sketch.State :=
  Sketch.mkState (world c f) (replicate 256 0) 0 false false true 0
                 false false false false false 0 false.

(** The device-role engine while the controller asserts ATN. *)
Definition attended (c : Config) (f : list Snap) : World :=
  mkWorld ports0 c DIDS false false idle_atn f [] [].

End Partner.

(** ** What the handlers are expected to do, in the terms of the
       specification *)

Module Expect.
Import Bus.

(** The events of one command byte sent from bus state [st]: the engine
    enters CCMS unless it is there already, puts the byte without EOI and
    the listeners accept it. *)
Definition cmd (st b : Z) : list Event :=
  (if st =? CCMS then [] else [Controls CCMS]) ++ [Put CCMS b false; Accepted].

(** The bytes put on the bus, in order. *)
Fixpoint puts (tr : list Event) : list Z :=
  match tr with
  | [] => []
  | Put _ b _ :: rest => b :: puts rest
  | _ :: rest => puts rest
  end.

(** The bytes put on the bus in bus state [st], with their EOI flag. *)
Fixpoint puts_in (st : Z) (tr : list Event) : list (Z * bool) :=
  match tr with
  | [] => []
  | Put s b e :: rest =>
      if s =? st then (b, e) :: puts_in st rest else puts_in st rest
  | _ :: rest => puts_in st rest
  end.










(** The terminator bytes [sendData] appends for an EOS code: CR unless
    bit 1 is set, LF unless bit 0 is set. *)
Definition eos_bytes (code : Z) : list Z :=
  (if Z.land code 2 =? 0 then [CR] else [])
  ++ (if Z.land code 1 =? 0 then [LF] else []).

(** The events of bytes written in bus state [st], each put on the bus
    without EOI and accepted. *)
Definition written (st : Z) (bs : list Z) : list Event :=
  flat_map (fun b => [Put st b false; Accepted]) bs.

(** The events of a [sendData] of the bytes [data] that a listener
    accepts: [ctl] is the role, [eoi_on] and [eos_code] are the
    settings. *)
Definition send_events (ctl eoi_on : bool) (eos_code : Z) (data : list Z)
  : list Event :=
  let st := if ctl then CTAS else DTAS in
  [Controls st]
  ++ written st (data ++ eos_bytes eos_code)
  ++ (if eoi_on then [EoiPulse] else [])
  ++ [Controls (if ctl then CIDS else DIDS)].

(** The terminator sequence of an EOR code. *)
Definition eor_sequence (code : Z) : option (list Z) :=
  if code =? 0 then Some [CR; LF]
  else if code =? 1 then Some [CR]
  else if code =? 2 then Some [LF]
  else if code =? 3 then None
  else if code =? 4 then Some [LF; CR]
  else if code =? 5 then Some [3]
  else if code =? 6 then Some [CR; LF; 3]
  else Some [CR; LF].

(** [starts_with t l]: the list [l] starts with the bytes [t]. *)
Fixpoint starts_with (t l : list Z) : bool :=
  match t, l with
  | [], _ => true
  | x :: t', y :: l' => (y =? x) && starts_with t' l'
  | _ :: _, [] => false
  end.

(** [ends_with t l]: the list [l] ends with the bytes [t]. *)
Definition ends_with (t l : list Z) : bool := starts_with (rev t) (rev l).

(** The bytes a receive forwards when it stops on the EOR sequence of
    [code]: those up to and including the first byte with which the bytes
    received so far end with the sequence. *)
Fixpoint upto_eor (code : Z) (seen : list Z) (data : list Z) : list Z :=
  match data with
  | [] => []
  | b :: rest =>
      match eor_sequence code with
      | Some t =>
          if ends_with t (seen ++ [b]) then [b]
          else b :: upto_eor code (seen ++ [b]) rest
      | None => b :: upto_eor code (seen ++ [b]) rest
      end
  end.

(** The bytes a receive forwards when EOI is the terminator: those up to
    and including the first byte sent with EOI. *)
Fixpoint upto_eoi (data : list (Z * bool)) : list Z :=
  match data with
  | [] => []
  | (b, e) :: rest => if e then [b] else b :: upto_eoi rest
  end.

(** The receive loop run on the bytes of a talker that falls silent
    after them: the bytes forwarded, those the talker still holds, whether
    the last byte came with EOI detected, and whether the loop stopped on
    a terminator (if not, it ran into the timeout). *)
Fixpoint rx_run (readWithEoi detectEndByte : bool) (endByte eorc : Z)
    (b1 b2 : Z) (data : list (Z * bool))
  : list Z * list (Z * bool) * bool * bool :=
  match data with
  | [] => ([], [], false, false)
  | (b, e) :: rest =>
      let e' := readWithEoi && e in
      if rx_stop readWithEoi e' detectEndByte 0 endByte b b1 b2 eorc
      then ([b], rest, e', true)
      else let '(out, remaining, ef, stopped) :=
             rx_run readWithEoi detectEndByte endByte eorc b b1 rest in
           (b :: out, remaining, ef, stopped)
  end.

(** The bytes a receive is to forward according to the settings [eoi] and
    [eor] of the configuration and the request [detectEoi]: up to the
    first byte with EOI when EOI is the terminator, up to the EOR sequence
    otherwise. *)
Definition forwarded (c : Config) (detectEoi : bool)
    (data : list (Z * bool)) : list Z :=
  if eoi c || detectEoi || (eor c =? 7) then upto_eoi data
  else upto_eor (eor c) [] (map fst data).

(** The SRQ line is not driven: its pin (port E, bit 6) is an input with
    the pull-up on. *)
Definition srq_released (p : Layouts.Ports) : Prop :=
  Z.testbit (Layouts.DDRE p) 6 = false /\ Z.testbit (Layouts.PORTE p) 6 = true.

(** The events of a serial-poll response with status byte [sb], starting
    in bus state [st]. *)
Definition status_events (st sb : Z) : list Event :=
  (if st =? DTAS then [] else [Controls DTAS])
  ++ [Put DTAS sb false; Accepted; Controls DIDS].

(** The controller holds ATN asserted, no byte is offered and the clock
    is at 0. *)
Definition attentive (p : Snap) : Prop :=
  ms p = 0 /\ lvl p DAV = true /\ lvl p ATN = false /\ lvl p IFC = true.

(** A command byte that [attnRequired] stores: any byte but UNL and
    UNT. *)
Definition storable (b : Z) : Prop := 0 <= b < 256 /\ b <> 63 /\ b <> 95.

(** The indices [first], [first + 1], ... of [n] stores in a row. *)
Definition indices (first : Z) (n : nat) : list Z :=
  map (fun k => first + Z.of_nat k) (seq 0 n).

End Expect.

(** ** Vocabulary for the proofs about the handshakes *)

Module Handshake.
Import Bus.

(** Neither ATN nor IFC is asserted: a device-role handshake is not
    aborted. *)
Definition quiet (p : Snap) : Prop := lvl p ATN = true /\ lvl p IFC = true.

(** The world after stage 6 of [writeByte]: byte on the data bus, DAV
    (and EOI) asserted. *)
Definition placed (db : Z) (isLastByte : bool) (w : World) : World :=
  snd ((setGpibDbus db ;;;
        (if eoi (cfg w) && isLastByte
         then setGpibState 0 24 0 else setGpibState 0 8 0) ;;;
        act (log (Put (cstate w) db (eoi (cfg w) && isLastByte)))) w).

(** The world after stage 7 of [readByte]: NRFD asserted, byte sampled,
    NDAC released. *)
Definition sampled (db : Z) (e : bool) (w : World) : World :=
  snd ((setGpibState 0 4 0 ;;; setGpibState 2 2 0 ;;;
        act (log (Got db e))) w).

(** [w'] continues [w]: the configuration and the host output are the
    same, and the trace has grown by events that satisfy [P]. *)
Definition extends (P : Event -> Prop) (w w' : World) : Prop :=
  cfg w' = cfg w /\ host w' = host w
  /\ exists l, trace w' = trace w ++ l /\ Forall P l.

(** The events of a [writeByte(db, isLastByte)] under configuration [c]. *)
Definition write_event (c : Config) (db : Z) (isLastByte : bool)
    (e : Event) : Prop :=
  match e with
  | Controls s => s = DLAS
  | Put _ b f => b = db /\ f = eoi c && isLastByte
  | Accepted => True
  | _ => False
  end.

(** No byte is put on the bus with EOI asserted. *)
Definition without_eoi (e : Event) : Prop :=
  match e with Put _ _ f => f = false | _ => True end.

(** The part of [sendData] up to the terminator bytes. *)
Definition sendData_bytes (data : list Z) : M unit :=
  ctl <- isController ;;
  (if ctl then setControls CTAS else setControls DTAS) ;;;
  err <- sendData_loop data false ;;
  when (negb err)
    (s <- get (fun w => eos (cfg w)) ;;
     when (Z.land s 2 =? 0) (_ <- writeByte CR NO_EOI ;; ret tt) ;;;
     when (Z.land s 1 =? 0) (_ <- writeByte LF NO_EOI ;; ret tt)).

(** ... and the rest of it. *)
Definition sendData_end : M unit :=
  e <- get (fun w => eoi (cfg w)) ;;
  when e
    (setGpibState 16 16 1 ;;;
     setGpibState 0 16 0 ;;;
     setGpibState 16 16 0 ;;;
     act (log EoiPulse)) ;;;
  ctl' <- isController ;;
  (if ctl' then setControls CIDS else setControls DIDS).

(** [w'] has the configuration and the bus state of [w]. *)
Definition same_role (w w' : World) : Prop :=
  cfg w' = cfg w /\ cstate w' = cstate w.

(** [m], started in a world that satisfies [P], returns a result and a
    world that satisfy [Q]. *)
Definition hoare {A} (P : World -> Prop) (m : M A)
    (Q : A -> World -> Prop) : Prop :=
  forall w, P w -> Q (fst (m w)) (snd (m w)).

(** [m] leaves the configuration as it is. *)
Definition keeps_cfg {A} (m : M A) : Prop :=
  forall w, cfg (snd (m w)) = cfg w.

(** A byte, as a talker sends it. *)
Definition is_byte (x : Z * bool) : Prop := 0 <= fst x < 256.

(** What is left of [receiveData] after the loop. *)
Definition receiveData_end (r : Z) (eoiDetected : bool) : M bool :=
  c' <- get cfg ;;
  when (eoiDetected && eot_en c') (act (print [eot_ch c'])) ;;;
  (if cmode c' =? 2 then
     _ <- unAddressDevice ;;
     setControls CIDS
   else setControls DIDS) ;;;
  act (set_txBreak false) ;;;
  ret (0 <? r).

(** The two bytes before the current one, as [receiveData] keeps them in
    [bytes[1]] and [bytes[2]], in terms of the bytes [seen] so far. *)
Definition prev1 (seen : list Z) : Z := nth 0 (rev seen) 0.
Definition prev2 (seen : list Z) : Z := nth 1 (rev seen) 0.



End Handshake.

(** ** Pin adapter: the control lines *)

Module Pins.
Import Layouts.

(** The control lines by their bit in the control word of [setGpibState]
    and [setControls]: 0 IFC, 1 NDAC, 2 NRFD, 3 DAV, 4 EOI, 5 REN, 6 SRQ,
    7 ATN.  On the ATmega32U4 board they are wired to port D bit 4,
    port F bits 4 to 7, port C bit 6, port E bit 6 and port D bit 1 (the
    table in the comment before [setGpibState]). *)
Definition ctrl_bit (i : Z) : Z :=
  if i =? 0 then 4 else if i =? 1 then 4 else if i =? 2 then 5
  else if i =? 3 then 6 else if i =? 4 then 7 else if i =? 5 then 6
  else if i =? 6 then 6 else 1.

(** The output register bit of control line [i] ... *)
Definition ctrl_level (p : Ports) (i : Z) : bool :=
  Z.testbit (if (i =? 0) || (i =? 7) then PORTD p
             else if i =? 5 then PORTC p
             else if i =? 6 then PORTE p
             else PORTF p) (ctrl_bit i).

(** ... and its direction register bit, [true] for output. *)
Definition ctrl_dir (p : Ports) (i : Z) : bool :=
  Z.testbit (if (i =? 0) || (i =? 7) then DDRD p
             else if i =? 5 then DDRC p
             else if i =? 6 then DDRE p
             else DDRF p) (ctrl_bit i).

(** The register bits of the data line DIO[k+1], [k] in 0..7: port D
    bits 0 and 7 for DIO1 and DIO8, port B bits 1 to 6 for DIO2 to
    DIO7. *)
Definition data_level (p : Ports) (k : Z) : bool :=
  Z.testbit (if (k =? 0) || (k =? 7) then PORTD p else PORTB p) k.
Definition data_dir (p : Ports) (k : Z) : bool :=
  Z.testbit (if (k =? 0) || (k =? 7) then DDRD p else DDRB p) k.

Section Generic.

(** The array [ctrlbus[8] = { IFC, NDAC, NRFD, DAV, EOI, REN, SRQ, ATN }];
    the pin numbers come from the board configuration. *)
Variable ctrlbus : list nat.

Definition ctl (i : nat) : nat := nth i ctrlbus 0%nat.

(** [for (i=0; i<8; i++) if (mask&(1<<i)) digitalWrite(ctrlbus[i],
    (bits&(1<<i)) ? HIGH : LOW);] *)
Fixpoint write_from (i n : nat) (bits mask : Z) (d : Digital) : Digital :=
  match n with
  | O => d
  | S n' =>
      let b := Z.shiftl 1 (Z.of_nat i) in
      let d1 := if nz (Z.land mask b)
                then digitalWrite (ctl i) (nz (Z.land bits b)) d
                else d in
      write_from (S i) n' bits mask d1
  end.

(** [for (i=0; i<8; i++) if (mask&(1<<i)) pinMode(ctrlbus[i],
    (bits&(1<<i)) ? OUTPUT : INPUT_PULLUP);] *)
Fixpoint mode_from (i n : nat) (bits mask : Z) (d : Digital) : Digital :=
  match n with
  | O => d
  | S n' =>
      let b := Z.shiftl 1 (Z.of_nat i) in
      let d1 := if nz (Z.land mask b)
                then pinMode (ctl i)
                       (if nz (Z.land bits b) then OUTPUT else INPUT_PULLUP) d
                else d in
      mode_from (S i) n' bits mask d1
  end.

(** The generic [setGpibState]. *)
Definition setGpibState_generic (bits mask mode : Z) (d : Digital)
  : Digital :=
  if mode =? 0 then write_from 0 8 bits mask d
  else if mode =? 1 then mode_from 0 8 bits mask d
  else d.

(** The pins of [d] show what the registers [p] hold for the control
    lines: the level, and whether the line is an output. *)
Definition agree (p : Ports) (d : Digital) : Prop :=
  forall i, (i < 8)%nat ->
    level d (ctl i) = ctrl_level p (Z.of_nat i)
    /\ (pmode d (ctl i) = OUTPUT <-> ctrl_dir p (Z.of_nat i) = true).

End Generic.

End Pins.

(** ** Vocabulary for the outcomes of a handshake *)

Module Outcome.
Import Bus.

(** Where a [writeByte] of [put] stands between two passes of its loop,
    started in a world with trace [T], bus state [st] and configuration
    [c]: before the byte is placed (stages 4 and 5) or after (stages 7
    and 8). *)
Definition writing (T : list Event) (put : Event) (st : Z) (c : Config)
    (stage : Z) (w : World) : Prop :=
  cfg w = c /\ cstate w = st
  /\ (((stage = 4 \/ stage = 5) /\ trace w = T)
      \/ ((stage = 7 \/ stage = 8) /\ trace w = T ++ [put])).

(** How a pass that leaves the loop ends: with the byte accepted (stage
    9), or, in device role, aborted by IFC (1) or ATN (2) with the engine
    switched to DLAS. *)
Definition write_left (T : list Event) (put : Event) (st : Z) (c : Config)
    (stage : Z) (w : World) : Prop :=
  cfg w = c
  /\ ((stage = 9 /\ cstate w = st /\ trace w = T ++ [put])
      \/ ((stage = 1 \/ stage = 2) /\ cmode c = 1 /\ cstate w = DLAS
          /\ (trace w = T ++ [Controls DLAS]
              \/ trace w = T ++ [put; Controls DLAS]))).

(** The same for a [readByte] that started in world [w0] with the
    caller's byte [db0]: waiting for DAV low (stages 4 and 6), nothing
    sampled, or waiting for DAV high (stage 8) with the byte [db] sampled.
    The EOI flag [e] is only ever set when EOI detection [rwe] was asked
    for. *)
Definition reading (w0 : World) (db0 : Z) (rwe : bool) (stage db : Z)
    (e : bool) (w : World) : Prop :=
  cfg w = cfg w0 /\ cstate w = cstate w0 /\ host w = host w0
  /\ (e = true -> rwe = true)
  /\ (((stage = 4 \/ stage = 6) /\ db = db0 /\ e = false
       /\ trace w = trace w0)
      \/ (stage = 8 /\ trace w = trace w0 ++ [Got db e])).

(** How a pass that leaves the read loop ends: complete (stage 9), or,
    in device role, aborted by IFC (1) or by ATN going away (2). *)
Definition read_left (w0 : World) (db0 : Z) (rwe : bool) (stage db : Z)
    (e : bool) (w : World) : Prop :=
  cfg w = cfg w0 /\ cstate w = cstate w0 /\ host w = host w0
  /\ (e = true -> rwe = true)
  /\ ((stage = 9 /\ trace w = trace w0 ++ [Got db e])
      \/ ((stage = 1 \/ stage = 2) /\ cmode (cfg w0) = 1
          /\ ((db = db0 /\ e = false /\ trace w = trace w0)
              \/ trace w = trace w0 ++ [Got db e]))).

(** [m], run with configuration [c], leaves the configuration as it is
    and puts the bytes [sent] on the bus, where the result and [sent]
    satisfy [Q]. *)
Definition sends {A} (c : Config) (m : M A) (Q : A -> list Z -> Prop)
  : Prop :=
  forall w, cfg w = c ->
    cfg (snd (m w)) = c
    /\ exists sent,
         Expect.puts (trace (snd (m w))) = Expect.puts (trace w) ++ sent
         /\ Q (fst (m w)) sent.

End Outcome.

(** ** Bus engine: the remaining commands ([AR488_GPIBbus.cpp]) *)

Module Engine.
Import Bus.

Definition setControlVal (value mask mode : Z) : M unit :=
  setGpibState value mask mode.
Definition setDataVal (value : Z) : M unit := setGpibDbus value.
Definition clearDataBus : M unit := readyGpibDbus.

Definition haveAddressedDevice : M bool := get deviceAddressed.
Definition isDeviceAddressedToListen : M bool :=
  get (fun w => cstate w =? DLAS).
Definition isDeviceAddressedToTalk : M bool :=
  get (fun w => cstate w =? DTAS).
Definition isDeviceInIdleState : M bool := get (fun w => cstate w =? DIDS).

(** [sendIFC]: assert IFC, wait 150 microseconds, release it. *)
Definition sendIFC : M unit :=
  setGpibState 0 1 0 ;;; setGpibState 1 1 0.

(** [if (addressDevice(cfg.paddr, 0) || sendCmd(GC_SDC)) return ERR;
     if (unAddressDevice()) return ERR;  return OK;] *)
Definition sendSDC : M bool :=
  a <- get (fun w => paddr (cfg w)) ;;
  e1 <- addressDevice a LISTEN ;;
  if e1 then ret true else
  e2 <- sendCmd GC_SDC ;;
  if e2 then ret true else
  unAddressDevice.

Definition sendLLO : M bool :=
  a <- get (fun w => paddr (cfg w)) ;;
  e1 <- addressDevice a LISTEN ;;
  if e1 then ret true else
  e2 <- sendCmd GC_LLO ;;
  if e2 then ret true else
  unAddressDevice.

Definition sendGTL : M bool :=
  a <- get (fun w => paddr (cfg w)) ;;
  e1 <- addressDevice a LISTEN ;;
  if e1 then ret true else
  e2 <- sendCmd GC_GTL ;;
  if e2 then ret true else
  unAddressDevice.

(** [sendAllClear]: release REN; assert ATN and REN; release ATN. *)
Definition sendAllClear : M unit :=
  setControlVal 32 32 0 ;;;
  setControlVal 0 160 0 ;;;
  setControlVal 128 128 0.

Definition sendMTA : M bool :=
  st <- get cstate ;;
  when (negb (st =? CCMS)) (setControls CCMS) ;;;
  a <- get (fun w => paddr (cfg w)) ;;
  addressDevice a TALK.

Definition sendMLA : M bool :=
  st <- get cstate ;;
  when (negb (st =? CCMS)) (setControls CCMS) ;;;
  a <- get (fun w => paddr (cfg w)) ;;
  addressDevice a LISTEN.

Definition sendMSA (addr : Z) : M bool :=
  e <- sendCmd addr ;;
  if e then ret true else
  setControlVal 128 128 0 ;;;
  ret false.

Definition sendUNT : M bool :=
  e <- sendCmd GC_UNT ;;
  if e then ret true else
  setControls CIDS ;;;
  act (set_deviceAddressed false) ;;;
  ret false.

Definition sendUNL : M bool :=
  e <- sendCmd GC_UNL ;;
  if e then ret true else
  setControls CIDS ;;;
  act (set_deviceAddressed false) ;;;
  ret false.

(** [stop]: [cstate = 0], all control lines inputs with pull-up, data
    bus released. *)
Definition stop : M unit :=
  act (set_cstate 0) ;;;
  setGpibState 0 255 1 ;;;
  setGpibState 255 255 0 ;;;
  readyGpibDbus.

Definition set_cmode (m : Z) (c : Config) : Config :=
  mkConfig (eot_en c) (eoi c) m (caddr c) (paddr c) (eos c) (stat c)
           (amode c) (rtmo c) (eot_ch c) (eor c) (idn c).

Definition startDeviceMode : M unit :=
  stop ;;;
  act (fun w => set_cfg (set_cmode 1 (cfg w)) w) ;;;
  setControls DINI ;;;
  readyGpibDbus.

Definition startControllerMode : M unit :=
  sendAllClear ;;;
  stop ;;;
  act (fun w => set_cfg (set_cmode 2 (cfg w)) w) ;;;
  setControls CINI ;;;
  readyGpibDbus ;;;
  sendIFC ;;;
  a <- get (fun w => paddr (cfg w)) ;;
  when (1 <? a) (_ <- addressDevice a LISTEN ;; ret tt).

Definition begin : M unit :=
  ctl <- isController ;;
  if ctl then startControllerMode else startDeviceMode.

Definition signalBreak : M unit := act (set_txBreak true).

End Engine.

(** ** What the commands are expected to put on the bus *)

Module Sequence.
Import Bus.

(** A command [c] sent to the device at [addr] alone: the device is
    addressed to listen, receives the command and the bus is
    un-addressed. *)
Definition addressed (st addr c : Z) : list Event :=
  Expect.cmd st GC_UNL ++ Expect.cmd CCMS (u8 (GC_LAD + addr))
  ++ Expect.cmd CCMS c
  ++ Expect.cmd CCMS GC_UNL ++ Expect.cmd CCMS GC_UNT.

End Sequence.

(** ** Vocabulary for the state of the lines *)

Module Lines.
Import Pins.

(** All sixteen lines released: inputs with the pull-up on. *)
Definition released (p : Layouts.Ports) : Prop :=
  forall i, 0 <= i < 8 ->
    ctrl_dir p i = false /\ ctrl_level p i = true
    /\ data_dir p i = false /\ data_level p i = true.

(** The two calls of a case of [setControls]: directions [d] and levels
    [l] for the lines of mask [m]. *)
Definition two_step (d l m : Z) (p : Layouts.Ports) : Layouts.Ports :=
  Layouts.setGpibState l m 0 (Layouts.setGpibState d m 1 p).

(** The directions, levels and mask of the two calls that [setControls]
    makes in each state (the default case writes nothing). *)
Definition controls (state : Z) : option (Z * Z * Z) :=
  if state =? Bus.CINI then Some (184, 223, 255)
  else if state =? Bus.CIDS then Some (184, 223, 158)
  else if state =? Bus.CCMS then Some (185, 95, 159)
  else if state =? Bus.CLAS then Some (166, 216, 158)
  else if state =? Bus.CTAS then Some (185, 223, 158)
  else if state =? Bus.DINI then Some (0, 255, 255)
  else if state =? Bus.DIDS then Some (0, 255, 14)
  else if state =? Bus.DLAS then Some (6, 249, 30)
  else if state =? Bus.DTAS then Some (24, 249, 30)
  else None.

(** The registers in [startControllerMode] before its [sendIFC]:
    [sendAllClear], [stop], [setControls(CINI)], [readyGpibDbus]. *)
Definition prepared (p : Layouts.Ports) : Layouts.Ports :=
  Layouts.readyGpibDbus
    (two_step 184 223 255
       (Layouts.readyGpibDbus
          (two_step 0 255 255
             (Layouts.setGpibState 128 128 0
                (Layouts.setGpibState 0 160 0
                   (Layouts.setGpibState 32 32 0 p)))))).

End Lines.

(** ** The host side of the serial line *)

Module Host.
Import Bus.

(** A number as the host types it, in decimal, however large it is. *)
Definition decimal (n : Z) : list Z :=
  Sketch.dec_digits (S (Z.to_nat (Z.log2 n))) n [].

(** The bytes a host has to escape to send them as data: the line ends,
    ESC itself and the plus sign. *)
Definition needs_esc (c : Z) : bool :=
  (c =? CR) || (c =? LF) || (c =? ESC) || (c =? PLUS).

(** A payload written for the serial line, each such byte preceded by
    ESC. *)
Definition escape (x : list Z) : list Z :=
  flat_map (fun c => if needs_esc c then [ESC; c] else [c]) x.

(** The bytes that are stored as they come: all but the line ends and
    ESC. *)
Definition plain (c : Z) : bool :=
  negb ((c =? CR) || (c =? LF) || (c =? ESC)).

(** A line that starts with two plus signs and has a third byte. *)
Definition is_command (x : list Z) : bool :=
  (2 <? Z.of_nat (length x)) && (Sketch.at_ x 0 =? PLUS)
  && (Sketch.at_ x 1 =? PLUS).

(** What verbose mode echoes for a byte read. *)
Definition echo (v : bool) (c : Z) (w : World) : World :=
  if v && negb (c =? LF) then print [c] w else w.

End Host.

(** ** Configuration commands ([AR488.ino] of [src/AR488]) *)

Module Handlers.
Import Bus Sketch.

Definition set_paddr (v : Z) (c : Config) : Config :=
  mkConfig (eot_en c) (eoi c) (cmode c) (caddr c) v (eos c) (stat c)
           (amode c) (rtmo c) (eot_ch c) (eor c) (idn c).
Definition set_rtmo (v : Z) (c : Config) : Config :=
  mkConfig (eot_en c) (eoi c) (cmode c) (caddr c) (paddr c) (eos c) (stat c)
           (amode c) v (eot_ch c) (eor c) (idn c).
Definition set_eos (v : Z) (c : Config) : Config :=
  mkConfig (eot_en c) (eoi c) (cmode c) (caddr c) (paddr c) v (stat c)
           (amode c) (rtmo c) (eot_ch c) (eor c) (idn c).
Definition set_eoi (v : bool) (c : Config) : Config :=
  mkConfig (eot_en c) v (cmode c) (caddr c) (paddr c) (eos c) (stat c)
           (amode c) (rtmo c) (eot_ch c) (eor c) (idn c).
Definition set_eot_en (v : bool) (c : Config) : Config :=
  mkConfig v (eoi c) (cmode c) (caddr c) (paddr c) (eos c) (stat c)
           (amode c) (rtmo c) (eot_ch c) (eor c) (idn c).
Definition set_eot_ch (v : Z) (c : Config) : Config :=
  mkConfig (eot_en c) (eoi c) (cmode c) (caddr c) (paddr c) (eos c) (stat c)
           (amode c) (rtmo c) v (eor c) (idn c).
Definition set_amode (v : Z) (c : Config) : Config :=
  mkConfig (eot_en c) (eoi c) (cmode c) (caddr c) (paddr c) (eos c) (stat c)
           v (rtmo c) (eot_ch c) (eor c) (idn c).
Definition set_eor (v : Z) (c : Config) : Config :=
  mkConfig (eot_en c) (eoi c) (cmode c) (caddr c) (paddr c) (eos c) (stat c)
           (amode c) (rtmo c) (eot_ch c) v (idn c).

(** An assignment to a field of [gpibBus.cfg]. *)
Definition assign (f : Config -> Config) (s : State) : State :=
  set_bus (fun w => set_cfg (f (cfg w)) w) s.

(** [dataPort.println(n)] for a number, and for a [bool] (printed as 1
    or 0). *)
Definition println_num (n : Z) (s : State) : State :=
  dataPort_print (dec n ++ crlf) s.
Definition println_bool (b : bool) (s : State) : State :=
  println_num (if b then 1 else 0) s.

(** [if (isVerbose) { ... }] around prints. *)
Definition verbose (bs : list Z) (s : State) : State :=
  if isVerbose s then dataPort_print bs s else s.

Definition on_off (v : Z) : list Z :=
  if nz v then str "ON" else str "OFF".

(** The local [uint16_t val] of a handler is not initialised;
    [notInRange] leaves it alone only when it returns [true], and then
    the handler returns without reading it. *)
Definition val0 : Z := 0.

(** [++addr] *)
Definition addr_h (params : option (list Z)) (s : State) : State :=
  match params with
  | Some p =>
      let '((bad, val), s) := notInRange p 1 30 val0 s in
      if bad then s
      else if val =? caddr (cfg (bus s)) then
        verbose (str "That is my address! Address of a remote device is required."
                 ++ crlf) (errBadCmd s)
      else
        verbose (str "Set device primary address to: " ++ dec val ++ crlf)
                (assign (set_paddr val) s)
  | None => println_num (paddr (cfg (bus s))) s
  end.

(** [++read_tmo_ms] *)
Definition rtmo_h (params : option (list Z)) (s : State) : State :=
  match params with
  | Some p =>
      let '((bad, val), s) := notInRange p 1 32000 val0 s in
      if bad then s
      else
        verbose (str "Set [read_tmo_ms] to: " ++ dec val
                 ++ str " milliseconds" ++ crlf)
                (assign (set_rtmo val) s)
  | None => println_num (rtmo (cfg (bus s))) s
  end.

(** [++eos] *)
Definition eos_h (params : option (list Z)) (s : State) : State :=
  match params with
  | Some p =>
      let '((bad, val), s) := notInRange p 0 3 val0 s in
      if bad then s
      else
        verbose (str "Set EOS to: " ++ dec val ++ crlf)
                (assign (set_eos (u8 val)) s)
  | None => println_num (eos (cfg (bus s))) s
  end.

(** [++eoi] *)
Definition eoi_h (params : option (list Z)) (s : State) : State :=
  match params with
  | Some p =>
      let '((bad, val), s) := notInRange p 0 1 val0 s in
      if bad then s
      else
        verbose (str "Set EOI assertion: " ++ on_off val ++ crlf)
                (assign (set_eoi (nz val)) s)
  | None => println_bool (eoi (cfg (bus s))) s
  end.

(** [++eot_enable] *)
Definition eot_en_h (params : option (list Z)) (s : State) : State :=
  match params with
  | Some p =>
      let '((bad, val), s) := notInRange p 0 1 val0 s in
      if bad then s
      else
        verbose (str "Appending of EOT character: " ++ on_off val ++ crlf)
                (assign (set_eot_en (nz val)) s)
  | None => println_bool (eot_en (cfg (bus s))) s
  end.

(** [++eot_char]; the query prints the field with
    [println(cfg.eot_ch, DEC)], here as the number 0..255 that was
    stored.  (The field is declared in [AR488_GPIBbus.h]; were it a signed
    [char], as in the root sketch, a code above 127 would be printed as
    a negative number.) *)
Definition eot_char_h (params : option (list Z)) (s : State) : State :=
  match params with
  | Some p =>
      let '((bad, val), s) := notInRange p 0 255 val0 s in
      if bad then s
      else
        verbose (str "EOT set to ASCII character: " ++ dec val ++ crlf)
                (assign (set_eot_ch (u8 val)) s)
  | None => println_num (eot_ch (cfg (bus s))) s
  end.

(** [++auto] *)
Definition amode_h (params : option (list Z)) (s : State) : State :=
  match params with
  | Some p =>
      let '((bad, val), s) := notInRange p 0 3 val0 s in
      if bad then s
      else
        let s := if (0 <? val) && isVerbose s
                 then dataPort_print
                        (str "WARNING: automode ON can cause some devices to generate"
                         ++ crlf ++
                         str "         'addressed to talk but nothing to say' errors"
                         ++ crlf) s
                 else s in
        let s := assign (set_amode (u8 val)) s in
        let s := if amode (cfg (bus s)) <? 3 then set_autoRead false s
                 else s in
        verbose (str "Auto mode: " ++ dec (amode (cfg (bus s))) ++ crlf) s
  | None => println_num (amode (cfg (bus s))) s
  end.

(** [++eor]; the query resets a stored code above 7 to 0 before it prints
    it. *)
Definition eor_h (params : option (list Z)) (s : State) : State :=
  match params with
  | Some p =>
      let '((bad, val), s) := notInRange p 0 15 val0 s in
      if bad then s
      else
        verbose (str "Set EOR to: " ++ dec val ++ crlf)
                (assign (set_eor (u8 val)) s)
  | None =>
      let s := if 7 <? eor (cfg (bus s)) then assign (set_eor 0) s else s in
      println_num (eor (cfg (bus s))) s
  end.

(** [++status] *)
Definition stat_h (params : option (list Z)) (s : State) : State :=
  match params with
  | Some p =>
      let '((bad, statusByte), s) := notInRange p 0 255 0 s in
      if bad then s
      else snd (on_bus (setStatus (u8 statusByte)) s)
  | None => println_num (stat (cfg (bus s))) s
  end.

(** [++mode] *)
Definition cmode_h (params : option (list Z)) (s : State) : State :=
  match params with
  | Some p =>
      let '((bad, val), s) := notInRange p 0 1 val0 s in
      if bad then s
      else
        let s := if val =? 0 then snd (on_bus Engine.startDeviceMode s)
                 else if val =? 1
                      then snd (on_bus Engine.startControllerMode s)
                      else s in
        verbose (str "Interface mode set to: "
                 ++ (if nz val then str "CONTROLLER" else str "DEVICE")
                 ++ crlf) s
  | None => println_bool (cmode (cfg (bus s)) =? 2) s
  end.

(** The handlers that take a number in a range and store it in a field
    of the configuration: the field, the range, and what a query shows
    for a stored value ([None] where that is left open: the EOT character
    above 127). *)
Definition numeric
  : list ((option (list Z) -> State -> State) * (Config -> Z) * Z * Z
          * (Z -> option Z)) :=
  [ (rtmo_h, rtmo, 1, 32000, Some);
    (eos_h, eos, 0, 3, Some);
    (eot_char_h, eot_ch, 0, 255, fun v => if v <=? 127 then Some v else None);
    (amode_h, amode, 0, 3, Some);
    (eor_h, eor, 0, 15, fun v => Some (if 7 <? v then 0 else v));
    (stat_h, stat, 0, 255, Some) ].

(** Set and query of a setting [h] with field [get], range [lo..hi] and
    query output [shown], for the number [n] typed in decimal and the
    sketch [s].  [notInRange] reads the number into a [uint16_t], so what
    counts is [v = n mod 65536]: if [v] is in the range it is stored
    without output and a query prints what [shown] says; if not, the
    configuration stays and the error message is printed. *)
Definition round_trip (h : option (list Z) -> State -> State)
    (get : Config -> Z) (lo hi : Z) (shown : Z -> option Z)
    (n : Z) (s : State) : Prop :=
  let v := n mod 65536 in
  let s1 := h (Some (Host.decimal n)) s in
  if (lo <=? v) && (v <=? hi)
  then get (cfg (bus s1)) = v
       /\ host (bus s1) = host (bus s)
       /\ (forall x, shown v = Some x ->
             host (bus (h None s1)) = host (bus s1) ++ dec x ++ crlf)
  else cfg (bus s1) = cfg (bus s)
       /\ host (bus s1)
          = host (bus s) ++ str "Unrecognized command" ++ crlf.

(** All the configuration commands. *)
Definition commands : list (option (list Z) -> State -> State) :=
  [addr_h; rtmo_h; eos_h; eoi_h; eot_en_h; eot_char_h; amode_h; eor_h;
   stat_h; cmode_h].

(** A configuration with its numbers in the ranges the commands accept. *)
Definition valid (c : Config) : Prop :=
  1 <= paddr c <= 30 /\ paddr c <> caddr c
  /\ 1 <= rtmo c <= 32000
  /\ 0 <= eos c <= 3
  /\ 0 <= eot_ch c <= 255
  /\ 0 <= amode c <= 3
  /\ 0 <= eor c <= 15
  /\ 0 <= stat c <= 255
  /\ (cmode c = 1 \/ cmode c = 2).

End Handlers.

(** ** Controller commands ([AR488.ino] of [src/AR488]) *)

Module Commands.
Import Bus Sketch Handlers.

(** [++clr] *)
Definition clr_h (s : State) : State :=
  let '(e, s) := on_bus Engine.sendSDC s in
  if e then verbose (str "Failed to send SDC" ++ crlf) s
  else snd (on_bus (setControls CIDS) s).

(** [++llo]; [digitalRead(REN)] is the level of the REN line. *)
Definition llo_h (params : option (list Z)) (s : State) : State :=
  let s :=
    if negb (lvl (pins (bus s)) REN) then
      match params with
      | Some p =>
          if starts_all p then
            let '(e, s) := on_bus (sendCmd GC_LLO) s in
            if e then verbose (str "Failed to send universal LLO." ++ crlf) s
            else s
          else s
      | None =>
          let '(e, s) := on_bus Engine.sendLLO s in
          if e then verbose (str "Failed to send LLO!" ++ crlf) s else s
      end
    else s in
  snd (on_bus (setControls CIDS) s).

(** [++loc] *)
Definition loc_h (params : option (list Z)) (s : State) : State :=
  if negb (lvl (pins (bus s)) REN) then
    match params with
    | Some p =>
        if starts_all p then snd (on_bus Engine.sendAllClear s) else s
    | None =>
        let '(e, s) := on_bus Engine.sendGTL s in
        let s := if e then verbose (str "Failed to send LOC!" ++ crlf) s
                 else s in
        snd (on_bus (setControls CIDS) s)
    end
  else s.

(** [++ifc] *)
Definition ifc_h (s : State) : State :=
  if cmode (cfg (bus s)) =? 2 then
    let s := snd (on_bus (Engine.setControlVal 0 1 0) s) in
    let s := snd (on_bus (Engine.setControlVal 1 1 0) s) in
    verbose (str "IFC signal asserted for 150 microseconds" ++ crlf) s
  else s.

(** [++trg]: the parameters.  [while (cnt < 15) { param = strtok(...);
    ... }] over the tokens still to come; the result is [None] when the
    handler returned from the loop. *)
Fixpoint trg_params (fuel : nat) (toks : list (list Z)) (addrs : list Z)
    (val : Z) (s : State) : option (list Z) * State :=
  match fuel with
  | O => (Some addrs, s)
  | S fuel' =>
      match toks with
      | [] => (Some addrs, s)
      | param :: rest =>
          let '((bad, v), s) := notInRange param 1 30 val s in
          if bad then (None, s)
          else trg_params fuel' rest (addrs ++ [u8 v]) v s
      end
  end.

(** [for (int i = 0; i < cnt; i++)]: the result is [true] when the
    handler returned from the loop. *)
Fixpoint trg_loop (addrs : list Z) (s : State) : bool * State :=
  match addrs with
  | [] => (false, s)
  | a :: rest =>
      let '(e, s) := on_bus (sendGET a) s in
      if e then (true, verbose (str "Failed to trigger device!" ++ crlf) s)
      else trg_loop rest s
  end.

Definition trg_h (params : option (list Z)) (s : State) : State :=
  let '(args, s) :=
    match params with
    | None => (Some [paddr (cfg (bus s))], s)
    | Some p => trg_params 15 (strtok_all p []) [] 0 s
    end in
  match args with
  | None => s
  | Some addrs =>
      if (0 <? length addrs)%nat then
        let '(failed, s) := trg_loop addrs s in
        if failed then s
        else verbose (str "Group trigger completed." ++ crlf)
                     (snd (on_bus (setControls CIDS) s))
      else s
  end.

(** [++mla], [++mta] *)
Definition sendmla_h (s : State) : State :=
  let '(e, s) := on_bus Engine.sendMLA s in
  if e then verbose (str "Failed to send MLA" ++ crlf) s else s.

Definition sendmta_h (s : State) : State :=
  let '(e, s) := on_bus Engine.sendMTA s in
  if e then verbose (str "Failed to send MTA" ++ crlf) s else s.

(** [++unl], [++unt] *)
Definition unlisten_h (s : State) : State :=
  let '(e, s) := on_bus Engine.sendUNL s in
  if e then verbose (str "Failed to send UNL" ++ crlf) s
  else snd (on_bus (setControls CIDS) s).

Definition untalk_h (s : State) : State :=
  let '(e, s) := on_bus Engine.sendUNT s in
  if e then verbose (str "Failed to send UNT" ++ crlf) s
  else snd (on_bus (setControls CIDS) s).

End Commands.

Module Triggers.
Import Bus.

(** The events of a group trigger of the addresses [addrs], starting in
    bus state [st]: every device in turn is addressed to listen, receives
    GET and is un-addressed. *)
Fixpoint events (st : Z) (addrs : list Z) : list Event :=
  match addrs with
  | [] => []
  | a :: rest => Sequence.addressed st a GC_GET ++ events CCMS rest
  end.

(** The bytes of it. *)
Definition bytes (addrs : list Z) : list Z :=
  flat_map (fun a => [GC_UNL; u8 (GC_LAD + a); GC_GET; GC_UNL; GC_UNT]) addrs.

End Triggers.

(** ** Device role: commands received under ATN ([AR488.ino] of
    [src/AR488]) *)

Module Device.
Import Bus Sketch.

(** The mode flags [isRO], [isTO] and [isProm] of the sketch. *)
Record Modes := mkModes {
  isRO : bool;
  isTO : Z;
  isProm : bool }.

Definition device_listen_h (s : State) : State :=
  snd (on_bus (receiveData false false 0) s).

Definition device_talk_h (s : State) : State :=
  let s := if lnRdy s =? 2
           then snd (on_bus (sendData (take (Z.to_nat (pbPtr s)) (pBuf s))) s)
           else s in
  set_lnRdy 0 (flushPbuf s).

Definition device_spd_h (s : State) : State :=
  snd (on_bus (setControls DIDS) s).

(** [device_unl_h] also sets [tranBrk = 3]; that variable is read
    nowhere. *)
Definition device_unl_h (s : State) : bool * State :=
  let s := set_read false (readWithEndByte s) (endByte s) s in
  if cstate (bus s) =? DLAS
  then (true, snd (on_bus (setControls DIDS) s))
  else (false, s).

Definition device_unt_h (s : State) : bool * State :=
  if cstate (bus s) =? DTAS
  then (true, snd (on_bus (setControls DIDS ;;; Engine.clearDataBus) s))
  else (false, s).

(** [execGpibCmd]; the result is [None] for [GC_SDC], where
    [device_sdc_h] resets the processor and does not return. *)
Definition execGpibCmd (gpibcmd : Z) (s : State) : option State :=
  if gpibcmd =? GC_SPE then Some (device_spe_h s)
  else if gpibcmd =? GC_SPD then Some (device_spd_h s)
  else if gpibcmd =? GC_UNL then Some (snd (device_unl_h s))
  else if gpibcmd =? GC_UNT then Some (snd (device_unt_h s))
  else if gpibcmd =? GC_SDC then None
  else Some s.

(** [for (uint8_t i=0; i<bytecnt; i++)] over the stored bytes still to
    look at (the build without [EN_STORAGE]). *)
Fixpoint attn_scan (bytes : list Z) (addressed : bool) (gpibcmd : Z)
    (s : State) : bool * Z * State :=
  match bytes with
  | [] => (addressed, gpibcmd, s)
  | db :: rest =>
      if db =? 0 then (addressed, gpibcmd, s)
      else if paddr (cfg (bus s)) =? Z.lxor db 32 then
        attn_scan rest true gpibcmd (snd (on_bus (setControls DLAS) s))
      else if paddr (cfg (bus s)) =? Z.lxor db 64 then
        attn_scan rest true gpibcmd (snd (on_bus (setControls DTAS) s))
      else if db <? 32 then attn_scan rest addressed db s
      else attn_scan rest addressed gpibcmd s
  end.

(** [attnRequired].  The scan looks at [cmdbytes[0..bytecnt-1]]; for
    [bytecnt] above 5 the source reads past the array, the model stops at
    its end. *)
Definition attnRequired (m : Modes) (s : State) : option State :=
  let '(B, w) := attnRequired_read (bus s) in
  let s := set_bus (fun _ => w) s in
  if isProm m then
    Some (snd (on_bus (setControls DINI) (device_listen_h s)))
  else
    let '(us, s) :=
      if nz (Z.land (ustat B) 1) then
        let '(r, s) := device_unl_h s in
        (if r then ustat B else Z.land (ustat B) 1, s)
      else (ustat B, s) in
    let '(us, s) :=
      if nz (Z.land us 1) then
        let '(r, s) := device_unt_h s in
        (if r then us else Z.land us 2, s)
      else (us, s) in
    let '(addressed, gpibcmd, s) :=
      if 0 <? bytecnt B
      then attn_scan (take (Z.to_nat (bytecnt B)) (cmdbytes B)) false 0 s
      else (false, 0, s) in
    if negb addressed then Some (snd (on_bus (setControls DINI) s))
    else if nz gpibcmd then execGpibCmd gpibcmd s
    else if cstate (bus s) =? DLAS then
      Some (snd (on_bus (setControls DIDS) (device_listen_h s)))
    else if cstate (bus s) =? DTAS then
      Some (snd (on_bus (setControls DIDS) (device_talk_h s)))
    else Some s.

(** [++lon], [++prom], [++ton] *)
Definition lon_h (params : option (list Z)) (ms : Modes * State)
  : Modes * State :=
  let '(m, s) := ms in
  match params with
  | Some p =>
      let '((bad, lval), s) := notInRange p 0 1 Handlers.val0 s in
      if bad then (m, s)
      else
        let m := mkModes (nz lval) (isTO m) (isProm m) in
        let m := if isRO m then mkModes (isRO m) 0 false else m in
        (m, Handlers.verbose (str "LON: " ++ Handlers.on_off lval ++ crlf) s)
  | None => (m, Handlers.println_bool (isRO m) s)
  end.

Definition prom_h (params : option (list Z)) (ms : Modes * State)
  : Modes * State :=
  let '(m, s) := ms in
  match params with
  | Some p =>
      let '((bad, pval), s) := notInRange p 0 1 Handlers.val0 s in
      if bad then (m, s)
      else
        let m := mkModes (isRO m) (isTO m) (nz pval) in
        let m := if isProm m then mkModes false 0 (isProm m) else m in
        (m, Handlers.verbose (str "PROM: " ++ Handlers.on_off pval ++ crlf) s)
  | None => (m, Handlers.println_bool (isProm m) s)
  end.

Definition ton_h (params : option (list Z)) (ms : Modes * State)
  : Modes * State :=
  let '(m, s) := ms in
  match params with
  | Some p =>
      let '((bad, toval), s) := notInRange p 0 2 Handlers.val0 s in
      if bad then (m, s)
      else
        let m := mkModes (isRO m) (u8 toval) (isProm m) in
        let m := if 0 <? isTO m then mkModes false (isTO m) false else m in
        (m, s)
  | None =>
      let s := Handlers.verbose
                 (str "TON: "
                  ++ (if isTO m =? 1 then str "ON unbuffered"
                      else if isTO m =? 2 then str "ON buffered"
                      else str "OFF") ++ crlf) s in
      (m, Handlers.println_num (isTO m) s)
  end.

(** A mode command typed by the host, with its parameter string if any. *)
Inductive ModeCmd :=
| Lon (params : option (list Z))
| Prom (params : option (list Z))
| Ton (params : option (list Z)).

Definition mode_cmd (k : ModeCmd) (ms : Modes * State) : Modes * State :=
  match k with
  | Lon p => lon_h p ms
  | Prom p => prom_h p ms
  | Ton p => ton_h p ms
  end.

(** At most one of listen-only, talk-only and promiscuous mode is on. *)
Definition exclusive (m : Modes) : bool :=
  match isRO m, 0 <? isTO m, isProm m with
  | true, false, false | false, true, false | false, false, true
  | false, false, false => true
  | _, _, _ => false
  end.

End Device.

(** ** What a command burst leaves behind *)

Module Bursts.
Import Bus Sketch.

(** The burst record after the bytes [bs] have been read: UNL and UNT
    set their flag, every other byte is stored. *)
Fixpoint after (bs : list Z) (B : Burst) : Burst :=
  match bs with
  | [] => B
  | b :: rest =>
      after rest
        (if b =? 63
         then mkBurst (cmdbytes B) (bytecnt B) (Z.lor (ustat B) 1) (stores B)
         else if b =? 95
         then mkBurst (cmdbytes B) (bytecnt B) (Z.lor (ustat B) 2) (stores B)
         else mkBurst (<[Z.to_nat (bytecnt B) := b]> (cmdbytes B))
                      (u8 (bytecnt B + 1)) (ustat B)
                      (stores B ++ [bytecnt B]))
  end.

(** The bytes of a burst that are stored. *)
Definition kept (bs : list Z) : list Z :=
  List.filter (fun b => negb ((b =? 63) || (b =? 95))) bs.

(** A byte that is neither the listen nor the talk address of this
    device. *)
Definition foreign (pa b : Z) : Prop :=
  Z.lxor b 32 <> pa /\ Z.lxor b 64 <> pa.

(** The events of the bytes read. *)
Definition gots (bs : list Z) : list Event := map (fun b => Got b false) bs.

(** The burst record at the start of [attnRequired]. *)
Definition empty : Burst := mkBurst (replicate 5 0) 0 0 [].

End Bursts.

(** * Properties *)

(** ** Machine integers *)

Lemma u8_range x : 0 <= u8 x < 256.
Proof. unfold u8. apply Z.mod_pos_bound. lia. Qed.

Lemma u8_small x : 0 <= x < 256 -> u8 x = x.
Proof. intros H. unfold u8. now apply Z.mod_small. Qed.

Lemma u8_bits x n : 0 <= n ->
  Z.testbit (u8 x) n = (n <? 8) && Z.testbit x n.
Proof.
  intros Hn. unfold u8. change 256 with (2 ^ 8).
  destruct (Z.ltb_spec n 8).
  - rewrite Z.mod_pow2_bits_low by lia. reflexivity.
  - rewrite Z.mod_pow2_bits_high by lia. reflexivity.
Qed.

Lemma byte_bits_high x n : 0 <= x < 256 -> 8 <= n -> Z.testbit x n = false.
Proof.
  intros Hx Hn. rewrite <- (u8_small x Hx), u8_bits by lia.
  destruct (Z.ltb_spec n 8); [lia | reflexivity].
Qed.

(** The 8-bit complement of a byte is [255 - b]. *)
Lemma u8_lnot b : 0 <= b < 256 -> u8 (Z.lnot b) = 255 - b.
Proof.
  intros Hb. unfold u8, Z.lnot.
  replace (Z.pred (- b)) with ((255 - b) + (-1) * 256) by lia.
  rewrite Z_mod_plus_full. apply Z.mod_small. lia.
Qed.

(** Splitting a small bit index into its eight cases. *)
Ltac bit_cases n :=
  let Hc := fresh "Hc" in
  assert (Hc : n = 0 \/ n = 1 \/ n = 2 \/ n = 3 \/ n = 4 \/ n = 5
               \/ n = 6 \/ n = 7) by lia;
  repeat (destruct Hc as [Hc|Hc]; [subst n|]); [..|subst n].

(** Bit-wise proof of an equation between bytes built from [land],
    [lor], [lnot] and [u8]: bits 0..7 one at a time, the higher bits by
    the [u8] on both sides. *)
Ltac bytewise :=
  let n := fresh "n" in
  let Hn := fresh "Hn" in
  apply Z.bits_inj'; intros n Hn;
  repeat first
    [ rewrite u8_bits by exact Hn
    | rewrite Z.land_spec
    | rewrite Z.lor_spec
    | rewrite Z.lnot_spec by exact Hn ];
  destruct (Z.ltb_spec n 8);
  [ bit_cases n;
    repeat match goal with
           | |- context [Z.testbit ?x ?k] =>
               is_var x; destruct (Z.testbit x k)
           end; reflexivity
  | cbn [andb]; try reflexivity ].

Lemma nz_land_64 sb : nz (Z.land sb 64) = Z.testbit sb 6.
Proof.
  unfold nz.
  assert (H : Z.land sb 64 = if Z.testbit sb 6 then 64 else 0).
  { apply Z.bits_inj'. intros n Hn. rewrite Z.land_spec.
    destruct (Z.eq_dec n 6) as [->|Hne].
    - destruct (Z.testbit sb 6); reflexivity.
    - assert (H64 : Z.testbit 64 n = false).
      { change 64 with (2 ^ 6). apply Z.pow2_bits_false. lia. }
      rewrite H64, andb_false_r.
      destruct (Z.testbit sb 6); [exact (eq_sym H64) | now rewrite Z.bits_0]. }
  rewrite H. destruct (Z.testbit sb 6); reflexivity.
Qed.

Lemma clear_bit6 x : Z.testbit (Z.land x (Z.lnot 64)) 6 = false.
Proof.
  rewrite Z.land_spec, Z.lnot_spec by lia.
  change (Z.testbit 64 6) with true. apply andb_false_r.
Qed.

(** ** Pin adapter: the data bus primitives *)

Module LayoutsFacts.
Import Layouts.

(** Reading data lines at the electrical levels [l] gives the inverted
    byte. *)
Lemma readGpibDbus_inverts l : 0 <= l < 256 ->
  readGpibDbus l l = 255 - l.
Proof.
  intros Hl. unfold readGpibDbus.
  assert (H : Z.lor (Z.land l 129) (Z.land l 126) = l).
  { rewrite <- (u8_small l Hl) at 3. bytewise.
    rewrite (byte_bits_high l) by (exact Hl || lia). reflexivity. }
  rewrite H. apply u8_lnot. exact Hl.
Qed.

Lemma readGpibDbus_offered b : 0 <= b < 256 ->
  readGpibDbus (255 - b) (255 - b) = b.
Proof. intros Hb. rewrite readGpibDbus_inverts; lia. Qed.

(** After [setGpibDbus b] the data bits of the two ports hold the
    inverted byte; the other bits of the ports are unchanged. *)
Lemma setGpibDbus_ports b p : 0 <= b < 256 ->
  Z.land (PORTB (setGpibDbus b p)) 126 = Z.land (255 - b) 126 /\
  Z.land (PORTD (setGpibDbus b p)) 129 = Z.land (255 - b) 129.
Proof.
  intros Hb. unfold setGpibDbus; cbn [PORTB PORTD].
  rewrite (u8_lnot b Hb).
  generalize (255 - b). intros d. generalize (PORTB p) (PORTD p). intros x y.
  split.
  - apply Z.bits_inj'. intros n Hn.
    rewrite !Z.land_spec, u8_bits, Z.lor_spec, !Z.land_spec,
      Z.lnot_spec by exact Hn.
    destruct (Z.ltb_spec n 8).
    + bit_cases n; destruct (Z.testbit x _), (Z.testbit d _);
        reflexivity.
    + rewrite (byte_bits_high 126) by lia. cbn. now rewrite andb_false_r.
  - apply Z.bits_inj'. intros n Hn.
    rewrite !Z.land_spec, u8_bits, Z.lor_spec, !Z.land_spec,
      Z.lnot_spec by exact Hn.
    destruct (Z.ltb_spec n 8).
    + bit_cases n; destruct (Z.testbit y _), (Z.testbit d _);
        reflexivity.
    + rewrite (byte_bits_high 129) by lia. cbn. now rewrite andb_false_r.
Qed.

Lemma readGpibDbus_masks pind pinb d :
  0 <= d < 256 ->
  Z.land pinb 126 = Z.land d 126 ->
  Z.land pind 129 = Z.land d 129 ->
  readGpibDbus pind pinb = 255 - d.
Proof.
  intros Hd HB HD. rewrite <- (readGpibDbus_inverts d Hd).
  unfold readGpibDbus. now rewrite HB, HD.
Qed.

Lemma loopback_avr b p : 0 <= b < 256 ->
  readGpibDbus (PORTD (setGpibDbus b p)) (PORTB (setGpibDbus b p)) = b.
Proof.
  intros Hb. destruct (setGpibDbus_ports b p Hb) as [HB HD].
  rewrite (readGpibDbus_masks _ _ (255 - b)); [lia | lia | exact HB | exact HD].
Qed.

End LayoutsFacts.

Lemma nz_land_bit x k : 0 <= k -> nz (Z.land x (2 ^ k)) = Z.testbit x k.
Proof.
  intros Hk. unfold nz.
  assert (H : Z.land x (2 ^ k) = if Z.testbit x k then 2 ^ k else 0).
  { apply Z.bits_inj'. intros n Hn. rewrite Z.land_spec.
    destruct (Z.eq_dec n k) as [->|Hne].
    - rewrite Z.pow2_bits_true by exact Hk. rewrite andb_true_r.
      destruct (Z.testbit x k);
        [now rewrite Z.pow2_bits_true | now rewrite Z.bits_0].
    - rewrite (Z.pow2_bits_false k n) by lia. rewrite andb_false_r.
      destruct (Z.testbit x k);
        [now rewrite Z.pow2_bits_false by lia | now rewrite Z.bits_0]. }
  rewrite H. destruct (Z.testbit x k); [|reflexivity].
  assert (0 < 2 ^ k) by (apply Z.pow_pos_nonneg; lia).
  destruct (Z.eqb_spec (2 ^ k) 0); [lia | reflexivity].
Qed.

Lemma mod_pow2_succ x k : 0 <= k ->
  x mod 2 ^ (k + 1) = x mod 2 ^ k + (if Z.testbit x k then 2 ^ k else 0).
Proof.
  intros Hk.
  assert (Hp : 0 < 2 ^ k) by (apply Z.pow_pos_nonneg; lia).
  rewrite Z.pow_add_r by lia. change (2 ^ 1) with 2.
  rewrite Z.rem_mul_r by lia.
  rewrite <- (Z.testbit_spec' x k Hk).
  destruct (Z.testbit x k); cbn [Z.b2z]; lia.
Qed.

Module GenericFacts.
Import Layouts.

Section Generic.

Variable databus : list nat.
Hypothesis databus_distinct : List.NoDup databus.
Hypothesis databus_length : length databus = 8%nat.

Lemma dio_inj i j : (i < 8)%nat -> (j < 8)%nat ->
  dio databus i = dio databus j -> i = j.
Proof.
  intros Hi Hj. unfold dio.
  apply (proj1 (NoDup_nth databus 0%nat) databus_distinct); lia.
Qed.

(** Driving the pins from index [i] on leaves the other pins alone. *)
Lemma set_from_other b n : forall i d q,
  (forall k, (i <= k < i + n)%nat -> dio databus k <> q) ->
  level (setGpibDbus_from databus i n b d) q = level d q.
Proof.
  induction n as [|n IH]; intros i d q Hq; [reflexivity|].
  cbn [setGpibDbus_from]. rewrite IH by (intros k Hk; apply Hq; lia).
  cbn [digitalWrite pinMode level].
  destruct (Nat.eqb_spec q (dio databus i)) as [->|]; [|reflexivity].
  exfalso. apply (Hq i); [lia | reflexivity].
Qed.

(** Each data pin ends up LOW exactly when its bit of the byte is 1. *)
Lemma set_from_level b n : forall i d k,
  (i + n <= 8)%nat -> (i <= k < i + n)%nat ->
  level (setGpibDbus_from databus i n b d) (dio databus k)
  = negb (Z.testbit b (Z.of_nat k)).
Proof.
  induction n as [|n IH]; intros i d k Hin Hk; [lia|].
  cbn [setGpibDbus_from].
  destruct (Nat.eq_dec k i) as [->|Hne].
  - rewrite set_from_other.
    + cbn [digitalWrite pinMode level]. rewrite Nat.eqb_refl.
      rewrite Z.shiftl_1_l, nz_land_bit by lia. reflexivity.
    + intros j Hj Heq. apply dio_inj in Heq; lia.
  - apply IH; lia.
Qed.

Lemma read_from_sum b d n : forall i,
  0 <= b < 256 -> (i + n = 8)%nat ->
  (forall k, (i <= k < 8)%nat ->
     level d (dio databus k) = negb (Z.testbit b (Z.of_nat k))) ->
  readGpibDbus_from databus i n (b mod 2 ^ Z.of_nat i) d = b.
Proof.
  induction n as [|n IH]; intros i Hb Hin Hlv.
  - cbn [readGpibDbus_from]. replace i with 8%nat by lia.
    apply Z.mod_small. exact Hb.
  - cbn [readGpibDbus_from]. unfold digitalRead.
    rewrite Hlv by lia. rewrite Z.shiftl_1_l.
    assert (Heq : u8 (b mod 2 ^ Z.of_nat i
                      + (if negb (Z.testbit b (Z.of_nat i)) then 0
                         else 2 ^ Z.of_nat i))
                  = b mod 2 ^ Z.of_nat (S i)).
    { replace (Z.of_nat (S i)) with (Z.of_nat i + 1) by lia.
      assert (Hx : b mod 2 ^ Z.of_nat i
                   + (if negb (Z.testbit b (Z.of_nat i)) then 0
                      else 2 ^ Z.of_nat i)
                   = b mod 2 ^ (Z.of_nat i + 1)).
      { rewrite mod_pow2_succ by lia.
        destruct (Z.testbit b (Z.of_nat i)); reflexivity. }
      rewrite Hx. apply u8_small.
      assert (Hp : 0 < 2 ^ (Z.of_nat i + 1)) by (apply Z.pow_pos_nonneg; lia).
      assert (Hle : 2 ^ (Z.of_nat i + 1) <= 2 ^ 8)
        by (apply Z.pow_le_mono_r; lia).
      pose proof (Z.mod_pos_bound b _ Hp). change (2 ^ 8) with 256 in Hle.
      lia. }
    rewrite Heq. apply IH; [exact Hb | lia | intros k Hk; apply Hlv; lia].
Qed.

(** Loopback on the generic layout. *)
Lemma loopback_generic b d : 0 <= b < 256 ->
  readGpibDbus_generic databus (setGpibDbus_generic databus b d) = b.
Proof.
  intros Hb. unfold readGpibDbus_generic, setGpibDbus_generic.
  pose proof (read_from_sum b (setGpibDbus_from databus 0 8 b d) 8 0%nat
                Hb eq_refl) as H.
  change (2 ^ Z.of_nat 0) with 1 in H. rewrite Z.mod_1_r in H.
  apply H. intros k Hk. apply set_from_level; lia.
Qed.

End Generic.
End GenericFacts.

(** C9: for every byte [b], driving [b] onto the data bus with the write
    primitive and sampling the bus with the read primitive, the pins
    keeping the driven levels, returns [b]; both primitives invert: the
    write primitive puts a data line LOW exactly when its bit of [b] is
    1, and the read primitive returns the complement of the levels it
    samples.  This holds for the ATmega32U4 layout (port registers) and
    for the generic layout (one digital pin per line, the eight pins
    being distinct). *)
Theorem data_bus_loopback (b : Z) (p : Layouts.Ports)
    (databus : list nat) (d : Layouts.Digital) :
  0 <= b < 256 ->
  List.NoDup databus ->
  length databus = 8%nat ->
  (* ATmega32U4 *)
  (let p' := Layouts.setGpibDbus b p in
   Layouts.readGpibDbus (Layouts.PORTD p') (Layouts.PORTB p') = b
   /\ Z.land (Layouts.PORTB p') 126 = Z.land (255 - b) 126
   /\ Z.land (Layouts.PORTD p') 129 = Z.land (255 - b) 129)
  /\ Layouts.readGpibDbus (255 - b) (255 - b) = b
  (* generic *)
  /\ (let d' := Layouts.setGpibDbus_generic databus b d in
      Layouts.readGpibDbus_generic databus d' = b
      /\ forall k, (k < 8)%nat ->
           Layouts.level d' (Layouts.dio databus k)
           = negb (Z.testbit b (Z.of_nat k))).
Proof.
  intros Hb Hnd Hlen. repeat split.
  - apply LayoutsFacts.loopback_avr. exact Hb.
  - apply (LayoutsFacts.setGpibDbus_ports b p Hb).
  - apply (LayoutsFacts.setGpibDbus_ports b p Hb).
  - apply LayoutsFacts.readGpibDbus_offered. exact Hb.
  - apply GenericFacts.loopback_generic; assumption.
  - intros k Hk. apply GenericFacts.set_from_level; try assumption; lia.
Qed.

(** The byte 0xA5 on both layouts; the generic pins are A0..A5, 4, 5 of
    an ATmega328 board (14..19, 4, 5). *)
Lemma data_bus_loopback_witness :
  let databus := [14; 15; 16; 17; 18; 19; 4; 5]%nat in
  let d := Layouts.mkDigital (fun _ => Layouts.INPUT_PULLUP) (fun _ => true) in
  let p' := Layouts.setGpibDbus 165 Partner.ports0 in
  Layouts.readGpibDbus (Layouts.PORTD p') (Layouts.PORTB p') = 165
  /\ Layouts.readGpibDbus_generic databus
       (Layouts.setGpibDbus_generic databus 165 d) = 165.
Proof.
  intros databus d p'.
  assert (Hnd : List.NoDup databus).
  { unfold databus.
    repeat (constructor; [cbn; intuition discriminate|]). constructor. }
  destruct (data_bus_loopback 165 Partner.ports0 databus d
              ltac:(lia) Hnd eq_refl) as [[H1 _] [_ [H2 _]]].
  split; [exact H1 | exact H2].
Defined.

(** ** Line interpreter: the parse buffer *)

Module ParseFacts.
Import Bus Sketch.

(** The fill pointer is an 8-bit counter: it never reaches [PBSIZE]. *)
Lemma parseInput_switch_ptr c s :
  0 <= pbPtr s < 256 ->
  let s' := snd (parseInput_switch c s) in
  0 <= pbPtr s' < 256 /\ dataBufferFull s' = dataBufferFull s.
Proof.
  intros Hp. unfold parseInput_switch.
  repeat match goal with
         | |- context [if ?b then _ else _] => destruct b
         end;
    cbn; split; try reflexivity; try exact Hp; try lia;
    apply u8_range.
Qed.

(** Whatever the state and the byte, [parseInput] leaves
    [dataBufferFull] as it is and the fill pointer below [PBSIZE]: the
    block for a full buffer is never entered. *)
Lemma parseInput_never_full c s :
  0 <= pbPtr s < 256 ->
  let s' := snd (parseInput c s) in
  0 <= pbPtr s' < 256 /\ dataBufferFull s' = dataBufferFull s.
Proof.
  intros Hp. pose proof (parseInput_switch_ptr c s Hp) as H.
  unfold parseInput. destruct (parseInput_switch c s) as [[[r0|] r] s1];
    cbn [snd] in *; [exact H|].
  unfold parseInput_full, PBSIZE.
  destruct (Z.leb_spec 256 (pbPtr s1)); [lia | exact H].
Qed.

#[local] Arguments set_bus _ !_ /.
#[local] Arguments set_buf _ _ !_ /.
#[local] Arguments set_isEsc _ !_ /.
#[local] Arguments set_isPlusEscaped _ !_ /.
#[local] Arguments dataPort_print _ !_ /.
#[local] Arguments addPbuf _ !_ /.

(** A byte that is neither CR nor LF is consumed without a line being
    reported; in verbose mode it is echoed, and nothing else is printed. *)
Lemma parseInput_plain c s :
  0 <= pbPtr s < 256 -> c <> CR -> c <> LF ->
  exists s',
    parseInput c s = (0, s')
    /\ 0 <= pbPtr s' < 256
    /\ dataBufferFull s' = dataBufferFull s
    /\ isVerbose s' = isVerbose s
    /\ bus s' = if isVerbose s then print [c] (bus s) else bus s.
Proof.
  intros Hp Hcr Hlf.
  destruct s as [w buf ptr esc ple v ln full sidn q re rb eb ar].
  cbn [pbPtr dataBufferFull isVerbose bus] in *.
  assert (Hu : 0 <= u8 (ptr + 1) < 256) by apply u8_range.
  assert (Hfull : forall r w' buf' ptr' esc' ple',
            0 <= ptr' < 256 ->
            parseInput_full r
              (mkState w' buf' ptr' esc' ple' v ln full sidn q re rb eb ar)
            = (r, mkState w' buf' ptr' esc' ple' v ln full sidn q re rb eb ar)).
  { intros r w' buf' ptr' esc' ple' Hr. unfold parseInput_full, PBSIZE.
    cbn [pbPtr]. destruct (Z.leb_spec 256 ptr'); [lia | reflexivity]. }
  unfold parseInput, parseInput_switch, PBSIZE. cbn [pbPtr isVerbose isEsc].
  destruct (Z.ltb_spec ptr 256) as [_|]; [|lia].
  destruct (Z.eqb_spec c CR) as [|_]; [contradiction|].
  destruct (Z.eqb_spec c LF) as [|_]; [contradiction|].
  cbn [orb negb andb]. rewrite andb_true_r.
  destruct v, (c =? ESC), esc, (c =? PLUS);
    cbn [dataPort_print set_bus set_isEsc set_isPlusEscaped addPbuf set_buf
         pbPtr pBuf isEsc bus isPlusEscaped isVerbose lnRdy dataBufferFull
         sendIdn isQuery readWithEoi readWithEndByte endByte autoRead];
    try destruct (ptr <? 2);
    cbn [dataPort_print set_bus set_isEsc set_isPlusEscaped addPbuf set_buf
         pbPtr pBuf isEsc bus isPlusEscaped isVerbose lnRdy dataBufferFull
         sendIdn isQuery readWithEoi readWithEndByte endByte autoRead];
    eexists; rewrite Hfull by assumption;
    (split; [reflexivity|]);
    cbn [pbPtr dataBufferFull isVerbose bus]; repeat split; lia.
Qed.

End ParseFacts.

(** C8 on the code: for every input stream without CR or LF, however
    long, and every state of the interpreter, [serialIn_h] consumes the
    whole stream and reports no line: nothing is delivered as instrument
    data ([dataBufferFull] is not set, the bus is not touched), and no
    error message is printed (the output is the echo of the input in
    verbose mode and nothing otherwise).  The fill pointer is an 8-bit
    counter and [PBSIZE] is 256, so the block of [parseInput] for a full
    buffer is never entered. *)
Theorem parse_buffer_never_full (input : list Z) (s : Sketch.State) :
  0 <= Sketch.pbPtr s < 256 ->
  Forall (fun c => c <> Bus.CR /\ c <> Bus.LF) input ->
  exists s',
    Sketch.serialIn_h input s = (0, [], s')
    /\ 0 <= Sketch.pbPtr s' < 256
    /\ Sketch.dataBufferFull s' = Sketch.dataBufferFull s
    /\ Bus.trace (Sketch.bus s') = Bus.trace (Sketch.bus s)
    /\ Bus.host (Sketch.bus s')
       = Bus.host (Sketch.bus s) ++ (if Sketch.isVerbose s then input else []).
Proof.
  revert s. induction input as [|c input IH]; intros s Hp Hin.
  - exists s. cbn [Sketch.serialIn_h]. repeat split; try lia.
    destruct (Sketch.isVerbose s); now rewrite app_nil_r.
  - inversion Hin as [|? ? [Hcr Hlf] Hin']; subst.
    destruct (ParseFacts.parseInput_plain c s Hp Hcr Hlf)
      as (s1 & Heq & Hp1 & Hf1 & Hv1 & Hb1).
    destruct (IH s1 Hp1 Hin') as (s' & Heq' & Hp' & Hf' & Ht' & Hh').
    exists s'. cbn [Sketch.serialIn_h]. rewrite Heq. cbn [Z.eqb].
    rewrite Heq', Hf', Ht', Hh', Hf1, Hv1, Hb1.
    split; [reflexivity|]. split; [exact Hp'|]. split; [reflexivity|].
    destruct (Sketch.isVerbose s); unfold Bus.print;
      cbn [Bus.trace Bus.host]; split; try reflexivity.
    rewrite <- List.app_assoc. reflexivity.
Qed.

(** 300 bytes ['A'] typed in verbose mode. *)
Lemma parse_buffer_never_full_witness :
  let s := Partner.verbose_sketch (Partner.config 2 false 0 0 0) [] in
  let r := Sketch.serialIn_h (repeat 65 300) s in
  fst (fst r) = 0
  /\ Sketch.dataBufferFull (snd r) = false
  /\ Bus.host (Sketch.bus (snd r)) = repeat 65 300.
Proof.
  intros s r.
  destruct (parse_buffer_never_full (repeat 65 300) s ltac:(cbn; lia))
    as (s' & Heq & _ & Hf & _ & Hh).
  - apply List.Forall_forall. intros x Hx. apply repeat_spec in Hx.
    subst x. split; discriminate.
  - subst r. rewrite Heq. cbn [fst snd]. rewrite Hf, Hh.
    repeat split.
Defined.

(** C8, evaluated: an input stream fills the parse buffer before any CR or
    LF.  With 256 bytes ['A'] no data is delivered: every call of
    [parseInput] returns 0, the 8-bit fill pointer is back at 0,
    [dataBufferFull] stays clear and nothing is written to the bus; a line
    end that follows is taken for the end of an empty line.  With ["++"]
    followed by 254 bytes in verbose mode nothing is discarded and no
    error message is printed: the output is the echo of the input and the
    buffer still starts with ["++"]. *)
Lemma parse_buffer_overflow_lost :
  let c := Partner.config 2 false 0 0 0 in
  let data := repeat 65 256 in
  let command := [43; 43] ++ repeat 65 254 in
  (let '(r, rest, s) := Sketch.serialIn_h data (Partner.sketch c []) in
   r = 0 /\ rest = [] /\ Sketch.pbPtr s = 0
   /\ Sketch.dataBufferFull s = false
   /\ Bus.trace (Sketch.bus s) = [] /\ Bus.host (Sketch.bus s) = [])
  /\ (let s := Sketch.host_line (data ++ [Bus.LF]) (Partner.sketch c []) in
      Sketch.lnRdy s = 0 /\ Bus.trace (Sketch.bus s) = []
      /\ Sketch.pBuf s = replicate 256 0)
  /\ (let '(r, rest, s) :=
        Sketch.serialIn_h command (Partner.verbose_sketch c []) in
      r = 0 /\ Sketch.pbPtr s = 0 /\ Bus.host (Sketch.bus s) = command
      /\ Sketch.isCmd (Sketch.pBuf s) = true).
Proof.
  vm_compute.
  split; [repeat split; reflexivity|].
  split; repeat split; reflexivity.
Qed.

(** ** Bus engine: handshakes with a partner *)

Module BusFacts.
Import Bus Partner Handshake.

#[local] Opaque Layouts.setGpibState Layouts.setGpibDbus Layouts.readyGpibDbus.
#[local] Arguments set_ports _ !_ /.
#[local] Arguments set_cfg _ !_ /.
#[local] Arguments set_cstate _ !_ /.
#[local] Arguments set_deviceAddressed _ !_ /.
#[local] Arguments set_txBreak _ !_ /.
#[local] Arguments set_env _ _ !_ /.
#[local] Arguments log _ !_ /.
#[local] Arguments print _ !_ /.

Lemma calm_accepted : calm accepted.
Proof. repeat split. Qed.

Lemma calm_idle : calm idle.
Proof. repeat split. Qed.

(** *** One pass of the write loop *)

Lemma wpass_wait db il w :
  quiet (pins w) -> lvl (pins w) NDAC = true ->
  wpass db il 4 w = ((4, false), w).
Proof.
  intros [Ha Hi] Hn. unfold wpass. rewrite Ha, Hi, Hn.
  destruct (cmode (cfg w) =? 1); reflexivity.
Qed.

Lemma wpass_place db il w :
  quiet (pins w) -> lvl (pins w) NDAC = false -> lvl (pins w) NRFD = true ->
  wpass db il 4 w = ((7, false), placed db il w).
Proof.
  intros [Ha Hi] Hn Hr. unfold wpass, placed. rewrite Ha, Hi, Hn, Hr.
  destruct (cmode (cfg w) =? 1); cbn -[setGpibDbus setGpibState];
    destruct ((setGpibDbus db;;; _) w); reflexivity.
Qed.

Lemma wpass_done db il w :
  quiet (pins w) -> lvl (pins w) NDAC = true -> lvl (pins w) NRFD = false ->
  wpass db il 7 w = ((9, true), w).
Proof.
  intros [Ha Hi] Hn Hr. unfold wpass. rewrite Ha, Hi, Hn, Hr.
  destruct (cmode (cfg w) =? 1); reflexivity.
Qed.

(** A listener that is ready and accepts: [writeByte] completes, having
    put the byte once. *)
Lemma writeByte_ack p c st da tb P rest tr h db il :
  1 < rtmo c -> calm P ->
  exists p',
    writeByte db il (mkWorld p c st da tb P (ready :: accepted :: rest) tr h)
    = (0, mkWorld p' c st da tb accepted rest
            (tr ++ [Put st db (eoi c && il); Accepted]) h).
Proof.
  intros Hr (Hms & Hndac & Hdav & Hatn & Hifc).
  assert (H1 : (1 <? rtmo c) = true) by (apply Z.ltb_lt; lia).
  assert (H0 : (0 <? rtmo c) = true) by (apply Z.ltb_lt; lia).
  unfold writeByte. cbn [pins future cfg]. rewrite Hms.
  cbn [wloop]. change (u32 (0 + 1 - 0)) with 1. rewrite H1.
  rewrite wpass_wait by (try split; assumption).
  change (ms ready) with 0. change (u32 (0 - 0)) with 0. rewrite H0.
  rewrite wpass_place by (try split; reflexivity).
  assert (Hlast : forall w, pins w = accepted ->
            wloop rest db il (rtmo c) 0 (ms accepted) 7 w = (9, w)).
  { intros w Hw. change (ms accepted) with 0.
    destruct rest; cbn [wloop]; change (u32 (0 - 0)) with 0; rewrite H0;
      rewrite wpass_done by (rewrite Hw; try split; reflexivity);
      reflexivity. }
  rewrite Hlast by reflexivity.
  cbn [Z.eqb Pos.eqb].
  unfold placed. cbn.
  destruct (eoi c && il) eqn:E; cbn; rewrite E; cbn;
    eexists; rewrite <- List.app_assoc; reflexivity.
Qed.

(** *** One pass of the read loop *)

Lemma rpass_wait rwe db e w :
  quiet (pins w) -> lvl (pins w) DAV = true ->
  rpass rwe false 4 db e w = ((6, false, db, e), snd (setGpibState 4 4 0 w)).
Proof.
  intros [Ha Hi] Hd. unfold rpass. rewrite Hi, Hd.
  destruct (cmode (cfg w) =? 1); reflexivity.
Qed.

Lemma rpass_sample rwe db e w :
  quiet (pins w) -> lvl (pins w) DAV = false ->
  rpass rwe false 6 db e w
  = ((8, false,
      Layouts.readGpibDbus (PIND (pins w)) (PINB (pins w)),
      if rwe && negb (lvl (pins w) EOI) then true else e),
     sampled (Layouts.readGpibDbus (PIND (pins w)) (PINB (pins w)))
             (if rwe && negb (lvl (pins w) EOI) then true else e) w).
Proof.
  intros [Ha Hi] Hd. unfold rpass, sampled. rewrite Hi, Hd.
  destruct (cmode (cfg w) =? 1); reflexivity.
Qed.

Lemma rpass_done rwe db e w :
  quiet (pins w) -> lvl (pins w) DAV = true ->
  rpass rwe false 8 db e w = ((9, true, db, e), snd (setGpibState 0 2 0 w)).
Proof.
  intros [Ha Hi] Hd. unfold rpass. rewrite Hi, Hd.
  destruct (cmode (cfg w) =? 1); reflexivity.
Qed.

(** A talker that offers a byte and withdraws it: [readByte] completes
    with the byte, and with the EOI flag if EOI was asked for. *)
Lemma readByte_talk p c st da tb P rest tr h db0 rwe b e :
  1 < rtmo c -> calm P -> 0 <= b < 256 ->
  exists p',
    readByte db0 rwe
      (mkWorld p c st da tb P (offered b e :: idle :: rest) tr h)
    = ((0, b, rwe && e),
       mkWorld p' c st da tb idle rest (tr ++ [Got b (rwe && e)]) h).
Proof.
  intros Hr (Hms & Hndac & Hdav & Hatn & Hifc) Hb.
  assert (H1 : (1 <? rtmo c) = true) by (apply Z.ltb_lt; lia).
  assert (H0 : (0 <? rtmo c) = true) by (apply Z.ltb_lt; lia).
  unfold readByte. cbn [pins future cfg]. rewrite Hms, Hatn.
  cbn [negb rloop]. change (u32 (0 + 1 - 0)) with 1. rewrite H1.
  rewrite rpass_wait by (try split; assumption).
  change (ms (offered b e)) with 0. change (u32 (0 - 0)) with 0. rewrite H0.
  rewrite rpass_sample by (try split; reflexivity).
  cbn [pins set_env PIND PINB offered lvl setGpibState act set_ports snd].
  rewrite (LayoutsFacts.readGpibDbus_offered b Hb).
  rewrite negb_involutive.
  replace (if rwe && e then true else false) with (rwe && e)
    by (destruct (rwe && e); reflexivity).
  assert (Hlast : forall w, pins w = idle ->
            rloop rest rwe false (rtmo c) 0 (ms idle) 8 b (rwe && e) w
            = ((9, b, rwe && e), snd (setGpibState 0 2 0 w))).
  { intros w Hw. change (ms idle) with 0.
    destruct rest; cbn [rloop]; change (u32 (0 - 0)) with 0; rewrite H0;
      rewrite rpass_done by (rewrite Hw; try split; reflexivity);
      reflexivity. }
  rewrite Hlast by reflexivity.
  cbn [Z.eqb Pos.eqb]. unfold sampled. cbn.
  eexists. reflexivity.
Qed.

End BusFacts.

(** ** Bus engine: commands and addressing *)

Module CommandFacts.
Import Bus Partner Handshake BusFacts.

#[local] Opaque Layouts.setGpibState Layouts.setGpibDbus Layouts.readyGpibDbus.
#[local] Arguments set_ports _ !_ /.
#[local] Arguments set_cfg _ !_ /.
#[local] Arguments set_cstate _ !_ /.
#[local] Arguments set_deviceAddressed _ !_ /.
#[local] Arguments set_txBreak _ !_ /.
#[local] Arguments set_env _ _ !_ /.
#[local] Arguments log _ !_ /.
#[local] Arguments print _ !_ /.

(** [setControls] records the state and touches nothing but the ports. *)
Lemma setControls_eq st p c st0 da tb P f tr h :
  exists p', setControls st (mkWorld p c st0 da tb P f tr h)
             = (tt, mkWorld p' c st da tb P f (tr ++ [Controls st]) h).
Proof.
  unfold setControls.
  repeat match goal with
         | |- context [if ?b then _ else _] => destruct b
         end; cbn; eexists; reflexivity.
Qed.

(** A command byte sent to listeners that accept it. *)
Lemma sendCmd_ack p c st da tb P rest tr h b :
  1 < rtmo c -> calm P ->
  exists p',
    sendCmd b (mkWorld p c st da tb P (ack ++ rest) tr h)
    = (false, mkWorld p' c CCMS da tb accepted rest
                (tr ++ Expect.cmd st b) h).
Proof.
  intros Hr HP. unfold sendCmd, Expect.cmd, bind, get, when.
  cbn [cstate ack app].
  destruct (Z.eqb_spec st CCMS) as [->|Hne]; cbn [negb].
  - unfold ret at 1.
    destruct (writeByte_ack p c CCMS da tb P rest tr h b NO_EOI Hr HP)
      as [p' ->].
    unfold NO_EOI. rewrite andb_false_r. eexists. reflexivity.
  - destruct (setControls_eq CCMS p c st da tb P
                (ready :: accepted :: rest) tr h) as [p1 ->].
    destruct (writeByte_ack p1 c CCMS da tb P rest (tr ++ [Controls CCMS]) h
                b NO_EOI Hr HP) as [p' ->].
    unfold NO_EOI. rewrite andb_false_r, <- List.app_assoc.
    eexists. reflexivity.
Qed.

(** [addressDevice] before listeners that accept both bytes. *)
Lemma addressDevice_ack p c st da tb P rest tr h addr talk :
  1 < rtmo c -> calm P ->
  exists p',
    addressDevice addr talk
      (mkWorld p c st da tb P (ack ++ ack ++ rest) tr h)
    = (false,
       mkWorld p' c CCMS true tb accepted rest
         (tr ++ Expect.cmd st GC_UNL
             ++ Expect.cmd CCMS (u8 ((if talk then GC_TAD else GC_LAD) + addr)))
         h).
Proof.
  intros Hr HP. unfold addressDevice, bind.
  destruct (sendCmd_ack p c st da tb P (ack ++ rest) tr h GC_UNL Hr HP)
    as [p1 ->].
  destruct talk.
  - destruct (sendCmd_ack p1 c CCMS da tb accepted rest
                (tr ++ Expect.cmd st GC_UNL) h (u8 (GC_TAD + addr))
                Hr calm_accepted) as [p2 ->].
    cbn. rewrite <- List.app_assoc. eexists. reflexivity.
  - destruct (sendCmd_ack p1 c CCMS da tb accepted rest
                (tr ++ Expect.cmd st GC_UNL) h (u8 (GC_LAD + addr))
                Hr calm_accepted) as [p2 ->].
    cbn. rewrite <- List.app_assoc. eexists. reflexivity.
Qed.

Lemma unAddressDevice_ack p c st da tb P rest tr h :
  1 < rtmo c -> calm P ->
  exists p',
    unAddressDevice (mkWorld p c st da tb P (ack ++ ack ++ rest) tr h)
    = (false,
       mkWorld p' c CCMS false tb accepted rest
         (tr ++ Expect.cmd st GC_UNL ++ Expect.cmd CCMS GC_UNT) h).
Proof.
  intros Hr HP. unfold unAddressDevice, bind.
  destruct (sendCmd_ack p c st da tb P (ack ++ rest) tr h GC_UNL Hr HP)
    as [p1 ->].
  destruct (sendCmd_ack p1 c CCMS da tb accepted rest
              (tr ++ Expect.cmd st GC_UNL) h GC_UNT Hr calm_accepted)
    as [p2 ->].
  cbn. rewrite <- List.app_assoc. eexists. reflexivity.
Qed.

End CommandFacts.

(** ** The root sketch: addressing *)

Module LegacyFacts.
Import Bus Partner Handshake Legacy.

#[local] Opaque Layouts.setGpibState Layouts.setGpibDbus Layouts.readyGpibDbus.
#[local] Opaque Legacy.setGpibState Legacy.setGpibDbus.
#[local] Arguments set_ports _ !_ /.
#[local] Arguments set_cstate _ !_ /.
#[local] Arguments set_env _ _ !_ /.
#[local] Arguments log _ !_ /.
#[local] Arguments print _ !_ /.
#[local] Arguments on_base _ !_ /.
#[local] Arguments set_tranBrk _ !_ /.

(** The pin is already in the state waited for. *)
Lemma wait_loop_now fut state pin tmo l :
  lvl (pins (base l)) pin = state ->
  wait_loop fut state pin tmo l = (false, l).
Proof.
  intros H. destruct fut; cbn [wait_loop]; rewrite H, eqb_reflx; reflexivity.
Qed.

(** The pin reaches the state with the next snapshot, in time. *)
Lemma wait_loop_next s rest state pin tmo l :
  lvl (pins (base l)) pin = negb state ->
  (tmo <=? ms s) = false -> lvl s EOI = true -> lvl s pin = state ->
  wait_loop (s :: rest) state pin tmo l = (false, on_base (set_env s rest) l).
Proof.
  intros H Ht He Hs. cbn [wait_loop].
  rewrite H, Ht, He. destruct state; cbn [negb Bool.eqb];
    (rewrite wait_loop_now; [reflexivity | destruct l as [[]]; exact Hs]).
Qed.

Lemma gpibSendCmd_ack p c st da tb P rest tr h brk v b :
  0 < rtmo c < 4294967296 -> calm P ->
  exists p',
    gpibSendCmd b
      (mkLWorld (mkWorld p c st da tb P (ack ++ rest) tr h) brk v)
    = (false,
       mkLWorld (mkWorld p' c CCMS da tb accepted rest
                   (tr ++ [Controls CCMS; Put CCMS b false; Accepted]) h)
                brk v).
Proof.
  intros Hr (Hms & Hndac & Hdav & Hatn & Hifc).
  assert (Ht : (u32 (0 + rtmo c) <=? 0) = false).
  { unfold u32. rewrite Z.add_0_l, Z.mod_small by lia. apply Z.leb_gt. lia. }
  unfold gpibSendCmd, setGpibControls. cbn.
  unfold gpibWriteByte, Wait_on_pin_state. cbn [base pins future cfg ack app].
  rewrite Hms.
  rewrite wait_loop_next by (cbn; first [assumption | reflexivity]).
  cbn [on_base set_env base pins future].
  rewrite wait_loop_now by reflexivity.
  cbn [on_base set_ports log base pins future cstate].
  change (ms ready) with 0.
  rewrite wait_loop_next by (cbn; first [assumption | reflexivity]).
  cbn [on_base set_env base pins future].
  rewrite wait_loop_now by reflexivity.
  cbn. rewrite <- !List.app_assoc. eexists. reflexivity.
Qed.

(** [addrDev] before listeners that accept the three bytes. *)
Lemma addrDev_ack p c st da tb P rest tr h brk v addr dir :
  0 < rtmo c < 4294967296 -> calm P ->
  exists p',
    addrDev addr dir
      (mkLWorld (mkWorld p c st da tb P (acks 3 ++ rest) tr h) brk v)
    = (false,
       mkLWorld
         (mkWorld p' c CCMS da tb accepted rest
            (tr ++ [Controls CCMS; Put CCMS UNL false; Accepted;
                    Controls CCMS;
                    Put CCMS (u8 ((if dir then LAD else TAD) + caddr c)) false;
                    Accepted;
                    Controls CCMS;
                    Put CCMS (u8 ((if dir then TAD else LAD) + addr)) false;
                    Accepted]) h)
         brk v).
Proof.
  intros Hr HP. unfold addrDev. cbn [acks].
  rewrite <- !List.app_assoc.
  destruct (gpibSendCmd_ack p c st da tb P (ack ++ ack ++ [] ++ rest)
              tr h brk v UNL Hr HP) as [p1 ->].
  destruct dir; cbn [base cfg].
  - destruct (gpibSendCmd_ack p1 c CCMS da tb accepted (ack ++ [] ++ rest)
                (tr ++ [Controls CCMS; Put CCMS UNL false; Accepted]) h brk v
                (u8 (LAD + caddr c)) Hr BusFacts.calm_accepted) as [p2 ->].
    destruct (gpibSendCmd_ack p2 c CCMS da tb accepted ([] ++ rest)
                ((tr ++ [Controls CCMS; Put CCMS UNL false; Accepted])
                 ++ [Controls CCMS; Put CCMS (u8 (LAD + caddr c)) false;
                     Accepted]) h brk v
                (u8 (TAD + addr)) Hr BusFacts.calm_accepted) as [p3 ->].
    rewrite <- !List.app_assoc. eexists. reflexivity.
  - destruct (gpibSendCmd_ack p1 c CCMS da tb accepted (ack ++ [] ++ rest)
                (tr ++ [Controls CCMS; Put CCMS UNL false; Accepted]) h brk v
                (u8 (TAD + caddr c)) Hr BusFacts.calm_accepted) as [p2 ->].
    destruct (gpibSendCmd_ack p2 c CCMS da tb accepted ([] ++ rest)
                ((tr ++ [Controls CCMS; Put CCMS UNL false; Accepted])
                 ++ [Controls CCMS; Put CCMS (u8 (TAD + caddr c)) false;
                     Accepted]) h brk v
                (u8 (LAD + addr)) Hr BusFacts.calm_accepted) as [p3 ->].
    rewrite <- !List.app_assoc. eexists. reflexivity.
Qed.

End LegacyFacts.

(** ** Addressing sequences (C3) *)

Module AddressingFacts.
Import Bus Partner.

Lemma puts_app a b : Expect.puts (a ++ b) = Expect.puts a ++ Expect.puts b.
Proof.
  induction a as [|e a IH]; [reflexivity|].
  destruct e; cbn [Expect.puts app]; rewrite IH; reflexivity.
Qed.

Lemma puts_cmd st b : Expect.puts (Expect.cmd st b) = [b].
Proof. unfold Expect.cmd. destruct (st =? CCMS); reflexivity. Qed.

End AddressingFacts.

(** C3, as the claim states it, fails on the bus engine: to address
    device 5 to listen, with the controller at address 0 and listeners
    that accept every byte, [addressDevice] puts UNL and LAD+5 on the bus
    and never TAD+0; to address it to talk it puts UNL and TAD+5 and
    never LAD+0. *)
Lemma addressDevice_omits_own_address :
  let w := Partner.world (Partner.config 2 false 0 0 0) (Partner.acks 3) in
  let listen := Expect.puts (Bus.trace (snd (Bus.addressDevice 5 Bus.LISTEN w))) in
  let talk := Expect.puts (Bus.trace (snd (Bus.addressDevice 5 Bus.TALK w))) in
  listen = [63; 37] /\ listen <> [Bus.GC_UNL; Bus.GC_TAD + 0; Bus.GC_LAD + 5]
  /\ talk = [63; 69] /\ talk <> [Bus.GC_UNL; Bus.GC_LAD + 0; Bus.GC_TAD + 5].
Proof. vm_compute. repeat split; discriminate. Qed.

(** C3, amended: for every device address [addr], before listeners that
    accept every byte, [GPIBbus::addressDevice] of the bus engine sends
    UNL and then LAD+addr (to listen) or TAD+addr (to talk), as commands
    and without the controller's own address, and sets the addressing
    flag; [addrDev] of the root sketch sends UNL, TAD+controller_address,
    LAD+addr (to listen) and UNL, LAD+controller_address, TAD+addr (to
    talk). *)
Theorem addressing_sequences (p : Layouts.Ports) (c : Bus.Config) (st : Z)
    (da tb : bool) (P : Bus.Snap) (rest : list Bus.Snap)
    (tr : list Bus.Event) (h : list Z) (brk : Z) (v : bool) (addr : Z)
    (talk : bool) :
  1 < Bus.rtmo c < 4294967296 ->
  Partner.calm P ->
  0 <= addr <= 30 ->
  0 <= Bus.caddr c <= 30 ->
  let w := Bus.mkWorld p c st da tb P (Partner.acks 3 ++ rest) tr h in
  let target := (if talk then Bus.GC_TAD else Bus.GC_LAD) + addr in
  let own := (if talk then Bus.GC_LAD else Bus.GC_TAD) + Bus.caddr c in
  (let r := Bus.addressDevice addr talk w in
   fst r = false
   /\ Bus.deviceAddressed (snd r) = true
   /\ Bus.trace (snd r)
      = tr ++ Expect.cmd st Bus.GC_UNL ++ Expect.cmd Bus.CCMS target
   /\ Expect.puts (Bus.trace (snd r))
      = Expect.puts tr ++ [Bus.GC_UNL; target])
  /\ (let r := Legacy.addrDev addr talk (Legacy.mkLWorld w brk v) in
      fst r = false
      /\ Expect.puts (Bus.trace (Legacy.base (snd r)))
         = Expect.puts tr ++ [Bus.GC_UNL; own; target]
      /\ Forall (fun e => match e with
                          | Bus.Put s _ _ => s = Bus.CCMS
                          | _ => True
                          end)
                (drop (length tr) (Bus.trace (Legacy.base (snd r))))).
Proof.
  intros Hr HP Ha Hc w target own.
  assert (Ht : u8 target = target).
  { apply u8_small. unfold target, Bus.GC_TAD, Bus.GC_LAD.
    destruct talk; lia. }
  assert (Ho : u8 own = own).
  { apply u8_small. unfold own, Bus.GC_TAD, Bus.GC_LAD.
    destruct talk; lia. }
  split.
  - destruct (CommandFacts.addressDevice_ack p c st da tb P
                (Partner.ack ++ [] ++ rest) tr h addr talk
                ltac:(lia) HP) as [p' Heq].
    unfold w. cbn [Partner.acks]. rewrite <- !List.app_assoc.
    rewrite Heq. cbn [fst snd Bus.deviceAddressed Bus.trace].
    fold target. rewrite Ht.
    repeat split.
    rewrite !AddressingFacts.puts_app, !AddressingFacts.puts_cmd.
    reflexivity.
  - destruct (LegacyFacts.addrDev_ack p c st da tb P rest tr h brk v
                addr talk ltac:(lia) HP) as [p' Heq].
    unfold w. rewrite Heq.
    cbn [fst snd Bus.trace Legacy.base].
    replace (u8 ((if talk then Legacy.LAD else Legacy.TAD) + Bus.caddr c))
      with own by (symmetry; exact Ho).
    replace (u8 ((if talk then Legacy.TAD else Legacy.LAD) + addr))
      with target by (symmetry; exact Ht).
    repeat split.
    + rewrite AddressingFacts.puts_app. reflexivity.
    + rewrite drop_app_length. repeat constructor.
Qed.

(** Device 5 addressed to talk by the controller at address 0. *)
Lemma addressing_sequences_witness :
  let w := Partner.world (Partner.config 2 false 0 0 0) (Partner.acks 3) in
  Expect.puts (Bus.trace (snd (Bus.addressDevice 5 true w))) = [63; 69]
  /\ Expect.puts
       (Bus.trace (Legacy.base
          (snd (Legacy.addrDev 5 true (Legacy.mkLWorld w 0 false)))))
     = [63; 32; 69].
Proof.
  intros w.
  destruct (addressing_sequences Partner.ports0
              (Partner.config 2 false 0 0 0) 0 false false Partner.idle []
              [] [] 0 false 5 true
              ltac:(cbn; lia) BusFacts.calm_idle ltac:(lia) ltac:(cbn; lia))
    as [(_ & _ & _ & H1) (_ & H2 & _)].
  split; [exact H1 | exact H2].
Defined.

(** ** Serial poll (C2) *)

Module SpollFacts.
Import Bus Partner Handshake Sketch.

#[local] Opaque Layouts.setGpibState Layouts.setGpibDbus Layouts.readyGpibDbus.
#[local] Arguments set_ports _ !_ /.
#[local] Arguments set_cfg _ !_ /.
#[local] Arguments set_cstate _ !_ /.
#[local] Arguments set_deviceAddressed _ !_ /.
#[local] Arguments set_txBreak _ !_ /.
#[local] Arguments set_env _ _ !_ /.
#[local] Arguments log _ !_ /.
#[local] Arguments print _ !_ /.
#[local] Arguments set_bus _ !_ /.
#[local] Arguments on_bus {_} _ !_ /.
#[local] Arguments dataPort_print _ !_ /.










End SpollFacts.

(** ** Bus engine: what every run preserves *)

Module FrameFacts.
Import Bus Handshake.

#[local] Opaque Layouts.setGpibState Layouts.setGpibDbus Layouts.readyGpibDbus.

Lemma extends_refl P w : extends P w w.
Proof.
  repeat split. exists []. split; [now rewrite app_nil_r | constructor].
Qed.

Lemma extends_trans P w1 w2 w3 :
  extends P w1 w2 -> extends P w2 w3 -> extends P w1 w3.
Proof.
  intros (Hc & Hh & l & Ht & Hl) (Hc' & Hh' & l' & Ht' & Hl').
  repeat split; try congruence.
  exists (l ++ l'). split.
  - rewrite Ht', Ht, List.app_assoc. reflexivity.
  - apply Forall_app. split; assumption.
Qed.

Lemma extends_weaken (P Q : Event -> Prop) w w' :
  (forall e, P e -> Q e) -> extends P w w' -> extends Q w w'.
Proof.
  intros HPQ (Hc & Hh & l & Ht & Hl). repeat split; try assumption.
  exists l. split; [assumption|]. eapply Forall_impl; eassumption.
Qed.

Lemma extends_ports P f w w' : extends P w w' -> extends P w (set_ports f w').
Proof. intros H. exact H. Qed.

Lemma extends_cstate P s w w' : extends P w w' -> extends P w (set_cstate s w').
Proof. intros H. exact H. Qed.

Lemma extends_env P s f w w' : extends P w w' -> extends P w (set_env s f w').
Proof. intros H. exact H. Qed.

Lemma extends_da P b w w' :
  extends P w w' -> extends P w (set_deviceAddressed b w').
Proof. intros H. exact H. Qed.

Lemma extends_tb P b w w' : extends P w w' -> extends P w (set_txBreak b w').
Proof. intros H. exact H. Qed.

Lemma extends_log (P : Event -> Prop) e w w' :
  P e -> extends P w w' -> extends P w (log e w').
Proof.
  intros He (Hc & Hh & l & Ht & Hl). repeat split; try assumption.
  exists (l ++ [e]). cbn [log trace]. split.
  - rewrite Ht, List.app_assoc. reflexivity.
  - apply Forall_app. split; [assumption | repeat constructor; assumption].
Qed.

Ltac frame :=
  repeat first
    [ apply extends_refl
    | apply extends_ports
    | apply extends_cstate
    | apply extends_env
    | apply extends_da
    | apply extends_tb
    | apply extends_log; [try assumption|] ].

Lemma setControls_frame (P : Event -> Prop) st w :
  P (Controls st) -> extends P w (snd (setControls st w)).
Proof.
  intros HP. unfold setControls.
  repeat match goal with
         | |- context [if ?b then _ else _] => destruct b
         end; cbn; frame.
Qed.

Lemma setControls_cstate st w : cstate (snd (setControls st w)) = st.
Proof.
  unfold setControls.
  repeat match goal with
         | |- context [if ?b then _ else _] => destruct b
         end; reflexivity.
Qed.

Lemma setControls_env st w :
  pins (snd (setControls st w)) = pins w
  /\ future (snd (setControls st w)) = future w.
Proof.
  unfold setControls.
  repeat match goal with
         | |- context [if ?b then _ else _] => destruct b
         end; split; reflexivity.
Qed.

(** The three outcomes of a pass of the write loop. *)
Ltac split_pass db w :=
  repeat first
    [ match goal with
      | |- context [if ?b then _ else _] => destruct b
      end
    | destruct ((setGpibDbus db;;; _) w) ].

Lemma wpass_shape db il stage w :
  exists stage' brk,
    wpass db il stage w = ((stage', brk), w)
    \/ wpass db il stage w = ((stage', brk), placed db il w)
    \/ (cmode (cfg w) = 1
        /\ wpass db il stage w = ((stage', brk), snd (setControls DLAS w))).
Proof.
  unfold wpass, placed.
  destruct (Z.eqb_spec (cmode (cfg w)) 1) as [Hm|Hm].
  - destruct (lvl (pins w) IFC); cbn [negb].
    + destruct (lvl (pins w) ATN); cbn [negb].
      * split_pass db w;
          do 2 eexists; first [left; reflexivity | right; left; reflexivity].
      * destruct (setControls DLAS w). do 2 eexists. right. right.
        split; [exact Hm | reflexivity].
    + destruct (setControls DLAS w). do 2 eexists. right. right.
      split; [exact Hm | reflexivity].
  - split_pass db w;
      do 2 eexists; first [left; reflexivity | right; left; reflexivity].
Qed.

Lemma placed_frame db il w :
  extends (write_event (cfg w) db il) w (placed db il w)
  /\ cstate (placed db il w) = cstate w
  /\ cfg (placed db il w) = cfg w.
Proof.
  unfold placed. destruct (eoi (cfg w) && il) eqn:E; cbn;
    (split; [|split; reflexivity]); frame; cbn; rewrite E; split; reflexivity.
Qed.

Lemma wpass_frame db il stage w :
  let w' := snd (wpass db il stage w) in
  extends (write_event (cfg w) db il) w w'
  /\ ((cmode (cfg w) =? 1) = false -> cstate w' = cstate w)
  /\ (cstate w' = cstate w \/ cstate w' = DLAS).
Proof.
  destruct (wpass_shape db il stage w) as (s' & b & [H|[H|[Hm H]]]);
    rewrite H; cbn [snd].
  - split; [apply extends_refl|]. split; [reflexivity | left; reflexivity].
  - destruct (placed_frame db il w) as (He & Hs & _).
    split; [exact He|]. split; [intros _; exact Hs | left; exact Hs].
  - split; [apply setControls_frame; reflexivity|].
    split; [intros Hc; apply Z.eqb_neq in Hc; contradiction|].
    right. apply setControls_cstate.
Qed.

Lemma wloop_frame db il timeval start fut : forall cur stage w,
  let w' := snd (wloop fut db il timeval start cur stage w) in
  extends (write_event (cfg w) db il) w w'
  /\ ((cmode (cfg w) =? 1) = false -> cstate w' = cstate w)
  /\ (cstate w' = cstate w \/ cstate w' = DLAS).
Proof.
  induction fut as [|s rest IH]; intros cur stage w; cbn [wloop].
  - destruct (u32 (cur - start) <? timeval).
    + pose proof (wpass_frame db il stage w) as Hp.
      destruct (wpass db il stage w) as [[stage' brk] w1]. cbn [snd] in Hp.
      destruct brk; exact Hp.
    + split; [apply extends_refl|]. split; [reflexivity | left; reflexivity].
  - destruct (u32 (cur - start) <? timeval).
    + pose proof (wpass_frame db il stage w) as (He & Hs & Hd).
      destruct (wpass db il stage w) as [[stage' brk] w1]. cbn [snd] in *.
      destruct brk; [split; [exact He | split; assumption]|].
      specialize (IH (ms s) stage' (set_env s rest w1)).
      cbn zeta in IH. destruct IH as (He' & Hs' & Hd').
      assert (Hc : cfg (set_env s rest w1) = cfg w) by (apply He).
      rewrite Hc in He', Hs'.
      split; [|split].
      * eapply extends_trans; [apply extends_env; exact He | exact He'].
      * intros Hm. rewrite (Hs' Hm). cbn [set_env cstate]. apply Hs, Hm.
      * destruct Hd' as [Hd'|Hd']; [|right; exact Hd'].
        rewrite Hd'. cbn [set_env cstate]. exact Hd.
    + split; [apply extends_refl|]. split; [reflexivity | left; reflexivity].
Qed.

Lemma writeByte_frame db il w :
  let w' := snd (writeByte db il w) in
  extends (write_event (cfg w) db il) w w'
  /\ ((cmode (cfg w) =? 1) = false -> cstate w' = cstate w)
  /\ (cstate w' = cstate w \/ cstate w' = DLAS).
Proof.
  unfold writeByte.
  pose proof (wloop_frame db il (rtmo (cfg w)) (ms (pins w)) (future w)
                (ms (pins w) + 1) 4 w) as (He & Hs & Hd).
  destruct (wloop _ _ _ _ _ _ _ _) as [stage w1]. cbn [snd] in *.
  destruct (stage =? 9); [|cbn [snd]; split; [exact He | split; assumption]].
  destruct (eoi (cfg w1) && il); cbn;
    (split; [frame; [exact I | exact He] | split; assumption]).
Qed.

Lemma write_event_without_eoi c db e :
  write_event c db false e -> without_eoi e.
Proof.
  destruct e; cbn; try tauto. intros [_ ->]. apply andb_false_r.
Qed.

(** [sendCmd] only puts bytes without EOI, and it leaves the engine in
    CCMS unless a device-role abort intervenes. *)
Lemma sendCmd_frame b w :
  let w' := snd (sendCmd b w) in
  extends without_eoi w w'
  /\ ((cmode (cfg w) =? 1) = false -> cstate w' = CCMS).
Proof.
  unfold sendCmd, bind, get, when, ret.
  assert (H0 : exists w0, (if negb (cstate w =? CCMS) then setControls CCMS
                           else fun w => (tt, w)) w = (tt, w0)
                          /\ extends without_eoi w w0 /\ cstate w0 = CCMS).
  { destruct (Z.eqb_spec (cstate w) CCMS) as [E|E]; cbn [negb].
    - exists w. repeat split; [exists []; split; [now rewrite app_nil_r|constructor] | exact E].
    - pose proof (setControls_frame without_eoi CCMS w I) as Hf.
      pose proof (setControls_cstate CCMS w) as Hs.
      destruct (setControls CCMS w) as [[] w0]. exists w0. auto. }
  destruct H0 as (w0 & -> & He & Hs).
  pose proof (writeByte_frame b NO_EOI w0) as (He' & Hs' & _).
  destruct (writeByte b NO_EOI w0) as [r w1]. cbn [snd] in *.
  assert (Hc : cfg w0 = cfg w) by apply He.
  split.
  - eapply extends_trans; [exact He|].
    eapply extends_weaken; [|exact He'].
    intros e. apply write_event_without_eoi.
  - intros Hm. rewrite Hs'; [exact Hs | rewrite Hc; exact Hm].
Qed.

Lemma unAddressDevice_frame w :
  let w' := snd (unAddressDevice w) in
  extends without_eoi w w'
  /\ ((cmode (cfg w) =? 1) = false -> cstate w' = CCMS).
Proof.
  unfold unAddressDevice, bind, act, ret.
  pose proof (sendCmd_frame GC_UNL w) as (He1 & Hs1).
  destruct (sendCmd GC_UNL w) as [e1 w1]. cbn [snd] in *.
  destruct e1; [split; assumption|].
  pose proof (sendCmd_frame GC_UNT w1) as (He2 & Hs2).
  destruct (sendCmd GC_UNT w1) as [e2 w2]. cbn [snd] in *.
  assert (Hc : cfg w1 = cfg w) by apply He1. rewrite Hc in Hs2.
  destruct e2; cbn [snd];
    (split; [eapply extends_trans; [exact He1|]; frame; exact He2 | exact Hs2]).
Qed.

Lemma addressDevice_frame addr talk w :
  let w' := snd (addressDevice addr talk w) in
  extends without_eoi w w'
  /\ ((cmode (cfg w) =? 1) = false -> cstate w' = CCMS).
Proof.
  unfold addressDevice, bind, act, ret.
  pose proof (sendCmd_frame GC_UNL w) as (He1 & Hs1).
  destruct (sendCmd GC_UNL w) as [e1 w1]. cbn [snd] in *.
  destruct e1; [split; assumption|].
  assert (Hc : cfg w1 = cfg w) by apply He1.
  assert (H2 : forall b, let r := sendCmd b w1 in
             extends without_eoi w (snd r)
             /\ ((cmode (cfg w) =? 1) = false -> cstate (snd r) = CCMS)).
  { intros b. pose proof (sendCmd_frame b w1) as (He2 & Hs2).
    rewrite Hc in Hs2. split; [eapply extends_trans; eassumption | exact Hs2]. }
  destruct talk.
  - specialize (H2 (u8 (GC_TAD + addr))). cbn zeta in H2.
    destruct (sendCmd _ w1) as [e2 w2]. cbn [snd] in *.
    destruct e2; cbn [snd]; exact H2.
  - specialize (H2 (u8 (GC_LAD + addr))). cbn zeta in H2.
    destruct (sendCmd _ w1) as [e2 w2]. cbn [snd] in *.
    destruct e2; cbn [snd]; exact H2.
Qed.

Lemma writeByte_quiet b w :
  extends without_eoi w (snd (writeByte b NO_EOI w)).
Proof.
  eapply extends_weaken; [|apply writeByte_frame].
  intros e. apply write_event_without_eoi.
Qed.

Lemma sendData_loop_frame data : forall err w,
  extends without_eoi w (snd (sendData_loop data err w)).
Proof.
  induction data as [|c rest IH]; intros err w; cbn [sendData_loop].
  - apply extends_refl.
  - unfold bind, get, ret.
    destruct (eoi (cfg w)).
    + pose proof (writeByte_quiet c w) as Hq.
      destruct (writeByte c NO_EOI w) as [r w1]. cbn [snd] in Hq.
      destruct (nz r); [exact Hq|].
      eapply extends_trans; [exact Hq | apply IH].
    + destruct (negb (c =? CR) || negb (c =? LF) || negb (c =? ESC)).
      * pose proof (writeByte_quiet c w) as Hq.
        destruct (writeByte c NO_EOI w) as [r w1]. cbn [snd] in Hq.
        destruct (nz r); [exact Hq|].
        eapply extends_trans; [exact Hq | apply IH].
      * destruct err; [apply extends_refl | apply IH].
Qed.

Lemma when_write_quiet (b : bool) c w :
  extends without_eoi w
    (snd (when b (_ <- writeByte c NO_EOI ;; ret tt) w)).
Proof.
  destruct b; cbn [when]; [|apply extends_refl].
  unfold bind, ret. pose proof (writeByte_quiet c w) as Hq.
  destruct (writeByte c NO_EOI w) as [r w1]. exact Hq.
Qed.

Lemma sendData_split data w :
  sendData data w = sendData_end (snd (sendData_bytes data w)).
Proof.
  unfold sendData, sendData_bytes, sendData_end, bind, isController, get.
  destruct (if cmode (cfg w) =? 2 then setControls CTAS w
            else setControls DTAS w) as [[] w1] eqn:E1.
  destruct (cmode (cfg w) =? 2); rewrite E1;
    destruct (sendData_loop data false w1) as [err w2];
    destruct (when (negb err) _ w2) as [[] w3]; reflexivity.
Qed.

Lemma sendData_bytes_frame data w :
  extends without_eoi w (snd (sendData_bytes data w)).
Proof.
  unfold sendData_bytes, bind, isController, get.
  assert (H1 : extends without_eoi w
                 (snd ((if cmode (cfg w) =? 2 then setControls CTAS
                        else setControls DTAS) w))).
  { destruct (cmode (cfg w) =? 2); apply setControls_frame; exact I. }
  destruct ((if cmode (cfg w) =? 2 then setControls CTAS
             else setControls DTAS) w) as [[] w1]. cbn [snd] in H1.
  pose proof (sendData_loop_frame data false w1) as H2.
  destruct (sendData_loop data false w1) as [err w2]. cbn [snd] in H2.
  eapply extends_trans; [exact H1|]. eapply extends_trans; [exact H2|].
  destruct err; cbn [negb when]; [apply extends_refl|].
  unfold ret.
  pose proof (when_write_quiet (Z.land (eos (cfg w2)) 2 =? 0) CR w2) as H3.
  destruct (when (Z.land (eos (cfg w2)) 2 =? 0) _ w2) as [[] w3].
  cbn [snd] in H3. eapply extends_trans; [exact H3|].
  apply when_write_quiet.
Qed.

(** The end of [sendData]: the EOI pulse, when EOI is configured, and the
    return to the idle state of the role. *)
Lemma sendData_end_run w :
  let w' := snd (sendData_end w) in
  let st := if cmode (cfg w) =? 2 then CIDS else DIDS in
  cfg w' = cfg w /\ host w' = host w /\ cstate w' = st
  /\ trace w' = trace w ++ (if eoi (cfg w) then [EoiPulse] else [])
                ++ [Controls st].
Proof.
  unfold sendData_end, bind, isController, get, when, ret, act.
  cbn zeta.
  destruct (eoi (cfg w)); destruct (cmode (cfg w) =? 2) eqn:Hm;
    cbn; rewrite ?Hm; cbn; rewrite <- ?List.app_assoc;
    repeat split; reflexivity.
Qed.

End FrameFacts.

(** ** Bus engine: sending data *)

Module SendFacts.
Import Bus Partner Handshake.

#[local] Opaque Layouts.setGpibState Layouts.setGpibDbus Layouts.readyGpibDbus.
#[local] Arguments set_ports _ !_ /.
#[local] Arguments set_cfg _ !_ /.
#[local] Arguments set_cstate _ !_ /.
#[local] Arguments set_deviceAddressed _ !_ /.
#[local] Arguments set_txBreak _ !_ /.
#[local] Arguments set_env _ _ !_ /.
#[local] Arguments log _ !_ /.
#[local] Arguments print _ !_ /.

Lemma acks_app n m : acks (n + m) = acks n ++ acks m.
Proof.
  induction n as [|n IH]; [reflexivity|].
  cbn [Nat.add acks]. rewrite IH, <- List.app_assoc. reflexivity.
Qed.

Lemma written_app st a b :
  Expect.written st (a ++ b) = Expect.written st a ++ Expect.written st b.
Proof. unfold Expect.written. apply flat_map_app. Qed.

(** The test [(data[i] != CR) || (data[i] != LF) || (data[i] != ESC)]
    holds for every byte. *)
Lemma sendData_filter_void c :
  negb (c =? CR) || negb (c =? LF) || negb (c =? ESC) = true.
Proof.
  destruct (Z.eqb_spec c CR) as [->|]; [reflexivity|reflexivity].
Qed.

Lemma sendData_loop_ack data : forall p c st da tb P rest tr h,
  1 < rtmo c -> calm P ->
  exists p' P',
    calm P'
    /\ sendData_loop data false
         (mkWorld p c st da tb P (acks (length data) ++ rest) tr h)
       = (false, mkWorld p' c st da tb P' rest
                   (tr ++ Expect.written st data) h).
Proof.
  induction data as [|b data IH]; intros p c st da tb P rest tr h Hr HP.
  - exists p, P. split; [exact HP|]. cbn. rewrite app_nil_r. reflexivity.
  - cbn [sendData_loop length acks ack app]. unfold bind, get. cbn [cfg].
    rewrite sendData_filter_void.
    destruct (BusFacts.writeByte_ack p c st da tb P (acks (length data) ++ rest) tr h
                b NO_EOI Hr HP) as [p1 Hw].
    destruct (IH p1 c st da tb accepted rest
                (tr ++ [Put st b (eoi c && NO_EOI); Accepted]) h Hr
                BusFacts.calm_accepted) as (p2 & P2 & HP2 & Hl).
    exists p2, P2. split; [exact HP2|].
    destruct (eoi c); rewrite Hw; unfold ret; cbn [nz Z.eqb negb];
      rewrite Hl; cbn [andb NO_EOI Expect.written flat_map app];
      rewrite <- List.app_assoc; reflexivity.
Qed.

Lemma write_opt_ack (b : bool) x p c st da tb P rest tr h :
  1 < rtmo c -> calm P ->
  exists p' P',
    calm P'
    /\ when b (_ <- writeByte x NO_EOI ;; ret tt)
         (mkWorld p c st da tb P
                  (acks (length (if b then [x] else [])) ++ rest) tr h)
       = (tt, mkWorld p' c st da tb P' rest
                (tr ++ Expect.written st (if b then [x] else [])) h).
Proof.
  intros Hr HP. destruct b; cbn [when length acks ack app].
  - destruct (BusFacts.writeByte_ack p c st da tb P rest tr h x NO_EOI Hr HP)
      as [p1 Hw].
    exists p1, accepted. split; [apply BusFacts.calm_accepted|].
    unfold bind, ret. rewrite Hw. cbn [Expect.written flat_map app].
    unfold NO_EOI. rewrite andb_false_r. reflexivity.
  - exists p, P. split; [exact HP|]. unfold ret. cbn.
    rewrite app_nil_r. reflexivity.
Qed.

(** [sendData] to a listener that accepts every byte. *)
Lemma sendData_ack data p c st da tb P rest tr h :
  1 < rtmo c -> calm P ->
  exists p' P',
    calm P'
    /\ sendData data
         (mkWorld p c st da tb P
            (acks (length (data ++ Expect.eos_bytes (eos c))) ++ rest) tr h)
       = (tt, mkWorld p' c (if cmode c =? 2 then CIDS else DIDS) da tb P' rest
                (tr ++ Expect.send_events (cmode c =? 2) (eoi c) (eos c) data)
                h).
Proof.
  intros Hr HP.
  unfold sendData, Expect.send_events, Expect.eos_bytes, bind, isController,
    get.
  cbn [cfg]. rewrite !length_app, !acks_app, <- !List.app_assoc.
  set (st1 := if cmode c =? 2 then CTAS else DTAS).
  set (st2 := if cmode c =? 2 then CIDS else DIDS).
  set (f1 := acks (length data) ++ _).
  assert (H1 : exists p1, (if cmode c =? 2 then setControls CTAS
                           else setControls DTAS)
                            (mkWorld p c st da tb P f1 tr h)
                          = (tt, mkWorld p1 c st1 da tb P f1
                                   (tr ++ [Controls st1]) h)).
  { subst st1. destruct (cmode c =? 2); apply CommandFacts.setControls_eq. }
  destruct H1 as [p1 ->]. subst f1.
  destruct (sendData_loop_ack data p1 c st1 da tb P
              (acks (length (if Z.land (eos c) 2 =? 0 then [CR] else []))
               ++ acks (length (if Z.land (eos c) 1 =? 0 then [LF] else []))
               ++ rest)
              (tr ++ [Controls st1]) h Hr HP) as (p2 & P2 & HP2 & ->).
  cbn [negb when]. cbn [cfg].
  destruct (write_opt_ack (Z.land (eos c) 2 =? 0) CR p2 c st1 da tb P2
              (acks (length (if Z.land (eos c) 1 =? 0 then [LF] else []))
               ++ rest)
              ((tr ++ [Controls st1]) ++ Expect.written st1 data) h Hr HP2)
    as (p3 & P3 & HP3 & H3).
  unfold bind in H3. rewrite H3. clear H3.
  destruct (write_opt_ack (Z.land (eos c) 1 =? 0) LF p3 c st1 da tb P3 rest
              (((tr ++ [Controls st1]) ++ Expect.written st1 data)
               ++ Expect.written st1
                    (if Z.land (eos c) 2 =? 0 then [CR] else [])) h Hr HP3)
    as (p4 & P4 & HP4 & H4).
  unfold bind in H4. rewrite H4. clear H4. cbn [cfg].
  rewrite !written_app.
  destruct (eoi c); cbn [when];
    unfold setGpibState, act, ret;
    cbn [set_ports log cfg ports cstate deviceAddressed txBreak pins future
         trace host];
    match goal with
    | |- context [(if cmode c =? 2 then setControls CIDS else setControls DIDS)
                    (mkWorld ?q _ _ _ _ _ _ ?t _)] =>
        assert (H6 : exists p6,
                   (if cmode c =? 2 then setControls CIDS
                    else setControls DIDS)
                     (mkWorld q c st1 da tb P4 rest t h)
                   = (tt, mkWorld p6 c st2 da tb P4 rest
                            (t ++ [Controls st2]) h))
          by (subst st2; destruct (cmode c =? 2);
              apply CommandFacts.setControls_eq);
        destruct H6 as [p6 ->]
    end;
    exists p6, P4; (split; [exact HP4|]);
    rewrite <- !List.app_assoc; reflexivity.
Qed.
End SendFacts.

(** ** Data lines on the wire (C6) *)

Module WireFacts.
Import Bus.

Lemma puts_in_app st a b :
  Expect.puts_in st (a ++ b) = Expect.puts_in st a ++ Expect.puts_in st b.
Proof.
  induction a as [|e a IH]; [reflexivity|].
  destruct e; cbn [Expect.puts_in app]; try exact IH.
  destruct (st0 =? st); [rewrite IH|]; reflexivity || exact IH.
Qed.

Lemma puts_in_written st bs :
  Expect.puts_in st (Expect.written st bs) = map (fun b : Z => (b, false)) bs.
Proof.
  induction bs as [|b bs IH]; [reflexivity|].
  cbn [Expect.written flat_map app Expect.puts_in map].
  rewrite Z.eqb_refl. f_equal. exact IH.
Qed.

Lemma puts_in_send_events (ctl eoi_on : bool) eos_code data :
  Expect.puts_in (if ctl then CTAS else DTAS)
                 (Expect.send_events ctl eoi_on eos_code data)
  = map (fun b : Z => (b, false)) (data ++ Expect.eos_bytes eos_code).
Proof.
  unfold Expect.send_events. rewrite !puts_in_app, puts_in_written.
  destruct eoi_on; cbn [Expect.puts_in app]; rewrite app_nil_r; reflexivity.
Qed.

End WireFacts.

(** C6.  A data block sent to a listener that accepts every byte:
    [sendData] enters the talk state of the role, puts the bytes of the
    block and then the terminator bytes of the EOS code on the bus, every
    one of them, the last included, with EOI not asserted; when EOI is
    configured it pulses EOI once after the last byte has been accepted,
    and then returns to the idle state.  So the bytes on the wire are the
    line and its terminator, but EOI does not accompany the final byte. *)
Theorem send_data_wire_bytes (data : list Z) (p : Layouts.Ports)
    (c : Bus.Config) (st : Z) (da tb : bool) (P : Bus.Snap)
    (rest : list Bus.Snap) (tr : list Bus.Event) (h : list Z) :
  1 < Bus.rtmo c -> Partner.calm P ->
  let ctl := Bus.cmode c =? 2 in
  let talking := if ctl then Bus.CTAS else Bus.DTAS in
  let sent := data ++ Expect.eos_bytes (Bus.eos c) in
  let w' := snd (Bus.sendData data
                   (Bus.mkWorld p c st da tb P
                      (Partner.acks (length sent) ++ rest) tr h)) in
  Bus.trace w' = tr ++ Expect.send_events ctl (Bus.eoi c) (Bus.eos c) data
  /\ Expect.puts_in talking
       (Expect.send_events ctl (Bus.eoi c) (Bus.eos c) data)
     = map (fun b : Z => (b, false)) sent
  /\ Bus.future w' = rest
  /\ Bus.cstate w' = (if ctl then Bus.CIDS else Bus.DIDS).
Proof.
  intros Hr HP ctl talking sent w'.
  destruct (SendFacts.sendData_ack data p c st da tb P rest tr h Hr HP)
    as (p' & P' & _ & Heq).
  subst w' sent. rewrite Heq. cbn [snd Bus.trace Bus.future Bus.cstate].
  split; [reflexivity|]. split; [|split; reflexivity].
  apply WireFacts.puts_in_send_events.
Qed.

(** The line ["*IDN?"] with EOI configured and EOS code 0. *)
Lemma send_data_wire_bytes_witness :
  let data := Sketch.str "*IDN?" in
  let w' := snd (Bus.sendData data
                   (Partner.world (Partner.config 2 true 0 0 0)
                                  (Partner.acks 7))) in
  Bus.trace w'
  = [Bus.Controls Bus.CTAS]
    ++ Expect.written Bus.CTAS (data ++ [Bus.CR; Bus.LF])
    ++ [Bus.EoiPulse; Bus.Controls Bus.CIDS]
  /\ Bus.cstate w' = Bus.CIDS.
Proof.
  intros data w'.
  destruct (send_data_wire_bytes data Partner.ports0
              (Partner.config 2 true 0 0 0) 0 false false Partner.idle
              [] [] [] ltac:(cbn; lia) BusFacts.calm_idle)
    as (Ht & _ & _ & Hs).
  split; [exact Ht | exact Hs].
Defined.

(** The whole path of a host line, evaluated: the line ["A?"] ended by
    LF, with EOI configured and EOS code 0, in controller role.  The
    instrument is addressed to listen, the bytes of the line and CR LF
    are put on the bus without EOI, EOI is pulsed, and the bus is
    un-addressed; the engine is left in CCMS. *)
Lemma host_line_on_wire :
  let s := Partner.sketch (Partner.config 2 true 0 0 0) (Partner.acks 8) in
  let s' := Sketch.host_line (Sketch.str "A?" ++ [Bus.LF]) s in
  Bus.trace (Sketch.bus s')
  = Expect.cmd 0 Bus.GC_UNL ++ Expect.cmd Bus.CCMS (Bus.GC_LAD + 1)
    ++ Expect.send_events true true 0 (Sketch.str "A?")
    ++ Expect.cmd Bus.CIDS Bus.GC_UNL ++ Expect.cmd Bus.CCMS Bus.GC_UNT
  /\ Expect.puts_in Bus.CTAS (Bus.trace (Sketch.bus s'))
     = [(65, false); (63, false); (13, false); (10, false)]
  /\ Bus.cstate (Sketch.bus s') = Bus.CCMS.
Proof. vm_compute. repeat split. Qed.

(** ** The bus state on return (C1) *)

Module RoleFacts.
Import Bus Handshake FrameFacts.

#[local] Opaque Layouts.setGpibState Layouts.setGpibDbus Layouts.readyGpibDbus.

Lemma hoare_bind {A B} P (m : M A) Q (k : A -> M B) R :
  hoare P m Q -> (forall a, hoare (Q a) (k a) R) -> hoare P (bind m k) R.
Proof.
  intros Hm Hk w HP. unfold bind. specialize (Hm w HP).
  destruct (m w) as [a w1]. apply Hk. exact Hm.
Qed.

Lemma hoare_ret {A} (P : A -> World -> Prop) (a : A) :
  hoare (P a) (ret a) P.
Proof. intros w H. exact H. Qed.

Lemma hoare_get {A} (P : World -> Prop) (f : World -> A) :
  hoare P (get f) (fun a w => a = f w /\ P w).
Proof. intros w H. split; [reflexivity | exact H]. Qed.

Lemma hoare_pure {A} (F : Prop) P (m : M A) Q :
  (F -> hoare P m Q) -> hoare (fun w => F /\ P w) m Q.
Proof. intros H w [HF HP]. apply H; assumption. Qed.

Lemma hoare_conseq {A} (P P' : World -> Prop) (m : M A)
    (Q Q' : A -> World -> Prop) :
  hoare P' m Q' -> (forall w, P w -> P' w) ->
  (forall a w, Q' a w -> Q a w) -> hoare P m Q.
Proof. intros H HP HQ w Hw. apply HQ, H, HP, Hw. Qed.

Lemma hoare_when (b : bool) (P : World -> Prop) (m : M unit) :
  hoare P m (fun _ => P) -> hoare P (when b m) (fun _ => P).
Proof. intros H. destruct b; [exact H | intros w Hw; exact Hw]. Qed.

(** A computation that keeps the configuration keeps every property of
    it. *)
Lemma hoare_keeps {A} (m : M A) (c : Config) :
  keeps_cfg m -> hoare (fun w => cfg w = c) m (fun _ w => cfg w = c).
Proof. intros H w Hw. rewrite H. exact Hw. Qed.

Lemma keeps_act (f : World -> World) :
  (forall w, cfg (f w) = cfg w) -> keeps_cfg (act f).
Proof. intros H w. apply H. Qed.

Lemma keeps_setControls st : keeps_cfg (setControls st).
Proof. intros w. apply (setControls_frame (fun _ => True) st w I). Qed.

Lemma keeps_sendCmd b : keeps_cfg (sendCmd b).
Proof. intros w. apply sendCmd_frame. Qed.

Lemma keeps_addressDevice a t : keeps_cfg (addressDevice a t).
Proof. intros w. apply addressDevice_frame. Qed.

Lemma keeps_unAddressDevice : keeps_cfg unAddressDevice.
Proof. intros w. apply unAddressDevice_frame. Qed.


Lemma hoare_setControls st c :
  hoare (fun w => cfg w = c) (setControls st)
        (fun _ w => cfg w = c /\ cstate w = st).
Proof.
  intros w Hw. split; [rewrite keeps_setControls; exact Hw|].
  apply setControls_cstate.
Qed.

Lemma same_role_refl w : same_role w w.
Proof. split; reflexivity. Qed.

Lemma same_role_trans w1 w2 w3 :
  same_role w1 w2 -> same_role w2 w3 -> same_role w1 w3.
Proof. intros [? ?] [? ?]. split; congruence. Qed.

Lemma rpass_role rwe atn stage db e w :
  same_role w (snd (rpass rwe atn stage db e w)).
Proof.
  unfold rpass.
  repeat match goal with
         | |- context [if ?b then _ else _] => destruct b
         end; cbn; split; reflexivity.
Qed.

Lemma rloop_role rwe atn timeval start fut : forall cur stage db e w,
  same_role w (snd (rloop fut rwe atn timeval start cur stage db e w)).
Proof.
  induction fut as [|s rest IH]; intros cur stage db e w; cbn [rloop];
    destruct (u32 (cur - start) <? timeval); try apply same_role_refl;
    pose proof (rpass_role rwe atn stage db e w) as Hp;
    destruct (rpass rwe atn stage db e w) as [[[[stage' brk] db'] e'] w1];
    cbn [snd] in Hp; destruct brk; try exact Hp.
  eapply same_role_trans; [|apply IH]. exact Hp.
Qed.

Lemma readByte_role db rwe w : same_role w (snd (readByte db rwe w)).
Proof.
  unfold readByte.
  pose proof (rloop_role rwe (negb (lvl (pins w) ATN)) (rtmo (cfg w))
                (ms (pins w)) (future w) (ms (pins w) + 1) 4 db false w)
    as Hl.
  destruct (rloop _ _ _ _ _ _ _ _ _ _) as [[[stage db'] e] w1].
  destruct (stage =? 9); exact Hl.
Qed.

Lemma rxloop_role rwe deb eb eorc fuel : forall r b0 b1 b2 e w,
  same_role w (snd (rxloop fuel rwe deb eb eorc r b0 b1 b2 e w)).
Proof.
  induction fuel as [|fuel IH]; intros r b0 b1 b2 e w; cbn [rxloop];
    [apply same_role_refl|].
  destruct (negb (r =? 0)); [apply same_role_refl|].
  destruct (txBreak w); [apply same_role_refl|].
  destruct (negb (lvl (pins w) ATN)); [apply same_role_refl|].
  pose proof (readByte_role b0 rwe w) as Hr.
  destruct (readByte b0 rwe w) as [[[r1 b0'] e'] w1]. cbn [snd] in Hr.
  destruct ((_ =? 1) || (_ =? 2)); [exact Hr|].
  destruct (_ =? 0); [|exact Hr].
  destruct (rx_stop _ _ _ _ _ _ _ _ _); [exact Hr|].
  eapply same_role_trans; [exact Hr|].
  eapply same_role_trans; [|apply IH]. split; reflexivity.
Qed.


Lemma keeps_sendData data : keeps_cfg (sendData data).
Proof.
  intros w. rewrite sendData_split.
  pose proof (sendData_bytes_frame data w) as (Hc & _).
  pose proof (sendData_end_run (snd (sendData_bytes data w))) as (Hc' & _).
  rewrite Hc', Hc. reflexivity.
Qed.

(** [sendData] returns in the idle state of the role. *)
Lemma sendData_idle data w :
  cstate (snd (sendData data w)) = (if cmode (cfg w) =? 2 then CIDS else DIDS).
Proof.
  rewrite sendData_split.
  pose proof (sendData_bytes_frame data w) as (Hc & _).
  pose proof (sendData_end_run (snd (sendData_bytes data w)))
    as (_ & _ & Hs & _).
  rewrite Hs, Hc. reflexivity.
Qed.

(** [receiveData] returns in the idle state of the role. *)
Lemma receiveData_idle de deb eb c :
  hoare (fun w => cfg w = c) (receiveData de deb eb)
    (fun _ w => cfg w = c
                /\ cstate w = (if cmode c =? 2 then CIDS else DIDS)).
Proof.
  unfold receiveData.
  eapply hoare_bind; [apply hoare_get|]. intros c1. cbn beta.
  eapply hoare_conseq with (P' := fun w => c1 = c /\ cfg w = c);
    [apply hoare_pure; intros -> | intros w [-> H]; auto
     | intros ? w H; exact H].
  eapply hoare_bind; [apply hoare_keeps, keeps_act; reflexivity|]. intros ?; cbn beta.
  eapply hoare_bind with (Q := fun _ w => cfg w = c).
  { destruct (cmode c =? 2).
    - eapply hoare_bind; [apply hoare_keeps, keeps_addressDevice|].
      intros ?; cbn beta. eapply hoare_bind; [apply hoare_keeps, keeps_setControls|].
      intros ?; cbn beta. apply (hoare_ret (fun _ w => cfg w = c)).
    - eapply hoare_bind; [apply hoare_keeps, keeps_setControls|].
      intros ?; cbn beta. apply (hoare_ret (fun _ w => cfg w = c)). }
  intros rwe.
  eapply hoare_bind; [apply hoare_keeps, keeps_act; reflexivity|]. intros ?; cbn beta.
  eapply hoare_bind with (Q := fun _ w => cfg w = c).
  { intros w Hw. destruct (rxloop_role rwe deb eb (Z.land (eor c) 7)
                             (S (length (future w))) 0 0 0 0 false w)
      as [Hc _]. rewrite Hc. exact Hw. }
  intros [r ed].
  eapply hoare_bind; [apply hoare_get|]. intros c2. cbn beta.
  eapply hoare_conseq with (P' := fun w => c2 = c /\ cfg w = c);
    [apply hoare_pure; intros -> | intros w [-> H]; auto
     | intros ? w H; exact H].
  eapply hoare_bind;
    [apply hoare_when, hoare_keeps, keeps_act; reflexivity|]. intros ?; cbn beta.
  eapply hoare_bind
    with (Q := fun _ w => cfg w = c
                 /\ cstate w = (if cmode c =? 2 then CIDS else DIDS)).
  { destruct (cmode c =? 2).
    - eapply hoare_bind; [apply hoare_keeps, keeps_unAddressDevice|].
      intros ?; cbn beta. apply hoare_setControls.
    - apply hoare_setControls. }
  intros ?; cbn beta.
  eapply hoare_bind
    with (Q := fun _ w => cfg w = c
                 /\ cstate w = (if cmode c =? 2 then CIDS else DIDS)).
  { intros w H. exact H. }
  intros ?; cbn beta.
  apply (hoare_ret (fun _ w => cfg w = c /\ cstate w = _)).
Qed.

(** A command sent in controller role leaves the engine in CCMS, whether
    the byte was accepted or not. *)
Lemma sendCmd_leaves_ccms b w :
  cmode (cfg w) = 2 -> cstate (snd (sendCmd b w)) = CCMS.
Proof. intros H. apply sendCmd_frame. rewrite H. reflexivity. Qed.

Lemma unAddressDevice_leaves_ccms w :
  cmode (cfg w) = 2 -> cstate (snd (unAddressDevice w)) = CCMS.
Proof. intros H. apply unAddressDevice_frame. rewrite H. reflexivity. Qed.

Lemma on_bus_bus {A} (m : M A) s :
  Sketch.bus (snd (Sketch.on_bus m s)) = snd (m (Sketch.bus s)).
Proof. unfold Sketch.on_bus. destruct (m (Sketch.bus s)). reflexivity. Qed.

Lemma on_bus_flags {A} (m : M A) s :
  Sketch.dataBufferFull (snd (Sketch.on_bus m s)) = Sketch.dataBufferFull s
  /\ Sketch.isVerbose (snd (Sketch.on_bus m s)) = Sketch.isVerbose s.
Proof.
  unfold Sketch.on_bus. destruct (m (Sketch.bus s)). split; reflexivity.
Qed.

(** [sendToInstrument] ends with [unAddressDevice()], which leaves the
    engine in CCMS. *)
Lemma sendToInstrument_ccms buffr dsize s :
  cmode (cfg (Sketch.bus s)) = 2 -> Sketch.dataBufferFull s = false ->
  cstate (Sketch.bus (Sketch.sendToInstrument buffr dsize s)) = CCMS.
Proof.
  intros Hm Hf. unfold Sketch.sendToInstrument.
  set (s1 := if Sketch.at_ buffr (Z.to_nat (dsize - 1)) =? 63
             then Sketch.set_isQuery true s else s).
  assert (H1 : cmode (cfg (Sketch.bus s1)) = 2
               /\ Sketch.dataBufferFull s1 = false).
  { subst s1. destruct (_ =? 63); split; assumption. }
  clearbody s1. clear s Hm Hf. destruct H1 as [Hm Hf].
  set (s2 := if negb (deviceAddressed (Sketch.bus s1))
             then snd (Sketch.on_bus
                         (addressDevice (paddr (cfg (Sketch.bus s1))) LISTEN)
                         s1)
             else s1).
  assert (H2 : cmode (cfg (Sketch.bus s2)) = 2
               /\ Sketch.dataBufferFull s2 = false).
  { subst s2. destruct (negb _); [|split; assumption].
    rewrite on_bus_bus, keeps_addressDevice.
    split; [exact Hm | rewrite (proj1 (on_bus_flags _ _)); exact Hf]. }
  clearbody s2. clear s1 Hm Hf. destruct H2 as [Hm Hf].
  set (s3 := snd (Sketch.on_bus
                    (sendData (take (Z.to_nat dsize) buffr)) s2)).
  assert (H3 : cmode (cfg (Sketch.bus s3)) = 2
               /\ Sketch.dataBufferFull s3 = false).
  { subst s3. rewrite on_bus_bus, keeps_sendData.
    split; [exact Hm | rewrite (proj1 (on_bus_flags _ _)); exact Hf]. }
  clearbody s3. clear s2 Hm Hf. destruct H3 as [Hm Hf].
  rewrite Hf.
  destruct (Sketch.isVerbose _); cbn;
    change (cstate (snd (unAddressDevice (Sketch.bus s3))) = CCMS)
      || (rewrite on_bus_bus); apply unAddressDevice_leaves_ccms, Hm.
Qed.

(** [++dcl] returns without [setControls(CIDS)] when the command byte
    was not accepted. *)
Lemma dcl_h_ccms s :
  cmode (cfg (Sketch.bus s)) = 2 ->
  fst (Sketch.on_bus (sendCmd GC_DCL) s) = true ->
  cstate (Sketch.bus (Sketch.dcl_h s)) = CCMS.
Proof.
  intros Hm He. unfold Sketch.dcl_h.
  pose proof (on_bus_bus (sendCmd GC_DCL) s) as Hb.
  destruct (Sketch.on_bus (sendCmd GC_DCL) s) as [e s1].
  cbn [fst snd] in *. subst e.
  assert (Hs : cstate (Sketch.bus s1) = CCMS)
    by (rewrite Hb; apply sendCmd_leaves_ccms, Hm).
  destruct (Sketch.isVerbose s1); exact Hs.
Qed.
End RoleFacts.

(** C1.  The bus state on return, in controller role.  [sendData] and
    [receiveData] return in CIDS whatever happens on the bus.  Sending a
    data line to the instrument does not: [sendToInstrument] calls
    [unAddressDevice()] after [sendData], and the two commands it sends
    leave the engine in CCMS, with ATN asserted; nothing sets CIDS
    afterwards.  Neither does [++dcl] when the command byte is not
    accepted: the handler returns before its [setControls(CIDS)]. *)
Theorem bus_state_on_return (s : Sketch.State) :
  Bus.cmode (Bus.cfg (Sketch.bus s)) = 2 ->
  (forall data,
     Bus.cstate (snd (Bus.sendData data (Sketch.bus s))) = Bus.CIDS)
  /\ (forall detectEoi detectEndByte endByte,
        Bus.cstate (snd (Bus.receiveData detectEoi detectEndByte endByte
                           (Sketch.bus s))) = Bus.CIDS)
  /\ (forall buffr dsize,
        Sketch.dataBufferFull s = false ->
        Bus.cstate (Sketch.bus (Sketch.sendToInstrument buffr dsize s))
        = Bus.CCMS)
  /\ (fst (Sketch.on_bus (Bus.sendCmd Bus.GC_DCL) s) = true ->
      Bus.cstate (Sketch.bus (Sketch.dcl_h s)) = Bus.CCMS).
Proof.
  intros Hm. repeat split.
  - intros data. rewrite RoleFacts.sendData_idle, Hm. reflexivity.
  - intros de deb eb.
    destruct (RoleFacts.receiveData_idle de deb eb (Bus.cfg (Sketch.bus s))
                (Sketch.bus s) eq_refl) as [_ Hs].
    rewrite Hs, Hm. reflexivity.
  - intros buffr dsize Hf. apply RoleFacts.sendToInstrument_ccms; assumption.
  - apply RoleFacts.dcl_h_ccms, Hm.
Qed.

(** The line ["A?"] sent to a listener that accepts every byte, and
    [++dcl] on a bus without a listener. *)
Lemma bus_state_on_return_witness :
  let c := Partner.config 2 true 0 0 0 in
  Bus.cstate (Sketch.bus (Sketch.sendToInstrument
                            (Sketch.str "A?") 2
                            (Partner.sketch c (Partner.acks 8))))
  = Bus.CCMS
  /\ Bus.cstate (Sketch.bus (Sketch.dcl_h (Partner.sketch c []))) = Bus.CCMS.
Proof.
  intros c. split.
  - apply (bus_state_on_return (Partner.sketch c (Partner.acks 8)));
      reflexivity.
  - apply (bus_state_on_return (Partner.sketch c [])); reflexivity.
Defined.

(** ** Serial-poll response (C7) *)

Module StatusFacts.
Import Bus Partner Handshake Expect.

Lemma masked_bit reg val m n :
  0 <= n < 8 ->
  Z.testbit (Layouts.masked reg val m) n
  = if Z.testbit m n then Z.testbit val n else Z.testbit reg n.
Proof.
  intros Hn. unfold Layouts.masked.
  rewrite u8_bits by lia.
  replace (n <? 8) with true by (symmetry; apply Z.ltb_lt; lia).
  rewrite Z.lor_spec, !Z.land_spec, Z.lnot_spec by lia.
  destruct (Z.testbit m n), (Z.testbit val n), (Z.testbit reg n); reflexivity.
Qed.

(** What [clrSrqSig] does to the registers. *)
Lemma clrSrqSig_releases p :
  srq_released (Layouts.setGpibState 64 64 0 (Layouts.setGpibState 0 64 1 p)).
Proof.
  unfold srq_released, Layouts.setGpibState.
  change (nz (Z.land 64 30)) with false.
  change (nz (Z.land 64 225)) with true.
  cbv iota zeta.
  change (1 =? 0) with false. change (1 =? 1) with true.
  change (0 =? 0) with true.
  cbv iota. cbn [Layouts.DDRE Layouts.PORTE].
  split; rewrite masked_bit by lia; reflexivity.
Qed.

#[local] Opaque Layouts.setGpibState Layouts.setGpibDbus Layouts.readyGpibDbus.
#[local] Arguments set_ports _ !_ /.
#[local] Arguments set_cfg _ !_ /.
#[local] Arguments set_cstate _ !_ /.
#[local] Arguments set_deviceAddressed _ !_ /.
#[local] Arguments set_txBreak _ !_ /.
#[local] Arguments set_env _ _ !_ /.
#[local] Arguments log _ !_ /.
#[local] Arguments print _ !_ /.

(** [sendStatus] to a controller that accepts the byte. *)
Lemma sendStatus_ack p c st da tb P rest tr h :
  1 < rtmo c -> calm P ->
  exists p',
    sendStatus (mkWorld p c st da tb P (ack ++ rest) tr h)
    = (tt, mkWorld (Layouts.setGpibState 64 64 0
                      (Layouts.setGpibState 0 64 1 p'))
                   (set_stat (Z.land (stat c) (Z.lnot 64)) c)
                   DIDS da tb accepted rest
                   (tr ++ status_events st (stat c)) h).
Proof.
  intros Hr HP. unfold sendStatus, status_events, bind, get, when.
  cbn [cstate ack app].
  assert (H1 : exists p1,
             (if negb (st =? DTAS) then setControls DTAS else ret tt)
               (mkWorld p c st da tb P (ready :: accepted :: rest) tr h)
             = (tt, mkWorld p1 c DTAS da tb P (ready :: accepted :: rest)
                      (tr ++ (if st =? DTAS then [] else [Controls DTAS]))
                      h)).
  { destruct (Z.eqb_spec st DTAS) as [->|Hne]; cbn [negb].
    - exists p. unfold ret. rewrite app_nil_r. reflexivity.
    - apply CommandFacts.setControls_eq. }
  destruct H1 as [p1 ->]. cbn [cfg].
  destruct (BusFacts.writeByte_ack p1 c DTAS da tb P rest
              (tr ++ (if st =? DTAS then [] else [Controls DTAS])) h
              (stat c) NO_EOI Hr HP) as [p2 ->].
  destruct (CommandFacts.setControls_eq DIDS p2 c DTAS da tb accepted rest
              ((tr ++ (if st =? DTAS then [] else [Controls DTAS]))
               ++ [Put DTAS (stat c) (eoi c && NO_EOI); Accepted]) h)
    as [p3 ->].
  exists p3. unfold clrSrqSig, setGpibState, act, bind. cbn.
  unfold NO_EOI. rewrite andb_false_r, <- !List.app_assoc. reflexivity.
Qed.





End StatusFacts.




(** ** Bus engine: receiving data *)

Module ReceiveFacts.
Import Bus Partner Handshake.

#[local] Opaque Layouts.setGpibState Layouts.setGpibDbus Layouts.readyGpibDbus.
#[local] Arguments set_ports _ !_ /.
#[local] Arguments set_cfg _ !_ /.
#[local] Arguments set_cstate _ !_ /.
#[local] Arguments set_deviceAddressed _ !_ /.
#[local] Arguments set_txBreak _ !_ /.
#[local] Arguments set_env _ _ !_ /.
#[local] Arguments log _ !_ /.
#[local] Arguments print _ !_ /.

(** One round of the receive loop with a talker that sends [b]. *)
Lemma rxloop_step fuel rwe deb eb eorc p c st da P rest tr h b0 b1 b2 e0 b e :
  1 < rtmo c -> calm P -> 0 <= b < 256 ->
  exists p',
    rxloop (S fuel) rwe deb eb eorc 0 b0 b1 b2 e0
      (mkWorld p c st da false P (talk b e ++ rest) tr h)
    = (if rx_stop rwe (rwe && e) deb 0 eb b b1 b2 eorc
       then pair (0, rwe && e)
       else rxloop fuel rwe deb eb eorc 0 b b b1 (rwe && e))
        (mkWorld p' c st da false idle rest (tr ++ [Got b (rwe && e)])
                 (h ++ [b])).
Proof.
  intros Hr HP Hb.
  destruct (BusFacts.readByte_talk p c st da false P rest tr h b0 rwe b e
              Hr HP Hb) as [p' Hrd].
  exists p'. cbn [rxloop txBreak pins Z.eqb negb talk app].
  destruct HP as (_ & _ & _ & Hatn & _). rewrite Hatn. cbn [negb].
  rewrite Hrd. cbn [pins idle lvl negb Z.eqb orb print].
  destruct (rx_stop _ _ _ _ _ _ _ _ _); reflexivity.
Qed.

(** The talker is silent: the read runs into the timeout. *)
Lemma readByte_silent p c st da tb P tr h db rwe :
  1 < rtmo c -> calm P ->
  exists p',
    readByte db rwe (mkWorld p c st da tb P [] tr h)
    = ((6, db, false), mkWorld p' c st da tb P [] tr h).
Proof.
  intros Hr (Hms & Hndac & Hdav & Hatn & Hifc).
  assert (H1 : (1 <? rtmo c) = true) by (apply Z.ltb_lt; lia).
  unfold readByte. cbn [pins future cfg]. rewrite Hms, Hatn.
  cbn [negb rloop]. change (u32 (0 + 1 - 0)) with 1. rewrite H1.
  rewrite BusFacts.rpass_wait by (try split; assumption).
  cbn. eexists. reflexivity.
Qed.

Lemma rxloop_silent fuel rwe deb eb eorc p c st da P tr h b0 b1 b2 e0 :
  1 < rtmo c -> calm P ->
  exists p',
    rxloop (S fuel) rwe deb eb eorc 0 b0 b1 b2 e0
      (mkWorld p c st da false P [] tr h)
    = ((6, false), mkWorld p' c st da false P [] tr h).
Proof.
  intros Hr HP.
  destruct (readByte_silent p c st da false P tr h b0 rwe Hr HP)
    as [p' Hrd].
  exists p'. cbn [rxloop txBreak pins Z.eqb negb].
  destruct HP as (_ & _ & _ & Hatn & _). rewrite Hatn. cbn [negb].
  rewrite Hrd. cbn [pins]. rewrite Hatn. reflexivity.
Qed.

(** The receive loop with a talker that sends [data] and then falls
    silent follows [Expect.rx_run]. *)
Lemma rxloop_talks rwe deb eb eorc : forall data fuel p c st da P tr h
    b0 b1 b2 e0,
  1 < rtmo c -> calm P -> Forall is_byte data -> (length data < fuel)%nat ->
  exists p' P' tr',
    calm P'
    /\ rxloop fuel rwe deb eb eorc 0 b0 b1 b2 e0
         (mkWorld p c st da false P (talks data) tr h)
       = let '(out, remaining, ef, stopped) :=
           Expect.rx_run rwe deb eb eorc b1 b2 data in
         ((if stopped then 0 else 6, ef),
          mkWorld p' c st da false P' (talks remaining) (tr ++ tr')
                  (h ++ out)).
Proof.
  induction data as [|[b e] data IH];
    intros fuel p c st da P tr h b0 b1 b2 e0 Hr HP Hd Hf.
  - destruct fuel as [|fuel]; [cbn in Hf; lia|]. cbn [talks].
    destruct (rxloop_silent fuel rwe deb eb eorc p c st da P tr h
                b0 b1 b2 e0 Hr HP) as [p' ->].
    exists p', P, []. split; [exact HP|]. cbn. rewrite !app_nil_r.
    reflexivity.
  - destruct fuel as [|fuel]; [cbn in Hf; lia|].
    apply Forall_cons in Hd. destruct Hd as [Hb Hd]. unfold is_byte in Hb.
    cbn [fst] in Hb. cbn [length] in Hf.
    cbn [talks Expect.rx_run].
    destruct (rxloop_step fuel rwe deb eb eorc p c st da P (talks data) tr h
                b0 b1 b2 e0 b e Hr HP Hb) as [p1 ->].
    destruct (rx_stop rwe (rwe && e) deb 0 eb b b1 b2 eorc).
    + exists p1, idle, [Got b (rwe && e)].
      split; [apply BusFacts.calm_idle | reflexivity].
    + destruct (IH fuel p1 c st da idle (tr ++ [Got b (rwe && e)]) (h ++ [b])
                  b b b1 (rwe && e) Hr BusFacts.calm_idle Hd ltac:(lia))
        as (p2 & P2 & tr2 & HP2 & ->).
      destruct (Expect.rx_run rwe deb eb eorc b b1 data)
        as [[[out remaining] ef] stopped].
      exists p2, P2, (Got b (rwe && e) :: tr2). split; [exact HP2|].
      rewrite <- !List.app_assoc. reflexivity.
Qed.


Lemma length_talks data : length (talks data) = (2 * length data)%nat.
Proof.
  induction data as [|[b e] data IH]; [reflexivity|].
  cbn [talks talk app length]. rewrite IH. lia.
Qed.

Lemma receiveData_end_run r ed w :
  let res := receiveData_end r ed w in
  fst res = (0 <? r)
  /\ host (snd res)
     = host w ++ (if ed && eot_en (cfg w) then [eot_ch (cfg w)] else []).
Proof.
  cbn zeta. unfold receiveData_end, bind, get, act, ret.
  set (w1 := snd (when (ed && eot_en (cfg w))
                    (fun w0 => (tt, print [eot_ch (cfg w)] w0)) w)).
  assert (H1 : host w1 = host w ++ (if ed && eot_en (cfg w)
                                    then [eot_ch (cfg w)] else [])).
  { subst w1. destruct (ed && eot_en (cfg w)); cbn;
      [reflexivity | rewrite app_nil_r; reflexivity]. }
  destruct (when _ _ w) as [[] w1']. cbn [snd] in w1. subst w1.
  rewrite <- H1. clear H1.
  destruct (cmode (cfg w) =? 2).
  - pose proof (FrameFacts.unAddressDevice_frame w1') as ((_ & Hh & _) & _).
    destruct (unAddressDevice w1') as [? w2]. cbn [snd] in Hh.
    pose proof (FrameFacts.setControls_frame (fun _ => True) CIDS w2 I)
      as (_ & Hh' & _).
    destruct (setControls CIDS w2) as [[] w3]. cbn [snd fst] in *.
    split; [reflexivity | change (host w3 = host w1'); congruence].
  - pose proof (FrameFacts.setControls_frame (fun _ => True) DIDS w1' I)
      as (_ & Hh' & _).
    destruct (setControls DIDS w1') as [[] w3]. cbn [snd fst] in *.
    split; [reflexivity | change (host w3 = host w1'); congruence].
Qed.

(** [receiveData] with a talker that sends [data] and then falls silent:
    the result and the bytes forwarded to the host. *)
Lemma receiveData_talks de deb eb data p c st da tb P tr h :
  1 < rtmo c -> calm P -> Forall is_byte data ->
  let ctl := cmode c =? 2 in
  let rwe := if ctl then eoi c || de || (eor c =? 7) else true in
  let res := receiveData de deb eb
               (mkWorld p c st da tb P
                        ((if ctl then ack ++ ack else []) ++ talks data)
                        tr h) in
  let run := Expect.rx_run rwe deb eb (Z.land (eor c) 7) 0 0 data in
  fst res = negb (snd run)
  /\ host (snd res)
     = h ++ fst (fst (fst run))
         ++ (if snd (fst run) && eot_en c then [eot_ch c] else []).
Proof.
  intros Hr HP Hd ctl rwe res run.
  assert (Hloop : forall p1 st1 da1 P1 tr1, calm P1 ->
            exists w3,
              rxloop (S (length (talks data))) rwe deb eb (Z.land (eor c) 7)
                     0 0 0 0 false
                     (mkWorld p1 c st1 da1 false P1 (talks data) tr1 h)
              = ((if snd run then 0 else 6, snd (fst run)), w3)
              /\ cfg w3 = c /\ host w3 = h ++ fst (fst (fst run))).
  { intros p1 st1 da1 P1 tr1 HP1.
    destruct (rxloop_talks rwe deb eb (Z.land (eor c) 7) data
                (S (length (talks data))) p1 c st1 da1 P1 tr1 h 0 0 0 false
                Hr HP1 Hd ltac:(rewrite length_talks; lia))
      as (p2 & P2 & tr2 & _ & Heq).
    rewrite Heq. subst run.
    destruct (Expect.rx_run _ _ _ _ _ _ _) as [[[out remaining] ef] stopped].
    eexists. split; [reflexivity|]. split; reflexivity. }
  assert (Hend : forall w3,
            cfg w3 = c -> host w3 = h ++ fst (fst (fst run)) ->
            let r := receiveData_end (if snd run then 0 else 6)
                                     (snd (fst run)) w3 in
            fst r = negb (snd run)
            /\ host (snd r)
               = h ++ fst (fst (fst run))
                   ++ (if snd (fst run) && eot_en c then [eot_ch c] else [])).
  { intros w3 Hc Hh.
    destruct (receiveData_end_run (if snd run then 0 else 6)
                (snd (fst run)) w3) as [Hf Hh'].
    cbn zeta. rewrite Hf, Hh', Hc, Hh, <- List.app_assoc.
    split; [destruct (snd run); reflexivity | reflexivity]. }
  assert (Hrun : exists w3,
             res = receiveData_end (if snd run then 0 else 6)
                                   (snd (fst run)) w3
             /\ cfg w3 = c /\ host w3 = h ++ fst (fst (fst run))).
  { subst res. unfold receiveData, bind, get, act.
    cbn [cfg set_txBreak ports cstate deviceAddressed txBreak pins future
         trace host].
    subst ctl. destruct (cmode c =? 2) eqn:Hm.
    - destruct (CommandFacts.addressDevice_ack p c st da false P (talks data)
                  tr h (paddr c) true Hr HP) as [p1 H1].
      rewrite <- List.app_assoc. rewrite H1.
      destruct (CommandFacts.setControls_eq CLAS p1 c CCMS true false
                  accepted (talks data)
                  (tr ++ Expect.cmd st GC_UNL
                      ++ Expect.cmd CCMS (u8 (GC_TAD + paddr c)))
                  h) as [p2 H2].
      rewrite H2. unfold ret at 1. unfold readyGpibDbus, act.
      cbn [set_ports ports cfg cstate deviceAddressed txBreak pins future
           trace host].
      destruct (Hloop (Layouts.readyGpibDbus p2) CLAS true accepted
                  ((tr ++ Expect.cmd st GC_UNL
                       ++ Expect.cmd CCMS (u8 (GC_TAD + paddr c)))
                   ++ [Controls CLAS]) BusFacts.calm_accepted)
        as (w3 & Heq & Hc & Hh).
      subst rwe. cbn iota in Heq. rewrite Heq.
      exists w3. split; [reflexivity | split; assumption].
    - cbn [app].
      destruct (CommandFacts.setControls_eq DLAS p c st da false P
                  (talks data) tr h) as [p2 H2].
      rewrite H2. unfold ret at 1. unfold readyGpibDbus, act.
      cbn [set_ports ports cfg cstate deviceAddressed txBreak pins future
           trace host].
      destruct (Hloop (Layouts.readyGpibDbus p2) DLAS da P
                  (tr ++ [Controls DLAS]) HP) as (w3 & Heq & Hc & Hh).
      subst rwe. cbn iota in Heq. rewrite Heq.
      exists w3. split; [reflexivity | split; assumption]. }
  destruct Hrun as (w3 & -> & Hc & Hh).
  exact (Hend w3 Hc Hh).
Qed.
End ReceiveFacts.

(** ** Terminators of a receive (C4, C5) *)

Module TerminatorFacts.
Import Bus Partner Handshake.

Lemma prev1_snoc seen b : prev1 (seen ++ [b]) = b.
Proof. unfold prev1. rewrite rev_unit. reflexivity. Qed.

Lemma prev2_snoc seen b : prev2 (seen ++ [b]) = prev1 seen.
Proof. unfold prev1, prev2. rewrite rev_unit. reflexivity. Qed.

(** [isTerminatorDetected] finds the EOR sequence of the code at the end
    of the bytes received. *)
Lemma isTerminatorDetected_ends code seen b :
  0 <= code <= 6 ->
  isTerminatorDetected b (prev1 seen) (prev2 seen) code
  = match Expect.eor_sequence code with
    | Some t => Expect.ends_with t (seen ++ [b])
    | None => false
    end.
Proof.
  intros Hc. unfold prev1, prev2, Expect.ends_with. rewrite rev_unit.
  assert (H : code = 0 \/ code = 1 \/ code = 2 \/ code = 3 \/ code = 4
              \/ code = 5 \/ code = 6) by lia.
  destruct (rev seen) as [|x [|y r]];
    destruct H as [->|[->|[->|[->|[->|[->| ->]]]]]];
    cbn; unfold CR, LF;
    repeat match goal with
           | |- context [?u =? ?v] => destruct (Z.eqb_spec u v)
           end; cbn; try reflexivity; try lia.
Qed.

(** With EOI as the terminator the loop forwards the bytes up to the
    first one sent with EOI, whatever the EOR code and the end byte. *)
Lemma rx_run_eoi deb eb eorc : forall data b1 b2,
  fst (fst (fst (Expect.rx_run true deb eb eorc b1 b2 data)))
  = Expect.upto_eoi data.
Proof.
  induction data as [|[b e] data IH]; intros b1 b2; [reflexivity|].
  cbn [Expect.rx_run Expect.upto_eoi rx_stop andb].
  destruct e; [reflexivity|].
  specialize (IH b b1).
  destruct (Expect.rx_run true deb eb eorc b b1 data) as [[[out r] ef] s].
  cbn [fst] in *. rewrite IH. reflexivity.
Qed.

(** Without EOI and without end byte the loop forwards the bytes up to
    the EOR sequence. *)
Lemma rx_run_eor eb code : 0 <= code <= 6 -> forall data seen,
  fst (fst (fst (Expect.rx_run false false eb code (prev1 seen) (prev2 seen)
                               data)))
  = Expect.upto_eor code seen (map fst data).
Proof.
  intros Hc. induction data as [|[b e] data IH]; intros seen; [reflexivity|].
  cbn [Expect.rx_run Expect.upto_eor rx_stop andb map fst].
  rewrite (isTerminatorDetected_ends code seen b Hc).
  specialize (IH (seen ++ [b])). rewrite prev1_snoc, prev2_snoc in IH.
  destruct (Expect.eor_sequence code) as [t|].
  - destruct (Expect.ends_with t (seen ++ [b])); [reflexivity|].
    destruct (Expect.rx_run false false eb code b (prev1 seen) data)
      as [[[out r] ef] s].
    cbn [fst] in *. rewrite IH. reflexivity.
  - destruct (Expect.rx_run false false eb code b (prev1 seen) data)
      as [[[out r] ef] s].
    cbn [fst] in *. rewrite IH. reflexivity.
Qed.

(** In end-byte mode the test [r == endByte] compares the result code 0
    of the read with the end byte: the byte read plays no part. *)
Lemma rx_run_end_byte eb eorc : forall data b1 b2,
  Expect.rx_run false true eb eorc b1 b2 data
  = if eb =? 0
    then match data with
         | [] => ([], [], false, false)
         | (b, _) :: rest => ([b], rest, false, true)
         end
    else (map fst data, [], false, false).
Proof.
  induction data as [|[b e] data IH]; intros b1 b2.
  - destruct (eb =? 0); reflexivity.
  - cbn [Expect.rx_run andb map fst]. unfold rx_stop.
    rewrite (Z.eqb_sym 0 eb). destruct (eb =? 0) eqn:E; [reflexivity|].
    rewrite IH, ?E. reflexivity.
Qed.

End TerminatorFacts.

Module ReadFacts.
Import Bus Partner Handshake.

Lemma land_7_small x : 0 <= x <= 7 -> Z.land x 7 = x.
Proof.
  intros H. change 7 with (Z.ones 3). rewrite Z.land_ones by lia.
  apply Z.mod_small. change (2 ^ 3) with 8. lia.
Qed.

End ReadFacts.

(** C4.  A receive in end-byte mode, in controller role without EOI
    detection, from a talker that sends [data] and then falls silent.
    The loop compares the result code of the read, which is 0 at that
    point, with the end byte, not the byte read: with an end byte other
    than 0 every byte of the talker is forwarded, bytes equal to the end
    byte and bytes after them included, and the receive ends in the
    timeout and returns ERR; with end byte 0 it stops after the first
    byte, whatever that byte is. *)
Theorem end_byte_not_compared (endByte : Z) (data : list (Z * bool))
    (p : Layouts.Ports) (c : Bus.Config) (st : Z) (da tb : bool)
    (P : Bus.Snap) (tr : list Bus.Event) (h : list Z) :
  Bus.cmode c = 2 -> Bus.eoi c = false -> Bus.eor c <> 7 ->
  1 < Bus.rtmo c -> Partner.calm P -> Forall Handshake.is_byte data ->
  let res := Bus.receiveData false true endByte
               (Bus.mkWorld p c st da tb P
                  (Partner.ack ++ Partner.ack ++ Partner.talks data) tr h) in
  Bus.host (snd res)
  = h ++ (if endByte =? 0 then take 1 (map fst data) else map fst data)
  /\ fst res
     = (if endByte =? 0 then match data with [] => true | _ => false end
        else true).
Proof.
  intros Hm He Hr Ht HP Hd res.
  pose proof (ReceiveFacts.receiveData_talks false true endByte data p c st
                da tb P tr h Ht HP Hd) as H.
  cbn zeta in H. rewrite Hm in H. cbn [Z.eqb Pos.eqb] in H.
  rewrite <- List.app_assoc in H.
  assert (Hrwe : Bus.eoi c || false || (Bus.eor c =? 7) = false).
  { rewrite He. cbn [orb]. apply Z.eqb_neq. exact Hr. }
  rewrite Hrwe, TerminatorFacts.rx_run_end_byte in H.
  subst res. destruct H as [Hf Hh]. rewrite Hf, Hh.
  destruct (endByte =? 0).
  - destruct data as [|[b e] rest]; cbn; rewrite ?app_nil_r;
      split; reflexivity.
  - cbn. rewrite app_nil_r. split; reflexivity.
Qed.

(** [++read 10] with a talker that sends ["A"], LF, ["B"]. *)
Lemma end_byte_not_compared_witness :
  let data := [(65, false); (10, false); (66, false)] in
  let res := Bus.receiveData false true 10
               (Partner.world (Partner.config 2 false 0 3 0)
                  (Partner.acks 2 ++ Partner.talks data)) in
  Bus.host (snd res) = [65; 10; 66] /\ fst res = true.
Proof.
  intros data res.
  apply (end_byte_not_compared 10 data Partner.ports0
           (Partner.config 2 false 0 3 0) 0 false false Partner.idle [] []);
    try reflexivity; try discriminate; try (cbn; lia).
  - apply BusFacts.calm_idle.
  - repeat constructor; unfold Handshake.is_byte; cbn; lia.
Defined.

(** [++read 10], evaluated: the talker sends ["A"], LF, ["B"] and all
    three bytes reach the host. *)
Lemma read_h_end_byte :
  let data := [(65, false); (10, false); (66, false)] in
  let s := Partner.sketch (Partner.config 2 false 0 3 0)
             (Partner.acks 4 ++ Partner.talks data) in
  let s' := Sketch.read_h (Some (Sketch.str "10")) s in
  Sketch.readWithEndByte s' = true
  /\ Sketch.endByte s' = 10
  /\ Bus.host (Sketch.bus s') = [65; 10; 66].
Proof. vm_compute. repeat split. Qed.

(** C5, as stated, fails in device role: with [eoi] off, no EOI detection
    requested and EOR code 2 (LF) the receive is to stop at the LF, but in
    device role the engine reads with EOI whatever the settings. *)
Lemma receive_device_role_ignores_eor :
  let c := Partner.config 1 false 0 2 0 in
  let data := [(65, false); (10, false); (66, true)] in
  let res := Bus.receiveData false false 0
               (Partner.world c (Partner.talks data)) in
  Expect.forwarded c false data = [65; 10]
  /\ Bus.host (snd res) = [65; 10; 66]
  /\ Bus.host (snd res) <> Expect.forwarded c false data.
Proof. vm_compute. repeat split; discriminate. Qed.

(** C5, amended.  A receive without end-byte mode from a talker that
    sends [data] and then falls silent, with EOR code 0..7 and no EOT
    character configured.  In controller role: if [cfg.eoi] is set, EOI
    detection was requested or the EOR code is 7, the bytes up to the
    first one sent with EOI are forwarded and the EOR sequence is
    ignored; otherwise the bytes up to the first occurrence of the EOR
    sequence of the code (0 CR LF, 1 CR, 2 LF, 3 none, 4 LF CR, 5 ETX,
    6 CR LF ETX).  In device role EOI is the terminator whatever the
    settings. *)
Theorem receive_terminators (detectEoi : bool) (data : list (Z * bool))
    (p : Layouts.Ports) (c : Bus.Config) (st : Z) (da tb : bool)
    (P : Bus.Snap) (tr : list Bus.Event) (h : list Z) :
  1 < Bus.rtmo c -> Partner.calm P -> Forall Handshake.is_byte data ->
  0 <= Bus.eor c <= 7 -> Bus.eot_en c = false ->
  let ctl := Bus.cmode c =? 2 in
  let res := Bus.receiveData detectEoi false 0
               (Bus.mkWorld p c st da tb P
                  ((if ctl then Partner.ack ++ Partner.ack else [])
                   ++ Partner.talks data) tr h) in
  Bus.host (snd res)
  = h ++ (if ctl then Expect.forwarded c detectEoi data
          else Expect.upto_eoi data).
Proof.
  intros Ht HP Hd Hr He ctl res.
  pose proof (ReceiveFacts.receiveData_talks detectEoi false 0 data p c st
                da tb P tr h Ht HP Hd) as [_ Hh].
  fold ctl in Hh. fold res in Hh. rewrite Hh, He, andb_false_r, app_nil_r.
  f_equal. unfold Expect.forwarded. destruct ctl.
  - destruct (Bus.eoi c || detectEoi || (Bus.eor c =? 7)) eqn:E.
    + apply TerminatorFacts.rx_run_eoi.
    + assert (H7 : Bus.eor c <> 7).
      { apply Z.eqb_neq. apply orb_false_elim in E. apply E. }
      rewrite ReadFacts.land_7_small by exact Hr.
      apply (TerminatorFacts.rx_run_eor 0 (Bus.eor c) ltac:(lia) data []).
  - apply TerminatorFacts.rx_run_eoi.
Qed.

(** In controller role with EOR code 2 the receive stops at the LF. *)
Lemma receive_terminators_witness :
  let data := [(65, false); (10, false); (66, true)] in
  let res := Bus.receiveData false false 0
               (Partner.world (Partner.config 2 false 0 2 0)
                  (Partner.acks 2 ++ Partner.talks data)) in
  Bus.host (snd res) = [65; 10].
Proof.
  intros data res.
  apply (receive_terminators false data Partner.ports0
           (Partner.config 2 false 0 2 0) 0 false false Partner.idle [] []);
    try reflexivity; try (cbn; lia).
  - apply BusFacts.calm_idle.
  - repeat constructor; unfold Handshake.is_byte; cbn; lia.
Defined.

(** ** Device role: the command burst (C10) *)

Module AttnFacts.
Import Bus Partner Handshake Sketch Expect.

#[local] Opaque Layouts.setGpibState Layouts.setGpibDbus Layouts.readyGpibDbus.
#[local] Arguments set_ports _ !_ /.
#[local] Arguments set_cfg _ !_ /.
#[local] Arguments set_cstate _ !_ /.
#[local] Arguments set_deviceAddressed _ !_ /.
#[local] Arguments set_txBreak _ !_ /.
#[local] Arguments set_env _ _ !_ /.
#[local] Arguments log _ !_ /.
#[local] Arguments print _ !_ /.

Lemma attentive_idle_atn : attentive idle_atn.
Proof. repeat split. Qed.

(** The passes of the read loop while ATN stays asserted. *)
Lemma rpass_wait_atn rwe db e w :
  lvl (pins w) IFC = true -> lvl (pins w) ATN = false ->
  lvl (pins w) DAV = true ->
  rpass rwe true 4 db e w = ((6, false, db, e), snd (setGpibState 4 4 0 w)).
Proof.
  intros Hi Ha Hd. unfold rpass. rewrite Hi, Ha, Hd.
  destruct (cmode (cfg w) =? 1); reflexivity.
Qed.

Lemma rpass_sample_atn db e w :
  lvl (pins w) IFC = true -> lvl (pins w) ATN = false ->
  lvl (pins w) DAV = false ->
  rpass false true 6 db e w
  = ((8, false, Layouts.readGpibDbus (PIND (pins w)) (PINB (pins w)), e),
     sampled (Layouts.readGpibDbus (PIND (pins w)) (PINB (pins w))) e w).
Proof.
  intros Hi Ha Hd. unfold rpass, sampled. rewrite Hi, Ha, Hd.
  destruct (cmode (cfg w) =? 1); reflexivity.
Qed.

Lemma rpass_done_atn rwe db e w :
  lvl (pins w) IFC = true -> lvl (pins w) ATN = false ->
  lvl (pins w) DAV = true ->
  rpass rwe true 8 db e w = ((9, true, db, e), snd (setGpibState 0 2 0 w)).
Proof.
  intros Hi Ha Hd. unfold rpass. rewrite Hi, Ha, Hd.
  destruct (cmode (cfg w) =? 1); reflexivity.
Qed.

(** The controller sends a command byte. *)
Lemma readByte_command p c st da tb P rest tr h db0 b :
  1 < rtmo c -> attentive P -> 0 <= b < 256 ->
  exists p',
    readByte db0 false
      (mkWorld p c st da tb P (offered_atn b :: idle_atn :: rest) tr h)
    = ((0, b, false),
       mkWorld p' c st da tb idle_atn rest (tr ++ [Got b false]) h).
Proof.
  intros Hr (Hms & Hdav & Hatn & Hifc) Hb.
  assert (H1 : (1 <? rtmo c) = true) by (apply Z.ltb_lt; lia).
  assert (H0 : (0 <? rtmo c) = true) by (apply Z.ltb_lt; lia).
  unfold readByte. cbn [pins future cfg]. rewrite Hms, Hatn.
  cbn [negb rloop]. change (u32 (0 + 1 - 0)) with 1. rewrite H1.
  rewrite rpass_wait_atn by assumption.
  change (ms (offered_atn b)) with 0. change (u32 (0 - 0)) with 0.
  rewrite H0.
  rewrite rpass_sample_atn by reflexivity.
  cbn [pins set_env PIND PINB offered_atn lvl setGpibState act set_ports snd].
  rewrite (LayoutsFacts.readGpibDbus_offered b Hb).
  assert (Hlast : forall w, pins w = idle_atn ->
            rloop rest false true (rtmo c) 0 (ms idle_atn) 8 b false w
            = ((9, b, false), snd (setGpibState 0 2 0 w))).
  { intros w Hw. change (ms idle_atn) with 0.
    destruct rest; cbn [rloop]; change (u32 (0 - 0)) with 0; rewrite H0;
      rewrite rpass_done_atn by (rewrite Hw; reflexivity);
      reflexivity. }
  rewrite Hlast by reflexivity.
  cbn [Z.eqb Pos.eqb]. unfold sampled. cbn.
  eexists. reflexivity.
Qed.

(** The controller sends nothing more. *)
Lemma readByte_no_command p c st da tb P tr h db :
  1 < rtmo c -> attentive P ->
  exists p',
    readByte db false (mkWorld p c st da tb P [] tr h)
    = ((6, db, false), mkWorld p' c st da tb P [] tr h).
Proof.
  intros Hr (Hms & Hdav & Hatn & Hifc).
  assert (H1 : (1 <? rtmo c) = true) by (apply Z.ltb_lt; lia).
  unfold readByte. cbn [pins future cfg]. rewrite Hms, Hatn.
  cbn [negb rloop]. change (u32 (0 + 1 - 0)) with 1. rewrite H1.
  rewrite rpass_wait_atn by assumption.
  cbn. eexists. reflexivity.
Qed.

Lemma indices_cons first n :
  indices first (S n) = first :: indices (first + 1) n.
Proof.
  unfold indices. cbn [seq map]. f_equal; [lia|].
  rewrite <- seq_shift, map_map. apply map_ext. intros k. lia.
Qed.

(** The loop of [attnRequired] on a burst of storable command bytes:
    every byte is stored, at the next index. *)
Lemma attn_loop_commands : forall bs fuel db B p c st da tb P tr h,
  1 < rtmo c -> attentive P -> Forall storable bs ->
  0 <= bytecnt B -> bytecnt B + Z.of_nat (length bs) <= cmdbuflen ->
  (length bs < fuel)%nat ->
  exists arr w',
    attn_loop fuel db B (mkWorld p c st da tb P (commands bs) tr h)
    = (mkBurst arr (bytecnt B + Z.of_nat (length bs)) (ustat B)
               (stores B ++ indices (bytecnt B) (length bs)),
       w').
Proof.
  induction bs as [|b bs IH];
    intros fuel db B p c st da tb P tr h Hr HP Hs H0 Hn Hf.
  - destruct fuel as [|fuel]; [cbn in Hf; lia|].
    destruct B as [arr cnt us sts]. cbn [bytecnt ustat stores] in *.
    cbn [length Z.of_nat indices seq map commands attn_loop pins].
    rewrite Z.add_0_r, app_nil_r.
    destruct HP as (Hms & Hdav & Hatn & Hifc). rewrite Hatn. cbn [negb andb].
    cbn [bytecnt].
    destruct (cnt <? cmdbuflen); [|eexists; eexists; reflexivity].
    destruct (readByte_no_command p c st da tb P tr h db Hr
                (conj Hms (conj Hdav (conj Hatn Hifc)))) as [p' ->].
    cbn [Z.ltb Z.compare]. eexists; eexists; reflexivity.
  - destruct fuel as [|fuel]; [cbn in Hf; lia|].
    apply Forall_cons in Hs. destruct Hs as [(Hb & H63 & H95) Hs].
    destruct B as [arr cnt us sts]. cbn [bytecnt ustat stores] in *.
    cbn [length] in Hn, Hf.
    cbn [commands attn_loop pins bytecnt].
    pose proof HP as (Hms & Hdav & Hatn & Hifc). rewrite Hatn.
    cbn [negb andb].
    replace (cnt <? cmdbuflen) with true
      by (symmetry; apply Z.ltb_lt; lia).
    destruct (readByte_command p c st da tb P (commands bs) tr h db b Hr HP
                Hb) as [p' ->].
    cbn [Z.ltb Z.compare].
    replace (b =? 63) with false by (symmetry; apply Z.eqb_neq; exact H63).
    replace (b =? 95) with false by (symmetry; apply Z.eqb_neq; exact H95).
    cbn [cmdbytes ustat stores].
    assert (Hu : u8 (cnt + 1) = cnt + 1)
      by (apply u8_small; unfold cmdbuflen in Hn; lia).
    rewrite Hu.
    destruct (IH fuel b
                (mkBurst (<[Z.to_nat cnt := b]> arr) (cnt + 1) us
                         (sts ++ [cnt]))
                p' c st da tb idle_atn (tr ++ [Got b false]) h Hr
                attentive_idle_atn Hs)
      as (arr' & w' & ->); cbn [bytecnt]; try lia.
    exists arr', w'. cbn [bytecnt ustat stores].
    change (length (b :: bs)) with (S (length bs)).
    replace (cnt + Z.of_nat (S (length bs)))
      with (cnt + 1 + Z.of_nat (length bs)) by lia.
    rewrite indices_cons, <- List.app_assoc. reflexivity.
Qed.

Lemma length_commands bs : length (commands bs) = (2 * length bs)%nat.
Proof.
  induction bs as [|b bs IH]; [reflexivity|].
  cbn [commands length]. rewrite IH. lia.
Qed.

Lemma in_indices first n i :
  In i (indices first n) <-> first <= i < first + Z.of_nat n.
Proof.
  unfold indices. rewrite in_map_iff. split.
  - intros (k & <- & Hk). apply in_seq in Hk. lia.
  - intros H. exists (Z.to_nat (i - first)). split; [lia|].
    apply in_seq. lia.
Qed.

End AttnFacts.

(** C10.  The stores of [attnRequired] during a burst of command bytes,
    none of them UNL or UNT, that the controller sends with ATN asserted,
    no more than the burst limit of 35: the bytes are stored at the
    indices 0, 1, 2, ... in the order of arrival, one index for every
    byte.  The array [cmdbytes] has 5 elements, so with a burst of more
    than 5 bytes the loop stores at index 5 and beyond, outside the
    array. *)
Theorem attn_burst_stores (bs : list Z) (c : Bus.Config) :
  1 < Bus.rtmo c -> Forall Expect.storable bs ->
  Z.of_nat (length bs) <= Sketch.cmdbuflen ->
  let b := fst (Sketch.attnRequired_read
                  (Partner.attended c (Partner.commands bs))) in
  Sketch.stores b = Expect.indices 0 (length bs)
  /\ Sketch.bytecnt b = Z.of_nat (length bs)
  /\ (forall i, Sketch.cmdbytes_len <= i < Z.of_nat (length bs) ->
                In i (Sketch.stores b)).
Proof.
  intros Hr Hs Hn b.
  assert (Hb : exists arr, b = Sketch.mkBurst arr (Z.of_nat (length bs)) 0
                               (Expect.indices 0 (length bs))).
  { subst b. unfold Sketch.attnRequired_read, Partner.attended.
    destruct (CommandFacts.setControls_eq Bus.DLAS Partner.ports0 c Bus.DIDS
                false false Partner.idle_atn (Partner.commands bs) [] [])
      as [p1 ->].
    cbn [Bus.future].
    destruct (AttnFacts.attn_loop_commands bs
                (S (length (Partner.commands bs))) 0
                (Sketch.mkBurst (replicate (Z.to_nat Sketch.cmdbytes_len) 0)
                                0 0 [])
                p1 c Bus.DLAS false false Partner.idle_atn
                ([] ++ [Bus.Controls Bus.DLAS]) [] Hr
                AttnFacts.attentive_idle_atn Hs)
      as (arr & w' & ->); cbn [Sketch.bytecnt]; try lia.
    - rewrite AttnFacts.length_commands. lia.
    - exists arr. reflexivity. }
  destruct Hb as [arr ->]. cbn [Sketch.stores Sketch.bytecnt].
  split; [reflexivity|]. split; [reflexivity|].
  intros i Hi. apply AttnFacts.in_indices. unfold Sketch.cmdbytes_len in Hi.
  lia.
Qed.

(** A burst of six command bytes: the sixth is stored at index 5. *)
Lemma attn_burst_stores_witness :
  let b := fst (Sketch.attnRequired_read
                  (Partner.attended (Partner.config 1 false 0 0 0)
                     (Partner.commands [33; 34; 35; 36; 37; 38]))) in
  Sketch.stores b = [0; 1; 2; 3; 4; 5]
  /\ In 5 (Sketch.stores b)
  /\ ~ 5 < Sketch.cmdbytes_len.
Proof.
  intros b.
  destruct (attn_burst_stores [33; 34; 35; 36; 37; 38]
              (Partner.config 1 false 0 0 0))
    as (Hst & _ & Hin).
  - cbn. lia.
  - repeat constructor; cbn; lia.
  - cbn. unfold Sketch.cmdbuflen. lia.
  - split; [exact Hst|]. split.
    + apply Hin. cbn. unfold Sketch.cmdbytes_len. lia.
    + unfold Sketch.cmdbytes_len. lia.
Defined.

(** ** Pin adapter: control lines and data lines *)

Module PinFacts.
Import Layouts Pins.

Lemma masked_testbit reg val m n :
  0 <= n < 8 ->
  Z.testbit (masked reg val m) n
  = if Z.testbit m n then Z.testbit val n else Z.testbit reg n.
Proof.
  intros Hn. unfold masked. rewrite u8_bits by lia.
  replace (n <? 8) with true by (symmetry; apply Z.ltb_lt; lia).
  rewrite Z.lor_spec, !Z.land_spec, Z.lnot_spec by lia.
  destruct (Z.testbit m n), (Z.testbit val n), (Z.testbit reg n); reflexivity.
Qed.

(** A guard [mask & c] that fails: the mask has none of the bits of [c]. *)
Lemma guard_off mask c n :
  nz (Z.land mask c) = false -> Z.testbit c n = true ->
  Z.testbit mask n = false.
Proof.
  unfold nz. intros H Hc. apply negb_false_iff, Z.eqb_eq in H.
  assert (Hb : Z.testbit (Z.land mask c) n = false)
    by (rewrite H; apply Z.bits_0).
  rewrite Z.land_spec, Hc, andb_true_r in Hb. exact Hb.
Qed.

(** The bits of the shifted fields that [setGpibState] builds. *)
Lemma field_F x n :
  4 <= n < 8 ->
  Z.testbit (u8 (Z.shiftl (Z.land x 30) 3)) n = Z.testbit x (n - 3).
Proof.
  intros Hn. rewrite u8_bits by lia.
  replace (n <? 8) with true by (symmetry; apply Z.ltb_lt; lia).
  rewrite Z.shiftl_spec, Z.land_spec by lia. cbn [andb].
  assert (H30 : Z.testbit 30 (n - 3) = true).
  { assert (n = 4 \/ n = 5 \/ n = 6 \/ n = 7) as [->|[->|[->| ->]]] by lia;
      reflexivity. }
  rewrite H30. apply andb_true_r.
Qed.

Lemma field_C x :
  Z.testbit (u8 (Z.shiftl (Z.land x 32) 1)) 6 = Z.testbit x 5.
Proof.
  rewrite u8_bits by lia. cbn [Z.ltb Z.compare andb].
  rewrite Z.shiftl_spec, Z.land_spec by lia.
  change (Z.testbit 32 (6 - 1)) with true. apply andb_true_r.
Qed.

Lemma field_D x n :
  0 <= n < 8 ->
  Z.testbit (u8 (Z.lor (Z.shiftl (Z.land x 1) 4)
                       (Z.shiftr (Z.land x 128) 6))) n
  = if n =? 4 then Z.testbit x 0
    else if n =? 1 then Z.testbit x 7 else false.
Proof.
  intros Hn. rewrite u8_bits by lia.
  replace (n <? 8) with true by (symmetry; apply Z.ltb_lt; lia).
  rewrite Z.lor_spec, Z.shiftr_spec, Z.land_spec by lia. cbn [andb].
  assert (Hcase : n = 0 \/ n = 1 \/ n = 2 \/ n = 3 \/ n = 4 \/ n = 5
                  \/ n = 6 \/ n = 7) by lia.
  destruct Hcase as [->|[->|[->|[->|[->|[->|[->| ->]]]]]]];
    try (rewrite Z.shiftl_spec_low by lia);
    try (rewrite Z.shiftl_spec, Z.land_spec by lia);
    cbn [Z.eqb Pos.eqb Z.add Z.sub Z.opp Z.pos_sub Pos.add Pos.succ
         Pos.pred_double orb];
    rewrite ?andb_false_r, ?andb_true_r, ?orb_false_r; try reflexivity.
Qed.

Lemma field_E x n : Z.testbit (Z.land x 64) n
                    = if n =? 6 then Z.testbit x 6 else false.
Proof.
  rewrite Z.land_spec.
  destruct (Z.eqb_spec n 6) as [->|Hn]; [apply andb_true_r|].
  replace (Z.testbit 64 n) with false; [apply andb_false_r|].
  symmetry. change 64 with (2 ^ 6). apply Z.pow2_bits_false. lia.
Qed.


(** The registers after [setGpibState] in mode 0 and in mode 1. *)
Lemma setGpibState_state bits mask p :
  let p' := setGpibState bits mask 0 p in
  let f := nz (Z.land mask 30) in
  let g := nz (Z.land mask 225) in
  PORTF p' = (if f then masked (PORTF p)
                          (u8 (Z.shiftl (Z.land bits 30) 3))
                          (u8 (Z.shiftl (Z.land mask 30) 3))
              else PORTF p)
  /\ PORTC p' = (if g then masked (PORTC p)
                            (u8 (Z.shiftl (Z.land bits 32) 1))
                            (u8 (Z.shiftl (Z.land mask 32) 1))
                 else PORTC p)
  /\ PORTD p' = (if g then masked (PORTD p)
                   (u8 (Z.lor (Z.shiftl (Z.land bits 1) 4)
                              (Z.shiftr (Z.land bits 128) 6)))
                   (u8 (Z.lor (Z.shiftl (Z.land mask 1) 4)
                              (Z.shiftr (Z.land mask 128) 6)))
                 else PORTD p)
  /\ PORTE p' = (if g then masked (PORTE p) (Z.land bits 64) (Z.land mask 64)
                 else PORTE p)
  /\ PORTB p' = PORTB p
  /\ DDRB p' = DDRB p /\ DDRC p' = DDRC p /\ DDRD p' = DDRD p
  /\ DDRE p' = DDRE p /\ DDRF p' = DDRF p.
Proof.
  cbn zeta. unfold setGpibState. change (0 =? 0) with true. cbv iota.
  destruct (nz (Z.land mask 30)), (nz (Z.land mask 225)); cbn;
    repeat split; reflexivity.
Qed.

Lemma setGpibState_direction bits mask p :
  let p' := setGpibState bits mask 1 p in
  let f := nz (Z.land mask 30) in
  let g := nz (Z.land mask 225) in
  DDRF p' = (if f then masked (DDRF p)
                         (u8 (Z.shiftl (Z.land bits 30) 3))
                         (u8 (Z.shiftl (Z.land mask 30) 3))
             else DDRF p)
  /\ DDRC p' = (if g then masked (DDRC p)
                           (u8 (Z.shiftl (Z.land bits 32) 1))
                           (u8 (Z.shiftl (Z.land mask 32) 1))
                else DDRC p)
  /\ DDRD p' = (if g then masked (DDRD p)
                  (u8 (Z.lor (Z.shiftl (Z.land bits 1) 4)
                             (Z.shiftr (Z.land bits 128) 6)))
                  (u8 (Z.lor (Z.shiftl (Z.land mask 1) 4)
                             (Z.shiftr (Z.land mask 128) 6)))
                else DDRD p)
  /\ DDRE p' = (if g then masked (DDRE p) (Z.land bits 64) (Z.land mask 64)
                else DDRE p)
  /\ DDRB p' = DDRB p
  /\ PORTB p' = PORTB p /\ PORTC p' = PORTC p /\ PORTD p' = PORTD p
  /\ PORTE p' = PORTE p /\ PORTF p' = PORTF p.
Proof.
  cbn zeta. unfold setGpibState. change (1 =? 0) with false.
  change (1 =? 1) with true. cbv iota.
  destruct (nz (Z.land mask 30)), (nz (Z.land mask 225)); cbn;
    repeat split; reflexivity.
Qed.

(** One masked update of the register of control line [i], as
    [setGpibState] makes it. *)
Lemma line_F reg bits mask i :
  1 <= i <= 4 ->
  Z.testbit (if nz (Z.land mask 30)
             then masked reg (u8 (Z.shiftl (Z.land bits 30) 3))
                             (u8 (Z.shiftl (Z.land mask 30) 3))
             else reg) (i + 3)
  = if Z.testbit mask i then Z.testbit bits i else Z.testbit reg (i + 3).
Proof.
  intros Hi. destruct (nz (Z.land mask 30)) eqn:G.
  - rewrite masked_testbit, !field_F by lia.
    replace (i + 3 - 3) with i by lia. reflexivity.
  - rewrite (guard_off mask 30 i G); [reflexivity|].
    assert (i = 1 \/ i = 2 \/ i = 3 \/ i = 4) as [->|[->|[->| ->]]] by lia;
      reflexivity.
Qed.

Lemma line_C reg bits mask :
  Z.testbit (if nz (Z.land mask 225)
             then masked reg (u8 (Z.shiftl (Z.land bits 32) 1))
                             (u8 (Z.shiftl (Z.land mask 32) 1))
             else reg) 6
  = if Z.testbit mask 5 then Z.testbit bits 5 else Z.testbit reg 6.
Proof.
  destruct (nz (Z.land mask 225)) eqn:G.
  - rewrite masked_testbit, !field_C by lia. reflexivity.
  - rewrite (guard_off mask 225 5 G); reflexivity.
Qed.

Lemma line_E reg bits mask :
  Z.testbit (if nz (Z.land mask 225)
             then masked reg (Z.land bits 64) (Z.land mask 64)
             else reg) 6
  = if Z.testbit mask 6 then Z.testbit bits 6 else Z.testbit reg 6.
Proof.
  destruct (nz (Z.land mask 225)) eqn:G.
  - rewrite masked_testbit, !field_E by lia. reflexivity.
  - rewrite (guard_off mask 225 6 G); reflexivity.
Qed.

Lemma line_D reg bits mask n :
  0 <= n < 8 ->
  Z.testbit (if nz (Z.land mask 225)
             then masked reg
                    (u8 (Z.lor (Z.shiftl (Z.land bits 1) 4)
                               (Z.shiftr (Z.land bits 128) 6)))
                    (u8 (Z.lor (Z.shiftl (Z.land mask 1) 4)
                               (Z.shiftr (Z.land mask 128) 6)))
             else reg) n
  = if n =? 4 then (if Z.testbit mask 0 then Z.testbit bits 0
                    else Z.testbit reg 4)
    else if n =? 1 then (if Z.testbit mask 7 then Z.testbit bits 7
                         else Z.testbit reg 1)
    else Z.testbit reg n.
Proof.
  intros Hn. destruct (nz (Z.land mask 225)) eqn:G.
  - rewrite masked_testbit, !field_D by lia.
    destruct (Z.eqb_spec n 4) as [->|]; [reflexivity|].
    destruct (Z.eqb_spec n 1) as [->|]; reflexivity.
  - destruct (Z.eqb_spec n 4) as [->|];
      [rewrite (guard_off mask 225 0 G); reflexivity|].
    destruct (Z.eqb_spec n 1) as [->|];
      [rewrite (guard_off mask 225 7 G); reflexivity|]. reflexivity.
Qed.

End PinFacts.

Module LineFacts.
Import Layouts Pins.

(** Mode 0: the level of line [i] follows the mask, its direction
    stays. *)
Lemma level_after bits mask p i :
  0 <= i < 8 ->
  let p' := setGpibState bits mask 0 p in
  ctrl_level p' i
  = (if Z.testbit mask i then Z.testbit bits i else ctrl_level p i)
  /\ ctrl_dir p' i = ctrl_dir p i.
Proof.
  intros Hi.
  pose proof (PinFacts.setGpibState_state bits mask p)
    as (HF & HC & HD & HE & _ & _ & HdC & HdD & HdE & HdF).
  cbn zeta in *.
  assert (Hcase : i = 0 \/ i = 1 \/ i = 2 \/ i = 3 \/ i = 4 \/ i = 5
                  \/ i = 6 \/ i = 7) by lia.
  unfold ctrl_level, ctrl_dir.
  destruct Hcase as [->|[->|[->|[->|[->|[->|[->| ->]]]]]]];
    cbn [Z.eqb Pos.eqb orb ctrl_bit];
    rewrite ?HF, ?HC, ?HD, ?HE, ?HdC, ?HdD, ?HdE, ?HdF;
    (split; [|reflexivity]).
  - apply (PinFacts.line_D _ bits mask 4). lia.
  - apply (PinFacts.line_F _ bits mask 1). lia.
  - apply (PinFacts.line_F _ bits mask 2). lia.
  - apply (PinFacts.line_F _ bits mask 3). lia.
  - apply (PinFacts.line_F _ bits mask 4). lia.
  - apply PinFacts.line_C.
  - apply PinFacts.line_E.
  - apply (PinFacts.line_D _ bits mask 1). lia.
Qed.

(** Mode 1: the direction of line [i] follows the mask, its level
    stays. *)
Lemma dir_after bits mask p i :
  0 <= i < 8 ->
  let p' := setGpibState bits mask 1 p in
  ctrl_dir p' i
  = (if Z.testbit mask i then Z.testbit bits i else ctrl_dir p i)
  /\ ctrl_level p' i = ctrl_level p i.
Proof.
  intros Hi.
  pose proof (PinFacts.setGpibState_direction bits mask p)
    as (GF & GC & GD & GE & _ & _ & GpC & GpD & GpE & GpF).
  cbn zeta in *.
  assert (Hcase : i = 0 \/ i = 1 \/ i = 2 \/ i = 3 \/ i = 4 \/ i = 5
                  \/ i = 6 \/ i = 7) by lia.
  unfold ctrl_level, ctrl_dir.
  destruct Hcase as [->|[->|[->|[->|[->|[->|[->| ->]]]]]]];
    cbn [Z.eqb Pos.eqb orb ctrl_bit];
    rewrite ?GF, ?GC, ?GD, ?GE, ?GpC, ?GpD, ?GpE, ?GpF;
    (split; [|reflexivity]).
  - apply (PinFacts.line_D _ bits mask 4). lia.
  - apply (PinFacts.line_F _ bits mask 1). lia.
  - apply (PinFacts.line_F _ bits mask 2). lia.
  - apply (PinFacts.line_F _ bits mask 3). lia.
  - apply (PinFacts.line_F _ bits mask 4). lia.
  - apply PinFacts.line_C.
  - apply PinFacts.line_E.
  - apply (PinFacts.line_D _ bits mask 1). lia.
Qed.

(** Any other mode: nothing is written. *)
Lemma other_mode bits mask mode p :
  mode <> 0 -> mode <> 1 -> setGpibState bits mask mode p = p.
Proof.
  intros H0 H1. unfold setGpibState.
  apply Z.eqb_neq in H0, H1. rewrite H0, H1.
  destruct (nz (Z.land mask 30)), (nz (Z.land mask 225)); reflexivity.
Qed.

End LineFacts.

(** X1.  What [setGpibState] of the ATmega32U4 layout does to the control
    lines.  In mode 0 the output level of every line whose mask bit is
    set becomes the bit of [bits], the level of every other line and all
    directions stay; in mode 1 the same holds for the directions, and
    the levels stay.  With any other mode (the default branch of
    [setControls] passes 255) no register changes. *)
Theorem setGpibState_lines (bits mask : Z) (p : Layouts.Ports) (i : Z) :
  0 <= i < 8 ->
  (let p' := Layouts.setGpibState bits mask 0 p in
   Pins.ctrl_level p' i
   = (if Z.testbit mask i then Z.testbit bits i else Pins.ctrl_level p i)
   /\ Pins.ctrl_dir p' i = Pins.ctrl_dir p i)
  /\ (let p' := Layouts.setGpibState bits mask 1 p in
      Pins.ctrl_dir p' i
      = (if Z.testbit mask i then Z.testbit bits i else Pins.ctrl_dir p i)
      /\ Pins.ctrl_level p' i = Pins.ctrl_level p i)
  /\ (forall mode, mode <> 0 -> mode <> 1 ->
        Layouts.setGpibState bits mask mode p = p).
Proof.
  intros Hi. split; [|split].
  - exact (LineFacts.level_after bits mask p i Hi).
  - exact (LineFacts.dir_after bits mask p i Hi).
  - intros mode H0 H1. apply LineFacts.other_mode; assumption.
Qed.

(** [setControls(CCMS)] written out: ATN (line 7) is driven low. *)
Lemma setGpibState_lines_witness :
  let p := Layouts.setGpibState 95 159 0
             (Layouts.setGpibState 185 159 1 Partner.ports0) in
  Pins.ctrl_level p 7 = false /\ Pins.ctrl_dir p 7 = true.
Proof.
  intros p. subst p.
  destruct (setGpibState_lines 95 159
              (Layouts.setGpibState 185 159 1 Partner.ports0) 7
              ltac:(lia)) as ((Hl & Hd) & _ & _).
  destruct (setGpibState_lines 185 159 Partner.ports0 7 ltac:(lia))
    as (_ & (Hd1 & _) & _).
  cbn zeta in *. rewrite Hl, Hd, Hd1. split; reflexivity.
Defined.

Module DataPinFacts.
Import Layouts Pins.

Lemma bit_129 n : 0 <= n < 8 ->
  Z.testbit 129 n = (n =? 0) || (n =? 7).
Proof.
  intros Hn.
  assert (n = 0 \/ n = 1 \/ n = 2 \/ n = 3 \/ n = 4 \/ n = 5 \/ n = 6
          \/ n = 7) as [->|[->|[->|[->|[->|[->|[->| ->]]]]]]] by lia;
    reflexivity.
Qed.

Lemma bit_126 n : 0 <= n < 8 ->
  Z.testbit 126 n = negb ((n =? 0) || (n =? 7)).
Proof.
  intros Hn.
  assert (n = 0 \/ n = 1 \/ n = 2 \/ n = 3 \/ n = 4 \/ n = 5 \/ n = 6
          \/ n = 7) as [->|[->|[->|[->|[->|[->|[->| ->]]]]]]] by lia;
    reflexivity.
Qed.

(** [(reg & ~m) | (v & m)], bit by bit. *)
Lemma merged_bit reg v m n : 0 <= n < 8 ->
  Z.testbit (u8 (Z.lor (Z.land reg (Z.lnot m)) (Z.land v m))) n
  = if Z.testbit m n then Z.testbit v n else Z.testbit reg n.
Proof. apply PinFacts.masked_testbit. Qed.

(** The bits of ports B and D after [setGpibDbus]. *)
Lemma setGpibDbus_bits db p n : 0 <= n < 8 ->
  let p' := setGpibDbus db p in
  Z.testbit (PORTD p') n
  = (if (n =? 0) || (n =? 7) then negb (Z.testbit db n)
     else Z.testbit (PORTD p) n)
  /\ Z.testbit (PORTB p') n
     = (if (n =? 0) || (n =? 7) then Z.testbit (PORTB p) n
        else negb (Z.testbit db n))
  /\ Z.testbit (DDRD p') n = Z.testbit (DDRD p) n || ((n =? 0) || (n =? 7))
  /\ Z.testbit (DDRB p') n
     = Z.testbit (DDRB p) n || negb ((n =? 0) || (n =? 7)).
Proof.
  intros Hn. cbn zeta. unfold setGpibDbus.
  cbn [PORTD PORTB DDRD DDRB].
  rewrite !merged_bit, !Z.lor_spec, bit_129, bit_126 by lia.
  rewrite u8_bits, Z.lnot_spec by lia.
  replace (n <? 8) with true by (symmetry; apply Z.ltb_lt; lia).
  destruct ((n =? 0) || (n =? 7)); cbn [negb andb]; repeat split;
    reflexivity.
Qed.

Lemma readyGpibDbus_bits p n : 0 <= n < 8 ->
  let p' := readyGpibDbus p in
  Z.testbit (PORTD p') n = Z.testbit (PORTD p) n || ((n =? 0) || (n =? 7))
  /\ Z.testbit (PORTB p') n
     = Z.testbit (PORTB p) n || negb ((n =? 0) || (n =? 7))
  /\ Z.testbit (DDRD p') n
     = Z.testbit (DDRD p) n && negb ((n =? 0) || (n =? 7))
  /\ Z.testbit (DDRB p') n = Z.testbit (DDRB p) n && ((n =? 0) || (n =? 7)).
Proof.
  intros Hn. cbn zeta. unfold readyGpibDbus.
  cbn [PORTD PORTB DDRD DDRB].
  rewrite !Z.lor_spec, !Z.land_spec, bit_129, bit_126 by lia.
  repeat split; reflexivity.
Qed.

End DataPinFacts.

Module BusLineFacts.
Import Layouts Pins.

Ltac line_cases k :=
  assert (k = 0 \/ k = 1 \/ k = 2 \/ k = 3 \/ k = 4 \/ k = 5
          \/ k = 6 \/ k = 7) as [->|[->|[->|[->|[->|[->|[->| ->]]]]]]]
    by lia.

(** [setGpibDbus]: line [k] of the data bus and of the control bus. *)
Lemma dbus_lines db p k : 0 <= k < 8 ->
  let p' := setGpibDbus db p in
  data_dir p' k = true
  /\ data_level p' k = negb (Z.testbit db k)
  /\ ctrl_level p' k = ctrl_level p k
  /\ ctrl_dir p' k = ctrl_dir p k.
Proof.
  intros Hk. cbn zeta.
  pose proof (DataPinFacts.setGpibDbus_bits db p k Hk) as (H1 & H2 & H3 & H4).
  pose proof (DataPinFacts.setGpibDbus_bits db p 4 ltac:(lia))
    as (D4 & _ & E4 & _).
  pose proof (DataPinFacts.setGpibDbus_bits db p 1 ltac:(lia))
    as (D1 & _ & E1 & _).
  cbn zeta in *. cbn [Z.eqb Pos.eqb orb] in D4, D1, E4, E1.
  rewrite orb_false_r in E4, E1.
  unfold data_dir, data_level, ctrl_level, ctrl_dir.
  line_cases k;
    cbn [Z.eqb Pos.eqb orb negb ctrl_bit] in *;
    rewrite ?H1, ?H2, ?H3, ?H4, ?D4, ?D1, ?E4, ?E1, ?orb_true_r;
    repeat split; reflexivity.
Qed.

(** [readyGpibDbus]: the same. *)
Lemma ready_lines p k : 0 <= k < 8 ->
  let p' := readyGpibDbus p in
  data_dir p' k = false
  /\ data_level p' k = true
  /\ ctrl_level p' k = ctrl_level p k
  /\ ctrl_dir p' k = ctrl_dir p k.
Proof.
  intros Hk. cbn zeta.
  pose proof (DataPinFacts.readyGpibDbus_bits p k Hk) as (H1 & H2 & H3 & H4).
  pose proof (DataPinFacts.readyGpibDbus_bits p 4 ltac:(lia))
    as (D4 & _ & E4 & _).
  pose proof (DataPinFacts.readyGpibDbus_bits p 1 ltac:(lia))
    as (D1 & _ & E1 & _).
  cbn zeta in *. cbn [Z.eqb Pos.eqb orb negb] in D4, D1, E4, E1.
  rewrite orb_false_r in D4, D1. rewrite andb_true_r in E4, E1.
  unfold data_dir, data_level, ctrl_level, ctrl_dir.
  line_cases k;
    cbn [Z.eqb Pos.eqb orb negb ctrl_bit] in *;
    rewrite ?H1, ?H2, ?H3, ?H4, ?D4, ?D1, ?E4, ?E1, ?orb_true_r,
      ?andb_false_r;
    repeat split; reflexivity.
Qed.

(** [setGpibState] leaves the data lines alone. *)
Lemma state_data bits mask mode p k : 0 <= k < 8 ->
  let p' := setGpibState bits mask mode p in
  data_level p' k = data_level p k /\ data_dir p' k = data_dir p k.
Proof.
  intros Hk. cbn zeta.
  destruct (Z.eq_dec mode 0) as [->|H0];
    [|destruct (Z.eq_dec mode 1) as [->|H1]].
  - pose proof (PinFacts.setGpibState_state bits mask p)
      as (_ & _ & HD & _ & HB & HdB & _ & HdD & _).
    cbn zeta in *. unfold data_level, data_dir.
    rewrite HB, HdB, HdD, HD.
    destruct ((k =? 0) || (k =? 7)) eqn:E; [|split; reflexivity].
    split; [|reflexivity].
    rewrite (PinFacts.line_D _ bits mask k Hk).
    apply orb_true_iff in E. destruct E as [E|E]; apply Z.eqb_eq in E;
      subst k; reflexivity.
  - pose proof (PinFacts.setGpibState_direction bits mask p)
      as (_ & _ & HD & _ & HB & HpB & _ & HpD & _).
    cbn zeta in *. unfold data_level, data_dir.
    rewrite HB, HpB, HpD, HD.
    destruct ((k =? 0) || (k =? 7)) eqn:E; [|split; reflexivity].
    split; [reflexivity|].
    rewrite (PinFacts.line_D _ bits mask k Hk).
    apply orb_true_iff in E. destruct E as [E|E]; apply Z.eqb_eq in E;
      subst k; reflexivity.
  - rewrite LineFacts.other_mode by assumption. split; reflexivity.
Qed.

End BusLineFacts.

(** X2.  Data bus and control bus do not disturb each other on the
    ATmega32U4 layout, although both use port D.  [setGpibDbus(db)] makes
    every data line an output at the inverted level of its bit of [db],
    [readyGpibDbus] makes every data line an input with the pull-up on,
    and neither changes the level or the direction of a control line;
    [setGpibState] changes no level and no direction of a data line. *)
Theorem bus_primitives_separate (p : Layouts.Ports) (k : Z) :
  0 <= k < 8 ->
  (forall db,
     let p' := Layouts.setGpibDbus db p in
     Pins.data_dir p' k = true
     /\ Pins.data_level p' k = negb (Z.testbit db k)
     /\ Pins.ctrl_level p' k = Pins.ctrl_level p k
     /\ Pins.ctrl_dir p' k = Pins.ctrl_dir p k)
  /\ (let p' := Layouts.readyGpibDbus p in
      Pins.data_dir p' k = false
      /\ Pins.data_level p' k = true
      /\ Pins.ctrl_level p' k = Pins.ctrl_level p k
      /\ Pins.ctrl_dir p' k = Pins.ctrl_dir p k)
  /\ (forall bits mask mode,
        let p' := Layouts.setGpibState bits mask mode p in
        Pins.data_level p' k = Pins.data_level p k
        /\ Pins.data_dir p' k = Pins.data_dir p k).
Proof.
  intros Hk. split; [|split].
  - intros db. exact (BusLineFacts.dbus_lines db p k Hk).
  - exact (BusLineFacts.ready_lines p k Hk).
  - intros bits mask mode.
    exact (BusLineFacts.state_data bits mask mode p k Hk).
Qed.

(** The byte 0x41 on the bus while ATN is asserted: line DIO1 is low, and
    ATN (control line 7, port D bit 1) is as it was. *)
Lemma bus_primitives_separate_witness :
  let p := Layouts.setGpibState 95 159 0 Partner.ports0 in
  Pins.data_level (Layouts.setGpibDbus 65 p) 0 = false
  /\ Pins.ctrl_level (Layouts.setGpibDbus 65 p) 0 = Pins.ctrl_level p 0.
Proof.
  intros p.
  destruct (bus_primitives_separate p 0 ltac:(lia)) as (H & _ & _).
  destruct (H 65) as (_ & Hl & Hc & _). split; [exact Hl | exact Hc].
Defined.

Module CtrlFacts.
Import Layouts Pins.

Section Generic.

Variable ctrlbus : list nat.
Hypothesis ctrlbus_distinct : List.NoDup ctrlbus.
Hypothesis ctrlbus_length : length ctrlbus = 8%nat.

Lemma ctl_inj i j : (i < 8)%nat -> (j < 8)%nat ->
  ctl ctrlbus i = ctl ctrlbus j -> i = j.
Proof.
  intros Hi Hj. unfold ctl.
  apply (proj1 (NoDup_nth ctrlbus 0%nat) ctrlbus_distinct); lia.
Qed.

Lemma line_bit x (i : nat) :
  nz (Z.land x (Z.shiftl 1 (Z.of_nat i))) = Z.testbit x (Z.of_nat i).
Proof. rewrite Z.shiftl_1_l. apply nz_land_bit. lia. Qed.

(** [pinMode] on one pin, seen at a pin [q]. *)
Lemma pinMode_at pin m d q :
  pmode (pinMode pin m d) q = (if Nat.eqb q pin then m else pmode d q)
  /\ level (pinMode pin m d) q
     = (if Nat.eqb q pin
        then match m with INPUT_PULLUP => true | OUTPUT => level d q end
        else level d q).
Proof.
  split; [reflexivity|].
  destruct m; cbn [pinMode level]; destruct (Nat.eqb q pin); reflexivity.
Qed.

(** The loops touch the pins of the lines [i], ..., [i + n - 1] only. *)
Lemma write_from_other bits mask n : forall i d q,
  (forall k, (i <= k < i + n)%nat -> ctl ctrlbus k <> q) ->
  level (write_from ctrlbus i n bits mask d) q = level d q
  /\ pmode (write_from ctrlbus i n bits mask d) q = pmode d q.
Proof.
  induction n as [|n IH]; intros i d q Hq; [split; reflexivity|].
  cbn [write_from].
  destruct (IH (S i)
              (if nz (Z.land mask (Z.shiftl 1 (Z.of_nat i)))
               then digitalWrite (ctl ctrlbus i)
                      (nz (Z.land bits (Z.shiftl 1 (Z.of_nat i)))) d
               else d) q) as [Hl Hm]; [intros k Hk; apply Hq; lia|].
  rewrite Hl, Hm.
  destruct (nz (Z.land mask _)); [|split; reflexivity].
  cbn [digitalWrite level pmode].
  destruct (Nat.eqb_spec q (ctl ctrlbus i)) as [->|]; [|split; reflexivity].
  exfalso. apply (Hq i); [lia | reflexivity].
Qed.

Lemma mode_from_other bits mask n : forall i d q,
  (forall k, (i <= k < i + n)%nat -> ctl ctrlbus k <> q) ->
  level (mode_from ctrlbus i n bits mask d) q = level d q
  /\ pmode (mode_from ctrlbus i n bits mask d) q = pmode d q.
Proof.
  induction n as [|n IH]; intros i d q Hq; [split; reflexivity|].
  cbn [mode_from].
  destruct (IH (S i)
              (if nz (Z.land mask (Z.shiftl 1 (Z.of_nat i)))
               then pinMode (ctl ctrlbus i)
                      (if nz (Z.land bits (Z.shiftl 1 (Z.of_nat i)))
                       then OUTPUT else INPUT_PULLUP) d
               else d) q) as [Hl Hm]; [intros k Hk; apply Hq; lia|].
  rewrite Hl, Hm.
  destruct (nz (Z.land mask _)); [|split; reflexivity].
  destruct (pinMode_at (ctl ctrlbus i)
              (if nz (Z.land bits (Z.shiftl 1 (Z.of_nat i)))
               then OUTPUT else INPUT_PULLUP) d q) as [-> ->].
  destruct (Nat.eqb_spec q (ctl ctrlbus i)) as [->|]; [|split; reflexivity].
  exfalso. apply (Hq i); [lia | reflexivity].
Qed.

(** The pin of line [k] after the write loop. *)
Lemma write_from_line bits mask n : forall i d k,
  (i + n <= 8)%nat -> (i <= k < i + n)%nat ->
  level (write_from ctrlbus i n bits mask d) (ctl ctrlbus k)
  = (if Z.testbit mask (Z.of_nat k) then Z.testbit bits (Z.of_nat k)
     else level d (ctl ctrlbus k)).
Proof.
  induction n as [|n IH]; intros i d k Hn Hk; [lia|].
  cbn [write_from]. rewrite !line_bit.
  destruct (Nat.eq_dec k i) as [->|Hne].
  - destruct (write_from_other bits mask n (S i)
                (if Z.testbit mask (Z.of_nat i)
                 then digitalWrite (ctl ctrlbus i)
                        (Z.testbit bits (Z.of_nat i)) d
                 else d) (ctl ctrlbus i)) as [Hl _].
    { intros j Hj E. apply ctl_inj in E; lia. }
    rewrite Hl. destruct (Z.testbit mask (Z.of_nat i)); [|reflexivity].
    cbn [digitalWrite level]. rewrite Nat.eqb_refl. reflexivity.
  - rewrite IH by lia.
    destruct (Z.testbit mask (Z.of_nat k)); [reflexivity|].
    destruct (Z.testbit mask (Z.of_nat i)); [|reflexivity].
    cbn [digitalWrite level].
    destruct (Nat.eqb_spec (ctl ctrlbus k) (ctl ctrlbus i)) as [E|];
      [|reflexivity].
    apply ctl_inj in E; lia.
Qed.

(** The pin of line [k] after the direction loop: its direction, and its
    level, which [pinMode] sets when it makes the pin an input. *)
Lemma mode_from_line bits mask n : forall i d k,
  (i + n <= 8)%nat -> (i <= k < i + n)%nat ->
  pmode (mode_from ctrlbus i n bits mask d) (ctl ctrlbus k)
  = (if Z.testbit mask (Z.of_nat k)
     then (if Z.testbit bits (Z.of_nat k) then OUTPUT else INPUT_PULLUP)
     else pmode d (ctl ctrlbus k))
  /\ level (mode_from ctrlbus i n bits mask d) (ctl ctrlbus k)
     = (if Z.testbit mask (Z.of_nat k) && negb (Z.testbit bits (Z.of_nat k))
        then true else level d (ctl ctrlbus k)).
Proof.
  induction n as [|n IH]; intros i d k Hn Hk; [lia|].
  cbn [mode_from]. rewrite !line_bit.
  destruct (Nat.eq_dec k i) as [->|Hne].
  - destruct (mode_from_other bits mask n (S i)
                (if Z.testbit mask (Z.of_nat i)
                 then pinMode (ctl ctrlbus i)
                        (if Z.testbit bits (Z.of_nat i)
                         then OUTPUT else INPUT_PULLUP) d
                 else d) (ctl ctrlbus i)) as [Hl Hm].
    { intros j Hj E. apply ctl_inj in E; lia. }
    rewrite Hl, Hm.
    destruct (Z.testbit mask (Z.of_nat i)); [|split; reflexivity].
    destruct (pinMode_at (ctl ctrlbus i)
                (if Z.testbit bits (Z.of_nat i)
                 then OUTPUT else INPUT_PULLUP) d (ctl ctrlbus i))
      as [-> ->].
    rewrite Nat.eqb_refl.
    destruct (Z.testbit bits (Z.of_nat i)); split; reflexivity.
  - destruct (IH (S i)
                (if Z.testbit mask (Z.of_nat i)
                 then pinMode (ctl ctrlbus i)
                        (if Z.testbit bits (Z.of_nat i)
                         then OUTPUT else INPUT_PULLUP) d
                 else d) k ltac:(lia) ltac:(lia)) as [-> ->].
    assert (Hsame : forall m,
              pmode (pinMode (ctl ctrlbus i) m d) (ctl ctrlbus k)
              = pmode d (ctl ctrlbus k)
              /\ level (pinMode (ctl ctrlbus i) m d) (ctl ctrlbus k)
                 = level d (ctl ctrlbus k)).
    { intros m. destruct (pinMode_at (ctl ctrlbus i) m d (ctl ctrlbus k))
        as [-> ->].
      destruct (Nat.eqb_spec (ctl ctrlbus k) (ctl ctrlbus i)) as [E|];
        [|split; reflexivity].
      apply ctl_inj in E; lia. }
    destruct (Z.testbit mask (Z.of_nat i));
      [destruct (Hsame (if Z.testbit bits (Z.of_nat i)
                        then OUTPUT else INPUT_PULLUP)) as [-> ->]|];
      split; reflexivity.
Qed.

(** The write loop leaves the directions. *)
Lemma write_from_pmode bits mask n : forall i d q,
  pmode (write_from ctrlbus i n bits mask d) q = pmode d q.
Proof.
  induction n as [|n IH]; intros i d q; [reflexivity|].
  cbn [write_from]. rewrite IH. destruct (nz _); reflexivity.
Qed.

(** The pins against the registers after a level call. *)
Lemma levels_agree bits mask p d :
  agree ctrlbus p d ->
  agree ctrlbus (setGpibState bits mask 0 p)
        (setGpibState_generic ctrlbus bits mask 0 d).
Proof.
  intros Hag i Hi. destruct (Hag i Hi) as [Hl Hm].
  destruct (LineFacts.level_after bits mask p (Z.of_nat i) ltac:(lia))
    as [Hl' Hd'].
  cbn zeta in *. rewrite Hl', Hd'.
  unfold setGpibState_generic. cbn [Z.eqb].
  rewrite (write_from_line bits mask 8 0 d i) by lia.
  rewrite write_from_pmode, Hl. split; [reflexivity | exact Hm].
Qed.

(** The pins against the registers after a direction call. *)
Lemma directions_after bits mask p d :
  agree ctrlbus p d ->
  forall i, (i < 8)%nat ->
    let d' := setGpibState_generic ctrlbus bits mask 1 d in
    let p' := setGpibState bits mask 1 p in
    (pmode d' (ctl ctrlbus i) = OUTPUT <-> ctrl_dir p' (Z.of_nat i) = true)
    /\ ctrl_level p' (Z.of_nat i) = ctrl_level p (Z.of_nat i)
    /\ level d' (ctl ctrlbus i)
       = (if Z.testbit mask (Z.of_nat i)
             && negb (Z.testbit bits (Z.of_nat i))
          then true else ctrl_level p (Z.of_nat i)).
Proof.
  intros Hag i Hi. destruct (Hag i Hi) as [Hl Hm].
  destruct (LineFacts.dir_after bits mask p (Z.of_nat i) ltac:(lia))
    as [Hd' Hl'].
  cbn zeta in *. rewrite Hl', Hd'.
  unfold setGpibState_generic. cbn [Z.eqb Pos.eqb].
  destruct (mode_from_line bits mask 8 0 d i ltac:(lia) ltac:(lia))
    as [-> ->].
  rewrite Hl. split; [|split; reflexivity].
  destruct (Z.testbit mask (Z.of_nat i)); [|exact Hm].
  destruct (Z.testbit bits (Z.of_nat i)); split; congruence.
Qed.

(** A direction call and then a level call with the same mask. *)
Lemma two_step_agree dirs lv mask p d :
  agree ctrlbus p d ->
  agree ctrlbus (Lines.two_step dirs lv mask p)
        (setGpibState_generic ctrlbus lv mask 0
           (setGpibState_generic ctrlbus dirs mask 1 d)).
Proof.
  intros Hag i Hi. unfold Lines.two_step.
  destruct (directions_after dirs mask p d Hag i Hi) as (Hm & Hl & Hg).
  cbn zeta in *.
  destruct (LineFacts.level_after lv mask (setGpibState dirs mask 1 p)
              (Z.of_nat i) ltac:(lia)) as [Hl' Hd'].
  cbn zeta in *. rewrite Hl', Hd', Hl.
  set (d1 := setGpibState_generic ctrlbus dirs mask 1 d) in *.
  unfold setGpibState_generic. cbn [Z.eqb].
  rewrite (write_from_line lv mask 8 0 d1 i) by lia.
  rewrite write_from_pmode, Hg. split; [|exact Hm].
  destruct (Z.testbit mask (Z.of_nat i)); reflexivity.
Qed.

(** No pin outside [ctrlbus] is touched. *)
Lemma generic_frame bits mask mode d q :
  ~ In q ctrlbus ->
  level (setGpibState_generic ctrlbus bits mask mode d) q = level d q
  /\ pmode (setGpibState_generic ctrlbus bits mask mode d) q = pmode d q.
Proof.
  intros Hq.
  assert (Hout : forall k, (0 <= k < 0 + 8)%nat -> ctl ctrlbus k <> q).
  { intros k Hk E. apply Hq. subst q. unfold ctl. apply nth_In. lia. }
  unfold setGpibState_generic.
  destruct (mode =? 0); [apply write_from_other, Hout|].
  destruct (mode =? 1); [apply mode_from_other, Hout|].
  split; reflexivity.
Qed.

End Generic.
End CtrlFacts.

(** X3.  The generic per-pin layout against the ATmega32U4 registers, on
    the control lines.  When the pins of the generic layout show what the
    registers hold, then (1) they still do after a level call
    ([setGpibState] in mode 0) with the same arguments on both sides;
    (2) after a direction call (mode 1) the directions are the same, but
    not always the levels: [pinMode(INPUT_PULLUP)] turns the pull-up on
    for every line it makes an input, where the register version leaves
    the output bit as it was; (3) a direction call followed by a level
    call with the same mask, which is how [setControls], [stop], the SRQ
    signals and the EOI pulse of [sendData] make their direction calls,
    leaves the pins showing what the registers hold; and (4) the generic
    version changes no pin outside [ctrlbus]. *)
Theorem setGpibState_layouts_agree (ctrlbus : list nat) (dirs lv mask : Z)
    (p : Layouts.Ports) (d : Layouts.Digital) :
  List.NoDup ctrlbus -> length ctrlbus = 8%nat ->
  Pins.agree ctrlbus p d ->
  Pins.agree ctrlbus (Layouts.setGpibState lv mask 0 p)
             (Pins.setGpibState_generic ctrlbus lv mask 0 d)
  /\ (forall i, (i < 8)%nat ->
        let d1 := Pins.setGpibState_generic ctrlbus dirs mask 1 d in
        let p1 := Layouts.setGpibState dirs mask 1 p in
        (Layouts.pmode d1 (Pins.ctl ctrlbus i) = Layouts.OUTPUT
         <-> Pins.ctrl_dir p1 (Z.of_nat i) = true)
        /\ Pins.ctrl_level p1 (Z.of_nat i) = Pins.ctrl_level p (Z.of_nat i)
        /\ Layouts.level d1 (Pins.ctl ctrlbus i)
           = (if Z.testbit mask (Z.of_nat i)
                 && negb (Z.testbit dirs (Z.of_nat i))
              then true else Pins.ctrl_level p (Z.of_nat i)))
  /\ Pins.agree ctrlbus (Lines.two_step dirs lv mask p)
       (Pins.setGpibState_generic ctrlbus lv mask 0
          (Pins.setGpibState_generic ctrlbus dirs mask 1 d))
  /\ (forall bits m mode q, ~ In q ctrlbus ->
        let d' := Pins.setGpibState_generic ctrlbus bits m mode d in
        Layouts.level d' q = Layouts.level d q
        /\ Layouts.pmode d' q = Layouts.pmode d q).
Proof.
  intros Hnd Hlen Hag.
  split; [exact (CtrlFacts.levels_agree ctrlbus Hnd Hlen lv mask p d Hag)|].
  split; [exact (CtrlFacts.directions_after ctrlbus Hnd Hlen dirs mask p d
                   Hag)|].
  split; [exact (CtrlFacts.two_step_agree ctrlbus Hnd Hlen dirs lv mask p d
                   Hag)|].
  intros bits m mode q Hq.
  exact (CtrlFacts.generic_frame ctrlbus Hlen bits m mode d q Hq).
Qed.

(** The pins of the Arduino Pro Micro, all inputs with their output bits
    clear as after a reset, and the two calls of [setControls(CCMS)]:
    after the direction call the generic layout has the pull-up of NDAC
    on, the registers have not; after the level call both are the same
    again. *)
Lemma setGpibState_layouts_agree_witness :
  let cb := [4; 21; 20; 19; 18; 5; 7; 2]%nat in
  let d := Layouts.mkDigital (fun _ => Layouts.INPUT_PULLUP)
                             (fun _ => false) in
  Layouts.level (Pins.setGpibState_generic cb 185 159 1 d) (Pins.ctl cb 1)
  = true
  /\ Pins.ctrl_level (Layouts.setGpibState 185 159 1 Partner.ports0) 1
     = false
  /\ Pins.agree cb (Lines.two_step 185 95 159 Partner.ports0)
       (Pins.setGpibState_generic cb 95 159 0
          (Pins.setGpibState_generic cb 185 159 1 d)).
Proof.
  intros cb d.
  assert (Hag : Pins.agree cb Partner.ports0 d).
  { intros i Hi.
    do 8 (destruct i as [|i]; [split; [reflexivity | split; discriminate]|]).
    lia. }
  destruct (setGpibState_layouts_agree cb 185 95 159 Partner.ports0 d)
    as (_ & H2 & H3 & _).
  - repeat constructor; cbn; intuition discriminate.
  - reflexivity.
  - exact Hag.
  - destruct (H2 1%nat ltac:(lia)) as (_ & Hp & Hd).
    cbn zeta in Hp, Hd.
    split; [exact Hd|]. split; [exact Hp | exact H3].
Defined.

(** ** Bus engine: the outcomes of a handshake *)

Module OutcomeFacts.
Import Bus Handshake Outcome.

#[local] Opaque Layouts.setGpibState Layouts.setGpibDbus Layouts.readyGpibDbus.

Lemma setControls_run st w :
  let w' := snd (setControls st w) in
  cfg w' = cfg w /\ cstate w' = st /\ trace w' = trace w ++ [Controls st].
Proof.
  cbn zeta. unfold setControls.
  repeat match goal with
         | |- context [if ?b then _ else _] => destruct b
         end; cbn; repeat split; reflexivity.
Qed.

(** One pass of the write loop. *)
Lemma wpass_outcome T db il st c stage w :
  let put := Put st db (eoi c && il) in
  writing T put st c stage w ->
  let r := wpass db il stage w in
  if snd (fst r) then write_left T put st c (fst (fst r)) (snd r)
  else writing T put st c (fst (fst r)) (snd r).
Proof.
  intros put (Hc & Hs & Hst). subst put. cbn zeta. unfold wpass.
  destruct (Z.eqb_spec (cmode (cfg w)) 1) as [Hm|Hm].
  - rewrite Hc in Hm. destruct (lvl (pins w) IFC); cbn [negb].
    2:{ pose proof (setControls_run DLAS w) as (Hc' & Hs' & Ht').
        destruct (setControls DLAS w) as [[] w1]. cbn [fst snd] in *.
        split; [congruence|]. right. split; [left; reflexivity|].
        split; [exact Hm|]. split; [exact Hs'|].
        rewrite Ht'. destruct Hst as [[_ ->]|[_ ->]];
          [left; reflexivity | right; rewrite <- List.app_assoc; reflexivity]. }
    destruct (lvl (pins w) ATN); cbn [negb].
    2:{ pose proof (setControls_run DLAS w) as (Hc' & Hs' & Ht').
        destruct (setControls DLAS w) as [[] w1]. cbn [fst snd] in *.
        split; [congruence|]. right. split; [right; reflexivity|].
        split; [exact Hm|]. split; [exact Hs'|].
        rewrite Ht'. destruct Hst as [[_ ->]|[_ ->]];
          [left; reflexivity | right; rewrite <- List.app_assoc; reflexivity]. }
    destruct Hst as [[[->| ->] Ht]|[[->| ->] Ht]];
      destruct (lvl (pins w) NDAC), (lvl (pins w) NRFD);
      cbn; rewrite ?Hc, ?Hs; destruct (eoi c && il);
      cbn; rewrite ?Hc, ?Hs, ?Ht; unfold writing, write_left;
      cbn [trace log set_ports cfg cstate]; rewrite ?Ht;
      repeat split; auto 8.
  - destruct Hst as [[[->| ->] Ht]|[[->| ->] Ht]];
      destruct (lvl (pins w) NDAC), (lvl (pins w) NRFD);
      cbn; rewrite ?Hc, ?Hs; destruct (eoi c && il);
      cbn; rewrite ?Hc, ?Hs, ?Ht; unfold writing, write_left;
      cbn [trace log set_ports cfg cstate]; rewrite ?Ht;
      repeat split; auto 8.
Qed.

Lemma writing_env T put st c stage s f w :
  writing T put st c stage w -> writing T put st c stage (set_env s f w).
Proof. intros H. exact H. Qed.

(** The write loop ends between two passes or by leaving. *)
Lemma wloop_outcome T db il st c timeval start fut :
  let put := Put st db (eoi c && il) in
  forall cur stage w,
    writing T put st c stage w ->
    let r := wloop fut db il timeval start cur stage w in
    writing T put st c (fst r) (snd r)
    \/ write_left T put st c (fst r) (snd r).
Proof.
  intros put. induction fut as [|s rest IH]; intros cur stage w Hw;
    cbn [wloop]; destruct (u32 (cur - start) <? timeval);
    try (left; exact Hw);
    pose proof (wpass_outcome T db il st c stage w Hw) as Hp;
    cbn zeta in Hp;
    destruct (wpass db il stage w) as [[stage' brk] w1];
    cbn [fst snd] in Hp; destruct brk;
    try (right; exact Hp); try (left; exact Hp).
  apply IH. apply writing_env. exact Hp.
Qed.

End OutcomeFacts.

(** X4.  The outcomes of [writeByte], whatever the other side does.  It
    returns 0 exactly when the byte was put on the bus and accepted; 4 or
    5 when the timeout ran out before the byte was put on the bus (nothing
    was sent); 7 or 8 when it ran out after that (the byte was on the bus,
    not accepted); and, in device role only, 1 or 2 when IFC or ATN
    interrupted, with the engine switched to DLAS.  The configuration is
    never changed, and the bus state only by the interrupt. *)
Theorem writeByte_outcome (db : Z) (isLastByte : bool) (w : Bus.World) :
  let r := fst (Bus.writeByte db isLastByte w) in
  let w' := snd (Bus.writeByte db isLastByte w) in
  let put := Bus.Put (Bus.cstate w) db (Bus.eoi (Bus.cfg w) && isLastByte) in
  Bus.cfg w' = Bus.cfg w
  /\ ((r = 0 /\ Bus.cstate w' = Bus.cstate w
       /\ Bus.trace w' = Bus.trace w ++ [put; Bus.Accepted])
      \/ ((r = 4 \/ r = 5) /\ Bus.cstate w' = Bus.cstate w
          /\ Bus.trace w' = Bus.trace w)
      \/ ((r = 7 \/ r = 8) /\ Bus.cstate w' = Bus.cstate w
          /\ Bus.trace w' = Bus.trace w ++ [put])
      \/ ((r = 1 \/ r = 2) /\ Bus.cmode (Bus.cfg w) = 1
          /\ Bus.cstate w' = Bus.DLAS
          /\ (Bus.trace w' = Bus.trace w ++ [Bus.Controls Bus.DLAS]
              \/ Bus.trace w'
                 = Bus.trace w ++ [put; Bus.Controls Bus.DLAS]))).
Proof.
  intros r w' put. subst r w'. unfold Bus.writeByte.
  pose proof (OutcomeFacts.wloop_outcome (Bus.trace w) db isLastByte
                (Bus.cstate w) (Bus.cfg w) (Bus.rtmo (Bus.cfg w))
                (Bus.ms (Bus.pins w)) (Bus.future w)
                (Bus.ms (Bus.pins w) + 1) 4 w) as H.
  cbn zeta in H. fold put in H.
  specialize (H (conj eq_refl (conj eq_refl
                   (or_introl (conj (or_introl eq_refl) eq_refl))))).
  destruct (Bus.wloop _ _ _ _ _ _ _ _) as [stage w1]. cbn [fst snd] in H.
  destruct H as [(Hc & Hs & Hst)|(Hc & Hl)].
  - destruct Hst as [[[->| ->] Ht]|[[->| ->] Ht]]; cbn [Z.eqb Pos.eqb fst snd];
      (split; [exact Hc|]); auto 10.
  - destruct Hl as [(-> & Hs & Ht)|([->| ->] & Hm & Hs & Ht)];
      cbn [Z.eqb Pos.eqb fst snd].
    + rewrite Hc. unfold Bus.bind, Bus.setGpibState, Bus.setGpibDbus, Bus.act,
        Bus.ret.
      destruct (Bus.eoi (Bus.cfg w) && isLastByte) eqn:E; cbn;
        (split; [exact Hc|]); left; rewrite Hs, Ht, <- List.app_assoc;
        subst put; rewrite ?E; repeat split; reflexivity.
    + split; [exact Hc|]. do 3 right. auto 10.
    + split; [exact Hc|]. do 3 right. auto 10.
Qed.

Module ReadOutcomeFacts.
Import Bus Handshake Outcome.

#[local] Opaque Layouts.setGpibState Layouts.setGpibDbus Layouts.readyGpibDbus.

(** One pass of the read loop. *)
Lemma rpass_outcome w0 db0 rwe atn stage db e w :
  reading w0 db0 rwe stage db e w ->
  let r := rpass rwe atn stage db e w in
  let '(stage', brk, db', e') := fst r in
  if brk then read_left w0 db0 rwe stage' db' e' (snd r)
  else reading w0 db0 rwe stage' db' e' (snd r).
Proof.
  intros (Hc & Hs & Hh & He & Hst). cbn zeta. unfold rpass.
  destruct (Z.eqb_spec (cmode (cfg w)) 1) as [Hm|Hm].
  - rewrite Hc in Hm. destruct (lvl (pins w) IFC); cbn [negb].
    2:{ cbn [fst snd]. unfold read_left. repeat split; try assumption.
        right. split; [left; reflexivity|]. split; [exact Hm|].
        destruct Hst as [(_ & -> & -> & Ht)|(_ & Ht)]; auto. }
    destruct (atn && negb (negb (lvl (pins w) ATN))).
    { cbn [fst snd]. unfold read_left. repeat split; try assumption.
      right. split; [right; reflexivity|]. split; [exact Hm|].
      destruct Hst as [(_ & -> & -> & Ht)|(_ & Ht)]; auto. }
    destruct Hst as [([->| ->] & -> & -> & Ht)|(-> & Ht)];
      destruct (lvl (pins w) DAV), (lvl (pins w) EOI), rwe;
      cbn; unfold reading, read_left;
      cbn [trace log set_ports cfg cstate host]; rewrite ?Ht;
      repeat split; auto 8; try discriminate.
  - destruct Hst as [([->| ->] & -> & -> & Ht)|(-> & Ht)];
      destruct (lvl (pins w) DAV), (lvl (pins w) EOI), rwe;
      cbn; unfold reading, read_left;
      cbn [trace log set_ports cfg cstate host]; rewrite ?Ht;
      repeat split; auto 8; try discriminate.
Qed.

Lemma rloop_outcome w0 db0 rwe atn timeval start fut :
  forall cur stage db e w,
    reading w0 db0 rwe stage db e w ->
    let r := rloop fut rwe atn timeval start cur stage db e w in
    let '(stage', db', e') := fst r in
    reading w0 db0 rwe stage' db' e' (snd r)
    \/ read_left w0 db0 rwe stage' db' e' (snd r).
Proof.
  induction fut as [|s rest IH]; intros cur stage db e w Hw;
    cbn [rloop]; destruct (u32 (cur - start) <? timeval);
    try (left; exact Hw);
    pose proof (rpass_outcome w0 db0 rwe atn stage db e w Hw) as Hp;
    cbn zeta in Hp;
    destruct (rpass rwe atn stage db e w) as [[[[stage' brk] db'] e'] w1];
    cbn [fst snd] in Hp; destruct brk;
    try (right; exact Hp); try (left; exact Hp).
  apply IH. exact Hp.
Qed.

End ReadOutcomeFacts.

(** X5.  The outcomes of [readByte], whatever the other side does.  It
    returns 0 exactly when a byte was sampled and the talker withdrew it;
    the byte left in [db] is the one sampled.  It returns 4 or 6 when the
    timeout ran out before a byte was offered: [db] is then as the caller
    passed it and the EOI flag is clear.  It returns 8 when a byte was
    sampled but not withdrawn in time.  In device role only it returns 1
    or 2 on an interrupt.  The EOI flag is only set when EOI detection was
    asked for; configuration, bus state and host output never change. *)
Theorem readByte_outcome (db0 : Z) (readWithEoi : bool) (w : Bus.World) :
  let res := Bus.readByte db0 readWithEoi w in
  let r := fst (fst (fst res)) in
  let db := snd (fst (fst res)) in
  let e := snd (fst res) in
  let w' := snd res in
  Bus.cfg w' = Bus.cfg w /\ Bus.cstate w' = Bus.cstate w
  /\ Bus.host w' = Bus.host w
  /\ (e = true -> readWithEoi = true)
  /\ ((r = 0 /\ Bus.trace w' = Bus.trace w ++ [Bus.Got db e])
      \/ ((r = 4 \/ r = 6) /\ db = db0 /\ e = false
          /\ Bus.trace w' = Bus.trace w)
      \/ (r = 8 /\ Bus.trace w' = Bus.trace w ++ [Bus.Got db e])
      \/ ((r = 1 \/ r = 2) /\ Bus.cmode (Bus.cfg w) = 1
          /\ ((db = db0 /\ e = false /\ Bus.trace w' = Bus.trace w)
              \/ Bus.trace w' = Bus.trace w ++ [Bus.Got db e]))).
Proof.
  cbn zeta. unfold Bus.readByte.
  pose proof (ReadOutcomeFacts.rloop_outcome w db0 readWithEoi
                (negb (Bus.lvl (Bus.pins w) Bus.ATN))
                (Bus.rtmo (Bus.cfg w)) (Bus.ms (Bus.pins w)) (Bus.future w)
                (Bus.ms (Bus.pins w) + 1) 4 db0 false w) as H.
  cbn zeta in H.
  assert (H0 : Outcome.reading w db0 readWithEoi 4 db0 false w).
  { repeat split; try discriminate. left. auto. }
  specialize (H H0). clear H0.
  destruct (Bus.rloop _ _ _ _ _ _ _ _ _ _) as [[[stage db] e] w1].
  cbn [fst snd] in H.
  destruct H as [(Hc & Hs & Hh & He & Hst)|(Hc & Hs & Hh & He & Hl)].
  - destruct Hst as [([->| ->] & -> & -> & Ht)|(-> & Ht)];
      cbn [Z.eqb Pos.eqb fst snd]; repeat split; auto 10; discriminate.
  - destruct Hl as [(-> & Ht)|([->| ->] & Hm & Ht)];
      cbn [Z.eqb Pos.eqb fst snd]; repeat split; auto 10.
Qed.

(** ** Bus engine: addressed commands, UNL and UNT *)

Module EngineFacts.
Import Bus Partner Handshake Engine.

#[local] Opaque Layouts.setGpibState Layouts.setGpibDbus Layouts.readyGpibDbus.
#[local] Arguments set_ports _ !_ /.
#[local] Arguments set_cfg _ !_ /.
#[local] Arguments set_cstate _ !_ /.
#[local] Arguments set_deviceAddressed _ !_ /.
#[local] Arguments set_txBreak _ !_ /.
#[local] Arguments set_env _ _ !_ /.
#[local] Arguments log _ !_ /.
#[local] Arguments print _ !_ /.

(** The shape the four addressed commands share. *)
Lemma addressed_ack addr c0 p c st da tb P rest tr h :
  1 < rtmo c -> calm P ->
  exists p',
    (e1 <- addressDevice addr LISTEN ;;
     if e1 then ret true else
     e2 <- sendCmd c0 ;;
     if e2 then ret true else
     unAddressDevice)
      (mkWorld p c st da tb P (acks 5 ++ rest) tr h)
    = (false, mkWorld p' c CCMS false tb accepted rest
                (tr ++ Sequence.addressed st addr c0) h).
Proof.
  intros Hr HP. unfold bind, Sequence.addressed.
  cbn [acks]. rewrite <- !List.app_assoc.
  destruct (CommandFacts.addressDevice_ack p c st da tb P
              (ack ++ ack ++ ack ++ [] ++ rest) tr h addr LISTEN Hr HP)
    as [p1 ->].
  destruct (CommandFacts.sendCmd_ack p1 c CCMS true tb accepted
              (ack ++ ack ++ [] ++ rest)
              (tr ++ Expect.cmd st GC_UNL
                  ++ Expect.cmd CCMS (u8 ((if LISTEN then GC_TAD else GC_LAD)
                                          + addr)))
              h c0 Hr BusFacts.calm_accepted) as [p2 ->].
  destruct (CommandFacts.unAddressDevice_ack p2 c CCMS true tb accepted
              ([] ++ rest)
              ((tr ++ Expect.cmd st GC_UNL
                   ++ Expect.cmd CCMS
                        (u8 ((if LISTEN then GC_TAD else GC_LAD) + addr)))
               ++ Expect.cmd CCMS c0)
              h Hr BusFacts.calm_accepted) as [p3 ->].
  exists p3. unfold LISTEN. cbn [app]. rewrite <- !List.app_assoc.
  reflexivity.
Qed.


Lemma puts_addressed st addr c0 :
  Expect.puts (Sequence.addressed st addr c0)
  = [GC_UNL; u8 (GC_LAD + addr); c0; GC_UNL; GC_UNT].
Proof.
  unfold Sequence.addressed.
  rewrite !AddressingFacts.puts_app, !AddressingFacts.puts_cmd. reflexivity.
Qed.

(** Neither [setControls] nor a handshake changes the addressing flag. *)
Lemma setControls_flag st w :
  deviceAddressed (snd (setControls st w)) = deviceAddressed w.
Proof.
  unfold setControls.
  repeat match goal with
         | |- context [if ?b then _ else _] => destruct b
         end; reflexivity.
Qed.

Lemma wpass_flag db il stage w :
  deviceAddressed (snd (wpass db il stage w)) = deviceAddressed w.
Proof.
  destruct (FrameFacts.wpass_shape db il stage w)
    as (s' & b & [H|[H|[_ H]]]); rewrite H; cbn [snd].
  - reflexivity.
  - unfold placed. destruct (eoi (cfg w) && il); reflexivity.
  - apply setControls_flag.
Qed.

Lemma wloop_flag db il timeval start fut : forall cur stage w,
  deviceAddressed (snd (wloop fut db il timeval start cur stage w))
  = deviceAddressed w.
Proof.
  induction fut as [|s rest IH]; intros cur stage w; cbn [wloop];
    destruct (u32 (cur - start) <? timeval); try reflexivity;
    pose proof (wpass_flag db il stage w) as Hp;
    destruct (wpass db il stage w) as [[stage' brk] w1]; cbn [snd] in Hp;
    destruct brk; try exact Hp.
  rewrite IH. exact Hp.
Qed.

Lemma writeByte_flag db il w :
  deviceAddressed (snd (writeByte db il w)) = deviceAddressed w.
Proof.
  unfold writeByte.
  pose proof (wloop_flag db il (rtmo (cfg w)) (ms (pins w)) (future w)
                (ms (pins w) + 1) 4 w) as H.
  destruct (wloop _ _ _ _ _ _ _ _) as [stage w1]. cbn [snd] in H.
  destruct (stage =? 9); [|exact H].
  destruct (eoi (cfg w1) && il); exact H.
Qed.

Lemma sendCmd_flag b w :
  deviceAddressed (snd (sendCmd b w)) = deviceAddressed w.
Proof.
  unfold sendCmd, bind, get, when, ret.
  assert (H1 : deviceAddressed
                 (snd ((if negb (cstate w =? CCMS) then setControls CCMS
                        else fun w0 => (tt, w0)) w)) = deviceAddressed w).
  { destruct (negb (cstate w =? CCMS)); [apply setControls_flag|reflexivity]. }
  destruct ((if negb (cstate w =? CCMS) then setControls CCMS
             else fun w0 => (tt, w0)) w) as [[] w1]. cbn [snd] in H1.
  pose proof (writeByte_flag b NO_EOI w1) as H2.
  destruct (writeByte b NO_EOI w1) as [r w2]. cbn [snd] in *. congruence.
Qed.

(** [sendUNL] and [sendUNT] share their shape. *)
Lemma send_un_outcome b w :
  cmode (cfg w) = 2 ->
  let res := (e <- sendCmd b ;;
              if e then ret true else
              setControls CIDS ;;;
              act (set_deviceAddressed false) ;;;
              ret false) w in
  (fst res = false /\ cstate (snd res) = CIDS
   /\ deviceAddressed (snd res) = false)
  \/ (fst res = true /\ cstate (snd res) = CCMS
      /\ deviceAddressed (snd res) = deviceAddressed w).
Proof.
  intros Hm. cbn zeta. unfold bind.
  pose proof (FrameFacts.sendCmd_frame b w) as [_ Hs].
  pose proof (sendCmd_flag b w) as Hf.
  destruct (sendCmd b w) as [e w1]. cbn [snd] in *.
  destruct e.
  - right. repeat split; [|exact Hf]. apply Hs. rewrite Hm. reflexivity.
  - left. pose proof (FrameFacts.setControls_cstate CIDS w1) as Hc.
    destruct (setControls CIDS w1) as [[] w2]. cbn [snd] in Hc.
    repeat split. exact Hc.
Qed.

(** What a command of that shape leaves behind. *)
Lemma addressed_run (m : M bool) addr c0 p c st da tb P rest tr h :
  1 < rtmo c -> calm P ->
  let w := mkWorld p c st da tb P (acks 5 ++ rest) tr h in
  m w = (e1 <- addressDevice addr LISTEN ;;
         if e1 then ret true else
         e2 <- sendCmd c0 ;;
         if e2 then ret true else
         unAddressDevice) w ->
  fst (m w) = false
  /\ trace (snd (m w)) = tr ++ Sequence.addressed st addr c0
  /\ Expect.puts (trace (snd (m w)))
     = Expect.puts tr ++ [GC_UNL; u8 (GC_LAD + addr); c0; GC_UNL; GC_UNT]
  /\ deviceAddressed (snd (m w)) = false
  /\ cstate (snd (m w)) = CCMS
  /\ future (snd (m w)) = rest.
Proof.
  intros Hr HP w Hm. rewrite Hm. subst w.
  destruct (addressed_ack addr c0 p c st da tb P rest tr h Hr HP)
    as [p' ->].
  cbn [fst snd trace deviceAddressed cstate future].
  rewrite AddressingFacts.puts_app, puts_addressed. repeat split.
Qed.

End EngineFacts.

(** X6.  The addressed commands.  With listeners that accept every byte,
    [sendSDC], [sendLLO] and [sendGTL] (for the configured primary
    address) and [sendGET] (for the address given) put five command bytes
    on the bus, UNL, LAD+address, the command, UNL, UNT, all with ATN
    asserted; they return OK, leave the addressing flag clear and the
    engine in CCMS. *)
Theorem addressed_commands (p : Layouts.Ports) (c : Bus.Config) (st : Z)
    (da tb : bool) (P : Bus.Snap) (rest : list Bus.Snap)
    (tr : list Bus.Event) (h : list Z) :
  1 < Bus.rtmo c -> Partner.calm P ->
  let w := Bus.mkWorld p c st da tb P (Partner.acks 5 ++ rest) tr h in
  let sent (m : Bus.M bool) (addr c0 : Z) :=
    fst (m w) = false
    /\ Bus.trace (snd (m w)) = tr ++ Sequence.addressed st addr c0
    /\ Expect.puts (Bus.trace (snd (m w)))
       = Expect.puts tr
         ++ [Bus.GC_UNL; u8 (Bus.GC_LAD + addr); c0; Bus.GC_UNL; Bus.GC_UNT]
    /\ Bus.deviceAddressed (snd (m w)) = false
    /\ Bus.cstate (snd (m w)) = Bus.CCMS
    /\ Bus.future (snd (m w)) = rest in
  sent Engine.sendSDC (Bus.paddr c) Bus.GC_SDC
  /\ sent Engine.sendLLO (Bus.paddr c) Bus.GC_LLO
  /\ sent Engine.sendGTL (Bus.paddr c) Bus.GC_GTL
  /\ (forall addr, sent (Bus.sendGET addr) addr Bus.GC_GET).
Proof.
  intros Hr HP w sent. unfold sent. split; [|split; [|split]].
  - apply (EngineFacts.addressed_run Engine.sendSDC (Bus.paddr c) Bus.GC_SDC
             p c st da tb P rest tr h Hr HP). reflexivity.
  - apply (EngineFacts.addressed_run Engine.sendLLO (Bus.paddr c) Bus.GC_LLO
             p c st da tb P rest tr h Hr HP). reflexivity.
  - apply (EngineFacts.addressed_run Engine.sendGTL (Bus.paddr c) Bus.GC_GTL
             p c st da tb P rest tr h Hr HP). reflexivity.
  - intros addr.
    apply (EngineFacts.addressed_run (Bus.sendGET addr) addr Bus.GC_GET
             p c st da tb P rest tr h Hr HP). reflexivity.
Qed.

(** [++trg 7] sent as [sendGET(7)]. *)
Lemma addressed_commands_witness :
  let w := Partner.world (Partner.config 2 false 0 0 0) (Partner.acks 5) in
  Expect.puts (Bus.trace (snd (Bus.sendGET 7 w))) = [63; 39; 8; 63; 95]
  /\ fst (Bus.sendGET 7 w) = false.
Proof.
  intros w.
  destruct (addressed_commands Partner.ports0 (Partner.config 2 false 0 0 0)
              0 false false Partner.idle [] [] [] ltac:(cbn; lia)
              BusFacts.calm_idle) as (_ & _ & _ & H).
  destruct (H 7) as (Hf & _ & Hp & _). split; [exact Hp | exact Hf].
Defined.

(** X7.  [sendUNL] and [sendUNT] in controller role, whatever the bus
    does: either the command byte was accepted, and they return OK with
    the engine in CIDS and the addressing flag clear; or it was not, and
    they return ERR with the engine left in CCMS (ATN asserted) and the
    addressing flag as it was. *)
Theorem unlisten_untalk_outcome (w : Bus.World) :
  Bus.cmode (Bus.cfg w) = 2 ->
  let outcome (res : bool * Bus.World) :=
    (fst res = false /\ Bus.cstate (snd res) = Bus.CIDS
     /\ Bus.deviceAddressed (snd res) = false)
    \/ (fst res = true /\ Bus.cstate (snd res) = Bus.CCMS
        /\ Bus.deviceAddressed (snd res) = Bus.deviceAddressed w) in
  outcome (Engine.sendUNL w) /\ outcome (Engine.sendUNT w).
Proof.
  intros Hm outcome. split.
  - exact (EngineFacts.send_un_outcome Bus.GC_UNL w Hm).
  - exact (EngineFacts.send_un_outcome Bus.GC_UNT w Hm).
Qed.

(** Both outcomes occur: with a listener, and on a silent bus. *)
Lemma unlisten_untalk_outcome_witness :
  let c := Partner.config 2 false 0 0 0 in
  let w1 := Partner.world c Partner.ack in
  let w0 := Partner.world c [] in
  (fst (Engine.sendUNL w1) = false
   /\ Bus.cstate (snd (Engine.sendUNL w1)) = Bus.CIDS)
  /\ (fst (Engine.sendUNL w0) = true
      /\ Bus.cstate (snd (Engine.sendUNL w0)) = Bus.CCMS).
Proof.
  intros c w1 w0. split.
  - destruct (unlisten_untalk_outcome w1 eq_refl) as [[H|H] _].
    + split; apply H.
    + destruct H as (H & _). discriminate H.
  - destruct (unlisten_untalk_outcome w0 eq_refl) as [[H|H] _].
    + destruct H as (H & _). discriminate H.
    + split; apply H.
Defined.

(** ** Status byte and SRQ line *)

Module SrqFacts.
Import Bus Partner Handshake Pins.

(** The SRQ line (control line 6) after [setSrqSig] and [clrSrqSig];
    the other control lines stay as they are. *)
Lemma srq_set p i : 0 <= i < 8 ->
  let p' := Layouts.setGpibState 0 64 0 (Layouts.setGpibState 64 64 1 p) in
  ctrl_dir p' i = (if i =? 6 then true else ctrl_dir p i)
  /\ ctrl_level p' i = (if i =? 6 then false else ctrl_level p i).
Proof.
  intros Hi. cbn zeta.
  destruct (LineFacts.level_after 0 64 (Layouts.setGpibState 64 64 1 p) i Hi)
    as [Hl Hd].
  destruct (LineFacts.dir_after 64 64 p i Hi) as [Hd1 Hl1].
  cbn zeta in *. rewrite Hl, Hd, Hd1, Hl1.
  assert (H64 : Z.testbit 64 i = (i =? 6)).
  { assert (i = 0 \/ i = 1 \/ i = 2 \/ i = 3 \/ i = 4 \/ i = 5 \/ i = 6
            \/ i = 7) as [->|[->|[->|[->|[->|[->|[->| ->]]]]]]] by lia;
      reflexivity. }
  rewrite ?Z.bits_0, ?H64. destruct (i =? 6); split; reflexivity.
Qed.

Lemma srq_clr p i : 0 <= i < 8 ->
  let p' := Layouts.setGpibState 64 64 0 (Layouts.setGpibState 0 64 1 p) in
  ctrl_dir p' i = (if i =? 6 then false else ctrl_dir p i)
  /\ ctrl_level p' i = (if i =? 6 then true else ctrl_level p i).
Proof.
  intros Hi. cbn zeta.
  destruct (LineFacts.level_after 64 64 (Layouts.setGpibState 0 64 1 p) i Hi)
    as [Hl Hd].
  destruct (LineFacts.dir_after 0 64 p i Hi) as [Hd1 Hl1].
  cbn zeta in *. rewrite Hl, Hd, Hd1, Hl1.
  assert (H64 : Z.testbit 64 i = (i =? 6)).
  { assert (i = 0 \/ i = 1 \/ i = 2 \/ i = 3 \/ i = 4 \/ i = 5 \/ i = 6
            \/ i = 7) as [->|[->|[->|[->|[->|[->|[->| ->]]]]]]] by lia;
      reflexivity. }
  rewrite ?Z.bits_0, ?H64. destruct (i =? 6); split; reflexivity.
Qed.

#[local] Opaque Layouts.setGpibState Layouts.setGpibDbus Layouts.readyGpibDbus.

(** [setStatus] written out. *)
Lemma setStatus_run sb p c st da tb P f tr h :
  setStatus sb (mkWorld p c st da tb P f tr h)
  = (tt, mkWorld (if Z.testbit sb 6
                  then Layouts.setGpibState 0 64 0
                         (Layouts.setGpibState 64 64 1 p)
                  else Layouts.setGpibState 64 64 0
                         (Layouts.setGpibState 0 64 1 p))
                 (set_stat sb c) st da tb P f tr h).
Proof.
  unfold setStatus, bind, act. cbn [set_cfg cfg ports cstate deviceAddressed
                                    txBreak pins future trace host].
  rewrite nz_land_64. destruct (Z.testbit sb 6); reflexivity.
Qed.

End SrqFacts.

(** X8.  The status byte from [setStatus] to the serial poll.
    [setStatus(sb)] stores [sb] and drives the SRQ line low when bit 6
    of [sb] is set; otherwise it releases the line (input with pull-up);
    no other control line changes.  A [sendStatus] that follows, with a
    controller that accepts the byte, puts exactly [sb] on the bus, and
    afterwards the stored byte is [sb] with bit 6 cleared and the SRQ
    line is released. *)
Theorem status_byte_round_trip (sb : Z) (p : Layouts.Ports) (c : Bus.Config)
    (st : Z) (da tb : bool) (P : Bus.Snap) (rest : list Bus.Snap)
    (tr : list Bus.Event) (h : list Z) :
  1 < Bus.rtmo c -> Partner.calm P ->
  let w := Bus.mkWorld p c st da tb P (Partner.ack ++ rest) tr h in
  let w1 := snd (Bus.setStatus sb w) in
  let w2 := snd (Bus.sendStatus w1) in
  Bus.stat (Bus.cfg w1) = sb
  /\ (forall i, 0 <= i < 8 ->
        Pins.ctrl_dir (Bus.ports w1) i
        = (if i =? 6 then Z.testbit sb 6 else Pins.ctrl_dir p i)
        /\ Pins.ctrl_level (Bus.ports w1) i
           = (if i =? 6 then negb (Z.testbit sb 6) else Pins.ctrl_level p i))
  /\ Expect.puts (Bus.trace w2) = Expect.puts tr ++ [sb]
  /\ Bus.stat (Bus.cfg w2) = Z.land sb (Z.lnot 64)
  /\ Pins.ctrl_dir (Bus.ports w2) 6 = false
  /\ Pins.ctrl_level (Bus.ports w2) 6 = true.
Proof.
  intros Hr HP w w1 w2. subst w2 w1 w.
  rewrite SrqFacts.setStatus_run. cbn [snd].
  set (p1 := if Z.testbit sb 6 then _ else _).
  destruct (StatusFacts.sendStatus_ack p1 (Bus.set_stat sb c) st da tb P rest
              tr h Hr HP) as [p2 ->].
  cbn [snd Bus.cfg Bus.ports Bus.trace Bus.stat Bus.set_stat].
  split; [reflexivity|]. split.
  - intros i Hi. subst p1. destruct (Z.testbit sb 6).
    + destruct (SrqFacts.srq_set p i Hi) as [Hd Hl]. cbn zeta in *.
      rewrite Hd, Hl. destruct (i =? 6); split; reflexivity.
    + destruct (SrqFacts.srq_clr p i Hi) as [Hd Hl]. cbn zeta in *.
      rewrite Hd, Hl. destruct (i =? 6); split; reflexivity.
  - split.
    + rewrite AddressingFacts.puts_app. f_equal.
      unfold Expect.status_events. destruct (st =? Bus.DTAS); reflexivity.
    + split; [reflexivity|].
      destruct (SrqFacts.srq_clr p2 6 ltac:(lia)) as [Hd Hl].
      split; [exact Hd | exact Hl].
Qed.

(** [++status 72]: SRQ is asserted, the controller polls, reads 72, and
    8 is what remains. *)
Lemma status_byte_round_trip_witness :
  let w := Partner.world (Partner.config 1 false 0 0 0) Partner.ack in
  let w1 := snd (Bus.setStatus 72 w) in
  let w2 := snd (Bus.sendStatus w1) in
  Pins.ctrl_level (Bus.ports w1) 6 = false
  /\ Expect.puts (Bus.trace w2) = [72]
  /\ Bus.stat (Bus.cfg w2) = 8.
Proof.
  intros w w1 w2.
  destruct (status_byte_round_trip 72 Partner.ports0
              (Partner.config 1 false 0 0 0) 0 false false Partner.idle
              [] [] [] ltac:(cbn; lia) BusFacts.calm_idle)
    as (_ & Hl & Hp & Hs & _).
  destruct (Hl 6 ltac:(lia)) as [_ Hl6].
  split; [exact Hl6|]. split; [exact Hp | exact Hs].
Defined.

(** ** Receiving with EOI: result and EOT character *)

Module EotFacts.
Import Bus.

(** With EOI as the terminator the loop stops, and reports EOI, exactly
    when one of the bytes came with EOI. *)
Lemma rx_run_eoi_flags deb eb eorc : forall data b1 b2,
  let run := Expect.rx_run true deb eb eorc b1 b2 data in
  snd run = existsb snd data /\ snd (fst run) = existsb snd data.
Proof.
  induction data as [|[b e] data IH]; intros b1 b2; [split; reflexivity|].
  cbn [Expect.rx_run rx_stop andb existsb snd].
  destruct e; [split; reflexivity|]. cbn [orb].
  specialize (IH b b1). cbn zeta in IH.
  destruct (Expect.rx_run true deb eb eorc b b1 data) as [[[out r] ef] s].
  exact IH.
Qed.

End EotFacts.

(** X9.  A receive with EOI as the terminator (device role, or controller
    role with [cfg.eoi], a request for EOI detection or EOR code 7), from
    a talker that sends [data] and then falls silent.  The bytes up to the
    first one sent with EOI go to the host.  [receiveData] returns OK if a
    byte came with EOI and ERR if none did (the read ran into the
    timeout); the EOT character is appended exactly when a byte came with
    EOI and [eot_en] is set.  The end-byte arguments play no part. *)
Theorem receive_with_eoi (detectEoi detectEndByte : bool) (endByte : Z)
    (data : list (Z * bool)) (p : Layouts.Ports) (c : Bus.Config) (st : Z)
    (da tb : bool) (P : Bus.Snap) (tr : list Bus.Event) (h : list Z) :
  1 < Bus.rtmo c -> Partner.calm P -> Forall Handshake.is_byte data ->
  let ctl := Bus.cmode c =? 2 in
  (if ctl then Bus.eoi c || detectEoi || (Bus.eor c =? 7) else true) = true ->
  let res := Bus.receiveData detectEoi detectEndByte endByte
               (Bus.mkWorld p c st da tb P
                  ((if ctl then Partner.ack ++ Partner.ack else [])
                   ++ Partner.talks data) tr h) in
  fst res = negb (existsb snd data)
  /\ Bus.host (snd res)
     = h ++ Expect.upto_eoi data
         ++ (if existsb snd data && Bus.eot_en c then [Bus.eot_ch c]
             else []).
Proof.
  intros Ht HP Hd ctl Hrwe res.
  pose proof (ReceiveFacts.receiveData_talks detectEoi detectEndByte endByte
                data p c st da tb P tr h Ht HP Hd) as [Hf Hh].
  fold ctl in Hf, Hh. fold res in Hf, Hh. rewrite Hrwe in Hf, Hh.
  destruct (EotFacts.rx_run_eoi_flags detectEndByte endByte
              (Z.land (Bus.eor c) 7) data 0 0) as [Hs He].
  cbn zeta in Hs, He.
  rewrite Hf, Hh, Hs, He, TerminatorFacts.rx_run_eoi. split; reflexivity.
Qed.

(** A device with [eot_en] set and EOT character 4 receives ["AB"], the
    second byte with EOI: the host gets ["AB"] and the byte 4. *)
Lemma receive_with_eoi_witness :
  let c := Bus.mkConfig true false 1 0 1 0 0 0 1200 4 0 0 in
  let res := Bus.receiveData false false 0
               (Partner.world c (Partner.talks [(65, false); (66, true)])) in
  fst res = false /\ Bus.host (snd res) = [65; 66; 4].
Proof.
  intros c res.
  apply (receive_with_eoi false false 0 [(65, false); (66, true)]
           Partner.ports0 c 0 false false Partner.idle [] []).
  - cbn. lia.
  - apply BusFacts.calm_idle.
  - repeat constructor; unfold Handshake.is_byte; cbn; lia.
  - reflexivity.
Defined.

(** ** Starting and stopping the engine *)

Module ModeFacts.
Import Bus Engine Pins Lines.

#[local] Arguments set_ports _ !_ /.
#[local] Arguments set_cfg _ !_ /.
#[local] Arguments set_cstate _ !_ /.
#[local] Arguments log _ !_ /.

#[local] Opaque Layouts.setGpibState Layouts.setGpibDbus
  Layouts.readyGpibDbus.

(** The registers after [stop]. *)
Lemma stop_run w :
  snd (stop w)
  = set_ports (fun p => Layouts.readyGpibDbus
                          (Layouts.setGpibState 255 255 0
                             (Layouts.setGpibState 0 255 1 p)))
              (set_cstate 0 w).
Proof. reflexivity. Qed.

Lemma bit_255 i : 0 <= i < 8 -> Z.testbit 255 i = true.
Proof.
  intros Hi. change 255 with (Z.ones 8). apply Z.ones_spec_low. lia.
Qed.

Lemma release_all p :
  released (Layouts.readyGpibDbus
              (Layouts.setGpibState 255 255 0
                 (Layouts.setGpibState 0 255 1 p))).
Proof.
  intros i Hi.
  destruct (BusLineFacts.ready_lines
              (Layouts.setGpibState 255 255 0
                 (Layouts.setGpibState 0 255 1 p)) i Hi)
    as (Hd & Hl & Hcl & Hcd).
  destruct (LineFacts.level_after 255 255
              (Layouts.setGpibState 0 255 1 p) i Hi) as (Ll & Ld).
  destruct (LineFacts.dir_after 0 255 p i Hi) as (Dd & _).
  cbn zeta in *.
  rewrite Hd, Hl, Hcl, Hcd, Ll, Ld, Dd, bit_255, Z.bits_0 by exact Hi.
  repeat split; reflexivity.
Qed.

Lemma released_ready p : released p -> released (Layouts.readyGpibDbus p).
Proof.
  intros H i Hi. destruct (H i Hi) as (H1 & H2 & _ & _).
  destruct (BusLineFacts.ready_lines p i Hi) as (Hd & Hl & Hcl & Hcd).
  cbn zeta in *. rewrite Hd, Hl, Hcl, Hcd. repeat split; assumption.
Qed.

Lemma stop_state w :
  let w' := snd (stop w) in
  released (ports w') /\ cstate w' = 0
  /\ cfg w' = cfg w /\ trace w' = trace w.
Proof.
  cbn zeta. rewrite stop_run. cbn.
  split; [apply release_all | repeat split; reflexivity].
Qed.

Lemma startDeviceMode_state w :
  let w' := snd (startDeviceMode w) in
  released (ports w') /\ cstate w' = DINI
  /\ cfg w' = set_cmode 1 (cfg w)
  /\ trace w' = trace w ++ [Controls DINI].
Proof.
  destruct w as [p c st da tb P f tr h]. cbn.
  split; [|repeat split; reflexivity].
  apply released_ready, release_all.
Qed.

Lemma begin_device w :
  cmode (cfg w) <> 2 -> begin w = startDeviceMode w.
Proof.
  intros Hm. unfold begin, isController, bind, get.
  apply Z.eqb_neq in Hm. rewrite Hm. reflexivity.
Qed.

End ModeFacts.

(** X10.  [stop] and [startDeviceMode] release the whole bus, whatever
    the registers held before: all eight control lines and all eight data
    lines are inputs with the pull-up on.  [stop] sets the bus state to 0;
    [startDeviceMode] sets the role to device (1), the bus state to DINI,
    and changes nothing else in the configuration; and [begin] is
    [startDeviceMode] unless the role is controller. *)
Theorem startDeviceMode_releases_bus (w : Bus.World) :
  (let w' := snd (Engine.stop w) in
   Lines.released (Bus.ports w') /\ Bus.cstate w' = 0
   /\ Bus.cfg w' = Bus.cfg w /\ Bus.trace w' = Bus.trace w)
  /\ (let w' := snd (Engine.startDeviceMode w) in
      Lines.released (Bus.ports w') /\ Bus.cstate w' = Bus.DINI
      /\ Bus.cfg w' = Engine.set_cmode 1 (Bus.cfg w)
      /\ Bus.trace w' = Bus.trace w ++ [Bus.Controls Bus.DINI])
  /\ (Bus.cmode (Bus.cfg w) <> 2 ->
      Engine.begin w = Engine.startDeviceMode w).
Proof.
  split; [|split].
  - exact (ModeFacts.stop_state w).
  - exact (ModeFacts.startDeviceMode_state w).
  - exact (ModeFacts.begin_device w).
Qed.

(** A device configuration (role 1): [begin] starts device mode. *)
Lemma startDeviceMode_releases_bus_witness :
  let w := Partner.world (Partner.config 1 false 0 0 0) [] in
  Engine.begin w = Engine.startDeviceMode w.
Proof.
  intros w.
  destruct (startDeviceMode_releases_bus w) as (_ & _ & H).
  apply H. cbn. lia.
Defined.

(** ** The lines in each bus state *)

Module ControlFacts.
Import Bus Engine Pins Lines.

#[local] Opaque Layouts.setGpibState Layouts.setGpibDbus
  Layouts.readyGpibDbus.
#[local] Arguments set_ports _ !_ /.
#[local] Arguments set_cfg _ !_ /.
#[local] Arguments set_cstate _ !_ /.
#[local] Arguments log _ !_ /.

Lemma two_step_lines d l m p i : 0 <= i < 8 ->
  ctrl_dir (two_step d l m p) i
  = (if Z.testbit m i then Z.testbit d i else ctrl_dir p i)
  /\ ctrl_level (two_step d l m p) i
     = (if Z.testbit m i then Z.testbit l i else ctrl_level p i).
Proof.
  intros Hi. unfold two_step.
  destruct (LineFacts.level_after l m (Layouts.setGpibState d m 1 p) i Hi)
    as (Ll & Ld).
  destruct (LineFacts.dir_after d m p i Hi) as (Dd & Dl).
  cbn zeta in *. rewrite Ll, Ld, Dd, Dl. split; reflexivity.
Qed.

Lemma two_step_data d l m p k : 0 <= k < 8 ->
  data_dir (two_step d l m p) k = data_dir p k
  /\ data_level (two_step d l m p) k = data_level p k.
Proof.
  intros Hk. unfold two_step.
  destruct (BusLineFacts.state_data l m 0 (Layouts.setGpibState d m 1 p) k Hk)
    as (A1 & A2).
  destruct (BusLineFacts.state_data d m 1 p k Hk) as (B1 & B2).
  cbn zeta in *. rewrite A1, A2, B1, B2. split; reflexivity.
Qed.

(** The registers after [setControls], state by state. *)
Lemma setControls_ports state w :
  ports (snd (setControls state w))
  = let p := ports w in
    if state =? CINI then two_step 184 223 255 p
    else if state =? CIDS then two_step 184 223 158 p
    else if state =? CCMS then two_step 185 95 159 p
    else if state =? CLAS then two_step 166 216 158 p
    else if state =? CTAS then two_step 185 223 158 p
    else if state =? DINI then Layouts.readyGpibDbus (two_step 0 255 255 p)
    else if state =? DIDS then Layouts.readyGpibDbus (two_step 0 255 14 p)
    else if state =? DLAS then two_step 6 249 30 p
    else if state =? DTAS then two_step 24 249 30 p
    else p.
Proof.
  destruct w as [p c st da tb P f tr h]. unfold setControls, two_step.
  cbn [ports].
  repeat match goal with
         | |- context [state =? ?k] => destruct (state =? k); [reflexivity|]
         end.
  cbn. apply LineFacts.other_mode; lia.
Qed.

(** Control line [i] after [setControls]. *)
Lemma setControls_line state w i : 0 <= i < 8 ->
  let p := ports w in
  let p' := ports (snd (setControls state w)) in
  match controls state with
  | Some (d, l, m) =>
      ctrl_dir p' i = (if Z.testbit m i then Z.testbit d i else ctrl_dir p i)
      /\ ctrl_level p' i
         = (if Z.testbit m i then Z.testbit l i else ctrl_level p i)
  | None => p' = p
  end.
Proof.
  intros Hi. cbn zeta. rewrite setControls_ports. unfold controls. cbn zeta.
  repeat match goal with
         | |- context [state =? ?k] =>
             destruct (state =? k);
             [first [ apply two_step_lines; exact Hi
                    | destruct (BusLineFacts.ready_lines
                                  (two_step 0 255 255 (ports w)) i Hi)
                        as (_ & _ & -> & ->);
                      apply two_step_lines; exact Hi
                    | destruct (BusLineFacts.ready_lines
                                  (two_step 0 255 14 (ports w)) i Hi)
                        as (_ & _ & -> & ->);
                      apply two_step_lines; exact Hi ]|]
         end.
  reflexivity.
Qed.

(** Data line [k] after [setControls]: released in the two device idle
    states, as before in every other state. *)
Lemma setControls_data state w k : 0 <= k < 8 ->
  let p := ports w in
  let p' := ports (snd (setControls state w)) in
  if (state =? DINI) || (state =? DIDS)
  then data_dir p' k = false /\ data_level p' k = true
  else data_dir p' k = data_dir p k /\ data_level p' k = data_level p k.
Proof.
  intros Hk. cbn zeta. rewrite setControls_ports. cbn zeta.
  unfold CINI, CIDS, CCMS, CLAS, CTAS, DINI, DIDS, DLAS, DTAS.
  destruct (Z.eq_dec state 6) as [->|H6];
    [|destruct (Z.eq_dec state 7) as [->|H7]].
  - cbn [Z.eqb Pos.eqb orb].
    destruct (BusLineFacts.ready_lines (two_step 0 255 255 (ports w)) k Hk)
      as (-> & -> & _). split; reflexivity.
  - cbn [Z.eqb Pos.eqb orb].
    destruct (BusLineFacts.ready_lines (two_step 0 255 14 (ports w)) k Hk)
      as (-> & -> & _). split; reflexivity.
  - apply Z.eqb_neq in H6, H7. rewrite H6, H7. cbn [orb].
    repeat match goal with
           | |- context [state =? ?n] =>
               destruct (state =? n); [apply two_step_data; exact Hk|]
           end.
    split; reflexivity.
Qed.

Ltac state_cases state :=
  assert (state = 1 \/ state = 2 \/ state = 3 \/ state = 4 \/ state = 5
          \/ state = 6 \/ state = 7 \/ state = 8 \/ state = 9)
    as [->|[->|[->|[->|[->|[->|[->|[->| ->]]]]]]]] by lia.

End ControlFacts.

(** X11.  What [setControls] does and never does to the lines, in every
    state.  It never turns a data line into an output.  Outside the two
    initialisations (CINI, DINI) it leaves REN and SRQ exactly as they
    are, so a service request survives the state changes of a handshake.
    In the device states it never starts driving IFC, REN, SRQ or ATN.
    In every state 1..9 DAV is not driven together with NRFD or NDAC.  In
    the controller states ATN is an output, low in CCMS only.  With a
    state code outside 1..9 no register changes. *)
Theorem setControls_lines (state : Z) (w : Bus.World) :
  let p := Bus.ports w in
  let p' := Bus.ports (snd (Bus.setControls state w)) in
  (forall k, 0 <= k < 8 -> Pins.data_dir p' k = true -> Pins.data_dir p k = true)
  /\ (state <> Bus.CINI -> state <> Bus.DINI ->
      forall i, i = 5 \/ i = 6 ->
        Pins.ctrl_dir p' i = Pins.ctrl_dir p i
        /\ Pins.ctrl_level p' i = Pins.ctrl_level p i)
  /\ (Bus.DINI <= state <= Bus.DTAS ->
      forall i, i = 0 \/ i = 5 \/ i = 6 \/ i = 7 ->
        Pins.ctrl_dir p' i = true -> Pins.ctrl_dir p i = true)
  /\ (Bus.CINI <= state <= Bus.DTAS ->
      Pins.ctrl_dir p' 3 = true ->
      Pins.ctrl_dir p' 1 = false /\ Pins.ctrl_dir p' 2 = false)
  /\ (Bus.CINI <= state <= Bus.CLAS ->
      Pins.ctrl_dir p' 7 = true
      /\ Pins.ctrl_level p' 7 = negb (state =? Bus.CCMS))
  /\ (state < Bus.CINI \/ Bus.DTAS < state -> p' = p).
Proof.
  cbn zeta.
  remember (Bus.ports (snd (Bus.setControls state w))) as p' eqn:Ep'.
  remember (Bus.ports w) as p eqn:Ep.
  assert (L : forall i, 0 <= i < 8 ->
            match Lines.controls state with
            | Some (d, l, m) =>
                Pins.ctrl_dir p' i
                = (if Z.testbit m i then Z.testbit d i else Pins.ctrl_dir p i)
                /\ Pins.ctrl_level p' i
                   = (if Z.testbit m i then Z.testbit l i
                      else Pins.ctrl_level p i)
            | None => p' = p
            end).
  { intros i Hi. subst p p'.
    exact (ControlFacts.setControls_line state w i Hi). }
  assert (D : forall k, 0 <= k < 8 ->
            if (state =? Bus.DINI) || (state =? Bus.DIDS)
            then Pins.data_dir p' k = false /\ Pins.data_level p' k = true
            else Pins.data_dir p' k = Pins.data_dir p k
                 /\ Pins.data_level p' k = Pins.data_level p k).
  { intros k Hk. subst p p'.
    exact (ControlFacts.setControls_data state w k Hk). }
  clear Ep Ep'.
  unfold Bus.CINI, Bus.CIDS, Bus.CCMS, Bus.CLAS, Bus.CTAS, Bus.DINI,
    Bus.DIDS, Bus.DLAS, Bus.DTAS in *.
  split; [|split; [|split; [|split; [|split]]]].
  - intros k Hk. specialize (D k Hk).
    destruct ((state =? 6) || (state =? 7)).
    + destruct D as (-> & _). discriminate.
    + destruct D as (-> & _). trivial.
  - intros H1 H6 i Hi.
    assert (Hr : 0 <= i < 8) by lia.
    specialize (L i Hr). unfold Lines.controls in L.
    unfold Bus.CINI, Bus.CIDS, Bus.CCMS, Bus.CLAS, Bus.CTAS, Bus.DINI,
      Bus.DIDS, Bus.DLAS, Bus.DTAS in L.
    apply Z.eqb_neq in H1, H6. rewrite H1, H6 in L.
    repeat match type of L with
           | context [state =? ?n] => destruct (state =? n)
           end;
      try (destruct L as (-> & ->); destruct Hi as [->| ->];
           split; reflexivity).
    rewrite L. split; reflexivity.
  - intros Hs i Hi.
    assert (Hr : 0 <= i < 8) by lia.
    specialize (L i Hr).
    assert (state = 6 \/ state = 7 \/ state = 8 \/ state = 9)
      as [->|[->|[->| ->]]] by lia;
      cbn in L; destruct L as (L & _); rewrite L;
      destruct Hi as [->|[->|[->| ->]]]; cbn; congruence.
  - intros Hs.
    pose proof (L 3 ltac:(lia)) as H3.
    pose proof (L 1 ltac:(lia)) as H1.
    pose proof (L 2 ltac:(lia)) as H2.
    ControlFacts.state_cases state; cbn in H1, H2, H3 |- *;
      destruct H1 as (H1 & _), H2 as (H2 & _), H3 as (H3 & _);
      rewrite H1, H2, H3;
      intros E; try discriminate E; split; reflexivity.
  - intros Hs.
    pose proof (L 7 ltac:(lia)) as H7.
    assert (state = 1 \/ state = 2 \/ state = 3 \/ state = 4 \/ state = 5)
      as [->|[->|[->|[->| ->]]]] by lia;
      cbn in H7 |- *; destruct H7 as (H7 & H7'); rewrite H7, H7';
      split; reflexivity.
  - intros Hs.
    pose proof (L 0 ltac:(lia)) as H. unfold Lines.controls in H.
    unfold Bus.CINI, Bus.CIDS, Bus.CCMS, Bus.CLAS, Bus.CTAS, Bus.DINI,
      Bus.DIDS, Bus.DLAS, Bus.DTAS in H.
    repeat match type of H with
           | context [state =? ?n] =>
               destruct (Z.eqb_spec state n); [lia|]
           end.
    exact H.
Qed.

(** ** Starting controller mode *)

Module StartFacts.
Import Bus Engine Pins Lines Partner.

#[local] Opaque Layouts.setGpibState Layouts.setGpibDbus
  Layouts.readyGpibDbus.
#[local] Arguments set_ports _ !_ /.
#[local] Arguments set_cfg _ !_ /.
#[local] Arguments set_cstate _ !_ /.
#[local] Arguments set_deviceAddressed _ !_ /.
#[local] Arguments log _ !_ /.

(** [sendIFC] writes the level of IFC only. *)
Lemma sendIFC_lines w i : 0 <= i < 8 ->
  let w' := snd (sendIFC w) in
  ctrl_dir (ports w') i = ctrl_dir (ports w) i
  /\ ctrl_level (ports w') i
     = (if i =? 0 then true else ctrl_level (ports w) i)
  /\ data_dir (ports w') i = data_dir (ports w) i
  /\ data_level (ports w') i = data_level (ports w) i.
Proof.
  intros Hi. destruct w as [p c st da tb P f tr h]. cbn.
  destruct (LineFacts.level_after 1 1 (Layouts.setGpibState 0 1 0 p) i Hi)
    as (L1 & D1).
  destruct (LineFacts.level_after 0 1 p i Hi) as (L0 & D0).
  destruct (BusLineFacts.state_data 1 1 0 (Layouts.setGpibState 0 1 0 p) i Hi)
    as (A1 & A2).
  destruct (BusLineFacts.state_data 0 1 0 p i Hi) as (B1 & B2).
  cbn zeta in *. rewrite L1, D1, L0, D0, A1, A2, B1, B2.
  assert (E : Z.testbit 1 i = (i =? 0)).
  { BusLineFacts.line_cases i; reflexivity. }
  rewrite E. destruct (i =? 0); repeat split; reflexivity.
Qed.

Lemma bits_184 i : 0 <= i < 8 ->
  Z.testbit 184 i = (i =? 3) || (i =? 4) || (i =? 5) || (i =? 7).
Proof. intros Hi. BusLineFacts.line_cases i; reflexivity. Qed.

Lemma bits_223 i : 0 <= i < 8 -> Z.testbit 223 i = negb (i =? 5).
Proof. intros Hi. BusLineFacts.line_cases i; reflexivity. Qed.

Lemma prepared_lines p i : 0 <= i < 8 ->
  ctrl_dir (prepared p) i = Z.testbit 184 i
  /\ ctrl_level (prepared p) i = Z.testbit 223 i
  /\ data_dir (prepared p) i = false
  /\ data_level (prepared p) i = true.
Proof.
  intros Hi. unfold prepared.
  match goal with |- context [Layouts.readyGpibDbus (two_step 184 223 255 ?q)] =>
    destruct (BusLineFacts.ready_lines (two_step 184 223 255 q) i Hi)
      as (-> & -> & -> & ->);
    destruct (ControlFacts.two_step_lines 184 223 255 q i Hi) as (-> & ->)
  end.
  rewrite ModeFacts.bit_255 by exact Hi. repeat split; reflexivity.
Qed.

(** The lines after the IFC pulse that follows. *)
Lemma pulsed_lines p i : 0 <= i < 8 ->
  let q := Layouts.setGpibState 1 1 0
             (Layouts.setGpibState 0 1 0 (prepared p)) in
  ctrl_dir q i = (i =? 3) || (i =? 4) || (i =? 5) || (i =? 7)
  /\ ctrl_level q i = negb (i =? 5)
  /\ data_dir q i = false
  /\ data_level q i = true.
Proof.
  intros Hi. cbn zeta.
  destruct (prepared_lines p i Hi) as (Hd & Hl & Dd & Dl).
  destruct (sendIFC_lines
              (mkWorld (prepared p) (mkConfig false false 0 0 0 0 0 0 0 0 0 0)
                       0 false false idle [] [] []) i Hi)
    as (Sd & Sl & Sdd & Sdl).
  cbn in Sd, Sl, Sdd, Sdl.
  rewrite Sd, Sl, Sdd, Sdl, Hd, Hl, Dd, Dl.
  rewrite bits_184, bits_223 by exact Hi.
  destruct (Z.eqb_spec i 0) as [->|]; repeat split; reflexivity.
Qed.

(** [startControllerMode] when no device is to be addressed. *)
Lemma startControllerMode_alone p c st da tb P f tr h :
  paddr c <= 1 ->
  startControllerMode (mkWorld p c st da tb P f tr h)
  = (tt, mkWorld (Layouts.setGpibState 1 1 0
                    (Layouts.setGpibState 0 1 0 (prepared p)))
                 (set_cmode 2 c) CINI da tb P f (tr ++ [Controls CINI]) h).
Proof.
  intros Ha. unfold startControllerMode, prepared, two_step.
  assert (E : (1 <? paddr c) = false) by (apply Z.ltb_ge; exact Ha).
  cbn. rewrite E. reflexivity.
Qed.

(** ... and when the device at [paddr] is to be addressed and listens. *)
Lemma startControllerMode_addressing p c st da tb P rest tr h :
  1 < paddr c -> 1 < rtmo c -> calm P ->
  exists p',
    startControllerMode (mkWorld p c st da tb P (ack ++ ack ++ rest) tr h)
    = (tt, mkWorld p' (set_cmode 2 c) CCMS true tb accepted rest
             (tr ++ [Controls CINI] ++ Expect.cmd CINI GC_UNL
                 ++ Expect.cmd CCMS (u8 (GC_LAD + paddr c))) h).
Proof.
  intros Ha Hr HP. unfold startControllerMode.
  assert (E : (1 <? paddr c) = true) by (apply Z.ltb_lt; exact Ha).
  cbn. rewrite E. unfold when, bind.
  change (ready :: accepted :: ready :: accepted :: rest)
    with (ack ++ ack ++ rest).
  match goal with |- context [addressDevice _ _ (mkWorld ?q ?c' ?s _ _ _ _ ?t _)] =>
    destruct (CommandFacts.addressDevice_ack q c' s da tb P rest t h
                (paddr c) LISTEN Hr HP) as [p' E2]
  end.
  rewrite E2. exists p'. unfold LISTEN. cbn. rewrite <- !List.app_assoc.
  reflexivity.
Qed.

End StartFacts.

(** X12.  [startControllerMode].  When no device is to be addressed
    ([paddr] at most 1, the default) it ends in CINI with ATN, REN, EOI
    and DAV as outputs and SRQ, NRFD, NDAC and IFC as inputs with
    pull-up; REN is low and every other line high, the data lines are
    released and nothing has been put on the bus.  [sendIFC] writes the
    level of IFC and no direction, so the IFC pulse of
    [startControllerMode] falls on a line that is an input.  When [paddr]
    is above 1 and the listeners accept, the device is addressed to
    listen (UNL, LAD + paddr) and the engine is left in CCMS with the
    device-addressed flag set. *)
Theorem startControllerMode_outcome (p : Layouts.Ports) (c : Bus.Config)
    (st : Z) (da tb : bool) (P : Bus.Snap) (f : list Bus.Snap)
    (tr : list Bus.Event) (h : list Z) :
  let w' := snd (Engine.startControllerMode
                   (Bus.mkWorld p c st da tb P f tr h)) in
  (Bus.paddr c <= 1 ->
   (forall i, 0 <= i < 8 ->
      Pins.ctrl_dir (Bus.ports w') i
      = (i =? 3) || (i =? 4) || (i =? 5) || (i =? 7)
      /\ Pins.ctrl_level (Bus.ports w') i = negb (i =? 5)
      /\ Pins.data_dir (Bus.ports w') i = false
      /\ Pins.data_level (Bus.ports w') i = true)
   /\ Bus.cfg w' = Engine.set_cmode 2 c /\ Bus.cstate w' = Bus.CINI
   /\ Bus.deviceAddressed w' = da
   /\ Bus.trace w' = tr ++ [Bus.Controls Bus.CINI])
  /\ (forall w i, 0 <= i < 8 ->
        let w1 := snd (Engine.sendIFC w) in
        Pins.ctrl_dir (Bus.ports w1) i = Pins.ctrl_dir (Bus.ports w) i
        /\ Pins.ctrl_level (Bus.ports w1) i
           = (if i =? 0 then true else Pins.ctrl_level (Bus.ports w) i))
  /\ (1 < Bus.paddr c -> 1 < Bus.rtmo c -> Partner.calm P ->
      forall rest, f = Partner.ack ++ Partner.ack ++ rest ->
      Bus.cfg w' = Engine.set_cmode 2 c /\ Bus.cstate w' = Bus.CCMS
      /\ Bus.deviceAddressed w' = true
      /\ Bus.trace w'
         = tr ++ [Bus.Controls Bus.CINI] ++ Expect.cmd Bus.CINI Bus.GC_UNL
              ++ Expect.cmd Bus.CCMS (u8 (Bus.GC_LAD + Bus.paddr c))).
Proof.
  cbn zeta. split; [|split].
  - intros Ha. rewrite StartFacts.startControllerMode_alone by exact Ha.
    cbn [snd Bus.ports Bus.cfg Bus.cstate Bus.deviceAddressed Bus.trace].
    split; [|repeat split; reflexivity].
    intros i Hi. exact (StartFacts.pulsed_lines p i Hi).
  - intros w i Hi.
    destruct (StartFacts.sendIFC_lines w i Hi) as (Sd & Sl & _).
    split; [exact Sd | exact Sl].
  - intros Ha Hr HP rest ->.
    destruct (StartFacts.startControllerMode_addressing
                p c st da tb P rest tr h Ha Hr HP) as [p' ->].
    cbn [snd Bus.ports Bus.cfg Bus.cstate Bus.deviceAddressed Bus.trace].
    repeat split; reflexivity.
Qed.

(** The default configuration (controller, [paddr] 1): after
    [startControllerMode] IFC (line 0) is an input, REN (line 5) a low
    output. *)
Lemma startControllerMode_outcome_witness :
  let w' := snd (Engine.startControllerMode
                   (Partner.world (Partner.config 2 false 0 0 0) [])) in
  Pins.ctrl_dir (Bus.ports w') 0 = false
  /\ Pins.ctrl_dir (Bus.ports w') 5 = true
  /\ Pins.ctrl_level (Bus.ports w') 5 = false
  /\ Bus.trace w' = [Bus.Controls Bus.CINI].
Proof.
  intros w'.
  destruct (startControllerMode_outcome Partner.ports0
              (Partner.config 2 false 0 0 0) 0 false false Partner.idle
              [] [] []) as (H & _ & _).
  destruct (H ltac:(cbn; lia)) as (L & _ & _ & _ & Ht).
  destruct (L 0 ltac:(lia)) as (D0 & _).
  destruct (L 5 ltac:(lia)) as (D5 & L5 & _).
  repeat split; assumption.
Defined.

(** ** What a send can put on the bus, whatever the other side does *)

Module SentFacts.
Import Bus Outcome.

#[local] Opaque Layouts.setGpibState Layouts.setGpibDbus
  Layouts.readyGpibDbus.

Lemma sends_ret {A} c (a : A) : sends c (ret a) (fun x s => x = a /\ s = []).
Proof.
  intros w Hc. split; [exact Hc|]. exists []. rewrite app_nil_r. auto.
Qed.

Lemma sends_bind {A B} c (m : M A) (k : A -> M B) Q1 Q2 :
  sends c m Q1 -> (forall a, sends c (k a) (Q2 a)) ->
  sends c (bind m k)
    (fun b s => exists a s1 s2, s = s1 ++ s2 /\ Q1 a s1 /\ Q2 a b s2).
Proof.
  intros Hm Hk w Hc. unfold bind.
  destruct (Hm w Hc) as (Hc1 & s1 & E1 & H1).
  destruct (m w) as [a w1]. cbn [fst snd] in *.
  destruct (Hk a w1 Hc1) as (Hc2 & s2 & E2 & H2).
  split; [exact Hc2|]. exists (s1 ++ s2).
  rewrite E2, E1, <- List.app_assoc. split; [reflexivity|].
  exists a, s1, s2. auto.
Qed.

Lemma sends_conseq {A} c (m : M A) (Q Q' : A -> list Z -> Prop) :
  sends c m Q -> (forall a s, Q a s -> Q' a s) -> sends c m Q'.
Proof.
  intros Hm HQ w Hc. destruct (Hm w Hc) as (Hc1 & s & E & H).
  split; [exact Hc1|]. exists s. auto.
Qed.

(** A value read from the configuration. *)
Lemma sends_get {A} c (g : Config -> A) :
  sends c (get (fun w => g (cfg w))) (fun x s => x = g c /\ s = []).
Proof.
  intros w Hc. split; [exact Hc|]. exists []. cbn. rewrite app_nil_r, Hc.
  auto.
Qed.

(** A step that changes the registers, the bus state or the flags. *)
Lemma sends_quiet c (f : World -> World) :
  (forall w, cfg (f w) = cfg w) ->
  (forall w, Expect.puts (trace (f w)) = Expect.puts (trace w)) ->
  sends c (act f) (fun _ s => s = []).
Proof.
  intros Hf Ht w Hc. cbn. rewrite Hf, Ht. split; [exact Hc|].
  exists []. rewrite app_nil_r. auto.
Qed.

Lemma sends_setGpibState c bits mask mode :
  sends c (setGpibState bits mask mode) (fun _ s => s = []).
Proof. apply sends_quiet; intros []; reflexivity. Qed.

Lemma sends_setControls c state :
  sends c (setControls state) (fun _ s => s = []).
Proof.
  intros w Hc.
  destruct (OutcomeFacts.setControls_run state w) as (Hc' & _ & Ht).
  split; [congruence|]. exists [].
  rewrite Ht, AddressingFacts.puts_app, !app_nil_r. auto.
Qed.

(** The outcomes of [writeByte] by what reached the bus. *)
Lemma writeByte_cases db il w :
  let r := fst (writeByte db il w) in
  let w' := snd (writeByte db il w) in
  let put := Put (cstate w) db (eoi (cfg w) && il) in
  cfg w' = cfg w
  /\ ((r = 0 /\ trace w' = trace w ++ [put; Accepted])
      \/ (r <> 0 /\ trace w' = trace w)
      \/ (r <> 0 /\ trace w' = trace w ++ [put])
      \/ (r <> 0 /\ trace w' = trace w ++ [Controls DLAS])
      \/ (r <> 0 /\ trace w' = trace w ++ [put; Controls DLAS])).
Proof.
  intros r w' put. subst r w'. unfold writeByte.
  pose proof (OutcomeFacts.wloop_outcome (trace w) db il
                (cstate w) (cfg w) (rtmo (cfg w))
                (ms (pins w)) (future w)
                (ms (pins w) + 1) 4 w) as H.
  cbn zeta in H. fold put in H.
  specialize (H (conj eq_refl (conj eq_refl
                   (or_introl (conj (or_introl eq_refl) eq_refl))))).
  destruct (wloop _ _ _ _ _ _ _ _) as [stage w1]. cbn [fst snd] in H.
  destruct H as [(Hc & Hs & Hst)|(Hc & Hl)].
  - destruct Hst as [[[->| ->] Ht]|[[->| ->] Ht]]; cbn [Z.eqb Pos.eqb fst snd];
      (split; [exact Hc|]); right; [left|left|right; left|right; left];
      (split; [lia | exact Ht]).
  - destruct Hl as [(-> & Hs & Ht)|([->| ->] & Hm & Hs & [Ht|Ht])];
      cbn [Z.eqb Pos.eqb fst snd].
    + rewrite Hc. unfold bind, setGpibState, setGpibDbus, act, ret.
      destruct (eoi (cfg w) && il) eqn:E; cbn;
        (split; [exact Hc|]); left; rewrite Ht, <- List.app_assoc;
        subst put; rewrite ?E; split; reflexivity.
    + split; [exact Hc|]. do 3 right. left. split; [lia|exact Ht].
    + split; [exact Hc|]. do 4 right. split; [lia|exact Ht].
    + split; [exact Hc|]. do 3 right. left. split; [lia|exact Ht].
    + split; [exact Hc|]. do 4 right. split; [lia|exact Ht].
Qed.

(** [writeByte] puts its byte on the bus or nothing; it returns 0 only
    if the byte was put. *)
Lemma sends_writeByte c db il :
  sends c (writeByte db il)
    (fun r s => (s = [] \/ s = [db]) /\ (r = 0 -> s = [db])).
Proof.
  intros w Hc.
  pose proof (writeByte_cases db il w) as (Hc' & H). cbn zeta in H.
  split; [congruence|].
  destruct H as [(Hr & Ht)|[(Hr & Ht)|[(Hr & Ht)|[(Hr & Ht)|(Hr & Ht)]]]];
    rewrite Ht, ?AddressingFacts.puts_app; cbn [Expect.puts].
  - exists [db]. auto.
  - exists []. rewrite app_nil_r. split; [reflexivity|]. split; [auto|lia].
  - exists [db]. split; [reflexivity|]. split; [auto|lia].
  - exists []. split; [reflexivity|]. split; [auto|lia].
  - exists [db]. split; [reflexivity|]. split; [auto|lia].
Qed.

(** The data loop of [sendData]: all of [data] when it returns no error,
    a part of [data] from its start when it returns one. *)
Lemma sends_loop c data :
  sends c (sendData_loop data false)
    (fun e s => if e then s `prefix_of` data else s = data).
Proof.
  induction data as [|b data IH].
  - eapply sends_conseq; [apply sends_ret|].
    intros a s [-> ->]. reflexivity.
  - cbn [sendData_loop].
    eapply sends_conseq.
    + eapply sends_bind; [apply (sends_get c eoi)|]. intros e.
      eapply sends_bind with
        (Q1 := fun e' s => (s = [] \/ s = [b]) /\ (e' = false -> s = [b]))
        (Q2 := fun (e' e : bool) s =>
                 if e' then e = true /\ s = []
                 else if e then s `prefix_of` data else s = data).
      * rewrite SendFacts.sendData_filter_void.
        assert (H : sends c (r <- writeByte b NO_EOI;; ret (nz r))
                      (fun e' s => (s = [] \/ s = [b])
                                   /\ (e' = false -> s = [b]))).
        { eapply sends_conseq.
          - eapply sends_bind; [apply sends_writeByte|].
            intros r. apply sends_ret.
          - cbn beta. intros e' s (r & s1 & s2 & -> & (Hs & Hr) & -> & ->).
            rewrite app_nil_r. split; [exact Hs|].
            intros Hz. apply Hr. unfold nz in Hz.
            apply negb_false_iff, Z.eqb_eq in Hz. exact Hz. }
        destruct e; exact H.
      * intros e'. destruct e'.
        -- apply sends_ret.
        -- exact IH.
    + cbn beta.
      intros e s (a & s1 & s2 & -> & (_ & ->) & e' & s3 & s4 & -> & (Hs & He)
                  & H).
      cbn [app]. destruct e'.
      * destruct H as [-> ->]. rewrite app_nil_r.
        destruct Hs as [-> | ->].
        -- apply prefix_nil.
        -- apply prefix_cons, prefix_nil.
      * rewrite (He eq_refl). cbn [app].
        destruct e; [apply prefix_cons; exact H | rewrite H; reflexivity].
Qed.

Lemma sends_then {A B} c (m : M A) (k : A -> M B) Q1 Q2
    (Q : B -> list Z -> Prop) :
  sends c m Q1 -> (forall a, sends c (k a) (Q2 a)) ->
  (forall a b s1 s2, Q1 a s1 -> Q2 a b s2 -> Q b (s1 ++ s2)) ->
  sends c (bind m k) Q.
Proof.
  intros Hm Hk HQ. eapply sends_conseq; [apply (sends_bind c m k Q1 Q2 Hm Hk)|].
  cbn beta. intros b s (a & s1 & s2 & -> & H1 & H2). eauto.
Qed.

(** A step that puts nothing on the bus, and then [k]. *)
Lemma sends_skip {A B} c (m : M A) (k : A -> M B) Q :
  sends c m (fun _ s => s = []) -> (forall a, sends c (k a) Q) ->
  sends c (bind m k) Q.
Proof.
  intros Hm Hk.
  eapply sends_then with (Q2 := fun _ => Q); [exact Hm | exact Hk|].
  cbn beta. intros a b s1 s2 -> H. exact H.
Qed.

(** A value read from the configuration, and then [k]. *)
Lemma sends_read {A B} c (g : Config -> A) (k : A -> M B) Q :
  sends c (k (g c)) Q ->
  sends c (bind (get (fun w => g (cfg w))) k) Q.
Proof.
  intros Hk w Hc. unfold bind, get. rewrite Hc. exact (Hk w Hc).
Qed.

(** One terminator byte of [sendData]. *)
Lemma sends_terminator c (on : bool) b :
  sends c (when on (_ <- writeByte b NO_EOI;; ret tt))
    (fun _ s => s `sublist_of` (if on then [b] else [])).
Proof.
  destruct on; cbn [when].
  - eapply sends_then with (Q2 := fun _ (_ : unit) s => s = []);
      [apply sends_writeByte | |].
    + intros r. eapply sends_conseq; [apply sends_ret|].
      intros ? s (_ & ->). reflexivity.
    + cbn beta. intros r [] s1 s2 ([-> | ->] & _) ->.
      * apply sublist_nil_l.
      * reflexivity.
  - eapply sends_conseq; [apply sends_ret|]. intros [] s (_ & ->).
    reflexivity.
Qed.

(** The terminators, sent when the data loop returned no error. *)
Lemma sends_terminators c (err : bool) :
  sends c (when (negb err)
             (s <- get (fun w => eos (cfg w)) ;;
              when (Z.land s 2 =? 0) (_ <- writeByte CR NO_EOI ;; ret tt) ;;;
              when (Z.land s 1 =? 0) (_ <- writeByte LF NO_EOI ;; ret tt)))
    (fun _ s => if err then s = []
                else s `sublist_of` Expect.eos_bytes (eos c)).
Proof.
  destruct err; cbn [negb when].
  - eapply sends_conseq; [apply sends_ret|]. intros [] s (_ & ->).
    reflexivity.
  - apply sends_read.
    eapply sends_then with
      (Q2 := fun (_ _ : unit) s =>
               s `sublist_of` (if Z.land (eos c) 1 =? 0 then [LF] else []));
      [apply sends_terminator | intros ?; apply sends_terminator|].
    cbn beta. intros ? ? s1 s2 H1 H2. unfold Expect.eos_bytes.
    apply sublist_app; assumption.
Qed.

(** The EOI pulse at the end of [sendData] puts no byte on the bus. *)
Lemma sends_pulse c (e : bool) :
  sends c (when e (setGpibState 16 16 1 ;;;
                   setGpibState 0 16 0 ;;;
                   setGpibState 16 16 0 ;;;
                   act (log EoiPulse)))
    (fun _ s => s = []).
Proof.
  destruct e; cbn [when].
  - apply sends_skip; [apply sends_setGpibState|]. intros ?.
    apply sends_skip; [apply sends_setGpibState|]. intros ?.
    apply sends_skip; [apply sends_setGpibState|]. intros ?.
    apply sends_quiet with (f := log EoiPulse).
    + intros []; reflexivity.
    + intros []. cbn. rewrite AddressingFacts.puts_app.
      apply app_nil_r.
  - eapply sends_conseq; [apply sends_ret|]. intros [] s (_ & ->).
    reflexivity.
Qed.

(** The whole of [sendData]. *)
Lemma sends_sendData c data :
  sends c (sendData data)
    (fun _ s => s `prefix_of` data
                \/ exists t, s = data ++ t
                             /\ t `sublist_of` Expect.eos_bytes (eos c)).
Proof.
  unfold sendData, isController.
  apply (sends_read c (fun c => cmode c =? 2)).
  apply sends_skip; [destruct (cmode c =? 2); apply sends_setControls|].
  intros ?.
  eapply sends_then with
    (Q2 := fun (e : bool) (_ : unit) s =>
             if e then s = []
             else s `sublist_of` Expect.eos_bytes (eos c));
    [apply sends_loop | |].
  - intros e.
    eapply sends_then with (Q2 := fun (_ _ : unit) s => s = []);
      [apply sends_terminators | |].
    + intros ?. apply (sends_read c eoi).
      apply sends_skip; [apply sends_pulse|]. intros ?.
      apply (sends_read c (fun c => cmode c =? 2)).
      destruct (cmode c =? 2); apply sends_setControls.
    + cbn beta. intros ? ? s1 s2 H ->. rewrite app_nil_r. exact H.
  - cbn beta. intros e ? s1 s2 H1 H2. destruct e.
    + subst s2. rewrite app_nil_r. left. exact H1.
    + subst s1. right. exists s2. auto.
Qed.

End SentFacts.

(** X13.  Whatever the other side of the bus does, [sendData] puts on the
    bus only bytes of [data], in order and without gaps from the first
    one; terminator bytes (CR, LF, as the EOS code selects) follow only
    when all of [data] was put with its last byte accepted, and never
    anything else.  The configuration is unchanged and the engine returns
    in the idle state of its role. *)
Theorem sendData_sends_prefix (data : list Z) (w : Bus.World) :
  let w' := snd (Bus.sendData data w) in
  Bus.cfg w' = Bus.cfg w
  /\ Bus.cstate w'
     = (if Bus.cmode (Bus.cfg w) =? 2 then Bus.CIDS else Bus.DIDS)
  /\ exists sent,
       Expect.puts (Bus.trace w') = Expect.puts (Bus.trace w) ++ sent
       /\ (sent `prefix_of` data
           \/ exists t, sent = data ++ t
                /\ t `sublist_of` Expect.eos_bytes (Bus.eos (Bus.cfg w))).
Proof.
  cbn zeta.
  destruct (SentFacts.sends_sendData (Bus.cfg w) data w eq_refl)
    as (Hc & sent & Ht & H).
  split; [exact Hc|]. split; [apply RoleFacts.sendData_idle|].
  exists sent. split; [exact Ht | exact H].
Qed.

(** ** Escaped payloads in the parse buffer *)

Module EscapeFacts.
Import Bus Sketch Host.

Lemma full_skip r w buf ptr esc ple v ln full sidn q re rb eb ar :
  0 <= ptr < 256 ->
  parseInput_full r
    (mkState w buf ptr esc ple v ln full sidn q re rb eb ar)
  = (r, mkState w buf ptr esc ple v ln full sidn q re rb eb ar).
Proof.
  intros Hr. unfold parseInput_full, PBSIZE. cbn [pbPtr].
  destruct (Z.leb_spec 256 ptr); [lia | reflexivity].
Qed.

Ltac fields :=
  cbn [bus pBuf pbPtr isEsc isPlusEscaped isVerbose lnRdy dataBufferFull
       sendIdn isQuery readWithEoi readWithEndByte endByte autoRead].

Ltac setters :=
  unfold set_isEsc, set_isPlusEscaped, addPbuf, set_buf, dataPort_print,
    set_bus; fields.

(** ESC read outside an escape sets the flag and stores nothing. *)
Lemma parse_esc w buf ptr ple v ln full sidn q re rb eb ar :
  0 <= ptr < 256 ->
  parseInput ESC (mkState w buf ptr false ple v ln full sidn q re rb eb ar)
  = (0, mkState (echo v ESC w) buf ptr true ple v ln full sidn q re rb eb ar).
Proof.
  intros Hp. unfold parseInput, parseInput_switch, PBSIZE, echo. fields.
  destruct (Z.ltb_spec ptr 256); [|lia].
  change (ESC =? LF) with false. change (ESC =? CR) with false.
  change (ESC =? ESC) with true. cbn [orb negb andb].
  rewrite andb_true_r.
  destruct v; setters; apply full_skip; lia.
Qed.

(** A byte read after ESC is stored; a plus sign in the first two places
    marks the line as data. *)
Lemma parse_escaped c w buf ptr ple v ln full sidn q re rb eb ar :
  0 <= ptr < 255 ->
  parseInput c (mkState w buf ptr true ple v ln full sidn q re rb eb ar)
  = (0, mkState (echo v c w) (<[Z.to_nat ptr := c]> buf) (ptr + 1) false
                (ple || ((c =? PLUS) && (ptr <? 2)))
                v ln full sidn q re rb eb ar).
Proof.
  intros Hp.
  assert (Hu : u8 (ptr + 1) = ptr + 1) by (apply u8_small; lia).
  unfold parseInput, parseInput_switch, PBSIZE, echo. fields.
  destruct (Z.ltb_spec ptr 256); [|lia].
  destruct (Z.eqb_spec c CR) as [->|Hcr].
  { cbn [orb]. change (CR =? LF) with false. change (CR =? PLUS) with false.
    cbn [negb andb]. rewrite andb_true_r, orb_false_r.
    destruct v; setters; rewrite Hu; apply full_skip; lia. }
  destruct (Z.eqb_spec c LF) as [->|Hlf].
  { cbn [orb]. change (LF =? PLUS) with false.
    cbn [negb andb]. rewrite andb_false_r, orb_false_r.
    setters; rewrite Hu; apply full_skip; lia. }
  cbn [orb negb]. rewrite andb_true_r.
  destruct (Z.eqb_spec c ESC) as [->|Hesc].
  { change (ESC =? PLUS) with false. cbn [andb]. rewrite orb_false_r.
    destruct v; setters; rewrite Hu; apply full_skip; lia. }
  destruct (Z.eqb_spec c PLUS) as [->|Hplus].
  { cbn [andb].
    destruct v; setters; destruct (ptr <? 2); setters;
      rewrite Hu, ?orb_true_r, ?orb_false_r; apply full_skip; lia. }
  cbn [andb]. rewrite orb_false_r.
  destruct v; setters; rewrite Hu; apply full_skip; lia.
Qed.

(** A plain byte outside an escape is stored as it is. *)
Lemma parse_plain c w buf ptr ple v ln full sidn q re rb eb ar :
  0 <= ptr < 255 -> plain c = true ->
  parseInput c (mkState w buf ptr false ple v ln full sidn q re rb eb ar)
  = (0, mkState (echo v c w) (<[Z.to_nat ptr := c]> buf) (ptr + 1) false
                ple v ln full sidn q re rb eb ar).
Proof.
  intros Hp Hn.
  assert (Hu : u8 (ptr + 1) = ptr + 1) by (apply u8_small; lia).
  unfold plain in Hn. apply negb_true_iff in Hn.
  apply orb_false_iff in Hn as [Hn Hesc].
  apply orb_false_iff in Hn as [Hcr Hlf].
  unfold parseInput, parseInput_switch, PBSIZE, echo. fields.
  destruct (Z.ltb_spec ptr 256); [|lia].
  rewrite Hcr, Hlf, Hesc. cbn [orb negb]. rewrite andb_true_r.
  destruct (c =? PLUS);
    destruct v; setters; rewrite Hu; apply full_skip; lia.
Qed.

Lemma needs_esc_plain c : needs_esc c = false -> plain c = true.
Proof.
  unfold needs_esc, plain. intros H.
  apply orb_false_iff in H as [H _]. rewrite H. reflexivity.
Qed.

(** One byte of the payload, escaped if it has to be, is stored at the
    fill pointer. *)
Lemma escaped_byte c rest w buf ptr ple v ln full sidn q re rb eb ar :
  0 <= ptr < 255 ->
  exists w',
    cfg w' = cfg w /\ (v = false -> w' = w)
    /\ serialIn_h ((if needs_esc c then [ESC; c] else [c]) ++ rest)
         (mkState w buf ptr false ple v ln full sidn q re rb eb ar)
       = serialIn_h rest
           (mkState w' (<[Z.to_nat ptr := c]> buf) (ptr + 1) false
                    (ple || ((c =? PLUS) && (ptr <? 2)))
                    v ln full sidn q re rb eb ar).
Proof.
  intros Hp.
  assert (He : forall c w, cfg (echo v c w) = cfg w).
  { intros c0 w0. unfold echo. destruct (v && _); reflexivity. }
  destruct (needs_esc c) eqn:Hn.
  - exists (echo v c (echo v ESC w)). split; [rewrite !He; reflexivity|].
    split; [intros ->; reflexivity|].
    cbn [app serialIn_h].
    rewrite parse_esc by lia. cbn [Z.eqb].
    rewrite parse_escaped by lia. reflexivity.
  - exists (echo v c w). split; [apply He|].
    split; [intros ->; reflexivity|].
    cbn [app serialIn_h].
    rewrite parse_plain by (try apply needs_esc_plain; assumption).
    cbn [Z.eqb].
    assert (Hpl : (c =? PLUS) = false).
    { unfold needs_esc in Hn. apply orb_false_iff in Hn as [_ Hn]. exact Hn. }
    rewrite Hpl. cbn [andb]. rewrite orb_false_r. reflexivity.
Qed.

(** The whole payload. *)
Lemma escaped_fill x : forall rest w buf ptr ple v ln full sidn q re rb eb ar,
  0 <= ptr -> ptr + Z.of_nat (length x) <= 255 ->
  (Z.to_nat ptr + length x <= length buf)%nat ->
  exists w' ple',
    cfg w' = cfg w /\ (v = false -> w' = w)
    /\ (ple = true -> ple' = true)
    /\ (ptr = 0 -> at_ x 0 = PLUS -> (0 < length x)%nat -> ple' = true)
    /\ serialIn_h (escape x ++ rest)
         (mkState w buf ptr false ple v ln full sidn q re rb eb ar)
       = serialIn_h rest
           (mkState w'
              (take (Z.to_nat ptr) buf ++ x
               ++ drop (Z.to_nat ptr + length x) buf)
              (ptr + Z.of_nat (length x)) false ple'
              v ln full sidn q re rb eb ar).
Proof.
  induction x as [|c x IH];
    intros rest w buf ptr ple v ln full sidn q re rb eb ar Hp Hl Hb.
  - exists w, ple. cbn [escape flat_map app length].
    rewrite Nat.add_0_r, take_drop, Z.add_0_r.
    repeat split; auto. intros _ _ H. inversion H.
  - cbn [length] in Hl, Hb.
    destruct (escaped_byte c (escape x ++ rest) w buf ptr ple v ln full sidn
                q re rb eb ar ltac:(lia)) as (w1 & Hc1 & Hv1 & E1).
    destruct (IH rest w1 (<[Z.to_nat ptr := c]> buf) (ptr + 1)
                (ple || ((c =? PLUS) && (ptr <? 2)))
                v ln full sidn q re rb eb ar ltac:(lia) ltac:(lia))
      as (w2 & ple2 & Hc2 & Hv2 & Hm & _ & E2).
    { rewrite length_insert. lia. }
    exists w2, ple2. split; [congruence|].
    split; [intros Hv; rewrite (Hv2 Hv); exact (Hv1 Hv)|]. split; [|split].
    + intros ->. apply Hm. reflexivity.
    + intros -> Hx _. apply Hm. unfold at_ in Hx. cbn in Hx. rewrite Hx.
      apply orb_true_r.
    + cbn [escape flat_map]. rewrite <- List.app_assoc.
      fold (escape x). rewrite E1, E2. f_equal. f_equal.
      * replace (Z.to_nat (ptr + 1)) with (S (Z.to_nat ptr)) by lia.
        assert (Hlen : (Z.to_nat ptr < length buf)%nat) by lia.
        rewrite (take_S_r _ _ _ (list_lookup_insert_eq buf _ c Hlen)).
        rewrite take_insert_ge by lia.
        rewrite drop_insert_lt by lia.
        cbn [length].
        replace (S (Z.to_nat ptr) + length x)%nat
          with (Z.to_nat ptr + S (length x))%nat by lia.
        rewrite <- List.app_assoc. reflexivity.
      * cbn [length]. lia.
Qed.

(** The line end after a payload that is not a command. *)
Lemma data_line_end c w buf ptr ple v ln full sidn q re rb eb ar :
  c = CR \/ c = LF -> 0 < ptr < 256 -> idn (cfg w) = 0 ->
  (2 <? ptr) && isCmd buf && negb ple = false ->
  parseInput c (mkState w buf ptr false ple v ln full sidn q re rb eb ar)
  = (2, mkState (echo v c w) buf ptr false false v ln full sidn q re rb eb ar).
Proof.
  intros Hc Hp Hi E2.
  unfold parseInput, parseInput_switch, PBSIZE, echo. fields.
  destruct (Z.ltb_spec ptr 256); [|lia].
  assert (E : (c =? CR) || (c =? LF) = true).
  { destruct Hc as [-> | ->]; reflexivity. }
  rewrite E.
  assert (E0 : (ptr =? 0) = false) by (apply Z.eqb_neq; lia).
  assert (E1 : (0 <? ptr) = true) by (apply Z.ltb_lt; lia).
  destruct (v && negb (c =? LF)); setters; unfold print; cbn [cfg];
    rewrite E0, E2, Hi, E1; cbn [Z.ltb Z.compare andb]; setters;
    rewrite andb_false_r; cbn [andb]; setters; apply full_skip; lia.
Qed.

(** The line end after a command. *)
Lemma command_line_end c w buf ptr v ln full sidn q re rb eb ar :
  c = CR \/ c = LF -> 2 < ptr < 256 -> isCmd buf = true ->
  parseInput c (mkState w buf ptr false false v ln full sidn q re rb eb ar)
  = if at_ buf 2 =? 33
    then (3, mkState (echo v c w) (replicate 256 0) 0 false false
                     v ln full sidn q re rb eb ar)
    else (1, mkState (echo v c w) buf ptr false false
                     v ln full sidn q re rb eb ar).
Proof.
  intros Hc Hp Hcmd.
  unfold parseInput, parseInput_switch, PBSIZE, echo. fields.
  destruct (Z.ltb_spec ptr 256); [|lia].
  assert (E : (c =? CR) || (c =? LF) = true).
  { destruct Hc as [-> | ->]; reflexivity. }
  rewrite E.
  assert (E0 : (ptr =? 0) = false) by (apply Z.eqb_neq; lia).
  assert (E1 : (2 <? ptr) = true) by (apply Z.ltb_lt; lia).
  destruct (v && negb (c =? LF)); setters;
    rewrite E0, E1, Hcmd; cbn [negb andb];
    destruct (at_ buf 2 =? 33); unfold flushPbuf; setters;
    apply full_skip; unfold PBSIZE; lia.
Qed.

(** Plain bytes fill the buffer as they come. *)
Lemma plain_fill x : forall rest w buf ptr ple v ln full sidn q re rb eb ar,
  Forall (fun c => plain c = true) x ->
  0 <= ptr -> ptr + Z.of_nat (length x) <= 255 ->
  (Z.to_nat ptr + length x <= length buf)%nat ->
  exists w',
    cfg w' = cfg w /\ (v = false -> w' = w)
    /\ serialIn_h (x ++ rest)
         (mkState w buf ptr false ple v ln full sidn q re rb eb ar)
       = serialIn_h rest
           (mkState w'
              (take (Z.to_nat ptr) buf ++ x
               ++ drop (Z.to_nat ptr + length x) buf)
              (ptr + Z.of_nat (length x)) false ple
              v ln full sidn q re rb eb ar).
Proof.
  induction x as [|c x IH];
    intros rest w buf ptr ple v ln full sidn q re rb eb ar Hx Hp Hl Hb.
  - exists w. cbn [app length].
    rewrite Nat.add_0_r, take_drop, Z.add_0_r. auto.
  - cbn [length] in Hl, Hb. inversion Hx as [|? ? Hc Hx']; subst.
    destruct (IH rest (echo v c w) (<[Z.to_nat ptr := c]> buf) (ptr + 1)
                ple v ln full sidn q re rb eb ar Hx' ltac:(lia) ltac:(lia))
      as (w2 & Hc2 & Hv2 & E2).
    { rewrite length_insert. lia. }
    exists w2. split; [|split].
    + rewrite Hc2. unfold echo. destruct (v && _); reflexivity.
    + intros Hv. rewrite (Hv2 Hv). subst v. reflexivity.
    + cbn [app serialIn_h]. rewrite parse_plain by (try lia; exact Hc).
      cbn [Z.eqb]. rewrite E2. f_equal. f_equal.
      * replace (Z.to_nat (ptr + 1)) with (S (Z.to_nat ptr)) by lia.
        assert (Hlen : (Z.to_nat ptr < length buf)%nat) by lia.
        rewrite (take_S_r _ _ _ (list_lookup_insert_eq buf _ c Hlen)).
        rewrite take_insert_ge by lia.
        rewrite drop_insert_lt by lia.
        cbn [length].
        replace (S (Z.to_nat ptr) + length x)%nat
          with (Z.to_nat ptr + S (length x))%nat by lia.
        rewrite <- List.app_assoc. reflexivity.
      * cbn [length]. lia.
Qed.

(** The command test on a buffer that starts with the line [x]. *)
Lemma isCmd_line x tail :
  (2 <? Z.of_nat (length x)) && isCmd (x ++ tail) = is_command x.
Proof.
  unfold is_command, isCmd, at_.
  destruct (Z.ltb_spec 2 (Z.of_nat (length x))) as [H|H];
    [|reflexivity].
  cbn [andb]. rewrite !lookup_total_app_l by lia. reflexivity.
Qed.

End EscapeFacts.

(** X14.  Escaping is complete: any payload of 1 to 255 bytes, whatever
    bytes it holds, written with ESC before every CR, LF, ESC and plus
    sign and ended by CR or LF, is reported as a data line (result 2)
    with exactly the payload in the parse buffer and the fill pointer at
    its length, even when it starts with the command prefix; the escape
    flags are clear again afterwards.  (The identification query is
    switched off, [cfg.idn = 0].) *)
Theorem escaped_line_round_trip (x : list Z) (nl : Z) (s : Sketch.State) :
  Sketch.pbPtr s = 0 -> Sketch.isEsc s = false ->
  length (Sketch.pBuf s) = 256%nat ->
  Bus.idn (Bus.cfg (Sketch.bus s)) = 0 ->
  (0 < length x <= 255)%nat -> nl = Bus.CR \/ nl = Bus.LF ->
  let r := Sketch.serialIn_h (Host.escape x ++ [nl]) s in
  fst (fst r) = 2 /\ snd (fst r) = []
  /\ Sketch.pBuf (snd r) = x ++ drop (length x) (Sketch.pBuf s)
  /\ Sketch.pbPtr (snd r) = Z.of_nat (length x)
  /\ Sketch.isEsc (snd r) = false
  /\ Sketch.isPlusEscaped (snd r) = false
  /\ Sketch.dataBufferFull (snd r) = Sketch.dataBufferFull s
  /\ Bus.cfg (Sketch.bus (snd r)) = Bus.cfg (Sketch.bus s)
  /\ (Sketch.isVerbose s = false -> Sketch.bus (snd r) = Sketch.bus s).
Proof.
  intros Hp He Hb Hi Hx Hnl.
  destruct s as [w buf ptr esc ple v ln full sidn q re rb eb ar].
  cbn [Sketch.pbPtr Sketch.isEsc Sketch.pBuf Sketch.bus Sketch.dataBufferFull
       Sketch.isVerbose] in *.
  subst ptr esc.
  destruct (EscapeFacts.escaped_fill x [nl] w buf 0 ple v ln full sidn q re
              rb eb ar ltac:(lia) ltac:(lia) ltac:(cbn; lia))
    as (w' & ple' & Hc & Hv & _ & Hplus & E).
  cbn zeta. rewrite E.
  change (Z.to_nat 0) with 0%nat. rewrite take_0. cbn [app Nat.add].
  cbn [Sketch.serialIn_h].
  rewrite EscapeFacts.data_line_end; [| exact Hnl | lia | congruence |].
  - cbn [fst snd Z.eqb Sketch.pBuf Sketch.pbPtr Sketch.isEsc
         Sketch.isPlusEscaped Sketch.dataBufferFull Sketch.bus].
    assert (Hecho : forall w0, Bus.cfg (Host.echo v nl w0) = Bus.cfg w0).
    { intros w0. unfold Host.echo. destruct (v && _); reflexivity. }
    rewrite Hecho.
    split; [reflexivity|]. split; [reflexivity|]. split; [reflexivity|].
    split; [lia|]. split; [reflexivity|]. split; [reflexivity|].
    split; [reflexivity|]. split; [exact Hc|].
    intros ->. rewrite (Hv eq_refl). reflexivity.
  - destruct (Sketch.isCmd (x ++ drop (length x) buf)) eqn:Hcmd;
      [|rewrite andb_false_r; reflexivity].
    rewrite Hplus; [rewrite andb_false_r; reflexivity | reflexivity | | lia].
    unfold Sketch.isCmd in Hcmd. apply andb_true_iff in Hcmd as [H0 _].
    apply Z.eqb_eq in H0. unfold Sketch.at_ in *.
    destruct x as [|c x]; [cbn in Hx; lia|]. exact H0.
Qed.

(** The payload ["++\n"] (a plus sign twice and a line feed), escaped
    and ended by CR, arrives as three bytes of data. *)
Lemma escaped_line_round_trip_witness :
  let s := Partner.sketch (Partner.config 2 false 0 0 0) [] in
  let r := Sketch.serialIn_h (Host.escape [43; 43; 10] ++ [13]) s in
  fst (fst r) = 2
  /\ take 3 (Sketch.pBuf (snd r)) = [43; 43; 10]
  /\ Sketch.pbPtr (snd r) = 3.
Proof.
  intros s r.
  destruct (escaped_line_round_trip [43; 43; 10] 13 s
              eq_refl eq_refl eq_refl eq_refl ltac:(cbn; lia)
              (or_introl eq_refl))
    as (H1 & _ & H3 & H4 & _).
  fold r in H1, H3, H4. rewrite H3. repeat split; assumption.
Defined.

(** X15.  What the interpreter makes of a line of plain bytes (no CR, LF
    or ESC) of 1 to 255 bytes, ended by CR or LF, with the
    identification query switched off.  The line is a command exactly
    when it starts with two plus signs and has a third byte: result 1
    with the line in the parse buffer, or, when the third byte is an
    exclamation mark, result 3 with the buffer flushed.  Every other line
    is data (result 2) with the line in the buffer; so two plus signs
    alone are data. *)
Theorem plain_line_kind (x : list Z) (nl : Z) (s : Sketch.State) :
  Sketch.pbPtr s = 0 -> Sketch.isEsc s = false ->
  Sketch.isPlusEscaped s = false ->
  length (Sketch.pBuf s) = 256%nat ->
  Bus.idn (Bus.cfg (Sketch.bus s)) = 0 ->
  Forall (fun c => Host.plain c = true) x ->
  (0 < length x <= 255)%nat -> nl = Bus.CR \/ nl = Bus.LF ->
  let r := Sketch.serialIn_h (x ++ [nl]) s in
  let kept := Sketch.pBuf (snd r) = x ++ drop (length x) (Sketch.pBuf s)
              /\ Sketch.pbPtr (snd r) = Z.of_nat (length x) in
  snd (fst r) = []
  /\ (if Host.is_command x then
        if Sketch.at_ x 2 =? 33
        then fst (fst r) = 3 /\ Sketch.pBuf (snd r) = replicate 256 0
             /\ Sketch.pbPtr (snd r) = 0
        else fst (fst r) = 1 /\ kept
      else fst (fst r) = 2 /\ kept).
Proof.
  intros Hp He Hple Hb Hi Hx Hl Hnl.
  destruct s as [w buf ptr esc ple v ln full sidn q re rb eb ar].
  cbn [Sketch.pbPtr Sketch.isEsc Sketch.pBuf Sketch.bus
       Sketch.isPlusEscaped] in *.
  subst ptr esc ple.
  destruct (EscapeFacts.plain_fill x [nl] w buf 0 false v ln full sidn q re
              rb eb ar Hx ltac:(lia) ltac:(lia) ltac:(cbn; lia))
    as (w' & Hc & _ & E).
  cbn zeta. rewrite E.
  change (Z.to_nat 0) with 0%nat. rewrite take_0. cbn [app Nat.add].
  cbn [Sketch.serialIn_h].
  pose proof (EscapeFacts.isCmd_line x (drop (length x) buf)) as Hk.
  destruct (Host.is_command x) eqn:Hcmd.
  - apply andb_true_iff in Hk as [H2 Hk]. apply Z.ltb_lt in H2.
    rewrite EscapeFacts.command_line_end by (try exact Hnl; try exact Hk; lia).
    assert (H33 : Sketch.at_ (x ++ drop (length x) buf) 2 = Sketch.at_ x 2).
    { unfold Sketch.at_. apply lookup_total_app_l. lia. }
    rewrite H33. destruct (Sketch.at_ x 2 =? 33);
      cbn [fst snd Z.eqb Sketch.pBuf Sketch.pbPtr]; repeat split; lia.
  - rewrite EscapeFacts.data_line_end;
      [| exact Hnl | lia | congruence | rewrite andb_true_r; exact Hk].
    cbn [fst snd Z.eqb Sketch.pBuf Sketch.pbPtr]. repeat split; lia.
Qed.

(** The line [++v] is a command; the line [++] is data. *)
Lemma plain_line_kind_witness :
  let s := Partner.sketch (Partner.config 2 false 0 0 0) [] in
  fst (fst (Sketch.serialIn_h ([43; 43; 118] ++ [13]) s)) = 1
  /\ fst (fst (Sketch.serialIn_h ([43; 43] ++ [13]) s)) = 2.
Proof.
  intros s. split.
  - destruct (plain_line_kind [43; 43; 118] 13 s eq_refl eq_refl eq_refl
                eq_refl eq_refl ltac:(repeat constructor) ltac:(cbn; lia)
                (or_introl eq_refl)) as (_ & H).
    cbn [Host.is_command length] in H. exact (proj1 H).
  - destruct (plain_line_kind [43; 43] 13 s eq_refl eq_refl eq_refl
                eq_refl eq_refl ltac:(repeat constructor) ltac:(cbn; lia)
                (or_introl eq_refl)) as (_ & H).
    exact (proj1 H).
Defined.

(** ** From the serial line to the bus *)

Module LineWireFacts.
Import Bus Sketch Host Partner.

#[local] Opaque Layouts.setGpibState Layouts.setGpibDbus
  Layouts.readyGpibDbus.

Ltac fields :=
  cbn [bus pBuf pbPtr isEsc isPlusEscaped isVerbose lnRdy dataBufferFull
       sendIdn isQuery readWithEoi readWithEndByte endByte autoRead].

(** An escaped payload read into an empty buffer. *)
Lemma escaped_line x nl w buf ple ln full sidn q re rb eb ar :
  length buf = 256%nat -> idn (cfg w) = 0 ->
  (0 < length x <= 255)%nat -> nl = CR \/ nl = LF ->
  serialIn_h (escape x ++ [nl])
    (mkState w buf 0 false ple false ln full sidn q re rb eb ar)
  = (2, [], mkState w (x ++ drop (length x) buf) (Z.of_nat (length x))
                    false false false ln full sidn q re rb eb ar).
Proof.
  intros Hb Hi Hx Hnl.
  destruct (EscapeFacts.escaped_fill x [nl] w buf 0 ple false ln full sidn q
              re rb eb ar ltac:(lia) ltac:(lia) ltac:(cbn; lia))
    as (w' & ple' & Hc & Hv & _ & Hplus & E).
  rewrite E, (Hv eq_refl).
  change (Z.to_nat 0) with 0%nat. rewrite take_0. cbn [app Nat.add].
  cbn [serialIn_h].
  rewrite EscapeFacts.data_line_end; [reflexivity | exact Hnl | lia
                                      | exact Hi |].
  destruct (isCmd (x ++ drop (length x) buf)) eqn:Hcmd;
    [|rewrite andb_false_r; reflexivity].
  rewrite Hplus; [rewrite andb_false_r; reflexivity | reflexivity | | lia].
  unfold isCmd in Hcmd. apply andb_true_iff in Hcmd as [H0 _].
  apply Z.eqb_eq in H0. unfold at_ in *.
  destruct x as [|c x]; [cbn in Hx; lia|]. exact H0.
Qed.

(** [sendToInstrument] before listeners that accept every byte. *)
Lemma sendToInstrument_ack data buf ptr p c st tb P rest tr h
    esc ple ln sidn q re rb eb ar :
  cmode c = 2 -> 1 < rtmo c -> calm P ->
  take (Z.to_nat ptr) buf = data ->
  exists p' q',
    sendToInstrument buf ptr
      (mkState
         (mkWorld p c st false tb P
            (ack ++ ack
             ++ acks (length (data ++ Expect.eos_bytes (eos c)))
             ++ ack ++ ack ++ rest) tr h)
         buf ptr esc ple false ln false sidn q re rb eb ar)
    = mkState
        (mkWorld p' c CCMS false tb accepted rest
           (tr ++ Expect.cmd st GC_UNL
               ++ Expect.cmd CCMS (u8 (GC_LAD + paddr c))
               ++ Expect.send_events true (eoi c) (eos c) data
               ++ Expect.cmd CIDS GC_UNL ++ Expect.cmd CCMS GC_UNT) h)
        (replicate 256 0) 0 esc ple false 0 false sidn q' re rb eb ar.
Proof.
  intros Hm Hr HP Hd. unfold sendToInstrument.
  set (f := acks _ ++ _).
  assert (Hq : exists q',
            (if at_ buf (Z.to_nat (ptr - 1)) =? 63
             then set_isQuery true
                    (mkState (mkWorld p c st false tb P (ack ++ ack ++ f) tr h)
                       buf ptr esc ple false ln false sidn q re rb eb ar)
             else mkState (mkWorld p c st false tb P (ack ++ ack ++ f) tr h)
                    buf ptr esc ple false ln false sidn q re rb eb ar)
            = mkState (mkWorld p c st false tb P (ack ++ ack ++ f) tr h)
                buf ptr esc ple false ln false sidn q' re rb eb ar).
  { destruct (_ =? 63); eexists; reflexivity. }
  destruct Hq as [q' ->]. fields. cbn [deviceAddressed negb cfg].
  unfold on_bus. fields.
  destruct (CommandFacts.addressDevice_ack p c st false tb P f tr h
              (paddr c) LISTEN Hr HP) as [p1 ->].
  cbn [snd]; unfold set_bus; fields. rewrite Hd. subst f.
  destruct (SendFacts.sendData_ack data p1 c CCMS true tb accepted
              (ack ++ ack ++ rest)
              (tr ++ Expect.cmd st GC_UNL
                  ++ Expect.cmd CCMS (u8 ((if LISTEN then GC_TAD else GC_LAD)
                                          + paddr c)))
              h Hr BusFacts.calm_accepted) as (p2 & P2 & HP2 & ->).
  cbn [snd]; unfold set_bus; fields. rewrite Hm. cbn [Z.eqb Pos.eqb].
  destruct (CommandFacts.unAddressDevice_ack p2 c CIDS true tb P2 rest
              (tr ++ Expect.cmd st GC_UNL
                  ++ Expect.cmd CCMS (u8 ((if LISTEN then GC_TAD else GC_LAD)
                                          + paddr c))
                  ++ Expect.send_events true (eoi c) (eos c) data)
              h Hr HP2) as [p3 E3].
  rewrite <- !List.app_assoc in E3 |- *. rewrite E3.
  cbn [snd]; unfold set_bus; fields.
  exists p3, q'. unfold flushPbuf, set_lnRdy, set_buf, PBSIZE. fields.
  unfold LISTEN. rewrite <- !List.app_assoc. reflexivity.
Qed.

Lemma puts_written st bs : Expect.puts (Expect.written st bs) = bs.
Proof.
  induction bs as [|b bs IH]; [reflexivity|].
  cbn [Expect.written flat_map app Expect.puts]. f_equal. exact IH.
Qed.

(** A command byte is put on the bus in CCMS, not in CTAS. *)
Lemma puts_in_cmd st b : Expect.puts_in CTAS (Expect.cmd st b) = [].
Proof. unfold Expect.cmd. destruct (st =? CCMS); reflexivity. Qed.

End LineWireFacts.

(** X16.  The whole path of a data line in controller role, not verbose:
    a payload of 1 to 255 bytes, escaped and ended by CR or LF, is taken
    by the data branch ([lnRdy == 2]) of the next pass of [loop()] and
    sent to listeners that accept every byte.  The bytes put on the bus are UNL and the listen address of
    [paddr] with ATN, the payload byte for byte followed by the
    terminator of the EOS code as data, and UNL, UNT with ATN; the parse
    buffer is flushed and the line state cleared.  (No automatic read,
    [amode] 0; no identification query.) *)
Theorem escaped_payload_on_wire (x : list Z) (nl : Z) (p : Layouts.Ports)
    (c : Bus.Config) (st : Z) (tb : bool) (P : Bus.Snap)
    (rest : list Bus.Snap) (tr : list Bus.Event) (h : list Z)
    (buf : list Z) (ple : bool) (ln : Z) (sidn q re rb : bool) (eb : Z)
    (ar : bool) :
  Bus.cmode c = 2 -> Bus.amode c = 0 -> Bus.idn c = 0 ->
  1 < Bus.rtmo c -> Partner.calm P ->
  length buf = 256%nat -> (0 < length x <= 255)%nat ->
  nl = Bus.CR \/ nl = Bus.LF ->
  let sent := x ++ Expect.eos_bytes (Bus.eos c) in
  let s := Sketch.mkState
             (Bus.mkWorld p c st false tb P
                (Partner.ack ++ Partner.ack ++ Partner.acks (length sent)
                 ++ Partner.ack ++ Partner.ack ++ rest) tr h)
             buf 0 false ple false ln false sidn q re rb eb ar in
  let s' := Sketch.host_line (Host.escape x ++ [nl]) s in
  Expect.puts (Bus.trace (Sketch.bus s'))
  = Expect.puts tr ++ [Bus.GC_UNL; u8 (Bus.GC_LAD + Bus.paddr c)] ++ sent
    ++ [Bus.GC_UNL; Bus.GC_UNT]
  /\ Expect.puts_in Bus.CTAS (Bus.trace (Sketch.bus s'))
     = Expect.puts_in Bus.CTAS tr ++ map (fun b : Z => (b, false)) sent
  /\ Bus.future (Sketch.bus s') = rest
  /\ Sketch.pBuf s' = replicate 256 0 /\ Sketch.pbPtr s' = 0
  /\ Sketch.lnRdy s' = 0.
Proof.
  intros Hm Ha Hi Hr HP Hb Hx Hnl sent s s'.
  assert (E : exists p' q',
            s' = Sketch.mkState
                   (Bus.mkWorld p' c Bus.CCMS false tb Partner.accepted rest
                      (tr ++ Expect.cmd st Bus.GC_UNL
                          ++ Expect.cmd Bus.CCMS (u8 (Bus.GC_LAD + Bus.paddr c))
                          ++ Expect.send_events true (Bus.eoi c) (Bus.eos c) x
                          ++ Expect.cmd Bus.CIDS Bus.GC_UNL
                          ++ Expect.cmd Bus.CCMS Bus.GC_UNT) h)
                   (replicate 256 0) 0 false false false 0 false sidn q' re rb
                   eb ar).
  { subst s' s sent. unfold Sketch.host_line, Sketch.loop_input.
    destruct (Host.escape x ++ [nl]) eqn:El.
    { apply (f_equal (@length Z)) in El. rewrite length_app in El.
      cbn in El. lia. }
    rewrite <- El. rewrite LineWireFacts.escaped_line by assumption.
    unfold Sketch.set_lnRdy, Sketch.loop_data.
    cbn [snd Sketch.bus Sketch.pBuf Sketch.pbPtr Sketch.isEsc
         Sketch.isPlusEscaped Sketch.isVerbose Sketch.lnRdy
         Sketch.dataBufferFull Sketch.sendIdn Sketch.isQuery
         Sketch.readWithEoi Sketch.readWithEndByte Sketch.endByte
         Sketch.autoRead Bus.cfg].
    rewrite Hm. cbn [Z.eqb Pos.eqb].
    destruct (LineWireFacts.sendToInstrument_ack x
                (x ++ drop (length x) buf) (Z.of_nat (length x))
                p c st tb P rest tr h false false 2 sidn q re rb eb ar
                Hm Hr HP) as (p' & q' & E).
    { rewrite Nat2Z.id. apply take_app_length. }
    rewrite E.
    cbn [Sketch.bus Bus.cfg]. rewrite Ha. cbn [Z.eqb orb andb].
    exists p', q'. reflexivity. }
  destruct E as (p' & q' & ->). subst sent.
  cbn [Sketch.bus Bus.trace Bus.future Sketch.pBuf Sketch.pbPtr Sketch.lnRdy].
  split; [|split; [|repeat split; reflexivity]].
  - rewrite !AddressingFacts.puts_app, !AddressingFacts.puts_cmd.
    unfold Expect.send_events.
    rewrite !AddressingFacts.puts_app.
    rewrite LineWireFacts.puts_written.
    destruct (Bus.eoi c); cbn [Expect.puts app]; rewrite ?app_nil_r;
      rewrite <- ?List.app_assoc; reflexivity.
  - rewrite !WireFacts.puts_in_app.
    rewrite (WireFacts.puts_in_send_events true).
    rewrite !LineWireFacts.puts_in_cmd. cbn [app]. rewrite app_nil_r.
    reflexivity.
Qed.

(** The payload [A?] with EOS code 0: the five bytes UNL, LAD+1, and
    after the data UNL, UNT frame the line and CR LF. *)
Lemma escaped_payload_on_wire_witness :
  let s := Partner.sketch (Partner.config 2 false 0 0 0) (Partner.acks 8) in
  Expect.puts (Bus.trace (Sketch.bus
                 (Sketch.host_line (Host.escape [65; 63] ++ [10]) s)))
  = [63; 33; 65; 63; 13; 10; 63; 95].
Proof.
  intros s.
  destruct (escaped_payload_on_wire [65; 63] 10 Partner.ports0
              (Partner.config 2 false 0 0 0) 0 false Partner.idle [] [] []
              (replicate 256 0) false 0 false false false false 0 false
              eq_refl eq_refl eq_refl ltac:(cbn; lia) BusFacts.calm_idle
              eq_refl ltac:(cbn; lia) (or_intror eq_refl)) as (H & _).
  exact H.
Defined.

(** ** Numbers on the serial line *)

Module NumberFacts.
Import Bus Sketch.

Lemma is_digit_char d : 0 <= d < 10 -> is_digit (48 + d) = true.
Proof.
  intros Hd. unfold is_digit. apply andb_true_iff.
  split; apply Z.leb_le; lia.
Qed.

(** Reading digits continues the number read so far. *)
Lemma atoi_digits_app ds : forall rest a,
  Forall (fun c => is_digit c = true) ds ->
  atoi_digits (ds ++ rest) a
  = atoi_digits rest
      (fold_left (fun acc c => 10 * acc + (c - 48)) ds a).
Proof.
  induction ds as [|c ds IH]; intros rest a Hd; [reflexivity|].
  inversion Hd as [|? ? Hc Hds]; subst.
  cbn [app atoi_digits fold_left]. rewrite Hc. apply IH. exact Hds.
Qed.

(** The digits that [print(n, DEC)] sends, read back. *)
Lemma dec_digits_spec fuel : forall n acc,
  0 <= n < 10 ^ Z.of_nat fuel -> (0 < fuel)%nat ->
  exists ds,
    dec_digits fuel n acc = ds ++ acc
    /\ Forall (fun c => is_digit c = true) ds
    /\ ds <> []
    /\ (forall a, fold_left (fun acc c => 10 * acc + (c - 48)) ds a
                  = a * 10 ^ Z.of_nat (length ds) + n).
Proof.
  induction fuel as [|f IH]; intros n acc Hn Hf0; [lia|].
  cbn [dec_digits].
  -
    assert (Hmod : 0 <= n mod 10 < 10) by (apply Z.mod_pos_bound; lia).
    destruct (Z.eqb_spec (n / 10) 0) as [Hz|Hz].
    + exists [48 + n mod 10]. split; [reflexivity|].
      split; [constructor; [apply is_digit_char; exact Hmod|constructor]|].
      split; [discriminate|].
      intros a. cbn [fold_left length].
      change (10 ^ Z.of_nat 1) with 10.
      pose proof (Z.div_mod n 10 ltac:(lia)). lia.
    + assert (Hq : 0 <= n / 10 < 10 ^ Z.of_nat f).
      { split; [apply Z.div_pos; lia|].
        apply Z.div_lt_upper_bound; [lia|].
        rewrite Nat2Z.inj_succ, Z.pow_succ_r in Hn by lia. lia. }
      assert (Hf1 : (0 < f)%nat).
      { destruct f; [|lia]. change (10 ^ Z.of_nat 0) with 1 in Hq. lia. }
      destruct (IH (n / 10) ((48 + n mod 10) :: acc) Hq Hf1)
        as (ds & E & Hd & Hne & Hf).
      exists (ds ++ [48 + n mod 10]). rewrite E, <- List.app_assoc.
      split; [reflexivity|]. split; [|split].
      * apply Forall_app. split; [exact Hd|].
        constructor; [apply is_digit_char; exact Hmod|constructor].
      * destruct ds; discriminate.
      * intros a. rewrite fold_left_app, Hf. cbn [fold_left].
        rewrite length_app. cbn [length].
        rewrite Nat2Z.inj_add, Z.pow_add_r by lia.
        change (10 ^ Z.of_nat 1) with 10.
        pose proof (Z.div_mod n 10 ltac:(lia)). lia.
Qed.

(** [atoi] reads back the digits of a number, whatever the fuel that
    wrote them. *)
Lemma atoi_digits_of fuel n :
  0 <= n < 10 ^ Z.of_nat fuel -> (0 < fuel)%nat ->
  atoi (dec_digits fuel n []) = n
  /\ (length (dec_digits fuel n []) =? 0)%nat = false.
Proof.
  intros Hn Hf0.
  destruct (dec_digits_spec fuel n [] Hn Hf0)
    as (ds & E & Hd & Hne & Hf).
  rewrite E, app_nil_r.
  destruct ds as [|c ds]; [contradiction|].
  split; [|reflexivity].
  inversion Hd as [|? ? Hc Hds]; subst.
  assert (Hc' : 48 <= c <= 57).
  { unfold is_digit in Hc. apply andb_true_iff in Hc as [H1 H2].
    apply Z.leb_le in H1, H2. lia. }
  unfold atoi. cbn [atoi_skip].
  assert (Hs : is_space c = false).
  { unfold is_space. apply orb_false_iff. split.
    - apply Z.eqb_neq. lia.
    - apply andb_false_iff. right. apply Z.leb_gt. lia. }
  rewrite Hs.
  assert (E1 : atoi_digits (c :: ds) 0 = n).
  { rewrite <- (app_nil_r (c :: ds)), atoi_digits_app
      by exact Hd.
    cbn [atoi_digits]. rewrite Hf. lia. }
  destruct (Z.eq_dec c 45) as [->|H45]; [lia|].
  destruct (Z.eq_dec c 43) as [->|H43]; [lia|].
  destruct c as [|c|c]; try lia.
  do 6 (destruct c as [c|c|]; try lia; try exact E1).
Qed.

(** The fuel of [Host.decimal] is enough for every number. *)
Lemma decimal_fuel n :
  0 <= n -> n < 10 ^ Z.of_nat (S (Z.to_nat (Z.log2 n))).
Proof.
  intros Hn.
  rewrite Nat2Z.inj_succ, Z2Nat.id by apply Z.log2_nonneg.
  destruct (Z.eq_dec n 0) as [->|Hz]; [reflexivity|].
  pose proof (Z.log2_spec n ltac:(lia)) as [_ H2].
  pose proof (Z.pow_le_mono_l 2 10 (Z.succ (Z.log2 n)) ltac:(lia)).
  lia.
Qed.

Lemma atoi_decimal n :
  0 <= n ->
  atoi (Host.decimal n) = n
  /\ (length (Host.decimal n) =? 0)%nat = false.
Proof.
  intros Hn. unfold Host.decimal.
  apply atoi_digits_of; [|lia].
  split; [exact Hn | apply decimal_fuel, Hn].
Qed.

End NumberFacts.

(** ** Configuration commands *)

Module HandlerFacts.
Import Bus Sketch Handlers.

#[local] Opaque Layouts.setGpibState Layouts.setGpibDbus
  Layouts.readyGpibDbus.

(** Printing leaves the configuration alone. *)
Lemma print_cfg bs s : cfg (bus (dataPort_print bs s)) = cfg (bus s).
Proof. destruct s as [[] ?]. reflexivity. Qed.

Lemma verbose_cfg bs s : cfg (bus (verbose bs s)) = cfg (bus s).
Proof. unfold verbose. destruct (isVerbose s); [apply print_cfg|reflexivity]. Qed.

Lemma errBadCmd_cfg s : cfg (bus (errBadCmd s)) = cfg (bus s).
Proof. apply print_cfg. Qed.

Lemma assign_cfg f s : cfg (bus (assign f s)) = f (cfg (bus s)).
Proof. destruct s as [[] ?]. reflexivity. Qed.

(** [notInRange] either rejects the parameter, and then the
    configuration is as before, or accepts it without printing, and then
    the value read lies in the range. *)
Lemma notInRange_cases p lo hi v0 s :
  (exists v s', notInRange p lo hi v0 s = ((true, v), s')
                /\ cfg (bus s') = cfg (bus s))
  \/ (notInRange p lo hi v0 s = ((false, atoi p mod 65536), s)
      /\ lo <= atoi p mod 65536 <= hi).
Proof.
  unfold notInRange. destruct (length p =? 0)%nat.
  { left. eexists _, _. split; reflexivity. }
  destruct (Z.ltb_spec (atoi p mod 65536) lo) as [Hl|Hl]; cbn [orb].
  { left. eexists _, _. split; [reflexivity|].
    destruct (isVerbose (errBadCmd s));
      rewrite ?print_cfg; apply errBadCmd_cfg. }
  destruct (Z.ltb_spec hi (atoi p mod 65536)) as [Hh|Hh].
  { left. eexists _, _. split; [reflexivity|].
    destruct (isVerbose (errBadCmd s));
      rewrite ?print_cfg; apply errBadCmd_cfg. }
  right. split; [reflexivity | lia].
Qed.

(** A number whose 16-bit value is in the range is accepted, with that
    value. *)
Lemma notInRange_decimal n lo hi v0 s :
  0 <= n -> lo <= n mod 65536 <= hi ->
  notInRange (Host.decimal n) lo hi v0 s = ((false, n mod 65536), s).
Proof.
  intros Hn Hr. unfold notInRange.
  destruct (NumberFacts.atoi_decimal n Hn) as [-> ->].
  destruct (Z.ltb_spec (n mod 65536) lo); [lia|].
  destruct (Z.ltb_spec hi (n mod 65536)); [lia|].
  reflexivity.
Qed.

(** A number whose 16-bit value is outside the range is rejected with the
    error message. *)
Lemma notInRange_decimal_out n lo hi v0 s :
  0 <= n -> n mod 65536 < lo \/ hi < n mod 65536 ->
  exists s',
    notInRange (Host.decimal n) lo hi v0 s = ((true, n mod 65536), s')
    /\ cfg (bus s') = cfg (bus s)
    /\ (isVerbose s = false ->
        s' = dataPort_print (str "Unrecognized command" ++ crlf) s).
Proof.
  intros Hn Hr. unfold notInRange.
  destruct (NumberFacts.atoi_decimal n Hn) as [-> ->].
  assert (Ho : (n mod 65536 <? lo) || (hi <? n mod 65536) = true).
  { apply orb_true_iff.
    destruct Hr; [left; apply Z.ltb_lt|right; apply Z.ltb_lt]; assumption. }
  rewrite Ho. eexists. split; [reflexivity|]. split.
  - destruct (isVerbose (errBadCmd s)); rewrite ?print_cfg;
      apply errBadCmd_cfg.
  - intros Hv. destruct s as [w buf ptr esc ple v ln full sidn q re rb eb ar].
    cbn in Hv. subst v. reflexivity.
Qed.

(** [startControllerMode] changes the role and nothing else in the
    configuration, whatever the bus does. *)
Lemma startControllerMode_cfg w :
  cfg (snd (Engine.startControllerMode w)) = Engine.set_cmode 2 (cfg w).
Proof.
  destruct w as [p c st da tb P f tr h].
  unfold Engine.startControllerMode, bind.
  cbn -[addressDevice]. destruct (1 <? paddr c); [|reflexivity].
  unfold when, bind.
  match goal with |- context [addressDevice ?a ?t ?w] =>
    pose proof (RoleFacts.keeps_addressDevice a t w) as H;
    destruct (addressDevice a t w) as [e w1]
  end.
  exact H.
Qed.

Ltac into_range p lo hi s H :=
  destruct (notInRange_cases p lo hi val0 s)
    as [(v & s' & -> & H)|(-> & H)].

Lemma addr_h_valid params s :
  valid (cfg (bus s)) -> valid (cfg (bus (addr_h params s))).
Proof.
  intros Hv. unfold addr_h.
  destruct params as [p|]; [|unfold println_num; rewrite print_cfg; exact Hv].
  into_range p 1 30 s H; [rewrite H; exact Hv|].
  destruct (Z.eqb_spec (atoi p mod 65536) (caddr (cfg (bus s)))) as [E|E].
  - rewrite verbose_cfg, errBadCmd_cfg. exact Hv.
  - rewrite verbose_cfg, assign_cfg. unfold valid, set_paddr in *. cbn.
    intuition lia.
Qed.

Ltac simple_handler lo hi :=
  let Hv := fresh "Hv" in
  let H := fresh "H" in
  intros Hv;
  match goal with
  | |- valid (cfg (bus (?h ?params ?s))) =>
      unfold h;
      destruct params as [p|];
      [ into_range p lo hi s H;
        [ rewrite H; exact Hv
        | rewrite verbose_cfg, assign_cfg;
          unfold valid in *; cbn; rewrite ?u8_small by lia;
          intuition lia ]
      | unfold println_bool, println_num; rewrite print_cfg; exact Hv ]
  end.

Lemma rtmo_h_valid params s :
  valid (cfg (bus s)) -> valid (cfg (bus (rtmo_h params s))).
Proof. simple_handler 1 32000. Qed.

Lemma eos_h_valid params s :
  valid (cfg (bus s)) -> valid (cfg (bus (eos_h params s))).
Proof. simple_handler 0 3. Qed.

Lemma eoi_h_valid params s :
  valid (cfg (bus s)) -> valid (cfg (bus (eoi_h params s))).
Proof. simple_handler 0 1. Qed.

Lemma eot_en_h_valid params s :
  valid (cfg (bus s)) -> valid (cfg (bus (eot_en_h params s))).
Proof. simple_handler 0 1. Qed.

Lemma eot_char_h_valid params s :
  valid (cfg (bus s)) -> valid (cfg (bus (eot_char_h params s))).
Proof. simple_handler 0 255. Qed.

Lemma set_autoRead_cfg v s : cfg (bus (set_autoRead v s)) = cfg (bus s).
Proof. destruct s. reflexivity. Qed.

Lemma amode_h_valid params s :
  valid (cfg (bus s)) -> valid (cfg (bus (amode_h params s))).
Proof.
  intros Hv. unfold amode_h.
  destruct params as [p|]; [|unfold println_num; rewrite print_cfg; exact Hv].
  into_range p 0 3 s H; [rewrite H; exact Hv|].
  cbn zeta. rewrite verbose_cfg.
  match goal with |- context [if ?b then set_autoRead false ?x else ?x] =>
    assert (E : cfg (bus (if b then set_autoRead false x else x))
                = cfg (bus x))
      by (destruct b; [apply set_autoRead_cfg|reflexivity])
  end.
  rewrite E, assign_cfg.
  assert (E2 : forall x, cfg (bus (if (0 <? atoi p mod 65536) && isVerbose s
                                   then dataPort_print x s else s))
                         = cfg (bus s)).
  { intros x. destruct (_ && _); [apply print_cfg|reflexivity]. }
  rewrite E2. unfold valid in *. cbn. rewrite ?u8_small by lia.
  intuition lia.
Qed.

Lemma eor_h_valid params s :
  valid (cfg (bus s)) -> valid (cfg (bus (eor_h params s))).
Proof.
  intros Hv. unfold eor_h. destruct params as [p|].
  - into_range p 0 15 s H; [rewrite H; exact Hv|].
    rewrite verbose_cfg, assign_cfg.
    unfold valid in *; cbn; rewrite ?u8_small by lia; intuition lia.
  - cbn zeta. unfold println_num. rewrite print_cfg.
    destruct (7 <? eor (cfg (bus s))); [|exact Hv].
    rewrite assign_cfg. unfold valid in *; cbn; intuition lia.
Qed.

Lemma stat_h_valid params s :
  valid (cfg (bus s)) -> valid (cfg (bus (stat_h params s))).
Proof.
  intros Hv. unfold stat_h.
  destruct params as [p|]; [|unfold println_num; rewrite print_cfg; exact Hv].
  destruct (notInRange_cases p 0 255 0 s) as [(v & s' & -> & H)|(-> & H)];
    [rewrite H; exact Hv|].
  rewrite RoleFacts.on_bus_bus.
  destruct s as [[pp c st da tb P f tr h] ?]. cbn [bus] in *.
  rewrite SrqFacts.setStatus_run. cbn [snd cfg] in *.
  pose proof (u8_range (atoi p mod 65536)).
  unfold valid in *; cbn; intuition lia.
Qed.

Lemma cmode_h_valid params s :
  valid (cfg (bus s)) -> valid (cfg (bus (cmode_h params s))).
Proof.
  intros Hv. unfold cmode_h.
  destruct params as [p|]; [|unfold println_bool, println_num;
                             rewrite print_cfg; exact Hv].
  into_range p 0 1 s H; [rewrite H; exact Hv|].
  cbn zeta. rewrite verbose_cfg.
  destruct (Z.eqb_spec (atoi p mod 65536) 0) as [E|E].
  - rewrite RoleFacts.on_bus_bus.
    rewrite (proj1 (proj2 (proj2 (ModeFacts.startDeviceMode_state (bus s))))).
    unfold valid in *; cbn; intuition lia.
  - destruct (Z.eqb_spec (atoi p mod 65536) 1) as [E1|E1]; [|lia].
    rewrite RoleFacts.on_bus_bus, startControllerMode_cfg.
    unfold valid in *; cbn; intuition lia.
Qed.

End HandlerFacts.

(** X17.  The configuration commands validate what they store.  Whatever
    the parameter string (digits, garbage, a number out of range, a
    negative or an overlong number), after [++addr], [++read_tmo_ms],
    [++eos], [++eoi], [++eot_enable], [++eot_char], [++auto], [++eor],
    [++status] or [++mode] a configuration that was in range still is:
    the primary address stays within 1..30 and differs from the
    controller address, the timeout within 1..32000, EOS and auto mode
    within 0..3, EOR within 0..15, the EOT character and the status byte
    within 0..255, and the role is device or controller. *)
Theorem config_commands_validate :
  Forall (fun h => forall params s,
            Handlers.valid (Bus.cfg (Sketch.bus s)) ->
            Handlers.valid (Bus.cfg (Sketch.bus (h params s))))
         Handlers.commands.
Proof.
  unfold Handlers.commands.
  apply Forall_cons_2; [exact HandlerFacts.addr_h_valid|].
  apply Forall_cons_2; [exact HandlerFacts.rtmo_h_valid|].
  apply Forall_cons_2; [exact HandlerFacts.eos_h_valid|].
  apply Forall_cons_2; [exact HandlerFacts.eoi_h_valid|].
  apply Forall_cons_2; [exact HandlerFacts.eot_en_h_valid|].
  apply Forall_cons_2; [exact HandlerFacts.eot_char_h_valid|].
  apply Forall_cons_2; [exact HandlerFacts.amode_h_valid|].
  apply Forall_cons_2; [exact HandlerFacts.eor_h_valid|].
  apply Forall_cons_2; [exact HandlerFacts.stat_h_valid|].
  apply Forall_cons_2; [exact HandlerFacts.cmode_h_valid|].
  apply Forall_nil_2.
Qed.

(** The default configuration is in range, and stays so after
    [++addr 5]. *)
Lemma config_commands_validate_witness :
  Handlers.valid
    (Bus.cfg (Sketch.bus
       (Handlers.addr_h (Some (Sketch.str "5"))
          (Partner.sketch (Partner.config 2 false 0 0 0) [])))).
Proof.
  apply (Forall_inv config_commands_validate).
  unfold Handlers.valid. cbn. lia.
Defined.

Module RoundTripFacts.
Import Bus Sketch Handlers.

#[local] Opaque Layouts.setGpibState Layouts.setGpibDbus
  Layouts.readyGpibDbus.

(** The three cases of a number [n] with 16-bit value [v] against the
    range [lo..hi]. *)
Ltac range_cases n v lo hi s :=
  unfold val0;
  assert (Hv16 : 0 <= n mod 65536 < 65536) by (apply Z.mod_pos_bound; lia);
  destruct (Z.leb_spec lo (n mod 65536)); cbn [andb];
  [ destruct (Z.leb_spec (n mod 65536) hi);
    [ rewrite (HandlerFacts.notInRange_decimal n lo hi) by lia
    | destruct (HandlerFacts.notInRange_decimal_out n lo hi 0 s
                  ltac:(lia) ltac:(lia)) as (s' & -> & Hc & Hs) ]
  | destruct (HandlerFacts.notInRange_decimal_out n lo hi 0 s
                ltac:(lia) ltac:(lia)) as (s' & -> & Hc & Hs) ];
  [ generalize dependent (n mod 65536); intros v; intros | | ].

Ltac rejected :=
  match goal with
  | Hc : cfg (bus ?s') = cfg (bus ?s),
    Hs : isVerbose ?s = false -> _,
    Hv : isVerbose ?s = false |- _ =>
      split; [exact Hc|]; rewrite (Hs Hv);
      destruct s as [[] ?]; reflexivity
  end.

Ltac plain_setting h lo hi :=
  let n := fresh "n" in
  let v := fresh "v" in
  let s := fresh "s" in
  let Hn := fresh "Hn" in
  let Hv := fresh "Hv" in
  intros n s Hn Hv; unfold round_trip; cbn zeta; unfold h;
  range_cases n v lo hi s;
  [ destruct s as [[] ?]; cbn in Hv; subst; cbn;
    rewrite ?u8_small by lia;
    split; [reflexivity|]; split; [reflexivity|];
    intros x Hx; injection Hx as <-; reflexivity
  | rejected
  | rejected ].

Lemma rtmo_round_trip n s :
  0 <= n -> isVerbose s = false -> round_trip rtmo_h rtmo 1 32000 Some n s.
Proof. revert n s. plain_setting rtmo_h 1 32000. Qed.

Lemma eos_round_trip n s :
  0 <= n -> isVerbose s = false -> round_trip eos_h eos 0 3 Some n s.
Proof. revert n s. plain_setting eos_h 0 3. Qed.

Lemma eot_char_round_trip n s :
  0 <= n -> isVerbose s = false ->
  round_trip eot_char_h eot_ch 0 255
    (fun v => if v <=? 127 then Some v else None) n s.
Proof.
  intros Hn Hv. unfold round_trip. cbn zeta. unfold eot_char_h.
  range_cases n v 0 255 s; [|rejected|rejected].
  destruct s as [[] ?]; cbn in Hv; subst; cbn.
  rewrite ?u8_small by lia.
  split; [reflexivity|]. split; [reflexivity|].
  intros x Hx. destruct (v <=? 127); [|discriminate Hx].
  injection Hx as <-. reflexivity.
Qed.

Lemma amode_round_trip n s :
  0 <= n -> isVerbose s = false -> round_trip amode_h amode 0 3 Some n s.
Proof.
  intros Hn Hv. unfold round_trip. cbn zeta. unfold amode_h.
  range_cases n v 0 3 s; [|rejected|rejected].
  cbv beta iota zeta. rewrite Hv, andb_false_r.
  destruct s as [[] ?]; cbn in Hv; subst.
  unfold assign, set_bus, set_cfg, set_amode, verbose, println_num,
    dataPort_print, set_autoRead.
  cbn [bus cfg amode isVerbose pBuf pbPtr isEsc isPlusEscaped lnRdy
       dataBufferFull sendIdn isQuery readWithEoi readWithEndByte endByte
       autoRead ports cstate deviceAddressed txBreak pins future trace host].
  rewrite ?u8_small by lia.
  destruct (v <? 3);
    cbn [bus cfg amode isVerbose pBuf pbPtr isEsc isPlusEscaped lnRdy
         dataBufferFull sendIdn isQuery readWithEoi readWithEndByte endByte
         autoRead ports cstate deviceAddressed txBreak pins future trace host
         print set_bus];
    (split; [reflexivity|]; split; [reflexivity|];
     intros x Hx; injection Hx as <-; reflexivity).
Qed.

Lemma eor_round_trip n s :
  0 <= n -> isVerbose s = false ->
  round_trip eor_h eor 0 15 (fun v => Some (if 7 <? v then 0 else v)) n s.
Proof.
  intros Hn Hv. unfold round_trip. cbn zeta. unfold eor_h.
  range_cases n v 0 15 s; [|rejected|rejected].
  destruct s as [[] ?]; cbn in Hv; subst; cbn.
  rewrite ?u8_small by lia.
  split; [reflexivity|]. split; [reflexivity|].
  intros x Hx. injection Hx as <-.
  destruct (7 <? v); cbn; reflexivity.
Qed.

Lemma stat_round_trip n s :
  0 <= n -> isVerbose s = false -> round_trip stat_h stat 0 255 Some n s.
Proof.
  intros Hn Hv. unfold round_trip. cbn zeta. unfold stat_h.
  range_cases n v 0 255 s; [|rejected|rejected].
  destruct s as [[] ?]; cbn in Hv; subst. unfold on_bus. cbn [bus].
  rewrite SrqFacts.setStatus_run. cbn. rewrite ?u8_small by lia.
  split; [reflexivity|]. split; [reflexivity|].
  intros x Hx. injection Hx as <-. reflexivity.
Qed.

(** [++addr] also refuses the controller's own address. *)
Lemma addr_round_trip n s :
  0 <= n -> isVerbose s = false ->
  let v := n mod 65536 in
  let s1 := addr_h (Some (Host.decimal n)) s in
  if (1 <=? v) && (v <=? 30) && negb (v =? caddr (cfg (bus s)))
  then paddr (cfg (bus s1)) = v
       /\ host (bus s1) = host (bus s)
       /\ host (bus (addr_h None s1)) = host (bus s1) ++ dec v ++ crlf
  else cfg (bus s1) = cfg (bus s)
       /\ host (bus s1)
          = host (bus s) ++ str "Unrecognized command" ++ crlf.
Proof.
  intros Hn Hv. cbn zeta. unfold addr_h.
  range_cases n v 1 30 s; [|rejected|rejected].
  destruct s as [[] ?]; cbn in Hv; subst; cbn.
  destruct (v =? caddr cfg0); cbn; repeat split; reflexivity.
Qed.

End RoundTripFacts.

(** X18.  Set and query of the numeric settings, not verbose.  The number
    [n] is typed in decimal; [notInRange] reads it into a [uint16_t], so
    what counts is [v = n mod 65536] (for [++eos 65537] that is 1).  For
    [++read_tmo_ms] (1..32000), [++eos] (0..3), [++eot_char] (0..255),
    [++auto] (0..3), [++eor] (0..15) and [++status] (0..255): if [v] is in
    the range it is stored in its field without any output, and the query
    that follows prints it; if [v] is outside the range the configuration
    stays as it is and the error message is printed.  Exceptions: after
    [++eor] with 8 to 15 the query prints 0 (and resets the code); for an
    EOT character above 127 nothing is said of the query; and [++addr]
    (1..30) also refuses the controller's own address. *)
Theorem config_set_query_round_trip (n : Z) (s : Sketch.State) :
  0 <= n -> Sketch.isVerbose s = false ->
  Forall (fun '(h, get, lo, hi, shown) =>
            Handlers.round_trip h get lo hi shown n s)
         Handlers.numeric
  /\ (let v := n mod 65536 in
      let s1 := Handlers.addr_h (Some (Host.decimal n)) s in
      if (1 <=? v) && (v <=? 30)
         && negb (v =? Bus.caddr (Bus.cfg (Sketch.bus s)))
      then Bus.paddr (Bus.cfg (Sketch.bus s1)) = v
           /\ Bus.host (Sketch.bus s1) = Bus.host (Sketch.bus s)
           /\ Bus.host (Sketch.bus (Handlers.addr_h None s1))
              = Bus.host (Sketch.bus s1) ++ Sketch.dec v ++ Sketch.crlf
      else Bus.cfg (Sketch.bus s1) = Bus.cfg (Sketch.bus s)
           /\ Bus.host (Sketch.bus s1)
              = Bus.host (Sketch.bus s)
                ++ Sketch.str "Unrecognized command" ++ Sketch.crlf).
Proof.
  intros Hn Hv. split.
  - unfold Handlers.numeric.
    apply Forall_cons_2; [exact (RoundTripFacts.rtmo_round_trip n s Hn Hv)|].
    apply Forall_cons_2; [exact (RoundTripFacts.eos_round_trip n s Hn Hv)|].
    apply Forall_cons_2;
      [exact (RoundTripFacts.eot_char_round_trip n s Hn Hv)|].
    apply Forall_cons_2; [exact (RoundTripFacts.amode_round_trip n s Hn Hv)|].
    apply Forall_cons_2; [exact (RoundTripFacts.eor_round_trip n s Hn Hv)|].
    apply Forall_cons_2; [exact (RoundTripFacts.stat_round_trip n s Hn Hv)|].
    apply Forall_nil_2.
  - exact (RoundTripFacts.addr_round_trip n s Hn Hv).
Qed.

(** The number 65537 has the 16-bit value 1: [++read_tmo_ms 65537] sets
    the timeout to 1 ms and the query prints 1; [++addr 65537], with the
    primary address 1 already, is accepted as address 1 without a
    message. *)
Lemma config_set_query_round_trip_witness :
  let s := Partner.sketch (Partner.config 2 false 0 0 0) [] in
  let s1 := Handlers.rtmo_h (Some (Sketch.str "65537")) s in
  Bus.rtmo (Bus.cfg (Sketch.bus s1)) = 1
  /\ Bus.host (Sketch.bus (Handlers.rtmo_h None s1))
     = Sketch.str "1" ++ Sketch.crlf
  /\ Bus.host (Sketch.bus
                 (Handlers.addr_h (Some (Sketch.str "65537")) s)) = [].
Proof.
  intros s s1.
  destruct (config_set_query_round_trip 65537 s ltac:(lia) eq_refl)
    as (H & Ha).
  pose proof (Forall_inv H) as H1. unfold Handlers.round_trip in H1.
  cbn zeta in H1.
  change ((1 <=? 65537 mod 65536) && (65537 mod 65536 <=? 32000))
    with true in H1.
  destruct H1 as (H1 & _ & H3).
  cbn zeta in Ha.
  change ((1 <=? 65537 mod 65536) && (65537 mod 65536 <=? 30) && _)
    with true in Ha.
  destruct Ha as (_ & Ha & _).
  split; [exact H1|]. split; [exact (H3 1 eq_refl) | exact Ha].
Defined.

(** ** The shortest timeout *)

Module TimeoutFacts.
Import Bus Outcome.

#[local] Opaque Layouts.setGpibState Layouts.setGpibDbus
  Layouts.readyGpibDbus.

(** The loop test before the first pass: [currentMillis] starts one
    above [startMillis]. *)
Lemma first_test start timeval :
  timeval <= 1 -> (u32 (start + 1 - start) <? timeval) = false.
Proof.
  intros Ht. replace (start + 1 - start) with 1 by lia.
  apply Z.ltb_ge. change (u32 1) with 1. exact Ht.
Qed.

Lemma wloop_none fut db il timeval start stage w :
  timeval <= 1 ->
  wloop fut db il timeval start (start + 1) stage w = (stage, w).
Proof.
  intros Ht. destruct fut; cbn [wloop]; rewrite first_test by exact Ht;
    reflexivity.
Qed.

Lemma rloop_none fut rwe atn timeval start stage db e w :
  timeval <= 1 ->
  rloop fut rwe atn timeval start (start + 1) stage db e w
  = ((stage, db, e), w).
Proof.
  intros Ht. destruct fut; cbn [rloop]; rewrite first_test by exact Ht;
    reflexivity.
Qed.

Lemma writeByte_none db il w :
  rtmo (cfg w) <= 1 -> writeByte db il w = (4, w).
Proof.
  intros Ht. unfold writeByte. rewrite wloop_none by exact Ht. reflexivity.
Qed.

Lemma readByte_none db rwe w :
  rtmo (cfg w) <= 1 -> readByte db rwe w = ((4, db, false), w).
Proof.
  intros Ht. unfold readByte. rewrite rloop_none by exact Ht. reflexivity.
Qed.

(** With such a timeout nothing that [sendData] does reaches the bus. *)
Lemma quiet_write c db il :
  rtmo c <= 1 -> sends c (writeByte db il) (fun _ s => s = []).
Proof.
  intros Ht w Hc. rewrite writeByte_none by (rewrite Hc; exact Ht).
  split; [exact Hc|]. exists []. rewrite app_nil_r. auto.
Qed.

Lemma quiet_ret {A} c (a : A) : sends c (ret a) (fun _ s => s = []).
Proof.
  eapply SentFacts.sends_conseq; [apply SentFacts.sends_ret|].
  intros ? s (_ & ->). reflexivity.
Qed.

Lemma quiet_loop c data : forall err,
  rtmo c <= 1 -> sends c (sendData_loop data err) (fun _ s => s = []).
Proof.
  induction data as [|b data IH]; intros err Ht; [apply quiet_ret|].
  cbn [sendData_loop].
  apply (SentFacts.sends_read c eoi).
  apply SentFacts.sends_skip.
  - destruct (eoi c);
      [|destruct (negb (b =? CR) || negb (b =? LF) || negb (b =? ESC));
        [|apply quiet_ret]];
      (apply SentFacts.sends_skip;
       [apply quiet_write; exact Ht | intros ?; apply quiet_ret]).
  - intros e. destruct e; [apply quiet_ret | apply IH; exact Ht].
Qed.

Lemma quiet_sendData c data :
  rtmo c <= 1 -> sends c (sendData data) (fun _ s => s = []).
Proof.
  intros Ht. unfold sendData, isController.
  apply (SentFacts.sends_read c (fun c => cmode c =? 2)).
  apply SentFacts.sends_skip;
    [destruct (cmode c =? 2); apply SentFacts.sends_setControls|].
  intros ?.
  apply SentFacts.sends_skip; [apply quiet_loop; exact Ht|]. intros err.
  apply SentFacts.sends_skip.
  { destruct err; cbn [negb when]; [apply quiet_ret|].
    apply (SentFacts.sends_read c eos).
    apply SentFacts.sends_skip.
    - destruct (Z.land (eos c) 2 =? 0); cbn [when]; [|apply quiet_ret].
      apply SentFacts.sends_skip;
        [apply quiet_write; exact Ht | intros ?; apply quiet_ret].
    - intros ?.
      destruct (Z.land (eos c) 1 =? 0); cbn [when]; [|apply quiet_ret].
      apply SentFacts.sends_skip;
        [apply quiet_write; exact Ht | intros ?; apply quiet_ret]. }
  intros ?.
  apply (SentFacts.sends_read c eoi).
  apply SentFacts.sends_skip; [apply SentFacts.sends_pulse|]. intros ?.
  apply (SentFacts.sends_read c (fun c => cmode c =? 2)).
  destruct (cmode c =? 2); apply SentFacts.sends_setControls.
Qed.

End TimeoutFacts.

(** X19.  With a timeout of 1 ms, the least that [++read_tmo_ms]
    accepts (or 0), no handshake is ever tried: the wait loops of
    [writeByte] and [readByte] start with a difference of 1 ms already
    on the clock, so both return 4 at once and leave everything as it
    is, whatever the other side does; [sendCmd] reports an error after
    at most entering CCMS, and [sendData] puts no byte on the bus. *)
Theorem timeout_of_one_blocks (w : Bus.World) :
  Bus.rtmo (Bus.cfg w) <= 1 ->
  (forall db il, Bus.writeByte db il w = (4, w))
  /\ (forall db rwe, Bus.readByte db rwe w = ((4, db, false), w))
  /\ (forall b, fst (Bus.sendCmd b w) = true
                /\ Expect.puts (Bus.trace (snd (Bus.sendCmd b w)))
                   = Expect.puts (Bus.trace w))
  /\ (forall data,
        Expect.puts (Bus.trace (snd (Bus.sendData data w)))
        = Expect.puts (Bus.trace w)).
Proof.
  intros Ht. split; [|split; [|split]].
  - intros db il. apply TimeoutFacts.writeByte_none, Ht.
  - intros db rwe. apply TimeoutFacts.readByte_none, Ht.
  - intros b. unfold Bus.sendCmd, Bus.bind, Bus.get, Bus.when.
    destruct (negb (Bus.cstate w =? Bus.CCMS)).
    + pose proof (OutcomeFacts.setControls_run Bus.CCMS w) as (Hc & _ & Htr).
      destruct (Bus.setControls Bus.CCMS w) as [[] w1]. cbn [snd] in *.
      rewrite TimeoutFacts.writeByte_none by (rewrite Hc; exact Ht).
      unfold Bus.ret. cbn [fst snd]. split; [reflexivity|].
      rewrite Htr, AddressingFacts.puts_app. apply app_nil_r.
    + unfold Bus.ret. cbv beta iota zeta.
      rewrite TimeoutFacts.writeByte_none by exact Ht.
      cbn [fst snd]. split; reflexivity.
  - intros data.
    destruct (TimeoutFacts.quiet_sendData (Bus.cfg w) data Ht w eq_refl)
      as (_ & sent & Hs & ->).
    rewrite Hs. apply app_nil_r.
Qed.

(** After [++read_tmo_ms 1] a command byte is not sent, although the
    listener is ready. *)
Lemma timeout_of_one_blocks_witness :
  let s := Handlers.rtmo_h (Some (Sketch.dec 1))
             (Partner.sketch (Partner.config 2 false 0 0 0) Partner.ack) in
  fst (Bus.sendCmd Bus.GC_DCL (Sketch.bus s)) = true.
Proof.
  intros s.
  assert (Hr : Bus.rtmo (Bus.cfg (Sketch.bus s)) <= 1).
  { subst s. vm_compute. intros H. discriminate H. }
  destruct (timeout_of_one_blocks (Sketch.bus s) Hr) as (_ & _ & H & _).
  exact (proj1 (H Bus.GC_DCL)).
Defined.

(** ** Group trigger *)

Module TriggerFacts.
Import Bus Sketch Handlers Commands Partner.

#[local] Opaque Layouts.setGpibState Layouts.setGpibDbus
  Layouts.readyGpibDbus.

Ltac fields :=
  cbn [bus pBuf pbPtr isEsc isPlusEscaped isVerbose lnRdy dataBufferFull
       sendIdn isQuery readWithEoi readWithEndByte endByte autoRead].

(** Numbers typed in decimal whose 16-bit values are addresses in range
    are all accepted (up to 15 of them), as those values. *)
Lemma trg_params_ok nums : forall fuel acc val s,
  Forall (fun n => 0 <= n /\ 1 <= n mod 65536 <= 30) nums ->
  trg_params fuel (map Host.decimal nums) acc val s
  = (Some (acc ++ take fuel (map (fun n => n mod 65536) nums)), s).
Proof.
  induction nums as [|a nums IH]; intros fuel acc val s Ha.
  - destruct fuel; cbn; rewrite ?app_nil_r; reflexivity.
  - inversion Ha as [|? ? [H0 H1] H2]; subst.
    destruct fuel as [|fuel]; [cbn; rewrite app_nil_r; reflexivity|].
    cbn [map trg_params take].
    rewrite HandlerFacts.notInRange_decimal by lia.
    rewrite IH by exact H2. rewrite u8_small by lia.
    rewrite <- List.app_assoc. reflexivity.
Qed.

(** The trigger loop before listeners that accept every byte. *)
Lemma trg_loop_ack addrs : forall p c st da tb P rest tr h buf ptr esc ple v
    ln full sidn q re rb eb ar,
  1 < rtmo c -> calm P ->
  exists p' st' P',
    calm P'
    /\ (st' = if (0 <? length addrs)%nat then CCMS else st)
    /\ trg_loop addrs
         (mkState (mkWorld p c st da tb P
                     (acks (5 * length addrs) ++ rest) tr h)
                  buf ptr esc ple v ln full sidn q re rb eb ar)
       = (false,
          mkState (mkWorld p' c st'
                     (if (0 <? length addrs)%nat then false else da)
                     tb P' rest (tr ++ Triggers.events st addrs) h)
                  buf ptr esc ple v ln full sidn q re rb eb ar).
Proof.
  induction addrs as [|a addrs IH];
    intros p c st da tb P rest tr h buf ptr esc ple v ln full sidn q re rb eb
      ar Hr HP.
  - exists p, st, P. cbn. rewrite app_nil_r. auto.
  - cbn [trg_loop length].
    replace (5 * S (length addrs))%nat with (5 + 5 * length addrs)%nat by lia.
    rewrite SendFacts.acks_app, <- List.app_assoc.
    unfold on_bus. fields.
    destruct (EngineFacts.addressed_ack a GC_GET p c st da tb P
                (acks (5 * length addrs) ++ rest) tr h Hr HP) as [p1 E1].
    change (sendGET a) with
      (e1 <- addressDevice a LISTEN ;;
       if e1 then ret true else
       e2 <- sendCmd GC_GET ;;
       if e2 then ret true else unAddressDevice).
    rewrite E1. cbn [snd fst]. unfold set_bus. fields.
    destruct (IH p1 c CCMS false tb accepted rest
                (tr ++ Sequence.addressed st a GC_GET) h buf ptr esc ple v
                ln full sidn q re rb eb ar Hr BusFacts.calm_accepted)
      as (p2 & st2 & P2 & HP2 & Hst & E2).
    rewrite E2. exists p2, CCMS, P2. split; [exact HP2|].
    split; [reflexivity|].
    cbn [Triggers.events]. rewrite <- List.app_assoc.
    subst st2. destruct (0 <? length addrs)%nat; reflexivity.
Qed.

Lemma puts_events addrs : forall st,
  Expect.puts (Triggers.events st addrs) = Triggers.bytes addrs.
Proof.
  induction addrs as [|a addrs IH]; intros st; [reflexivity|].
  cbn [Triggers.events Triggers.bytes flat_map].
  rewrite AddressingFacts.puts_app, EngineFacts.puts_addressed, IH.
  reflexivity.
Qed.

End TriggerFacts.

Module TriggerCheckFacts.
Import Bus Sketch Handlers Commands.

(** Printing does not reach the bus. *)
Lemma print_quiet bs s :
  trace (bus (dataPort_print bs s)) = trace (bus s)
  /\ cstate (bus (dataPort_print bs s)) = cstate (bus s).
Proof. destruct s as [[] ?]. split; reflexivity. Qed.

Lemma notInRange_quiet p lo hi v0 s :
  let s' := snd (notInRange p lo hi v0 s) in
  trace (bus s') = trace (bus s) /\ cstate (bus s') = cstate (bus s).
Proof.
  cbn zeta. unfold notInRange.
  destruct (length p =? 0)%nat; [split; reflexivity|].
  destruct ((atoi p mod 65536 <? lo) || (hi <? atoi p mod 65536));
    [|split; reflexivity].
  cbn [snd]. unfold errBadCmd.
  destruct (isVerbose _);
    rewrite ?(proj1 (print_quiet _ _)), ?(proj2 (print_quiet _ _));
    split; reflexivity.
Qed.

Lemma notInRange_refused t v0 s :
  ~ (1 <= atoi t mod 65536 <= 30) ->
  fst (fst (notInRange t 1 30 v0 s)) = true.
Proof.
  intros Hr. destruct (HandlerFacts.notInRange_cases t 1 30 v0 s)
    as [(v & s' & -> & _)|(_ & H)]; [reflexivity|contradiction].
Qed.

(** One refused token among those read makes the handler return from
    the parameter loop. *)
Lemma trg_params_refused toks : forall fuel acc val s i t,
  (i < fuel)%nat -> toks !! i = Some t ->
  ~ (1 <= atoi t mod 65536 <= 30) ->
  let r := trg_params fuel toks acc val s in
  fst r = None
  /\ trace (bus (snd r)) = trace (bus s)
  /\ cstate (bus (snd r)) = cstate (bus s).
Proof.
  induction toks as [|t0 toks IH]; intros fuel acc val s i t Hi Ht Hr;
    [discriminate|].
  destruct fuel as [|fuel]; [lia|]. cbn [trg_params].
  pose proof (notInRange_quiet t0 1 30 val s) as Hq. cbn zeta in Hq.
  destruct i as [|i].
  - cbn in Ht. injection Ht as ->.
    pose proof (notInRange_refused t val s Hr) as Hb.
    destruct (notInRange t 1 30 val s) as [[bad v] s1].
    cbn [fst snd] in *. subst bad. cbn [fst snd]. split; [reflexivity|exact Hq].
  - cbn in Ht.
    destruct (notInRange t0 1 30 val s) as [[bad v] s1]. cbn [fst snd] in *.
    destruct bad; [cbn [fst snd]; split; [reflexivity|exact Hq]|].
    destruct (IH fuel (acc ++ [u8 v]) v s1 i t ltac:(lia) Ht Hr)
      as (H1 & H2 & H3).
    cbn zeta. split; [exact H1|]. destruct Hq as [Hq1 Hq2].
    split; congruence.
Qed.

End TriggerCheckFacts.

(** X20.  [++trg] with a list of addresses.  [notInRange] reads every
    token into a [uint16_t], so a number [n] counts as [n mod 65536]
    (65543 is address 7).  When the parameter splits into the decimal
    numbers [nums], all with 16-bit values within 1..30, the first 15 of
    these values are triggered in order: for each one UNL, its listen
    address, GET, UNL and UNT are put on the bus, and the engine ends in
    CIDS (listeners accept every byte, not verbose).  The validation is
    all or nothing: one token among the first 15 whose 16-bit value is
    not within 1..30 and nothing at all is sent, whatever the other
    tokens are. *)
Theorem group_trigger (params : list Z) (p : Layouts.Ports) (c : Bus.Config)
    (st : Z) (da tb : bool) (P : Bus.Snap) (rest : list Bus.Snap)
    (tr : list Bus.Event) (h : list Z) (buf : list Z) (ptr : Z)
    (esc ple : bool) (ln : Z) (full sidn q re rb : bool) (eb : Z)
    (ar : bool) :
  (forall nums, Sketch.strtok_all params [] = map Host.decimal nums ->
     Forall (fun n => 0 <= n /\ 1 <= n mod 65536 <= 30) nums ->
     nums <> [] ->
     1 < Bus.rtmo c -> Partner.calm P ->
     let hit := take 15 (map (fun n => n mod 65536) nums) in
     let s := Sketch.mkState
                (Bus.mkWorld p c st da tb P
                   (Partner.acks (5 * length hit) ++ rest) tr h)
                buf ptr esc ple false ln full sidn q re rb eb ar in
     let w' := Sketch.bus (Commands.trg_h (Some params) s) in
     Bus.trace w' = tr ++ Triggers.events st hit ++ [Bus.Controls Bus.CIDS]
     /\ Expect.puts (Bus.trace w') = Expect.puts tr ++ Triggers.bytes hit
     /\ Bus.cstate w' = Bus.CIDS /\ Bus.future w' = rest)
  /\ (forall f v i t, (i < 15)%nat ->
        Sketch.strtok_all params [] !! i = Some t ->
        ~ (1 <= Sketch.atoi t mod 65536 <= 30) ->
        let s := Sketch.mkState (Bus.mkWorld p c st da tb P f tr h)
                   buf ptr esc ple v ln full sidn q re rb eb ar in
        let w' := Sketch.bus (Commands.trg_h (Some params) s) in
        Bus.trace w' = tr /\ Bus.cstate w' = st).
Proof.
  split.
  - intros nums Htok Ha Hne Hr HP hit s w'. subst w' s.
    unfold Commands.trg_h. rewrite Htok.
    rewrite TriggerFacts.trg_params_ok by exact Ha. cbn [app].
    fold hit.
    assert (Hlen : (0 <? length hit)%nat = true).
    { subst hit. destruct nums; [contradiction|]. reflexivity. }
    rewrite Hlen.
    destruct (TriggerFacts.trg_loop_ack hit p c st da tb P rest tr h buf ptr
                esc ple false ln full sidn q re rb eb ar Hr HP)
      as (p' & st' & P' & HP' & Hst & E).
    rewrite E, Hlen. unfold Handlers.verbose, Sketch.on_bus.
    cbn [Sketch.bus Sketch.isVerbose].
    destruct (OutcomeFacts.setControls_run Bus.CIDS
                (Bus.mkWorld p' c st' false tb P' rest
                   (tr ++ Triggers.events st hit) h)) as (Hc & Hs & Ht).
    pose proof (FrameFacts.setControls_env Bus.CIDS
                  (Bus.mkWorld p' c st' false tb P' rest
                     (tr ++ Triggers.events st hit) h)) as He.
    destruct (Bus.setControls Bus.CIDS _) as [[] w1].
    cbn [snd fst Sketch.bus Sketch.isVerbose Sketch.set_bus] in *.
    unfold Sketch.set_bus. cbn [Sketch.bus Sketch.isVerbose].
    rewrite Ht, Hs. cbn [Bus.trace].
    split; [rewrite <- List.app_assoc; reflexivity|].
    split; [|split; [reflexivity|]].
    + rewrite !AddressingFacts.puts_app, TriggerFacts.puts_events.
      cbn [Expect.puts]. rewrite app_nil_r. reflexivity.
    + apply He.
  - intros f v i t Hi Ht Hr s w'. subst w' s.
    unfold Commands.trg_h.
    pose proof (TriggerCheckFacts.trg_params_refused
                  (Sketch.strtok_all params []) 15 [] 0
                  (Sketch.mkState (Bus.mkWorld p c st da tb P f tr h)
                     buf ptr esc ple v ln full sidn q re rb eb ar)
                  i t Hi Ht Hr) as (H1 & H2 & H3).
    cbn zeta in H1, H2, H3.
    destruct (Commands.trg_params _ _ _ _ _) as [args s1].
    cbn [fst snd] in *. subst args. split; assumption.
Qed.

(** [++trg 3 65543]: the second token counts as address 7; ten command
    bytes. *)
Lemma group_trigger_witness :
  Expect.puts (Bus.trace (Sketch.bus
    (Commands.trg_h (Some (Sketch.str "3 65543"))
       (Partner.sketch (Partner.config 2 false 0 0 0) (Partner.acks 10)))))
  = [63; 35; 8; 63; 95; 63; 39; 8; 63; 95].
Proof.
  destruct (group_trigger (Sketch.str "3 65543") Partner.ports0
              (Partner.config 2 false 0 0 0) 0 false false Partner.idle []
              [] [] (replicate 256 0) 0 false false 0 false false false
              false false 0 false) as (H & _).
  assert (Ha : Forall (fun n => 0 <= n /\ 1 <= n mod 65536 <= 30)
                 [3; 65543]).
  { apply Forall_cons_2; [change (3 mod 65536) with 3; lia|].
    apply Forall_cons_2; [change (65543 mod 65536) with 7; lia|].
    apply Forall_nil_2. }
  destruct (H [3; 65543] eq_refl Ha
              ltac:(discriminate) ltac:(cbn; lia) BusFacts.calm_idle)
    as (_ & Hp & _).
  exact Hp.
Defined.

(** ** Reading a command burst *)

Module BurstFacts.
Import Bus Sketch Partner Expect Handshake.

#[local] Opaque Layouts.setGpibState Layouts.setGpibDbus
  Layouts.readyGpibDbus.

(** The controller releases ATN: the read that was waiting for the next
    command byte is given up. *)
Lemma readByte_released p c st da tb P Q rest tr h db :
  cmode c = 1 -> 1 < rtmo c -> attentive P -> calm Q ->
  exists p',
    readByte db false (mkWorld p c st da tb P (Q :: rest) tr h)
    = ((2, db, false), mkWorld p' c st da tb Q rest tr h).
Proof.
  intros Hm Hr (Hms & Hdav & Hatn & Hifc) (Qms & _ & _ & Qatn & Qifc).
  assert (H1 : (1 <? rtmo c) = true) by (apply Z.ltb_lt; lia).
  assert (H0 : (0 <? rtmo c) = true) by (apply Z.ltb_lt; lia).
  unfold readByte. cbn [pins future cfg]. rewrite Hms, Hatn.
  cbn [negb rloop]. change (u32 (0 + 1 - 0)) with 1. rewrite H1.
  rewrite AttnFacts.rpass_wait_atn by assumption.
  rewrite Qms.
  assert (Hab : forall w, pins w = Q -> cfg w = c ->
            rpass false true 6 db false w = ((2, true, db, false), w)).
  { intros w Hw Hc. unfold rpass. rewrite Hw, Hc, Hm, Qifc, Qatn.
    reflexivity. }
  destruct rest; cbn [rloop]; change (u32 (0 - 0)) with 0; rewrite H0;
    rewrite Hab by reflexivity; cbn; eexists; reflexivity.
Qed.

(** The loop of [attnRequired] on a burst of command bytes that ends
    with ATN released. *)
Lemma attn_loop_reads : forall bs fuel db B p c st da tb P Q rest tr h,
  cmode c = 1 -> 1 < rtmo c -> attentive P -> calm Q ->
  Forall (fun b => 0 <= b < 256) bs ->
  0 <= bytecnt B -> bytecnt B + Z.of_nat (length bs) < cmdbuflen ->
  (length bs < fuel)%nat ->
  exists p',
    attn_loop fuel db B
      (mkWorld p c st da tb P (commands bs ++ Q :: rest) tr h)
    = (Bursts.after bs B,
       mkWorld p' c st da tb Q rest (tr ++ Bursts.gots bs) h).
Proof.
  induction bs as [|b bs IH];
    intros fuel db B p c st da tb P Q rest tr h Hm Hr HP HQ Hs H0 Hn Hf.
  - destruct fuel as [|fuel]; [cbn in Hf; lia|].
    cbn [length Z.of_nat commands app attn_loop pins Bursts.after Bursts.gots
         map] in *.
    rewrite app_nil_r.
    pose proof HP as (Hms & Hdav & Hatn & Hifc). rewrite Hatn.
    cbn [negb andb].
    replace (bytecnt B <? cmdbuflen) with true
      by (symmetry; apply Z.ltb_lt; unfold cmdbuflen in *; lia).
    destruct (readByte_released p c st da tb P Q rest tr h db Hm Hr HP HQ)
      as [p' ->].
    cbn [Z.ltb Z.compare]. eexists. reflexivity.
  - destruct fuel as [|fuel]; [cbn in Hf; lia|].
    apply Forall_cons in Hs. destruct Hs as [Hb Hs].
    cbn [length] in Hn, Hf.
    cbn [commands app attn_loop pins Bursts.after Bursts.gots map].
    pose proof HP as (Hms & Hdav & Hatn & Hifc). rewrite Hatn.
    cbn [negb andb].
    replace (bytecnt B <? cmdbuflen) with true
      by (symmetry; apply Z.ltb_lt; lia).
    destruct (AttnFacts.readByte_command p c st da tb P
                (commands bs ++ Q :: rest) tr h db b Hr HP Hb) as [p' ->].
    cbn [Z.ltb Z.compare].
    assert (Hu : u8 (bytecnt B + 1) = bytecnt B + 1)
      by (apply u8_small; unfold cmdbuflen in Hn; lia).
    destruct (b =? 63);
      [|destruct (b =? 95)];
      match goal with
      | |- context [attn_loop fuel b ?B' _] =>
          assert (G1 : 0 <= bytecnt B') by (cbn [bytecnt]; lia);
          assert (G2 : bytecnt B' + Z.of_nat (length bs) < cmdbuflen)
            by (cbn [bytecnt]; lia);
          destruct (IH fuel b B' p' c st da tb idle_atn Q rest
                      (tr ++ [Got b false]) h Hm Hr
                      AttnFacts.attentive_idle_atn HQ Hs G1 G2 ltac:(lia))
            as (p2 & ->)
      end;
      rewrite <- List.app_assoc; eexists; reflexivity.
Qed.

End BurstFacts.

(** ** Decoding a command burst *)

Module DeviceFacts.
Import Bus Sketch Device Partner Expect.

#[local] Opaque Layouts.setGpibState Layouts.setGpibDbus
  Layouts.readyGpibDbus.

Ltac fields :=
  cbn [bus pBuf pbPtr isEsc isPlusEscaped isVerbose lnRdy dataBufferFull
       sendIdn isQuery readWithEoi readWithEndByte endByte autoRead].

(** [setControls] on the sketch's bus object. *)
Lemma on_setControls stt p c st da tb P f tr h buf ptr esc ple v ln full
    sidn q re rb eb ar :
  exists p',
    snd (on_bus (setControls stt)
           (mkState (mkWorld p c st da tb P f tr h)
                    buf ptr esc ple v ln full sidn q re rb eb ar))
    = mkState (mkWorld p' c stt da tb P f (tr ++ [Controls stt]) h)
              buf ptr esc ple v ln full sidn q re rb eb ar.
Proof.
  unfold on_bus. fields.
  destruct (CommandFacts.setControls_eq stt p c st da tb P f tr h) as [p' ->].
  exists p'. reflexivity.
Qed.

(** The stored bytes of a burst, as the scan reads them. *)
Lemma after_kept bs : forall B,
  0 <= bytecnt B ->
  (Z.to_nat (bytecnt B) + length (Bursts.kept bs) <= length (cmdbytes B))%nat ->
  bytecnt B + Z.of_nat (length (Bursts.kept bs)) < 256 ->
  let B' := Bursts.after bs B in
  bytecnt B' = bytecnt B + Z.of_nat (length (Bursts.kept bs))
  /\ take (Z.to_nat (bytecnt B')) (cmdbytes B')
     = take (Z.to_nat (bytecnt B)) (cmdbytes B) ++ Bursts.kept bs.
Proof.
  induction bs as [|b bs IH]; intros B H0 Hl Hu.
  - cbn. rewrite Z.add_0_r, app_nil_r. split; reflexivity.
  - cbn [Bursts.after]. unfold Bursts.kept in *. cbn [List.filter] in *.
    destruct (b =? 63); cbn [orb negb] in *.
    { apply (IH (mkBurst _ _ _ _)); assumption. }
    destruct (b =? 95); cbn [orb negb] in *.
    { apply (IH (mkBurst _ _ _ _)); assumption. }
    cbn [length] in Hl, Hu.
    assert (Hs : u8 (bytecnt B + 1) = bytecnt B + 1)
      by (apply u8_small; lia).
    cbn zeta.
    destruct (IH (mkBurst (<[Z.to_nat (bytecnt B) := b]> (cmdbytes B))
                    (u8 (bytecnt B + 1)) (ustat B)
                    (stores B ++ [bytecnt B]))) as (E1 & E2);
      cbn [bytecnt cmdbytes]; rewrite ?Hs, ?length_insert; try lia.
    cbn [bytecnt cmdbytes] in E1, E2. rewrite Hs in E1, E2.
    split; [rewrite E1; cbn [length]; lia|].
    rewrite E2.
    replace (Z.to_nat (bytecnt B + 1)) with (S (Z.to_nat (bytecnt B)))
      by lia.
    assert (Hlen : (Z.to_nat (bytecnt B) < length (cmdbytes B))%nat) by lia.
    rewrite (take_S_r _ _ _ (list_lookup_insert_eq (cmdbytes B) _ b Hlen)).
    rewrite take_insert_ge by lia.
    rewrite <- List.app_assoc. reflexivity.
Qed.

(** The scan of a burst that does not address the device changes
    nothing. *)
Lemma scan_foreign bytes : forall a g s,
  Forall (Bursts.foreign (paddr (cfg (bus s)))) bytes ->
  exists g', attn_scan bytes a g s = (a, g', s).
Proof.
  induction bytes as [|b bytes IH]; intros a g s Hf.
  - exists g. reflexivity.
  - apply Forall_cons in Hf. destruct Hf as [(H1 & H2) Hf].
    cbn [attn_scan]. destruct (b =? 0); [exists g; reflexivity|].
    destruct (Z.eqb_spec (paddr (cfg (bus s))) (Z.lxor b 32));
      [congruence|].
    destruct (Z.eqb_spec (paddr (cfg (bus s))) (Z.lxor b 64));
      [congruence|].
    destruct (b <? 32); apply IH; exact Hf.
Qed.

End DeviceFacts.

(** X21.  Commands meant for others.  In device role (not promiscuous),
    a burst of up to 34 command bytes under ATN of which at most five are
    stored and none is the listen or the talk address of this device,
    whatever else it holds (universal commands, other addresses, UNL,
    UNT), makes [attnRequired] do nothing but return to DINI: no byte is
    put on the bus, nothing is printed, the configuration, the parse
    buffer and the line state stay as they are. *)
Theorem foreign_burst_ignored (bs : list Z) (m : Device.Modes)
    (p : Layouts.Ports) (c : Bus.Config) (st : Z) (da tb : bool)
    (P Q : Bus.Snap) (rest : list Bus.Snap) (tr : list Bus.Event)
    (h : list Z) (buf : list Z) (ptr : Z) (esc ple v : bool) (ln : Z)
    (full sidn q re rb : bool) (eb : Z) (ar : bool) :
  Bus.cmode c = 1 -> 1 < Bus.rtmo c -> Device.isProm m = false ->
  Expect.attentive P -> Partner.calm Q ->
  Forall (fun b => 0 <= b < 256) bs -> (length bs < 35)%nat ->
  (length (Bursts.kept bs) <= 5)%nat ->
  Forall (Bursts.foreign (Bus.paddr c)) bs ->
  let s := Sketch.mkState
             (Bus.mkWorld p c st da tb P (Partner.commands bs ++ Q :: rest)
                tr h)
             buf ptr esc ple v ln full sidn q re rb eb ar in
  exists s',
    Device.attnRequired m s = Some s'
    /\ Bus.cstate (Sketch.bus s') = Bus.DINI
    /\ Expect.puts (Bus.trace (Sketch.bus s')) = Expect.puts tr
    /\ Bus.host (Sketch.bus s') = h
    /\ Bus.cfg (Sketch.bus s') = c
    /\ Bus.future (Sketch.bus s') = rest
    /\ Sketch.pBuf s' = buf /\ Sketch.pbPtr s' = ptr
    /\ Sketch.lnRdy s' = ln.
Proof.
  intros Hm Hr Hprom HP HQ Hb Hlen Hk Hf s. subst s.
  unfold Device.attnRequired, Sketch.attnRequired_read.
  cbn [Sketch.bus].
  destruct (CommandFacts.setControls_eq Bus.DLAS p c st da tb P
              (Partner.commands bs ++ Q :: rest) tr h) as [p1 ->].
  cbn [Bus.future].
  destruct (BurstFacts.attn_loop_reads bs
              (S (length (Partner.commands bs ++ Q :: rest))) 0
              (Sketch.mkBurst (replicate (Z.to_nat Sketch.cmdbytes_len) 0)
                 0 0 [])
              p1 c Bus.DLAS da tb P Q rest (tr ++ [Bus.Controls Bus.DLAS]) h
              Hm Hr HP HQ Hb) as [p2 ->].
  { cbn. lia. }
  { cbn [Sketch.bytecnt]. unfold Sketch.cmdbuflen. lia. }
  { rewrite length_app, AttnFacts.length_commands. cbn [length]. lia. }
  rewrite Hprom. unfold Sketch.set_bus. cbn [Sketch.bus Sketch.pBuf
    Sketch.pbPtr Sketch.isEsc Sketch.isPlusEscaped Sketch.isVerbose
    Sketch.lnRdy Sketch.dataBufferFull Sketch.sendIdn Sketch.isQuery
    Sketch.readWithEoi Sketch.readWithEndByte Sketch.endByte
    Sketch.autoRead].
  set (B := Bursts.after bs _).
  set (tr1 := (tr ++ [Bus.Controls Bus.DLAS]) ++ Bursts.gots bs).
  assert (Hp1 : Expect.puts tr1 = Expect.puts tr).
  { subst tr1. rewrite !AddressingFacts.puts_app.
    assert (Hg : Expect.puts (Bursts.gots bs) = []).
    { clear. induction bs; [reflexivity|exact IHbs]. }
    rewrite Hg. cbn. rewrite !app_nil_r. reflexivity. }
  (* the bytes the scan sees *)
  destruct (DeviceFacts.after_kept bs
              (Sketch.mkBurst (replicate (Z.to_nat Sketch.cmdbytes_len) 0)
                 0 0 [])) as (Ecnt & Etake).
  { cbn. lia. }
  { cbn [Sketch.bytecnt Sketch.cmdbytes]. rewrite length_replicate.
    unfold Sketch.cmdbytes_len. lia. }
  { cbn [Sketch.bytecnt]. lia. }
  cbn zeta in Ecnt, Etake. fold B in Ecnt, Etake.
  cbn [Sketch.bytecnt Sketch.cmdbytes] in Ecnt, Etake.
  change (Z.to_nat 0) with 0%nat in Etake. rewrite take_0 in Etake.
  cbn [app] in Etake.
  assert (Hfk : Forall (Bursts.foreign (Bus.paddr c)) (Bursts.kept bs)).
  { clear -Hf. unfold Bursts.kept.
    induction Hf as [|b bs Hb Hf IH]; [constructor|].
    cbn [List.filter]. destruct (negb _); [constructor; assumption|exact IH]. }
  (* what is left to show once the two un-address handlers have run *)
  assert (Hend : forall p3 st3 tr3 re3,
            Expect.puts tr3 = Expect.puts tr ->
            exists s',
              (let '(addressed, gpibcmd, s0) :=
                 if 0 <? Sketch.bytecnt B
                 then Device.attn_scan
                        (take (Z.to_nat (Sketch.bytecnt B))
                              (Sketch.cmdbytes B)) false 0
                        (Sketch.mkState
                           (Bus.mkWorld p3 c st3 da tb Q rest tr3 h)
                           buf ptr esc ple v ln full sidn q re3 rb eb ar)
                 else (false, 0,
                       Sketch.mkState
                         (Bus.mkWorld p3 c st3 da tb Q rest tr3 h)
                         buf ptr esc ple v ln full sidn q re3 rb eb ar) in
               if negb addressed
               then Some (snd (Sketch.on_bus (Bus.setControls Bus.DINI) s0))
               else if nz gpibcmd then Device.execGpibCmd gpibcmd s0
               else if Bus.cstate (Sketch.bus s0) =? Bus.DLAS
               then Some (snd (Sketch.on_bus (Bus.setControls Bus.DIDS)
                                 (Device.device_listen_h s0)))
               else if Bus.cstate (Sketch.bus s0) =? Bus.DTAS
               then Some (snd (Sketch.on_bus (Bus.setControls Bus.DIDS)
                                 (Device.device_talk_h s0)))
               else Some s0) = Some s'
              /\ Bus.cstate (Sketch.bus s') = Bus.DINI
              /\ Expect.puts (Bus.trace (Sketch.bus s')) = Expect.puts tr
              /\ Bus.host (Sketch.bus s') = h
              /\ Bus.cfg (Sketch.bus s') = c
              /\ Bus.future (Sketch.bus s') = rest
              /\ Sketch.pBuf s' = buf /\ Sketch.pbPtr s' = ptr
              /\ Sketch.lnRdy s' = ln).
  { intros p3 st3 tr3 re3 Hp3.
    assert (Hscan : exists g,
              (if 0 <? Sketch.bytecnt B
               then Device.attn_scan
                      (take (Z.to_nat (Sketch.bytecnt B))
                            (Sketch.cmdbytes B)) false 0
                      (Sketch.mkState
                         (Bus.mkWorld p3 c st3 da tb Q rest tr3 h)
                         buf ptr esc ple v ln full sidn q re3 rb eb ar)
               else (false, 0,
                     Sketch.mkState
                       (Bus.mkWorld p3 c st3 da tb Q rest tr3 h)
                       buf ptr esc ple v ln full sidn q re3 rb eb ar))
              = (false, g,
                 Sketch.mkState
                   (Bus.mkWorld p3 c st3 da tb Q rest tr3 h)
                   buf ptr esc ple v ln full sidn q re3 rb eb ar)).
    { destruct (0 <? Sketch.bytecnt B); [|exists 0; reflexivity].
      rewrite Etake. apply DeviceFacts.scan_foreign. exact Hfk. }
    destruct Hscan as [g ->]. cbn [negb].
    destruct (DeviceFacts.on_setControls Bus.DINI p3 c st3 da tb Q rest tr3 h
                buf ptr esc ple v ln full sidn q re3 rb eb ar) as [p4 ->].
    eexists. split; [reflexivity|].
    cbn. rewrite AddressingFacts.puts_app, Hp3. cbn. rewrite app_nil_r.
    repeat split; reflexivity. }
  destruct (nz (Z.land (Sketch.ustat B) 1)).
  - unfold Device.device_unl_h, Sketch.set_read.
    cbn [Sketch.bus Sketch.pBuf Sketch.pbPtr Sketch.isEsc
         Sketch.isPlusEscaped Sketch.isVerbose Sketch.lnRdy
         Sketch.dataBufferFull Sketch.sendIdn Sketch.isQuery
         Sketch.readWithEoi Sketch.readWithEndByte Sketch.endByte
         Sketch.autoRead Bus.cstate].
    change (Bus.DLAS =? Bus.DLAS) with true. cbn iota.
    destruct (DeviceFacts.on_setControls Bus.DIDS p2 c Bus.DLAS da tb Q rest
                tr1 h buf ptr esc ple v ln full sidn q false rb eb ar)
      as [p3 ->].
    destruct (nz (Z.land (Sketch.ustat B) 1)).
    + unfold Device.device_unt_h. cbn [Sketch.bus Bus.cstate].
      change (Bus.DIDS =? Bus.DTAS) with false. cbn iota.
      apply Hend. rewrite AddressingFacts.puts_app, Hp1. apply app_nil_r.
    + apply Hend. rewrite AddressingFacts.puts_app, Hp1. apply app_nil_r.
  - destruct (nz (Z.land (Sketch.ustat B) 1)).
    + unfold Device.device_unt_h. cbn [Sketch.bus Bus.cstate].
      change (Bus.DLAS =? Bus.DTAS) with false. cbn iota.
      apply Hend. exact Hp1.
    + apply Hend. exact Hp1.
Qed.

(** A device (address 1) sees the universal command DCL sent to no one:
    it returns to DINI. *)
Lemma foreign_burst_ignored_witness :
  let s := Sketch.mkState
             (Partner.attended (Partner.config 1 false 0 0 0)
                (Partner.commands [20] ++ [Partner.idle]))
             (replicate 256 0) 0 false false false 0 false false false false
             false 0 false in
  exists s',
    Device.attnRequired (Device.mkModes false 0 false) s = Some s'
    /\ Bus.cstate (Sketch.bus s') = Bus.DINI
    /\ Expect.puts (Bus.trace (Sketch.bus s')) = [].
Proof.
  intros s.
  assert (Hb : Forall (fun b => 0 <= b < 256) [20])
    by (apply Forall_cons_2; [lia | apply Forall_nil_2]).
  assert (Hf : Forall (Bursts.foreign 1) [20])
    by (apply Forall_cons_2;
        [split; intros H; vm_compute in H; discriminate H
        | apply Forall_nil_2]).
  destruct (foreign_burst_ignored [20] (Device.mkModes false 0 false)
              Partner.ports0 (Partner.config 1 false 0 0 0) Bus.DIDS false
              false Partner.idle_atn Partner.idle [] [] []
              (replicate 256 0) 0 false false false 0 false false false
              false false 0 false
              eq_refl ltac:(cbn; lia) eq_refl AttnFacts.attentive_idle_atn
              BusFacts.calm_idle Hb ltac:(cbn; lia) ltac:(cbn; lia) Hf)
    as (s' & E & Hs & Hp & _).
  exists s'. split; [exact E|]. split; [exact Hs | exact Hp].
Defined.

Module PollFacts.
Import Bus Sketch Device Partner Expect.

(** The address bytes and the two address tests of the scan. *)
Lemma lxor_listen a : 0 <= a < 32 ->
  Z.lxor (32 + a) 32 = a /\ Z.lxor (32 + a) 64 = 96 + a.
Proof.
  intros Ha. destruct a as [|a|a]; try lia; [split; reflexivity|].
  do 5 (destruct a as [a|a|]; try lia; try (split; reflexivity)).
Qed.

Lemma lxor_talk a : 0 <= a < 32 ->
  Z.lxor (64 + a) 64 = a /\ Z.lxor (64 + a) 32 = 96 + a.
Proof.
  intros Ha. destruct a as [|a|a]; try lia; [split; reflexivity|].
  do 5 (destruct a as [a|a|]; try lia; try (split; reflexivity)).
Qed.

(** The burst of a serial poll, as [attnRequired] records it. *)
Lemma poll_burst ca pa :
  0 <= ca <= 30 -> 1 <= pa <= 30 ->
  Bursts.after [GC_UNL; 32 + ca; GC_SPE; 64 + pa] Bursts.empty
  = mkBurst [32 + ca; GC_SPE; 64 + pa; 0; 0] 3 1 [0; 1; 2].
Proof.
  intros Hc Hp. unfold Bursts.empty. cbn [Bursts.after].
  change (GC_UNL =? 63) with true. cbn iota.
  cbn [cmdbytes bytecnt ustat stores].
  replace (32 + ca =? 63) with false by (symmetry; apply Z.eqb_neq; lia).
  replace (32 + ca =? 95) with false by (symmetry; apply Z.eqb_neq; lia).
  cbn [cmdbytes bytecnt ustat stores].
  change (GC_SPE =? 63) with false. change (GC_SPE =? 95) with false.
  cbn [cmdbytes bytecnt ustat stores].
  replace (64 + pa =? 63) with false by (symmetry; apply Z.eqb_neq; lia).
  replace (64 + pa =? 95) with false by (symmetry; apply Z.eqb_neq; lia).
  cbn [cmdbytes bytecnt ustat stores]. reflexivity.
Qed.

(** The scan of it: SPE is noted and the device is addressed to talk. *)
Lemma poll_scan ca p c st da tb P f tr h buf ptr esc ple v ln full sidn q re
    rb eb ar :
  0 <= ca <= 30 -> 1 <= paddr c <= 30 -> ca <> paddr c ->
  exists p',
    attn_scan [32 + ca; GC_SPE; 64 + paddr c] false 0
      (mkState (mkWorld p c st da tb P f tr h)
               buf ptr esc ple v ln full sidn q re rb eb ar)
    = (true, GC_SPE,
       mkState (mkWorld p' c DTAS da tb P f (tr ++ [Controls DTAS]) h)
               buf ptr esc ple v ln full sidn q re rb eb ar).
Proof.
  intros Hc Hp Hne. cbn [attn_scan bus cfg].
  destruct (lxor_listen ca ltac:(lia)) as (-> & ->).
  destruct (lxor_talk (paddr c) ltac:(lia)) as (-> & ->).
  replace (32 + ca =? 0) with false by (symmetry; apply Z.eqb_neq; lia).
  replace (paddr c =? ca) with false by (symmetry; apply Z.eqb_neq; lia).
  replace (paddr c =? 96 + ca) with false
    by (symmetry; apply Z.eqb_neq; lia).
  replace (32 + ca <? 32) with false by (symmetry; apply Z.ltb_ge; lia).
  change (GC_SPE =? 0) with false. cbn iota.
  change (Z.lxor GC_SPE 32) with 56. change (Z.lxor GC_SPE 64) with 88.
  replace (paddr c =? 56) with false by (symmetry; apply Z.eqb_neq; lia).
  replace (paddr c =? 88) with false by (symmetry; apply Z.eqb_neq; lia).
  change (GC_SPE <? 32) with true. cbn iota.
  replace (64 + paddr c =? 0) with false
    by (symmetry; apply Z.eqb_neq; lia).
  replace (paddr c =? 96 + paddr c) with false
    by (symmetry; apply Z.eqb_neq; lia).
  rewrite Z.eqb_refl.
  destruct (DeviceFacts.on_setControls DTAS p c st da tb P f tr h
              buf ptr esc ple v ln full sidn q re rb eb ar) as [p' ->].
  exists p'. reflexivity.
Qed.

End PollFacts.

(** X22.  A device answers the serial poll of a controller.  The
    controller at address [ca] sends, in one burst under ATN, UNL, its own
    listen address, SPE and the talk address of the device, releases ATN
    and accepts one byte.  [attnRequired] then puts exactly the status
    byte on the bus, clears bit 6 of the stored status byte, releases SRQ
    and ends in DIDS; nothing is printed. *)
Theorem device_answers_serial_poll (ca : Z) (m : Device.Modes)
    (p : Layouts.Ports) (c : Bus.Config) (st : Z) (da tb : bool)
    (P Q : Bus.Snap) (rest : list Bus.Snap) (tr : list Bus.Event)
    (h : list Z) (buf : list Z) (ptr : Z) (esc ple v : bool) (ln : Z)
    (full sidn q re rb : bool) (eb : Z) (ar : bool) :
  Bus.cmode c = 1 -> 1 < Bus.rtmo c -> Device.isProm m = false ->
  1 <= Bus.paddr c <= 30 -> 0 <= ca <= 30 -> ca <> Bus.paddr c ->
  Expect.attentive P -> Partner.calm Q ->
  let burst := [Bus.GC_UNL; 32 + ca; Bus.GC_SPE; 64 + Bus.paddr c] in
  let s := Sketch.mkState
             (Bus.mkWorld p c st da tb P
                (Partner.commands burst ++ Q :: Partner.ack ++ rest) tr h)
             buf ptr esc ple v ln full sidn q re rb eb ar in
  exists s',
    Device.attnRequired m s = Some s'
    /\ Expect.puts (Bus.trace (Sketch.bus s'))
       = Expect.puts tr ++ [Bus.stat c]
    /\ Bus.cstate (Sketch.bus s') = Bus.DIDS
    /\ Bus.stat (Bus.cfg (Sketch.bus s'))
       = Z.land (Bus.stat c) (Z.lnot 64)
    /\ Expect.srq_released (Bus.ports (Sketch.bus s'))
    /\ Bus.host (Sketch.bus s') = h
    /\ Bus.future (Sketch.bus s') = rest.
Proof.
  intros Hm Hr Hprom Hp Hc Hne HP HQ burst s. subst s.
  unfold Device.attnRequired, Sketch.attnRequired_read.
  cbn [Sketch.bus].
  destruct (CommandFacts.setControls_eq Bus.DLAS p c st da tb P
              (Partner.commands burst ++ Q :: Partner.ack ++ rest) tr h)
    as [p1 ->].
  cbn [Bus.future].
  destruct (BurstFacts.attn_loop_reads burst
              (S (length (Partner.commands burst
                          ++ Q :: Partner.ack ++ rest))) 0
              Bursts.empty
              p1 c Bus.DLAS da tb P Q (Partner.ack ++ rest)
              (tr ++ [Bus.Controls Bus.DLAS]) h
              Hm Hr HP HQ) as [p2 E].
  { subst burst. unfold Bus.GC_UNL, Bus.GC_SPE.
    repeat (apply Forall_cons_2; [lia|]). apply Forall_nil_2. }
  { cbn. lia. }
  { subst burst. cbn. unfold Sketch.cmdbuflen. lia. }
  { subst burst. cbn. lia. }
  change (Sketch.mkBurst (replicate (Z.to_nat Sketch.cmdbytes_len) 0) 0 0 [])
    with Bursts.empty.
  rewrite E. subst burst. rewrite PollFacts.poll_burst by lia.
  rewrite Hprom. unfold Sketch.set_bus.
  cbn [Sketch.bus Sketch.pBuf Sketch.pbPtr Sketch.isEsc
       Sketch.isPlusEscaped Sketch.isVerbose Sketch.lnRdy
       Sketch.dataBufferFull Sketch.sendIdn Sketch.isQuery
       Sketch.readWithEoi Sketch.readWithEndByte Sketch.endByte
       Sketch.autoRead Sketch.ustat Sketch.bytecnt Sketch.cmdbytes].
  change (nz (Z.land 1 1)) with true. cbn iota.
  unfold Device.device_unl_h, Sketch.set_read.
  cbn [Sketch.bus Sketch.pBuf Sketch.pbPtr Sketch.isEsc
       Sketch.isPlusEscaped Sketch.isVerbose Sketch.lnRdy
       Sketch.dataBufferFull Sketch.sendIdn Sketch.isQuery
       Sketch.readWithEoi Sketch.readWithEndByte Sketch.endByte
       Sketch.autoRead Bus.cstate].
  change (Bus.DLAS =? Bus.DLAS) with true. cbn iota.
  match goal with |- context [Sketch.on_bus (Bus.setControls Bus.DIDS)
                                (Sketch.mkState (Bus.mkWorld ?a ?b ?c0 ?d ?e
                                                   ?f ?g ?t ?i) _ _ _ _ _ _ _
                                                _ _ _ _ _ _)] =>
    destruct (DeviceFacts.on_setControls Bus.DIDS a b c0 d e f g t i
                buf ptr esc ple v ln full sidn q false rb eb ar) as [p3 ->]
  end.
  change (nz (Z.land 1 1)) with true. cbn iota.
  unfold Device.device_unt_h. cbn [Sketch.bus Bus.cstate].
  change (Bus.DIDS =? Bus.DTAS) with false. cbn iota.
  change (0 <? 3) with true. cbn iota.
  change (take (Z.to_nat 3) [32 + ca; Bus.GC_SPE; 64 + Bus.paddr c; 0; 0])
    with [32 + ca; Bus.GC_SPE; 64 + Bus.paddr c].
  match goal with |- context [Device.attn_scan _ false 0
                                (Sketch.mkState (Bus.mkWorld ?a ?b ?c0 ?d ?e
                                                   ?f ?g ?t ?i) _ _ _ _ _ _ _
                                                _ _ _ _ _ _)] =>
    destruct (PollFacts.poll_scan ca a b c0 d e f g t i
                buf ptr esc ple v ln full sidn q false rb eb ar Hc Hp Hne)
      as [p4 ->]
  end.
  cbn [negb]. change (nz Bus.GC_SPE) with true. cbn iota.
  unfold Device.execGpibCmd. change (Bus.GC_SPE =? Bus.GC_SPE) with true.
  cbn iota.
  unfold Sketch.device_spe_h, Sketch.on_bus. cbn [Sketch.bus].
  match goal with |- context [Bus.sendStatus
                                (Bus.mkWorld ?a ?b ?c0 ?d ?e ?f _ ?t ?i)] =>
    destruct (StatusFacts.sendStatus_ack a b c0 d e f rest t i Hr HQ)
      as [p5 ->]
  end.
  cbn [snd]. unfold Sketch.set_bus.
  cbn [Sketch.bus Sketch.pBuf Sketch.pbPtr Sketch.isEsc
       Sketch.isPlusEscaped Sketch.isVerbose Sketch.lnRdy
       Sketch.dataBufferFull Sketch.sendIdn Sketch.isQuery
       Sketch.readWithEoi Sketch.readWithEndByte Sketch.endByte
       Sketch.autoRead Bus.cfg Bus.stat Bus.set_stat].
  rewrite nz_land_64, clear_bit6.
  eexists. split; [reflexivity|].
  cbn [Sketch.bus Bus.trace Bus.cstate Bus.cfg Bus.stat Bus.ports Bus.host
       Bus.future Bus.set_stat].
  split; [|split; [reflexivity|split; [reflexivity|split;
            [apply StatusFacts.clrSrqSig_releases|split; reflexivity]]]].
  rewrite !AddressingFacts.puts_app. unfold Expect.status_events.
  change (Bus.DTAS =? Bus.DTAS) with true. cbn [app Expect.puts Bursts.gots map].
  rewrite !app_nil_r. reflexivity.
Qed.

(** A device at address 5 with status byte 65 is polled by the
    controller at address 0. *)
Lemma device_answers_serial_poll_witness :
  let c := Bus.mkConfig false false 1 0 5 0 65 0 1200 0 0 0 in
  let s := Sketch.mkState
             (Partner.attended c
                (Partner.commands [63; 32; 24; 69]
                 ++ Partner.idle :: Partner.ack))
             (replicate 256 0) 0 false false false 0 false false false false
             false 0 false in
  exists s',
    Device.attnRequired (Device.mkModes false 0 false) s = Some s'
    /\ Expect.puts (Bus.trace (Sketch.bus s')) = [65]
    /\ Bus.stat (Bus.cfg (Sketch.bus s')) = 1.
Proof.
  intros c s.
  destruct (device_answers_serial_poll 0 (Device.mkModes false 0 false)
              Partner.ports0 c Bus.DIDS false false Partner.idle_atn
              Partner.idle [] [] [] (replicate 256 0) 0 false false false 0
              false false false false false 0 false
              eq_refl ltac:(cbn; lia) eq_refl ltac:(cbn; lia) ltac:(lia)
              ltac:(cbn; lia) AttnFacts.attentive_idle_atn
              BusFacts.calm_idle)
    as (s' & E & Hp & _ & Hs & _).
  exists s'. split; [exact E|]. split; [exact Hp | exact Hs].
Defined.

Module ListenFacts.
Import Bus Sketch Device Partner Expect.

(** The burst that addresses the device to listen. *)
Lemma listen_burst pa :
  1 <= pa <= 30 ->
  Bursts.after [GC_UNL; 32 + pa] Bursts.empty
  = mkBurst [32 + pa; 0; 0; 0; 0] 1 1 [0].
Proof.
  intros Hp. unfold Bursts.empty. cbn [Bursts.after].
  change (GC_UNL =? 63) with true. cbn iota.
  cbn [cmdbytes bytecnt ustat stores].
  replace (32 + pa =? 63) with false by (symmetry; apply Z.eqb_neq; lia).
  replace (32 + pa =? 95) with false by (symmetry; apply Z.eqb_neq; lia).
  cbn [cmdbytes bytecnt ustat stores]. reflexivity.
Qed.

Lemma listen_scan p c st da tb P f tr h buf ptr esc ple v ln full sidn q re
    rb eb ar :
  1 <= paddr c <= 30 ->
  exists p',
    attn_scan [32 + paddr c] false 0
      (mkState (mkWorld p c st da tb P f tr h)
               buf ptr esc ple v ln full sidn q re rb eb ar)
    = (true, 0,
       mkState (mkWorld p' c DLAS da tb P f (tr ++ [Controls DLAS]) h)
               buf ptr esc ple v ln full sidn q re rb eb ar).
Proof.
  intros Hp. cbn [attn_scan bus cfg].
  destruct (PollFacts.lxor_listen (paddr c) ltac:(lia)) as (-> & _).
  replace (32 + paddr c =? 0) with false
    by (symmetry; apply Z.eqb_neq; lia).
  rewrite Z.eqb_refl.
  destruct (DeviceFacts.on_setControls DLAS p c st da tb P f tr h
              buf ptr esc ple v ln full sidn q re rb eb ar) as [p' ->].
  exists p'. reflexivity.
Qed.

End ListenFacts.

(** X23.  A device addressed to listen passes the data on.  The
    controller sends UNL and the listen address of the device in one burst
    under ATN and releases ATN; a talker then sends [data] and falls
    silent.  [attnRequired] forwards to the host the bytes up to and
    including the first one sent with EOI (all of them if none is),
    followed by the EOT character when EOI was seen and [eot_en] is set,
    and ends in DIDS. *)
Theorem device_listens_when_addressed (data : list (Z * bool))
    (m : Device.Modes) (p : Layouts.Ports) (c : Bus.Config) (st : Z)
    (da tb : bool) (P Q : Bus.Snap) (tr : list Bus.Event) (h : list Z)
    (buf : list Z) (ptr : Z) (esc ple v : bool) (ln : Z)
    (full sidn q re rb : bool) (eb : Z) (ar : bool) :
  Bus.cmode c = 1 -> 1 < Bus.rtmo c -> Device.isProm m = false ->
  1 <= Bus.paddr c <= 30 ->
  Expect.attentive P -> Partner.calm Q -> Forall Handshake.is_byte data ->
  let burst := [Bus.GC_UNL; 32 + Bus.paddr c] in
  let s := Sketch.mkState
             (Bus.mkWorld p c st da tb P
                (Partner.commands burst ++ Q :: Partner.talks data) tr h)
             buf ptr esc ple v ln full sidn q re rb eb ar in
  exists s',
    Device.attnRequired m s = Some s'
    /\ Bus.host (Sketch.bus s')
       = h ++ Expect.upto_eoi data
           ++ (if existsb snd data && Bus.eot_en c then [Bus.eot_ch c]
               else [])
    /\ Bus.cstate (Sketch.bus s') = Bus.DIDS.
Proof.
  intros Hm Hr Hprom Hp HP HQ Hd burst s. subst s.
  unfold Device.attnRequired, Sketch.attnRequired_read.
  cbn [Sketch.bus].
  destruct (CommandFacts.setControls_eq Bus.DLAS p c st da tb P
              (Partner.commands burst ++ Q :: Partner.talks data) tr h)
    as [p1 ->].
  cbn [Bus.future].
  destruct (BurstFacts.attn_loop_reads burst
              (S (length (Partner.commands burst
                          ++ Q :: Partner.talks data))) 0
              Bursts.empty
              p1 c Bus.DLAS da tb P Q (Partner.talks data)
              (tr ++ [Bus.Controls Bus.DLAS]) h
              Hm Hr HP HQ) as [p2 E].
  { subst burst. unfold Bus.GC_UNL.
    repeat (apply Forall_cons_2; [lia|]). apply Forall_nil_2. }
  { cbn. lia. }
  { subst burst. cbn. unfold Sketch.cmdbuflen. lia. }
  { subst burst. cbn. lia. }
  change (Sketch.mkBurst (replicate (Z.to_nat Sketch.cmdbytes_len) 0) 0 0 [])
    with Bursts.empty.
  rewrite E. subst burst. rewrite ListenFacts.listen_burst by lia.
  rewrite Hprom. unfold Sketch.set_bus.
  cbn [Sketch.bus Sketch.pBuf Sketch.pbPtr Sketch.isEsc
       Sketch.isPlusEscaped Sketch.isVerbose Sketch.lnRdy
       Sketch.dataBufferFull Sketch.sendIdn Sketch.isQuery
       Sketch.readWithEoi Sketch.readWithEndByte Sketch.endByte
       Sketch.autoRead Sketch.ustat Sketch.bytecnt Sketch.cmdbytes].
  change (nz (Z.land 1 1)) with true. cbn iota.
  unfold Device.device_unl_h, Sketch.set_read.
  cbn [Sketch.bus Sketch.pBuf Sketch.pbPtr Sketch.isEsc
       Sketch.isPlusEscaped Sketch.isVerbose Sketch.lnRdy
       Sketch.dataBufferFull Sketch.sendIdn Sketch.isQuery
       Sketch.readWithEoi Sketch.readWithEndByte Sketch.endByte
       Sketch.autoRead Bus.cstate].
  change (Bus.DLAS =? Bus.DLAS) with true. cbn iota.
  match goal with |- context [Sketch.on_bus (Bus.setControls Bus.DIDS)
                                (Sketch.mkState (Bus.mkWorld ?a ?b ?c0 ?d ?e
                                                   ?f ?g ?t ?i) _ _ _ _ _ _ _
                                                _ _ _ _ _ _)] =>
    destruct (DeviceFacts.on_setControls Bus.DIDS a b c0 d e f g t i
                buf ptr esc ple v ln full sidn q false rb eb ar) as [p3 ->]
  end.
  change (nz (Z.land 1 1)) with true. cbn iota.
  unfold Device.device_unt_h. cbn [Sketch.bus Bus.cstate].
  change (Bus.DIDS =? Bus.DTAS) with false. cbn iota.
  change (0 <? 1) with true. cbn iota.
  change (take (Z.to_nat 1) [32 + Bus.paddr c; 0; 0; 0; 0])
    with [32 + Bus.paddr c].
  match goal with |- context [Device.attn_scan _ false 0
                                (Sketch.mkState (Bus.mkWorld ?a ?b ?c0 ?d ?e
                                                   ?f ?g ?t ?i) _ _ _ _ _ _ _
                                                _ _ _ _ _ _)] =>
    destruct (ListenFacts.listen_scan a b c0 d e f g t i
                buf ptr esc ple v ln full sidn q false rb eb ar Hp)
      as [p4 ->]
  end.
  cbn [negb]. change (nz 0) with false. cbn iota.
  cbn [Sketch.bus Bus.cstate]. change (Bus.DLAS =? Bus.DLAS) with true.
  cbn iota.
  eexists. split; [reflexivity|].
  rewrite RoleFacts.on_bus_bus.
  pose proof (FrameFacts.setControls_frame (fun _ => True) Bus.DIDS
                (Sketch.bus (Device.device_listen_h
                   (Sketch.mkState
                      (Bus.mkWorld p4 c Bus.DLAS da tb Q (Partner.talks data)
                         ((((tr ++ [Bus.Controls Bus.DLAS])
                            ++ Bursts.gots [Bus.GC_UNL; 32 + Bus.paddr c])
                           ++ [Bus.Controls Bus.DIDS])
                          ++ [Bus.Controls Bus.DLAS]) h)
                      buf ptr esc ple v ln full sidn q false rb eb ar))) I)
    as (_ & Hh & _).
  rewrite Hh, FrameFacts.setControls_cstate. split; [|reflexivity].
  unfold Device.device_listen_h. rewrite RoleFacts.on_bus_bus.
  cbn [Sketch.bus].
  pose proof (ReceiveFacts.receiveData_talks false false 0 data p4 c Bus.DLAS
                da tb Q
                ((((tr ++ [Bus.Controls Bus.DLAS])
                   ++ Bursts.gots [Bus.GC_UNL; 32 + Bus.paddr c])
                  ++ [Bus.Controls Bus.DIDS])
                 ++ [Bus.Controls Bus.DLAS]) h Hr HQ Hd) as [_ Hhost].
  cbn zeta in Hhost. rewrite Hm in Hhost.
  change (1 =? 2) with false in Hhost. cbn iota in Hhost.
  cbn [app] in Hhost. rewrite Hhost.
  destruct (EotFacts.rx_run_eoi_flags false 0 (Z.land (Bus.eor c) 7) data 0 0)
    as [_ He].
  cbn zeta in He. rewrite He, TerminatorFacts.rx_run_eoi. reflexivity.
Qed.

(** A device at address 5 is addressed to listen and receives ["OK"],
    the last byte with EOI. *)
Lemma device_listens_when_addressed_witness :
  let c := Bus.mkConfig false false 1 0 5 0 0 0 1200 0 0 0 in
  let s := Sketch.mkState
             (Partner.attended c
                (Partner.commands [63; 37]
                 ++ Partner.idle :: Partner.talks [(79, false); (75, true)]))
             (replicate 256 0) 0 false false false 0 false false false false
             false 0 false in
  exists s',
    Device.attnRequired (Device.mkModes false 0 false) s = Some s'
    /\ Bus.host (Sketch.bus s') = [79; 75].
Proof.
  intros c s.
  assert (Hd : Forall Handshake.is_byte [(79, false); (75, true)]).
  { repeat (apply Forall_cons_2; [unfold Handshake.is_byte; cbn; lia|]).
    apply Forall_nil_2. }
  destruct (device_listens_when_addressed [(79, false); (75, true)]
              (Device.mkModes false 0 false)
              Partner.ports0 c Bus.DIDS false false Partner.idle_atn
              Partner.idle [] [] (replicate 256 0) 0 false false false 0
              false false false false false 0 false
              eq_refl ltac:(cbn; lia) eq_refl ltac:(cbn; lia)
              AttnFacts.attentive_idle_atn BusFacts.calm_idle Hd)
    as (s' & E & Hh & _).
  exists s'. split; [exact E | exact Hh].
Defined.

Module ModeFlagFacts.
Import Bus Sketch Device.

Lemma mode_cmd_exclusive k m s :
  exclusive m = true -> exclusive (fst (mode_cmd k (m, s))) = true.
Proof.
  intros H. destruct m as [ro to pr].
  destruct k as [[p|]|[p|]|[p|]]; cbn [mode_cmd lon_h prom_h ton_h];
    try exact H.
  - destruct (notInRange p 0 1 Handlers.val0 s) as [[bad lval] s'].
    destruct bad; [exact H|].
    cbn [isRO isTO isProm fst].
    destruct (nz lval); cbn [fst]; [reflexivity|].
    unfold exclusive in *. cbn [isRO isTO isProm] in *.
    destruct ro, (0 <? to), pr; try discriminate H; reflexivity.
  - destruct (notInRange p 0 1 Handlers.val0 s) as [[bad pval] s'].
    destruct bad; [exact H|].
    cbn [isRO isTO isProm fst].
    destruct (nz pval); cbn [fst]; [reflexivity|].
    unfold exclusive in *. cbn [isRO isTO isProm] in *.
    destruct ro, (0 <? to), pr; try discriminate H; reflexivity.
  - destruct (notInRange p 0 2 Handlers.val0 s) as [[bad toval] s'].
    destruct bad; [exact H|].
    cbn [isRO isTO isProm fst].
    destruct (0 <? u8 toval) eqn:E; cbn [fst].
    + unfold exclusive. cbn [isRO isTO isProm]. rewrite E. reflexivity.
    + unfold exclusive in *. cbn [isRO isTO isProm] in *. rewrite E.
      destruct ro, (0 <? to), pr; try discriminate H; reflexivity.
Qed.

End ModeFlagFacts.

(** X24.  Listen-only, talk-only and promiscuous mode exclude one another:
    if at most one of [isRO], [isTO] and [isProm] is on, then after any
    sequence of [++lon], [++prom] and [++ton] commands, with any
    parameters, still at most one of them is on. *)
Theorem mode_flags_exclusive (ks : list Device.ModeCmd) (m : Device.Modes)
    (s : Sketch.State) :
  Device.exclusive m = true ->
  Device.exclusive
    (fst (fold_left (fun ms k => Device.mode_cmd k ms) ks (m, s))) = true.
Proof.
  revert m s. induction ks as [|k ks IH]; intros m s H; [exact H|].
  cbn [fold_left].
  destruct (Device.mode_cmd k (m, s)) as [m' s'] eqn:E.
  apply IH. change m' with (fst (m', s')). rewrite <- E.
  apply ModeFlagFacts.mode_cmd_exclusive, H.
Qed.

(** From power-up, [++lon 1], [++ton 2], [++prom 1], then a [++ton]
    query. *)
Lemma mode_flags_exclusive_witness :
  let m := Device.mkModes false 0 false in
  let s := Partner.sketch (Bus.mkConfig false false 1 0 1 0 0 0 1200 0 0 0)
             [] in
  Device.exclusive m = true
  /\ Device.exclusive
       (fst (fold_left (fun ms k => Device.mode_cmd k ms)
               [Device.Lon (Some [49]); Device.Ton (Some [50]);
                Device.Prom (Some [49]); Device.Ton None] (m, s))) = true.
Proof.
  intros m s. split; [reflexivity|].
  apply (mode_flags_exclusive _ m s). reflexivity.
Defined.

Module TalkFacts.
Import Bus Sketch Device Partner Expect.

(** The burst that addresses the device to talk. *)
Lemma talk_burst pa :
  1 <= pa <= 30 ->
  Bursts.after [GC_UNL; 64 + pa] Bursts.empty
  = mkBurst [64 + pa; 0; 0; 0; 0] 1 1 [0].
Proof.
  intros Hp. unfold Bursts.empty. cbn [Bursts.after].
  change (GC_UNL =? 63) with true. cbn iota.
  cbn [cmdbytes bytecnt ustat stores].
  replace (64 + pa =? 63) with false by (symmetry; apply Z.eqb_neq; lia).
  replace (64 + pa =? 95) with false by (symmetry; apply Z.eqb_neq; lia).
  cbn [cmdbytes bytecnt ustat stores]. reflexivity.
Qed.

Lemma talk_scan p c st da tb P f tr h buf ptr esc ple v ln full sidn q re
    rb eb ar :
  1 <= paddr c <= 30 ->
  exists p',
    attn_scan [64 + paddr c] false 0
      (mkState (mkWorld p c st da tb P f tr h)
               buf ptr esc ple v ln full sidn q re rb eb ar)
    = (true, 0,
       mkState (mkWorld p' c DTAS da tb P f (tr ++ [Controls DTAS]) h)
               buf ptr esc ple v ln full sidn q re rb eb ar).
Proof.
  intros Hp. cbn [attn_scan bus cfg].
  destruct (PollFacts.lxor_talk (paddr c) ltac:(lia)) as (-> & ->).
  replace (64 + paddr c =? 0) with false
    by (symmetry; apply Z.eqb_neq; lia).
  replace (paddr c =? 96 + paddr c) with false
    by (symmetry; apply Z.eqb_neq; lia).
  rewrite Z.eqb_refl.
  destruct (DeviceFacts.on_setControls DTAS p c st da tb P f tr h
              buf ptr esc ple v ln full sidn q re rb eb ar) as [p' ->].
  exists p'. reflexivity.
Qed.

(** The bytes of a [sendData] that a listener accepts. *)
Lemma puts_send_events ctl e code data :
  puts (send_events ctl e code data) = data ++ eos_bytes code.
Proof.
  unfold send_events. cbn zeta. rewrite !AddressingFacts.puts_app.
  rewrite LineWireFacts.puts_written.
  destruct e; cbn [puts app]; rewrite app_nil_r; reflexivity.
Qed.

(** [device_talk_h] with a listener that accepts every byte. *)
Lemma device_talk_ack p c da tb Q rest tr h buf ptr esc ple v ln full sidn
    q re rb eb ar :
  cmode c = 1 -> 1 < rtmo c -> calm Q ->
  let sent := if ln =? 2
              then take (Z.to_nat ptr) buf ++ eos_bytes (eos c) else [] in
  exists p' Q' st' tr',
    device_talk_h
      (mkState (mkWorld p c DTAS da tb Q (acks (length sent) ++ rest) tr h)
               buf ptr esc ple v ln full sidn q re rb eb ar)
    = mkState (mkWorld p' c st' da tb Q' rest tr' h)
              (replicate (Z.to_nat PBSIZE) 0) 0 esc ple v 0 full sidn q re
              rb eb ar
    /\ puts tr' = puts tr ++ sent.
Proof.
  intros Hm Hr HQ sent. subst sent.
  unfold device_talk_h. cbn [lnRdy pbPtr pBuf].
  destruct (ln =? 2).
  - unfold on_bus. cbn [bus].
    destruct (SendFacts.sendData_ack (take (Z.to_nat ptr) buf) p c DTAS da
                tb Q rest tr h Hr HQ) as (p' & Q' & _ & ->).
    exists p', Q', (if cmode c =? 2 then CIDS else DIDS),
      (tr ++ send_events (cmode c =? 2) (eoi c) (eos c)
                (take (Z.to_nat ptr) buf)).
    split; [reflexivity|].
    rewrite AddressingFacts.puts_app, puts_send_events. reflexivity.
  - exists p, Q, DTAS, tr. split; [reflexivity|].
    rewrite app_nil_r. reflexivity.
Qed.

End TalkFacts.

(** X25.  A device addressed to talk sends its pending line.  The
    controller sends UNL and the talk address of the device in one burst
    under ATN and releases ATN; the listener accepts every byte.  If a line
    is ready ([lnRdy = 2]) [attnRequired] puts the [pbPtr] buffered bytes
    and the EOS terminator on the bus, otherwise nothing; either way the
    buffer is flushed, [lnRdy] is cleared, the device ends in DIDS and
    nothing is printed. *)
Theorem device_talks_when_addressed (m : Device.Modes)
    (p : Layouts.Ports) (c : Bus.Config) (st : Z) (da tb : bool)
    (P Q : Bus.Snap) (rest : list Bus.Snap) (tr : list Bus.Event)
    (h : list Z) (buf : list Z) (ptr : Z) (esc ple v : bool) (ln : Z)
    (full sidn q re rb : bool) (eb : Z) (ar : bool) :
  Bus.cmode c = 1 -> 1 < Bus.rtmo c -> Device.isProm m = false ->
  1 <= Bus.paddr c <= 30 ->
  Expect.attentive P -> Partner.calm Q ->
  let burst := [Bus.GC_UNL; 64 + Bus.paddr c] in
  let sent := if ln =? 2
              then take (Z.to_nat ptr) buf ++ Expect.eos_bytes (Bus.eos c)
              else [] in
  let s := Sketch.mkState
             (Bus.mkWorld p c st da tb P
                (Partner.commands burst
                 ++ Q :: Partner.acks (length sent) ++ rest) tr h)
             buf ptr esc ple v ln full sidn q re rb eb ar in
  exists s',
    Device.attnRequired m s = Some s'
    /\ Expect.puts (Bus.trace (Sketch.bus s')) = Expect.puts tr ++ sent
    /\ Sketch.pbPtr s' = 0 /\ Sketch.lnRdy s' = 0
    /\ Bus.cstate (Sketch.bus s') = Bus.DIDS
    /\ Bus.host (Sketch.bus s') = h
    /\ Bus.future (Sketch.bus s') = rest.
Proof.
  intros Hm Hr Hprom Hp HP HQ burst sent s. subst s.
  unfold Device.attnRequired, Sketch.attnRequired_read.
  cbn [Sketch.bus].
  destruct (CommandFacts.setControls_eq Bus.DLAS p c st da tb P
              (Partner.commands burst
               ++ Q :: Partner.acks (length sent) ++ rest) tr h)
    as [p1 ->].
  cbn [Bus.future].
  destruct (BurstFacts.attn_loop_reads burst
              (S (length (Partner.commands burst
                          ++ Q :: Partner.acks (length sent) ++ rest))) 0
              Bursts.empty
              p1 c Bus.DLAS da tb P Q (Partner.acks (length sent) ++ rest)
              (tr ++ [Bus.Controls Bus.DLAS]) h
              Hm Hr HP HQ) as [p2 E].
  { subst burst. unfold Bus.GC_UNL.
    repeat (apply Forall_cons_2; [lia|]). apply Forall_nil_2. }
  { cbn. lia. }
  { subst burst. cbn. unfold Sketch.cmdbuflen. lia. }
  { subst burst. cbn. lia. }
  change (Sketch.mkBurst (replicate (Z.to_nat Sketch.cmdbytes_len) 0) 0 0 [])
    with Bursts.empty.
  rewrite E. subst burst. rewrite TalkFacts.talk_burst by lia.
  rewrite Hprom. unfold Sketch.set_bus.
  cbn [Sketch.bus Sketch.pBuf Sketch.pbPtr Sketch.isEsc
       Sketch.isPlusEscaped Sketch.isVerbose Sketch.lnRdy
       Sketch.dataBufferFull Sketch.sendIdn Sketch.isQuery
       Sketch.readWithEoi Sketch.readWithEndByte Sketch.endByte
       Sketch.autoRead Sketch.ustat Sketch.bytecnt Sketch.cmdbytes].
  change (nz (Z.land 1 1)) with true. cbn iota.
  unfold Device.device_unl_h, Sketch.set_read.
  cbn [Sketch.bus Sketch.pBuf Sketch.pbPtr Sketch.isEsc
       Sketch.isPlusEscaped Sketch.isVerbose Sketch.lnRdy
       Sketch.dataBufferFull Sketch.sendIdn Sketch.isQuery
       Sketch.readWithEoi Sketch.readWithEndByte Sketch.endByte
       Sketch.autoRead Bus.cstate].
  change (Bus.DLAS =? Bus.DLAS) with true. cbn iota.
  match goal with |- context [Sketch.on_bus (Bus.setControls Bus.DIDS)
                                (Sketch.mkState (Bus.mkWorld ?a ?b ?c0 ?d ?e
                                                   ?f ?g ?t ?i) _ _ _ _ _ _ _
                                                _ _ _ _ _ _)] =>
    destruct (DeviceFacts.on_setControls Bus.DIDS a b c0 d e f g t i
                buf ptr esc ple v ln full sidn q false rb eb ar) as [p3 ->]
  end.
  change (nz (Z.land 1 1)) with true. cbn iota.
  unfold Device.device_unt_h. cbn [Sketch.bus Bus.cstate].
  change (Bus.DIDS =? Bus.DTAS) with false. cbn iota.
  change (0 <? 1) with true. cbn iota.
  change (take (Z.to_nat 1) [64 + Bus.paddr c; 0; 0; 0; 0])
    with [64 + Bus.paddr c].
  match goal with |- context [Device.attn_scan _ false 0
                                (Sketch.mkState (Bus.mkWorld ?a ?b ?c0 ?d ?e
                                                   ?f ?g ?t ?i) _ _ _ _ _ _ _
                                                _ _ _ _ _ _)] =>
    destruct (TalkFacts.talk_scan a b c0 d e f g t i
                buf ptr esc ple v ln full sidn q false rb eb ar Hp)
      as [p4 ->]
  end.
  cbn [negb]. change (nz 0) with false. cbn iota.
  cbn [Sketch.bus Bus.cstate]. change (Bus.DTAS =? Bus.DLAS) with false.
  change (Bus.DTAS =? Bus.DTAS) with true. cbn iota. subst sent.
  match goal with |- context [Device.device_talk_h
                                (Sketch.mkState (Bus.mkWorld ?a _ _ _ _ _ _
                                                   ?t _) _ _ _ _ _ _ _
                                                _ _ _ _ _ _)] =>
    destruct (TalkFacts.device_talk_ack a c da tb Q rest t h buf ptr esc
                ple v ln full sidn q false rb eb ar Hm Hr HQ)
      as (p5 & Q5 & st5 & tr5 & -> & Hputs)
  end.
  destruct (DeviceFacts.on_setControls Bus.DIDS p5 c st5 da tb Q5 rest tr5 h
              (replicate (Z.to_nat Sketch.PBSIZE) 0) 0 esc ple v 0 full sidn
              q false rb eb ar) as [p6 ->].
  eexists. split; [reflexivity|].
  cbn [Sketch.bus Bus.trace Bus.cstate Bus.host Bus.future Sketch.pbPtr
       Sketch.lnRdy].
  split; [|repeat (split; [reflexivity|]); reflexivity].
  rewrite AddressingFacts.puts_app, Hputs, !AddressingFacts.puts_app.
  cbn [Expect.puts Bursts.gots map]. rewrite !app_nil_r. reflexivity.
Qed.

(** A device at address 5 with the line ["HI"] ready is addressed to talk;
    with EOS code 0 it sends ["HI"], CR and LF. *)
Lemma device_talks_when_addressed_witness :
  let c := Bus.mkConfig false false 1 0 5 0 0 0 1200 0 0 0 in
  let s := Sketch.mkState
             (Partner.attended c
                (Partner.commands [63; 69]
                 ++ Partner.idle :: Partner.acks 4))
             (72 :: 73 :: replicate 254 0) 2 false false false 2 false false
             false false false 0 false in
  exists s',
    Device.attnRequired (Device.mkModes false 0 false) s = Some s'
    /\ Expect.puts (Bus.trace (Sketch.bus s')) = [72; 73; 13; 10]
    /\ Sketch.pbPtr s' = 0.
Proof.
  intros c s.
  destruct (device_talks_when_addressed (Device.mkModes false 0 false)
              Partner.ports0 c Bus.DIDS false false Partner.idle_atn
              Partner.idle [] [] [] (72 :: 73 :: replicate 254 0) 2 false
              false false 2 false false false false false 0 false
              eq_refl ltac:(cbn; lia) eq_refl ltac:(cbn; lia)
              AttnFacts.attentive_idle_atn BusFacts.calm_idle)
    as (s' & E & Hp & Hptr & _).
  exists s'. split; [exact E|]. split; [exact Hp | exact Hptr].
Defined.
